(** * Image metadata aggregation and OSINT enrichment

    A shallow embedding of [core.py] ([OSINTEnhancer], [UltraMetadataExtractor])
    and of the category grouping of [gui.py] ([show_metadata]).

    Conventions of the embedding.
    - A Python [str] is a [string] holding its UTF-8 encoding; [bytes] is a
      [list byte].  Substring tests, concatenation, [split] and [strip] act on
      that encoding exactly as they act on the code points.  Case mapping
      and the decimal digits [float] reads are those of Python 3.11, by
      the tables of Unicode 14.0.0.
    - A Python [float] is a primitive binary64 [float]; [float(...)],
      [repr] and the [.Nf] formats are computed exactly over [Z].
    - A [dict] is an association list in insertion order with unique keys.
    - An exception is represented by its message [str(e)]; code that may
      raise lives in [result], and a function body that fills a local
      dictionary under [try] lives in the state-and-exception monad [M].
    - Libraries and the operating system (file system, clock, geocoders, map
      renderer, tag readers, digests) are fields of a [World] record. *)

From Stdlib Require Import ZArith List Strings.String Strings.Ascii Bool Lia.
From Stdlib Require Import Sorting.Permutation.
From Stdlib Require Import Strings.Byte.
From Stdlib Require Import Numbers.DecimalString.
From Stdlib Require Import Floats.PrimFloat Floats.FloatOps Floats.SpecFloat.
Import ListNotations.

Local Open Scope list_scope.
Local Open Scope string_scope.

(* ================================================================== *)
(** * Text: the [str] and [bytes] operations the program uses *)
(* ================================================================== *)

Module Text.

Definition code (c : ascii) : N := N_of_ascii c.

Definition chr (n : N) : ascii := ascii_of_N n.

Definition in_range (lo hi : N) (c : ascii) : bool :=
  (N.leb lo (code c) && N.leb (code c) hi)%bool.

(** [c.lower()] and [c.upper()] on one ASCII character. *)
Definition lower_char (c : ascii) : ascii :=
  if in_range 65 90 c then chr (code c + 32) else c.

Definition upper_char (c : ascii) : ascii :=
  if in_range 97 122 c then chr (code c - 32) else c.

Fixpoint map_chars (f : ascii -> ascii) (s : string) : string :=
  match s with
  | EmptyString => EmptyString
  | String c s' => String (f c) (map_chars f s')
  end.

(** [needle in hay]. *)
Fixpoint contains (needle hay : string) : bool :=
  if prefix needle hay then true
  else match hay with
       | EmptyString => false
       | String _ hay' => contains needle hay'
       end.

(** [s.startswith(p)]. *)
Fixpoint starts_with (p s : string) {struct p} : bool :=
  match p with
  | EmptyString => true
  | String a p' =>
      match s with
      | EmptyString => false
      | String b s' => (Ascii.eqb a b && starts_with p' s')%bool
      end
  end.

(** [x in l] for a list of texts. *)
Definition mem (x : string) (l : list string) : bool :=
  existsb (String.eqb x) l.

(** [any(x in s for x in markers)]. *)
Definition contains_any (markers : list string) (s : string) : bool :=
  existsb (fun x => contains x s) markers.

(** The white space of [str.strip()] and [str.isspace()], by the length
    of its UTF-8 encoding: U+0009..U+000D, U+001C..U+0020; U+0085, U+00A0;
    U+1680, U+2000..U+200A, U+2028, U+2029, U+202F, U+205F, U+3000. *)
Definition is_space1 (c : ascii) : bool :=
  (in_range 9 13 c || in_range 28 32 c)%bool.

Definition is_space2 (c1 c2 : ascii) : bool :=
  (N.eqb (code c1) 194 && (N.eqb (code c2) 133 || N.eqb (code c2) 160))%bool.

Definition is_space3 (c1 c2 c3 : ascii) : bool :=
  let a := code c1 in
  let b := code c2 in
  let c := code c3 in
  ((N.eqb a 225 && N.eqb b 154 && N.eqb c 128)
   || (N.eqb a 226 && N.eqb b 128
       && (in_range 128 138 c3 || N.eqb c 168 || N.eqb c 169 || N.eqb c 175))
   || (N.eqb a 226 && N.eqb b 129 && N.eqb c 159)
   || (N.eqb a 227 && N.eqb b 128 && N.eqb c 128))%bool.

Definition is_empty (s : string) : bool :=
  match s with EmptyString => true | _ => false end.

(** Leading white space dropped; [sp1] says which one-byte characters
    count. *)
Fixpoint lstrip_by (sp1 : ascii -> bool) (s : string) : string :=
  match s with
  | EmptyString => s
  | String c1 s1 =>
      if sp1 c1 then lstrip_by sp1 s1
      else match s1 with
           | EmptyString => s
           | String c2 s2 =>
               if is_space2 c1 c2 then lstrip_by sp1 s2
               else match s2 with
                    | EmptyString => s
                    | String c3 s3 =>
                        if is_space3 c1 c2 c3 then lstrip_by sp1 s3 else s
                    end
           end
  end.

(** Trailing white space dropped: a suffix made of white space only. *)
Fixpoint rstrip_by (sp1 : ascii -> bool) (s : string) : string :=
  match s with
  | EmptyString => EmptyString
  | String c s' => if is_empty (lstrip_by sp1 s) then EmptyString
                   else String c (rstrip_by sp1 s')
  end.

Definition strip_by (sp1 : ascii -> bool) (s : string) : string :=
  rstrip_by sp1 (lstrip_by sp1 s).

(** [s.strip()]. *)
Definition strip (s : string) : string := strip_by is_space1 s.

(** [s.split(sep)] for a one-character separator: never an empty list. *)
Fixpoint split (sep : ascii) (s : string) : list string :=
  match s with
  | EmptyString => [EmptyString]
  | String c s' =>
      if Ascii.eqb c sep then EmptyString :: split sep s'
      else match split sep s' with
           | [] => [String c EmptyString]
           | w :: ws => String c w :: ws
           end
  end.

(** [all(c in chars for c in s)]. *)
Fixpoint all_chars (p : ascii -> bool) (s : string) : bool :=
  match s with
  | EmptyString => true
  | String c s' => (p c && all_chars p s')%bool
  end.

(** [str(n)] for an integer. *)
Definition of_Z (z : Z) : string := NilZero.string_of_int (Z.to_int z).

Definition of_nat (n : nat) : string := of_Z (Z.of_nat n).

(** [s.encode()]: the UTF-8 bytes. *)
Definition encode (s : string) : list byte := list_byte_of_string s.

Definition byte_code (b : byte) : N := Byte.to_N b.

Definition put (b : byte) (s : string) : string :=
  String (ascii_of_byte b) s.

Definition is_cont (b : byte) : bool :=
  (N.leb 128 (byte_code b) && N.leb (byte_code b) 191)%bool.

(** The second byte of a three-byte and of a four-byte sequence: a
    continuation byte that makes neither an overlong form, nor a
    surrogate, nor a code point above U+10FFFF. *)
Definition second_of_3 (b0 b1 : byte) : bool :=
  (is_cont b1
   && negb (N.eqb (byte_code b0) 224 && N.ltb (byte_code b1) 160)
   && negb (N.eqb (byte_code b0) 237 && N.leb 160 (byte_code b1)))%bool.

Definition second_of_4 (b0 b1 : byte) : bool :=
  (is_cont b1
   && negb (N.eqb (byte_code b0) 240 && N.ltb (byte_code b1) 144)
   && negb (N.eqb (byte_code b0) 244 && N.leb 144 (byte_code b1)))%bool.

(** [b.decode('utf-8', errors='ignore')]: well-formed sequences are kept;
    an ill-formed start byte is dropped alone, a sequence broken by a bad
    continuation byte is dropped up to that byte, and a sequence cut by
    the end of the input is dropped whole. *)
Fixpoint decode_ignore (bs : list byte) : string :=
  match bs with
  | [] => EmptyString
  | b0 :: r0 =>
      let n := byte_code b0 in
      if N.ltb n 128 then put b0 (decode_ignore r0)
      else if N.ltb n 194 then decode_ignore r0
      else if N.ltb n 224 then
        match r0 with
        | [] => EmptyString
        | b1 :: r1 =>
            if is_cont b1 then put b0 (put b1 (decode_ignore r1))
            else decode_ignore r0
        end
      else if N.ltb n 240 then
        match r0 with
        | [] => EmptyString
        | b1 :: r1 =>
            if second_of_3 b0 b1 then
              match r1 with
              | [] => EmptyString
              | b2 :: r2 =>
                  if is_cont b2
                  then put b0 (put b1 (put b2 (decode_ignore r2)))
                  else decode_ignore r1
              end
            else decode_ignore r0
        end
      else if N.ltb n 245 then
        match r0 with
        | [] => EmptyString
        | b1 :: r1 =>
            if second_of_4 b0 b1 then
              match r1 with
              | [] => EmptyString
              | b2 :: r2 =>
                  if is_cont b2 then
                    match r2 with
                    | [] => EmptyString
                    | b3 :: r3 =>
                        if is_cont b3
                        then put b0 (put b1 (put b2 (put b3 (decode_ignore r3))))
                        else decode_ignore r2
                    end
                  else decode_ignore r1
              end
            else decode_ignore r0
        end
      else decode_ignore r0
  end.

(** [s[:n]]. *)
Definition take (n : nat) (s : string) : string := substring 0 n s.

(** [sep.join(parts)]. *)
Definition join (sep : string) (parts : list string) : string :=
  String.concat sep parts.

(** The characters of [s]: each start byte with the continuation bytes
    that follow it.  [len(s)] is their number and [s[i]] the [i]-th. *)
Fixpoint chars (s : string) : list string :=
  match s with
  | EmptyString => []
  | String c s' =>
      match s' with
      | EmptyString => [String c EmptyString]
      | String c' _ =>
          if in_range 128 191 c' then
            match chars s' with
            | w :: ws => String c w :: ws
            | [] => [String c EmptyString]
            end
          else String c EmptyString :: chars s'
      end
  end.

Definition hex_digit (n : N) : ascii :=
  if N.ltb n 10 then chr (48 + n) else chr (87 + n).

Definition quote1 : ascii := chr 39.
Definition quote2 : ascii := chr 34.
Definition backslash : ascii := chr 92.

(** One byte inside [repr(b)], between quotes [q]. *)
Definition byte_repr (q : ascii) (b : byte) : string :=
  let n := byte_code b in
  let c := ascii_of_byte b in
  if Ascii.eqb c q || Ascii.eqb c backslash
  then String backslash (String c EmptyString)
  else if N.eqb n 9 then String backslash "t"
  else if N.eqb n 10 then String backslash "n"
  else if N.eqb n 13 then String backslash "r"
  else if N.ltb n 32 || N.leb 127 n
  then String backslash
         (String "x" (String (hex_digit (n / 16))
                             (String (hex_digit (n mod 16)) EmptyString)))
  else String c EmptyString.

(** [repr(b)] and [str(b)] of a [bytes] object: double quotes when the
    bytes hold a single quote and no double quote. *)
Definition bytes_repr (bs : list byte) : string :=
  let has c := existsb (fun b => Ascii.eqb (ascii_of_byte b) c) bs in
  let q := if has quote1 && negb (has quote2) then quote2 else quote1 in
  String "b" (String q (String.concat "" (map (byte_repr q) bs)
                          ++ String q EmptyString)).

(** [hay.find(needle, start)], [None] for [-1]. *)
Definition find_from (needle hay : string) (start : nat) : option nat :=
  index start needle hay.

(** [s[a:b]] for [0 <= a]. *)
Definition slice (a b : nat) (s : string) : string :=
  substring a (b - a) s.

(** The bytes of a file read as text, one character per byte. *)
Definition of_bytes (bs : list byte) : string := string_of_list_byte bs.

(** ** Characters and their case

    The case mappings and the character classes below are those of
    Python 3.11 ([str.lower], [str.upper], [float] on text), whose tables
    are the ones of Unicode 14.0.0.  A character is given by its UTF-8
    bytes; bytes that encode no character are left as they are. *)

(** The code point of one character. *)
Definition point (c : string) : option Z :=
  match c with
  | String a EmptyString =>
      if N.ltb (code a) 128 then Some (Z.of_N (code a)) else None
  | String a (String b EmptyString) =>
      if (in_range 194 223 a && in_range 128 191 b)%bool
      then Some (Z.of_N ((code a - 192) * 64 + (code b - 128)))
      else None
  | String a (String b (String c EmptyString)) =>
      let n := ((code a - 224) * 4096 + (code b - 128) * 64
                + (code c - 128))%N in
      if (in_range 224 239 a && in_range 128 191 b && in_range 128 191 c
          && N.leb 2048 n && negb (N.leb 55296 n && N.leb n 57343))%bool
      then Some (Z.of_N n)
      else None
  | String a (String b (String c (String d EmptyString))) =>
      let n := ((code a - 240) * 262144 + (code b - 128) * 4096
                + (code c - 128) * 64 + (code d - 128))%N in
      if (in_range 240 244 a && in_range 128 191 b && in_range 128 191 c
          && in_range 128 191 d && N.leb 65536 n && N.leb n 1114111)%bool
      then Some (Z.of_N n)
      else None
  | _ => None
  end.

(** The UTF-8 bytes of a code point. *)
Definition of_point (n : Z) : string :=
  let b (x : Z) := chr (Z.to_N x) in
  if (n <? 128)%Z then String (b n) EmptyString
  else if (n <? 2048)%Z then
    String (b (192 + n / 64)%Z) (String (b (128 + n mod 64)%Z) EmptyString)
  else if (n <? 65536)%Z then
    String (b (224 + n / 4096)%Z)
      (String (b (128 + (n / 64) mod 64)%Z)
         (String (b (128 + n mod 64)%Z) EmptyString))
  else
    String (b (240 + n / 262144)%Z)
      (String (b (128 + (n / 4096) mod 64)%Z)
         (String (b (128 + (n / 64) mod 64)%Z)
            (String (b (128 + n mod 64)%Z) EmptyString))).

Definition of_points (l : list Z) : string :=
  String.concat EmptyString (map of_point l).

(** A table of code points: [(first, last)] stands for every code point
    from [first] to [last]. *)
Definition in_table (table : list (Z * Z)) (n : Z) : bool :=
  existsb (fun r => (fst r <=? n) && (n <=? snd r))%Z table.

(** A table of simple mappings: [(first, last, step, offset)] maps the
    code points [first], [first + step], ..., [last] to themselves plus
    [offset]. *)
Definition mapped (table : list (Z * Z * Z * Z)) (n : Z) : option Z :=
  match find (fun '(first, last, step, _) =>
                (first <=? n) && (n <=? last)
                && ((n - first) mod step =? 0))%Z table with
  | Some (_, _, _, offset) => Some (n + offset)%Z
  | None => None
  end.

(** A table of mappings to several code points. *)
Definition expanded (table : list (Z * list Z)) (n : Z) : option (list Z) :=
  option_map snd (find (fun e => (fst e =? n)%Z) table).

(** [c.lower()] for one code point other than the capital sigma, where
    it is another single code point. *)
Definition lower_table : list (Z * Z * Z * Z) :=
  ([(65, 90, 1, 32); (192, 214, 1, 32); (216, 222, 1, 32); (256, 302, 2, 1);
   (306, 310, 2, 1); (313, 327, 2, 1); (330, 374, 2, 1);
   (376, 376, 1, - 121); (377, 381, 2, 1); (385, 385, 1, 210);
   (386, 388, 2, 1); (390, 390, 1, 206); (391, 391, 1, 1);
   (393, 394, 1, 205); (395, 395, 1, 1); (398, 398, 1, 79);
   (399, 399, 1, 202); (400, 400, 1, 203); (401, 401, 1, 1);
   (403, 403, 1, 205); (404, 404, 1, 207); (406, 406, 1, 211);
   (407, 407, 1, 209); (408, 408, 1, 1); (412, 412, 1, 211);
   (413, 413, 1, 213); (415, 415, 1, 214); (416, 420, 2, 1);
   (422, 422, 1, 218); (423, 423, 1, 1); (425, 425, 1, 218);
   (428, 428, 1, 1); (430, 430, 1, 218); (431, 431, 1, 1);
   (433, 434, 1, 217); (435, 437, 2, 1); (439, 439, 1, 219);
   (440, 440, 1, 1); (444, 444, 1, 1); (452, 452, 1, 2); (453, 453, 1, 1);
   (455, 455, 1, 2); (456, 456, 1, 1); (458, 458, 1, 2); (459, 475, 2, 1);
   (478, 494, 2, 1); (497, 497, 1, 2); (498, 500, 2, 1);
   (502, 502, 1, - 97); (503, 503, 1, - 56); (504, 542, 2, 1);
   (544, 544, 1, - 130); (546, 562, 2, 1); (570, 570, 1, 10795);
   (571, 571, 1, 1); (573, 573, 1, - 163); (574, 574, 1, 10792);
   (577, 577, 1, 1); (579, 579, 1, - 195); (580, 580, 1, 69);
   (581, 581, 1, 71); (582, 590, 2, 1); (880, 882, 2, 1); (886, 886, 1, 1);
   (895, 895, 1, 116); (902, 902, 1, 38); (904, 906, 1, 37);
   (908, 908, 1, 64); (910, 911, 1, 63); (913, 929, 1, 32);
   (932, 939, 1, 32); (975, 975, 1, 8); (984, 1006, 2, 1);
   (1012, 1012, 1, - 60); (1015, 1015, 1, 1); (1017, 1017, 1, - 7);
   (1018, 1018, 1, 1); (1021, 1023, 1, - 130); (1024, 1039, 1, 80);
   (1040, 1071, 1, 32); (1120, 1152, 2, 1); (1162, 1214, 2, 1);
   (1216, 1216, 1, 15); (1217, 1229, 2, 1); (1232, 1326, 2, 1);
   (1329, 1366, 1, 48); (4256, 4293, 1, 7264); (4295, 4295, 1, 7264);
   (4301, 4301, 1, 7264); (5024, 5103, 1, 38864); (5104, 5109, 1, 8);
   (7312, 7354, 1, - 3008); (7357, 7359, 1, - 3008); (7680, 7828, 2, 1);
   (7838, 7838, 1, - 7615); (7840, 7934, 2, 1); (7944, 7951, 1, - 8);
   (7960, 7965, 1, - 8); (7976, 7983, 1, - 8); (7992, 7999, 1, - 8);
   (8008, 8013, 1, - 8); (8025, 8031, 2, - 8); (8040, 8047, 1, - 8);
   (8072, 8079, 1, - 8); (8088, 8095, 1, - 8); (8104, 8111, 1, - 8);
   (8120, 8121, 1, - 8); (8122, 8123, 1, - 74); (8124, 8124, 1, - 9);
   (8136, 8139, 1, - 86); (8140, 8140, 1, - 9); (8152, 8153, 1, - 8);
   (8154, 8155, 1, - 100); (8168, 8169, 1, - 8); (8170, 8171, 1, - 112);
   (8172, 8172, 1, - 7); (8184, 8185, 1, - 128); (8186, 8187, 1, - 126);
   (8188, 8188, 1, - 9); (8486, 8486, 1, - 7517); (8490, 8490, 1, - 8383);
   (8491, 8491, 1, - 8262); (8498, 8498, 1, 28); (8544, 8559, 1, 16);
   (8579, 8579, 1, 1); (9398, 9423, 1, 26); (11264, 11311, 1, 48);
   (11360, 11360, 1, 1); (11362, 11362, 1, - 10743);
   (11363, 11363, 1, - 3814); (11364, 11364, 1, - 10727);
   (11367, 11371, 2, 1); (11373, 11373, 1, - 10780);
   (11374, 11374, 1, - 10749); (11375, 11375, 1, - 10783);
   (11376, 11376, 1, - 10782); (11378, 11378, 1, 1); (11381, 11381, 1, 1);
   (11390, 11391, 1, - 10815); (11392, 11490, 2, 1); (11499, 11501, 2, 1);
   (11506, 11506, 1, 1); (42560, 42604, 2, 1); (42624, 42650, 2, 1);
   (42786, 42798, 2, 1); (42802, 42862, 2, 1); (42873, 42875, 2, 1);
   (42877, 42877, 1, - 35332); (42878, 42886, 2, 1); (42891, 42891, 1, 1);
   (42893, 42893, 1, - 42280); (42896, 42898, 2, 1); (42902, 42920, 2, 1);
   (42922, 42922, 1, - 42308); (42923, 42923, 1, - 42319);
   (42924, 42924, 1, - 42315); (42925, 42925, 1, - 42305);
   (42926, 42926, 1, - 42308); (42928, 42928, 1, - 42258);
   (42929, 42929, 1, - 42282); (42930, 42930, 1, - 42261);
   (42931, 42931, 1, 928); (42932, 42946, 2, 1); (42948, 42948, 1, - 48);
   (42949, 42949, 1, - 42307); (42950, 42950, 1, - 35384);
   (42951, 42953, 2, 1); (42960, 42960, 1, 1); (42966, 42968, 2, 1);
   (42997, 42997, 1, 1); (65313, 65338, 1, 32); (66560, 66599, 1, 40);
   (66736, 66771, 1, 40); (66928, 66964, 2, 39); (66929, 66937, 2, 39);
   (66941, 66953, 2, 39); (66957, 66961, 2, 39); (66965, 66965, 1, 39);
   (68736, 68786, 1, 64); (71840, 71871, 1, 32); (93760, 93791, 1, 32);
   (125184, 125217, 1, 34)])%Z.

(** [c.lower()] where it is more than one code point. *)
Definition lower_expansions : list (Z * list Z) :=
  ([(304, [105; 775])])%Z.

(** [c.upper()] where it is another single code point. *)
Definition upper_table : list (Z * Z * Z * Z) :=
  ([(97, 122, 1, - 32); (181, 181, 1, 743); (224, 246, 1, - 32);
   (248, 254, 1, - 32); (255, 255, 1, 121); (257, 303, 2, - 1);
   (305, 305, 1, - 232); (307, 311, 2, - 1); (314, 328, 2, - 1);
   (331, 375, 2, - 1); (378, 382, 2, - 1); (383, 383, 1, - 300);
   (384, 384, 1, 195); (387, 389, 2, - 1); (392, 392, 1, - 1);
   (396, 396, 1, - 1); (402, 402, 1, - 1); (405, 405, 1, 97);
   (409, 409, 1, - 1); (410, 410, 1, 163); (414, 414, 1, 130);
   (417, 421, 2, - 1); (424, 424, 1, - 1); (429, 429, 1, - 1);
   (432, 432, 1, - 1); (436, 438, 2, - 1); (441, 441, 1, - 1);
   (445, 445, 1, - 1); (447, 447, 1, 56); (453, 453, 1, - 1);
   (454, 454, 1, - 2); (456, 456, 1, - 1); (457, 457, 1, - 2);
   (459, 459, 1, - 1); (460, 460, 1, - 2); (462, 476, 2, - 1);
   (477, 477, 1, - 79); (479, 495, 2, - 1); (498, 498, 1, - 1);
   (499, 499, 1, - 2); (501, 501, 1, - 1); (505, 543, 2, - 1);
   (547, 563, 2, - 1); (572, 572, 1, - 1); (575, 576, 1, 10815);
   (578, 578, 1, - 1); (583, 591, 2, - 1); (592, 592, 1, 10783);
   (593, 593, 1, 10780); (594, 594, 1, 10782); (595, 595, 1, - 210);
   (596, 596, 1, - 206); (598, 599, 1, - 205); (601, 601, 1, - 202);
   (603, 603, 1, - 203); (604, 604, 1, 42319); (608, 608, 1, - 205);
   (609, 609, 1, 42315); (611, 611, 1, - 207); (613, 613, 1, 42280);
   (614, 614, 1, 42308); (616, 616, 1, - 209); (617, 617, 1, - 211);
   (618, 618, 1, 42308); (619, 619, 1, 10743); (620, 620, 1, 42305);
   (623, 623, 1, - 211); (625, 625, 1, 10749); (626, 626, 1, - 213);
   (629, 629, 1, - 214); (637, 637, 1, 10727); (640, 640, 1, - 218);
   (642, 642, 1, 42307); (643, 643, 1, - 218); (647, 647, 1, 42282);
   (648, 648, 1, - 218); (649, 649, 1, - 69); (650, 651, 1, - 217);
   (652, 652, 1, - 71); (658, 658, 1, - 219); (669, 669, 1, 42261);
   (670, 670, 1, 42258); (837, 837, 1, 84); (881, 883, 2, - 1);
   (887, 887, 1, - 1); (891, 893, 1, 130); (940, 940, 1, - 38);
   (941, 943, 1, - 37); (945, 961, 1, - 32); (962, 962, 1, - 31);
   (963, 971, 1, - 32); (972, 972, 1, - 64); (973, 974, 1, - 63);
   (976, 976, 1, - 62); (977, 977, 1, - 57); (981, 981, 1, - 47);
   (982, 982, 1, - 54); (983, 983, 1, - 8); (985, 1007, 2, - 1);
   (1008, 1008, 1, - 86); (1009, 1009, 1, - 80); (1010, 1010, 1, 7);
   (1011, 1011, 1, - 116); (1013, 1013, 1, - 96); (1016, 1016, 1, - 1);
   (1019, 1019, 1, - 1); (1072, 1103, 1, - 32); (1104, 1119, 1, - 80);
   (1121, 1153, 2, - 1); (1163, 1215, 2, - 1); (1218, 1230, 2, - 1);
   (1231, 1231, 1, - 15); (1233, 1327, 2, - 1); (1377, 1414, 1, - 48);
   (4304, 4346, 1, 3008); (4349, 4351, 1, 3008); (5112, 5117, 1, - 8);
   (7296, 7296, 1, - 6254); (7297, 7297, 1, - 6253);
   (7298, 7298, 1, - 6244); (7299, 7300, 1, - 6242);
   (7301, 7301, 1, - 6243); (7302, 7302, 1, - 6236);
   (7303, 7303, 1, - 6181); (7304, 7304, 1, 35266); (7545, 7545, 1, 35332);
   (7549, 7549, 1, 3814); (7566, 7566, 1, 35384); (7681, 7829, 2, - 1);
   (7835, 7835, 1, - 59); (7841, 7935, 2, - 1); (7936, 7943, 1, 8);
   (7952, 7957, 1, 8); (7968, 7975, 1, 8); (7984, 7991, 1, 8);
   (8000, 8005, 1, 8); (8017, 8023, 2, 8); (8032, 8039, 1, 8);
   (8048, 8049, 1, 74); (8050, 8053, 1, 86); (8054, 8055, 1, 100);
   (8056, 8057, 1, 128); (8058, 8059, 1, 112); (8060, 8061, 1, 126);
   (8112, 8113, 1, 8); (8126, 8126, 1, - 7205); (8144, 8145, 1, 8);
   (8160, 8161, 1, 8); (8165, 8165, 1, 7); (8526, 8526, 1, - 28);
   (8560, 8575, 1, - 16); (8580, 8580, 1, - 1); (9424, 9449, 1, - 26);
   (11312, 11359, 1, - 48); (11361, 11361, 1, - 1);
   (11365, 11365, 1, - 10795); (11366, 11366, 1, - 10792);
   (11368, 11372, 2, - 1); (11379, 11379, 1, - 1); (11382, 11382, 1, - 1);
   (11393, 11491, 2, - 1); (11500, 11502, 2, - 1); (11507, 11507, 1, - 1);
   (11520, 11557, 1, - 7264); (11559, 11559, 1, - 7264);
   (11565, 11565, 1, - 7264); (42561, 42605, 2, - 1);
   (42625, 42651, 2, - 1); (42787, 42799, 2, - 1); (42803, 42863, 2, - 1);
   (42874, 42876, 2, - 1); (42879, 42887, 2, - 1); (42892, 42892, 1, - 1);
   (42897, 42899, 2, - 1); (42900, 42900, 1, 48); (42903, 42921, 2, - 1);
   (42933, 42947, 2, - 1); (42952, 42954, 2, - 1); (42961, 42961, 1, - 1);
   (42967, 42969, 2, - 1); (42998, 42998, 1, - 1); (43859, 43859, 1, - 928);
   (43888, 43967, 1, - 38864); (65345, 65370, 1, - 32);
   (66600, 66639, 1, - 40); (66776, 66811, 1, - 40);
   (66967, 67003, 2, - 39); (66968, 66976, 2, - 39);
   (66980, 66992, 2, - 39); (66996, 67000, 2, - 39);
   (67004, 67004, 1, - 39); (68800, 68850, 1, - 64);
   (71872, 71903, 1, - 32); (93792, 93823, 1, - 32);
   (125218, 125251, 1, - 34)])%Z.

(** [c.upper()] where it is more than one code point. *)
Definition upper_expansions : list (Z * list Z) :=
  ([(223, [83; 83]); (329, [700; 78]); (496, [74; 780]);
   (912, [921; 776; 769]); (944, [933; 776; 769]); (1415, [1333; 1362]);
   (7830, [72; 817]); (7831, [84; 776]); (7832, [87; 778]);
   (7833, [89; 778]); (7834, [65; 702]); (8016, [933; 787]);
   (8018, [933; 787; 768]); (8020, [933; 787; 769]);
   (8022, [933; 787; 834]); (8064, [7944; 921]); (8065, [7945; 921]);
   (8066, [7946; 921]); (8067, [7947; 921]); (8068, [7948; 921]);
   (8069, [7949; 921]); (8070, [7950; 921]); (8071, [7951; 921]);
   (8072, [7944; 921]); (8073, [7945; 921]); (8074, [7946; 921]);
   (8075, [7947; 921]); (8076, [7948; 921]); (8077, [7949; 921]);
   (8078, [7950; 921]); (8079, [7951; 921]); (8080, [7976; 921]);
   (8081, [7977; 921]); (8082, [7978; 921]); (8083, [7979; 921]);
   (8084, [7980; 921]); (8085, [7981; 921]); (8086, [7982; 921]);
   (8087, [7983; 921]); (8088, [7976; 921]); (8089, [7977; 921]);
   (8090, [7978; 921]); (8091, [7979; 921]); (8092, [7980; 921]);
   (8093, [7981; 921]); (8094, [7982; 921]); (8095, [7983; 921]);
   (8096, [8040; 921]); (8097, [8041; 921]); (8098, [8042; 921]);
   (8099, [8043; 921]); (8100, [8044; 921]); (8101, [8045; 921]);
   (8102, [8046; 921]); (8103, [8047; 921]); (8104, [8040; 921]);
   (8105, [8041; 921]); (8106, [8042; 921]); (8107, [8043; 921]);
   (8108, [8044; 921]); (8109, [8045; 921]); (8110, [8046; 921]);
   (8111, [8047; 921]); (8114, [8122; 921]); (8115, [913; 921]);
   (8116, [902; 921]); (8118, [913; 834]); (8119, [913; 834; 921]);
   (8124, [913; 921]); (8130, [8138; 921]); (8131, [919; 921]);
   (8132, [905; 921]); (8134, [919; 834]); (8135, [919; 834; 921]);
   (8140, [919; 921]); (8146, [921; 776; 768]); (8147, [921; 776; 769]);
   (8150, [921; 834]); (8151, [921; 776; 834]); (8162, [933; 776; 768]);
   (8163, [933; 776; 769]); (8164, [929; 787]); (8166, [933; 834]);
   (8167, [933; 776; 834]); (8178, [8186; 921]); (8179, [937; 921]);
   (8180, [911; 921]); (8182, [937; 834]); (8183, [937; 834; 921]);
   (8188, [937; 921]); (64256, [70; 70]); (64257, [70; 73]);
   (64258, [70; 76]); (64259, [70; 70; 73]); (64260, [70; 70; 76]);
   (64261, [83; 84]); (64262, [83; 84]); (64275, [1348; 1350]);
   (64276, [1348; 1333]); (64277, [1348; 1339]); (64278, [1358; 1350]);
   (64279, [1348; 1341])])%Z.

(** The cased characters: lower case, upper case or title case. *)
Definition cased_table : list (Z * Z) :=
  ([(65, 90); (97, 122); (170, 170); (181, 181); (186, 186); (192, 214);
   (216, 246); (248, 442); (444, 447); (452, 659); (661, 696); (704, 705);
   (736, 740); (837, 837); (880, 883); (886, 887); (890, 893); (895, 895);
   (902, 902); (904, 906); (908, 908); (910, 929); (931, 1013);
   (1015, 1153); (1162, 1327); (1329, 1366); (1376, 1416); (4256, 4293);
   (4295, 4295); (4301, 4301); (4304, 4346); (4349, 4351); (5024, 5109);
   (5112, 5117); (7296, 7304); (7312, 7354); (7357, 7359); (7424, 7615);
   (7680, 7957); (7960, 7965); (7968, 8005); (8008, 8013); (8016, 8023);
   (8025, 8025); (8027, 8027); (8029, 8029); (8031, 8061); (8064, 8116);
   (8118, 8124); (8126, 8126); (8130, 8132); (8134, 8140); (8144, 8147);
   (8150, 8155); (8160, 8172); (8178, 8180); (8182, 8188); (8305, 8305);
   (8319, 8319); (8336, 8348); (8450, 8450); (8455, 8455); (8458, 8467);
   (8469, 8469); (8473, 8477); (8484, 8484); (8486, 8486); (8488, 8488);
   (8490, 8493); (8495, 8500); (8505, 8505); (8508, 8511); (8517, 8521);
   (8526, 8526); (8544, 8575); (8579, 8580); (9398, 9449); (11264, 11492);
   (11499, 11502); (11506, 11507); (11520, 11557); (11559, 11559);
   (11565, 11565); (42560, 42605); (42624, 42653); (42786, 42887);
   (42891, 42894); (42896, 42954); (42960, 42961); (42963, 42963);
   (42965, 42969); (42997, 42998); (43000, 43002); (43824, 43866);
   (43868, 43880); (43888, 43967); (64256, 64262); (64275, 64279);
   (65313, 65338); (65345, 65370); (66560, 66639); (66736, 66771);
   (66776, 66811); (66928, 66938); (66940, 66954); (66956, 66962);
   (66964, 66965); (66967, 66977); (66979, 66993); (66995, 67001);
   (67003, 67004); (67456, 67456); (67459, 67461); (67463, 67504);
   (67506, 67514); (68736, 68786); (68800, 68850); (71840, 71903);
   (93760, 93823); (119808, 119892); (119894, 119964); (119966, 119967);
   (119970, 119970); (119973, 119974); (119977, 119980); (119982, 119993);
   (119995, 119995); (119997, 120003); (120005, 120069); (120071, 120074);
   (120077, 120084); (120086, 120092); (120094, 120121); (120123, 120126);
   (120128, 120132); (120134, 120134); (120138, 120144); (120146, 120485);
   (120488, 120512); (120514, 120538); (120540, 120570); (120572, 120596);
   (120598, 120628); (120630, 120654); (120656, 120686); (120688, 120712);
   (120714, 120744); (120746, 120770); (120772, 120779); (122624, 122633);
   (122635, 122654); (125184, 125251); (127280, 127305); (127312, 127337);
   (127344, 127369)])%Z.

(** The characters the search for a cased neighbour skips. *)
Definition case_ignorable_table : list (Z * Z) :=
  ([(39, 39); (46, 46); (58, 58); (94, 94); (96, 96); (168, 168); (173, 173);
   (175, 175); (180, 180); (183, 184); (688, 879); (884, 885); (890, 890);
   (900, 901); (903, 903); (1155, 1161); (1369, 1369); (1375, 1375);
   (1425, 1469); (1471, 1471); (1473, 1474); (1476, 1477); (1479, 1479);
   (1524, 1524); (1536, 1541); (1552, 1562); (1564, 1564); (1600, 1600);
   (1611, 1631); (1648, 1648); (1750, 1757); (1759, 1768); (1770, 1773);
   (1807, 1807); (1809, 1809); (1840, 1866); (1958, 1968); (2027, 2037);
   (2042, 2042); (2045, 2045); (2070, 2093); (2137, 2139); (2184, 2184);
   (2192, 2193); (2200, 2207); (2249, 2306); (2362, 2362); (2364, 2364);
   (2369, 2376); (2381, 2381); (2385, 2391); (2402, 2403); (2417, 2417);
   (2433, 2433); (2492, 2492); (2497, 2500); (2509, 2509); (2530, 2531);
   (2558, 2558); (2561, 2562); (2620, 2620); (2625, 2626); (2631, 2632);
   (2635, 2637); (2641, 2641); (2672, 2673); (2677, 2677); (2689, 2690);
   (2748, 2748); (2753, 2757); (2759, 2760); (2765, 2765); (2786, 2787);
   (2810, 2815); (2817, 2817); (2876, 2876); (2879, 2879); (2881, 2884);
   (2893, 2893); (2901, 2902); (2914, 2915); (2946, 2946); (3008, 3008);
   (3021, 3021); (3072, 3072); (3076, 3076); (3132, 3132); (3134, 3136);
   (3142, 3144); (3146, 3149); (3157, 3158); (3170, 3171); (3201, 3201);
   (3260, 3260); (3263, 3263); (3270, 3270); (3276, 3277); (3298, 3299);
   (3328, 3329); (3387, 3388); (3393, 3396); (3405, 3405); (3426, 3427);
   (3457, 3457); (3530, 3530); (3538, 3540); (3542, 3542); (3633, 3633);
   (3636, 3642); (3654, 3662); (3761, 3761); (3764, 3772); (3782, 3782);
   (3784, 3789); (3864, 3865); (3893, 3893); (3895, 3895); (3897, 3897);
   (3953, 3966); (3968, 3972); (3974, 3975); (3981, 3991); (3993, 4028);
   (4038, 4038); (4141, 4144); (4146, 4151); (4153, 4154); (4157, 4158);
   (4184, 4185); (4190, 4192); (4209, 4212); (4226, 4226); (4229, 4230);
   (4237, 4237); (4253, 4253); (4348, 4348); (4957, 4959); (5906, 5908);
   (5938, 5939); (5970, 5971); (6002, 6003); (6068, 6069); (6071, 6077);
   (6086, 6086); (6089, 6099); (6103, 6103); (6109, 6109); (6155, 6159);
   (6211, 6211); (6277, 6278); (6313, 6313); (6432, 6434); (6439, 6440);
   (6450, 6450); (6457, 6459); (6679, 6680); (6683, 6683); (6742, 6742);
   (6744, 6750); (6752, 6752); (6754, 6754); (6757, 6764); (6771, 6780);
   (6783, 6783); (6823, 6823); (6832, 6862); (6912, 6915); (6964, 6964);
   (6966, 6970); (6972, 6972); (6978, 6978); (7019, 7027); (7040, 7041);
   (7074, 7077); (7080, 7081); (7083, 7085); (7142, 7142); (7144, 7145);
   (7149, 7149); (7151, 7153); (7212, 7219); (7222, 7223); (7288, 7293);
   (7376, 7378); (7380, 7392); (7394, 7400); (7405, 7405); (7412, 7412);
   (7416, 7417); (7468, 7530); (7544, 7544); (7579, 7679); (8125, 8125);
   (8127, 8129); (8141, 8143); (8157, 8159); (8173, 8175); (8189, 8190);
   (8203, 8207); (8216, 8217); (8228, 8228); (8231, 8231); (8234, 8238);
   (8288, 8292); (8294, 8303); (8305, 8305); (8319, 8319); (8336, 8348);
   (8400, 8432); (11388, 11389); (11503, 11505); (11631, 11631);
   (11647, 11647); (11744, 11775); (11823, 11823); (12293, 12293);
   (12330, 12333); (12337, 12341); (12347, 12347); (12441, 12446);
   (12540, 12542); (40981, 40981); (42232, 42237); (42508, 42508);
   (42607, 42610); (42612, 42621); (42623, 42623); (42652, 42655);
   (42736, 42737); (42752, 42785); (42864, 42864); (42888, 42890);
   (42994, 42996); (43000, 43001); (43010, 43010); (43014, 43014);
   (43019, 43019); (43045, 43046); (43052, 43052); (43204, 43205);
   (43232, 43249); (43263, 43263); (43302, 43309); (43335, 43345);
   (43392, 43394); (43443, 43443); (43446, 43449); (43452, 43453);
   (43471, 43471); (43493, 43494); (43561, 43566); (43569, 43570);
   (43573, 43574); (43587, 43587); (43596, 43596); (43632, 43632);
   (43644, 43644); (43696, 43696); (43698, 43700); (43703, 43704);
   (43710, 43711); (43713, 43713); (43741, 43741); (43756, 43757);
   (43763, 43764); (43766, 43766); (43867, 43871); (43881, 43883);
   (44005, 44005); (44008, 44008); (44013, 44013); (64286, 64286);
   (64434, 64450); (65024, 65039); (65043, 65043); (65056, 65071);
   (65106, 65106); (65109, 65109); (65279, 65279); (65287, 65287);
   (65294, 65294); (65306, 65306); (65342, 65342); (65344, 65344);
   (65392, 65392); (65438, 65439); (65507, 65507); (65529, 65531);
   (66045, 66045); (66272, 66272); (66422, 66426); (67456, 67461);
   (67463, 67504); (67506, 67514); (68097, 68099); (68101, 68102);
   (68108, 68111); (68152, 68154); (68159, 68159); (68325, 68326);
   (68900, 68903); (69291, 69292); (69446, 69456); (69506, 69509);
   (69633, 69633); (69688, 69702); (69744, 69744); (69747, 69748);
   (69759, 69761); (69811, 69814); (69817, 69818); (69821, 69821);
   (69826, 69826); (69837, 69837); (69888, 69890); (69927, 69931);
   (69933, 69940); (70003, 70003); (70016, 70017); (70070, 70078);
   (70089, 70092); (70095, 70095); (70191, 70193); (70196, 70196);
   (70198, 70199); (70206, 70206); (70367, 70367); (70371, 70378);
   (70400, 70401); (70459, 70460); (70464, 70464); (70502, 70508);
   (70512, 70516); (70712, 70719); (70722, 70724); (70726, 70726);
   (70750, 70750); (70835, 70840); (70842, 70842); (70847, 70848);
   (70850, 70851); (71090, 71093); (71100, 71101); (71103, 71104);
   (71132, 71133); (71219, 71226); (71229, 71229); (71231, 71232);
   (71339, 71339); (71341, 71341); (71344, 71349); (71351, 71351);
   (71453, 71455); (71458, 71461); (71463, 71467); (71727, 71735);
   (71737, 71738); (71995, 71996); (71998, 71998); (72003, 72003);
   (72148, 72151); (72154, 72155); (72160, 72160); (72193, 72202);
   (72243, 72248); (72251, 72254); (72263, 72263); (72273, 72278);
   (72281, 72283); (72330, 72342); (72344, 72345); (72752, 72758);
   (72760, 72765); (72767, 72767); (72850, 72871); (72874, 72880);
   (72882, 72883); (72885, 72886); (73009, 73014); (73018, 73018);
   (73020, 73021); (73023, 73029); (73031, 73031); (73104, 73105);
   (73109, 73109); (73111, 73111); (73459, 73460); (78896, 78904);
   (92912, 92916); (92976, 92982); (92992, 92995); (94031, 94031);
   (94095, 94111); (94176, 94177); (94179, 94180); (110576, 110579);
   (110581, 110587); (110589, 110590); (113821, 113822); (113824, 113827);
   (118528, 118573); (118576, 118598); (119143, 119145); (119155, 119170);
   (119173, 119179); (119210, 119213); (119362, 119364); (121344, 121398);
   (121403, 121452); (121461, 121461); (121476, 121476); (121499, 121503);
   (121505, 121519); (122880, 122886); (122888, 122904); (122907, 122913);
   (122915, 122916); (122918, 122922); (123184, 123197); (123566, 123566);
   (123628, 123631); (125136, 125142); (125252, 125259); (127995, 127999);
   (917505, 917505); (917536, 917631); (917760, 917999)])%Z.

(** The zero of every run of ten decimal digits. *)
Definition decimal_zeros : list Z :=
  ([48; 1632; 1776; 1984; 2406; 2534; 2662; 2790; 2918; 3046; 3174; 3302;
   3430; 3558; 3664; 3792; 3872; 4160; 4240; 6112; 6160; 6470; 6608; 6784;
   6800; 6992; 7088; 7232; 7248; 42528; 43216; 43264; 43472; 43504; 43600;
   44016; 65296; 66720; 68912; 69734; 69872; 69942; 70096; 70384; 70736;
   70864; 71248; 71360; 71472; 71904; 72016; 72784; 73040; 73120; 92768;
   92864; 93008; 120782; 120792; 120802; 120812; 120822; 123200; 123632;
   125264; 130032])%Z.

(** The value of a decimal digit, as [float] and [int] read it. *)
Definition decimal_value (n : Z) : option Z :=
  option_map (fun zero => (n - zero)%Z)
             (find (fun zero => (zero <=? n) && (n <=? zero + 9))%Z
                   decimal_zeros).

(** [c.lower()] for one character other than the capital sigma. *)
Definition lower_one (c : string) : string :=
  match point c with
  | Some n =>
      if (n <? 128)%Z then map_chars lower_char c
      else match expanded lower_expansions n with
           | Some l => of_points l
           | None => match mapped lower_table n with
                     | Some m => of_point m
                     | None => c
                     end
           end
  | None => c
  end.

(** [c.upper()] for one character. *)
Definition upper_one (c : string) : string :=
  match point c with
  | Some n =>
      if (n <? 128)%Z then map_chars upper_char c
      else match expanded upper_expansions n with
           | Some l => of_points l
           | None => match mapped upper_table n with
                     | Some m => of_point m
                     | None => c
                     end
           end
  | None => c
  end.

(** Whether the nearest character of [l] that is not case-ignorable is
    cased. *)
Fixpoint meets_cased (l : list string) : bool :=
  match l with
  | [] => false
  | c :: l' =>
      match point c with
      | Some n => if in_table case_ignorable_table n then meets_cased l'
                  else in_table cased_table n
      | None => false
      end
  end.

Definition capital_sigma : Z := 931%Z.
Definition final_sigma : Z := 962%Z.
Definition small_sigma : Z := 963%Z.

(** [s.lower()] from the characters [l] on, [before] being the
    characters passed, nearest first: a capital sigma becomes the final
    form after a cased character when no cased character follows. *)
Fixpoint lower_from (before l : list string) : string :=
  match l with
  | [] => EmptyString
  | c :: rest =>
      (match point c with
       | Some n =>
           if (n =? capital_sigma)%Z then
             of_point (if meets_cased before && negb (meets_cased rest)
                       then final_sigma else small_sigma)
           else lower_one c
       | None => c
       end) ++ lower_from (c :: before) rest
  end.

(** [s.lower()], [s.upper()]. *)
Definition lower (s : string) : string := lower_from [] (chars s).

Definition upper (s : string) : string :=
  String.concat EmptyString (map upper_one (chars s)).

End Text.

(* ================================================================== *)
(** * Exceptions *)
(* ================================================================== *)

(** An exception, represented by its message [str(e)]. *)
Definition exn := string.

(** The outcome of a call: a value, or a raised exception. *)
Inductive result (A : Type) : Type :=
| Ok (a : A)
| Raise (e : exn).

Arguments Ok {A} a.
Arguments Raise {A} e.

Definition rbind {A B : Type} (r : result A) (k : A -> result B) : result B :=
  match r with
  | Ok a => k a
  | Raise e => Raise e
  end.

(** [try: body / except Exception as e: handler e] around a call. *)
Definition rcatch {A : Type} (body : result A) (handler : exn -> result A)
  : result A :=
  match body with
  | Ok a => Ok a
  | Raise e => handler e
  end.

(* ================================================================== *)
(** * Flt: binary64 arithmetic, conversions and formats *)
(* ================================================================== *)

Module Flt.

Local Open Scope Z_scope.

(** The binary64 nearest to [(-1)^neg * p / q] ([0 <= p], [0 < q]), ties
    to even: a quotient of at least sixty bits with a sticky bit is
    rounded once. *)
Definition nearest (neg : bool) (p q : Z) : float :=
  if p =? 0 then (if neg then neg_zero else zero)
  else
    let k := 60 + Z.log2 q - Z.log2 p in
    let num := if 0 <=? k then p * 2 ^ k else p in
    let den := if 0 <=? k then q else q * 2 ^ (- k) in
    let quo := num / den in
    let sticky := if num mod den =? 0 then 0 else 1 in
    SF2Prim (binary_normalize prec emax
               (cond_Zopp neg (2 * quo + sticky)) (- k - 1) neg).

Definition is_inf (f : float) : bool :=
  match Prim2SF f with S754_infinity _ => true | _ => false end.

(** [n / d] on integers (true division). *)
Definition div_int (n d : Z) : result float :=
  if d =? 0 then Raise "division by zero"
  else
    let f := nearest (xorb (n <? 0) (d <? 0)) (Z.abs n) (Z.abs d) in
    if is_inf f then Raise "integer division result too large for a float"
    else Ok f.

(** [float(n)] on an integer. *)
Definition of_int (n : Z) : result float :=
  let f := nearest (n <? 0) (Z.abs n) 1 in
  if is_inf f then Raise "int too large to convert to float" else Ok f.

(** [int(f)]: truncation towards zero. *)
Definition to_int (f : float) : result Z :=
  match Prim2SF f with
  | S754_nan => Raise "cannot convert float NaN to integer"
  | S754_infinity _ => Raise "cannot convert float infinity to integer"
  | S754_zero _ => Ok 0
  | S754_finite s m e =>
      Ok (cond_Zopp s (if 0 <=? e then Zpos m * 2 ^ e
                       else Zpos m / 2 ^ (- e)))
  end.

(** ** Fixed-point format [f"{x:.Nf}"] *)

Definition round_half_even (num den : Z) : Z :=
  let q := num / den in
  match 2 * (num mod den) ?= den with
  | Lt => q
  | Gt => q + 1
  | Eq => if Z.even q then q else q + 1
  end.

Fixpoint zeros (n : nat) : string :=
  match n with
  | O => EmptyString
  | S n' => String "0" (zeros n')
  end.

(** The decimal digits of [n >= 0] read as a number with [d] decimals. *)
Definition place_point (d : nat) (n : Z) : string :=
  let ds := Text.of_Z n in
  let ds := (zeros (S d - String.length ds) ++ ds)%string in
  let w := (String.length ds - d)%nat in
  match d with
  | O => ds
  | _ => (substring 0 w ds ++ "." ++ substring w d ds)%string
  end.

Definition sign_text (s : bool) : string := if s then "-" else "".

Definition fixed (d : nat) (f : float) : string :=
  match Prim2SF f with
  | S754_nan => "nan"
  | S754_infinity s => (sign_text s ++ "inf")%string
  | S754_zero s => (sign_text s ++ place_point d 0)%string
  | S754_finite s m e =>
      let num := Zpos m * 10 ^ Z.of_nat d * 2 ^ Z.max e 0 in
      let den := 2 ^ Z.max (- e) 0 in
      (sign_text s ++ place_point d (round_half_even num den))%string
  end.

(** ** [repr(x)] and [str(x)]: the shortest digits that read back as [x] *)

(** [10^t <= m * 2^e]. *)
Definition pow10_le (t : Z) (m e : Z) : bool :=
  10 ^ Z.max t 0 * 2 ^ Z.max (- e) 0 <=? m * 2 ^ Z.max e 0 * 10 ^ Z.max (- t) 0.

(** The decimal exponent [t] with [10^t <= m * 2^e < 10^(t+1)]. *)
Definition exponent10 (m e : Z) : Z :=
  let t := (Z.log2 m + e) * 30103 / 100000 in
  if pow10_le (t + 1) m e then t + 1
  else if pow10_le t m e then t
  else t - 1.

(** [d * 10^k] compared with [x * 2^e]. *)
Definition cmp_dec_bin (d k x e : Z) : comparison :=
  (d * 10 ^ Z.max k 0 * 2 ^ Z.max (- e) 0)
    ?= (x * 2 ^ Z.max e 0 * 10 ^ Z.max (- k) 0).

(** Whether [d * 10^k] rounds to the float [m * 2^e]: it lies between
    the midpoints to the neighbouring floats, which count when [m] is
    even. *)
Definition reads_back (m e : Z) (d k : Z) : bool :=
  let below := if (m =? 2 ^ 52) && (- 1074 <? e) then 1 else 2 in
  let lo := cmp_dec_bin d k (4 * m - below) (e - 2) in
  let hi := cmp_dec_bin d k (4 * m + 2) (e - 2) in
  let ge_lo := match lo with Gt => true | Eq => Z.even m | Lt => false end in
  let le_hi := match hi with Lt => true | Eq => Z.even m | Gt => false end in
  ge_lo && le_hi.

(** The candidate with [n] digits, if one reads back: the nearer of the
    two decimals around the value. *)
Definition candidate (m e t : Z) (n : Z) : option (Z * Z) :=
  let k := t - (n - 1) in
  let lo := (Zpos 1 * m * 2 ^ Z.max e 0 * 10 ^ Z.max (- k) 0)
            / (2 ^ Z.max (- e) 0 * 10 ^ Z.max k 0) in
  let hi := lo + 1 in
  let ok_lo := reads_back m e lo k in
  let ok_hi := reads_back m e hi k in
  if ok_lo && ok_hi then
    match cmp_dec_bin (lo + hi) k (2 * m) e with
    | Gt => Some (lo, k)
    | Lt => Some (hi, k)
    | Eq => Some (if Z.even lo then lo else hi, k)
    end
  else if ok_lo then Some (lo, k)
  else if ok_hi then Some (hi, k)
  else None.

Fixpoint shortest (fuel : nat) (m e t n : Z) : Z * Z :=
  match fuel with
  | O => (m * 2 ^ Z.max e 0, 0)
  | S fuel' =>
      match candidate m e t n with
      | Some dk => dk
      | None => shortest fuel' m e t (n + 1)
      end
  end.

Fixpoint drop_zeros (fuel : nat) (d k : Z) : Z * Z :=
  match fuel with
  | O => (d, k)
  | S fuel' => if (d mod 10 =? 0) && negb (d =? 0)
               then drop_zeros fuel' (d / 10) (k + 1) else (d, k)
  end.

Definition exp_text (x : Z) : string :=
  let a := Text.of_Z (Z.abs x) in
  let sg := if x <? 0 then "-" else "+" in
  let pad := if Z.abs x <? 10 then "0" else "" in
  (sg ++ pad ++ a)%string.

(** Layout of the digits [ds] with the decimal point after [decpt]
    digits: exponent form when [decpt <= -4] or [decpt > 16]. *)
Definition layout (ds : string) (decpt : Z) : string :=
  let n := Z.of_nat (String.length ds) in
  if (decpt <=? - 4) || (16 <? decpt) then
    let frac := if 1 <? n
                then ("." ++ substring 1 (String.length ds - 1) ds)%string
                else "" in
    (substring 0 1 ds ++ frac ++ "e" ++ exp_text (decpt - 1))%string
  else if decpt <=? 0 then
    ("0." ++ zeros (Z.to_nat (- decpt)) ++ ds)%string
  else if n <=? decpt then
    (ds ++ zeros (Z.to_nat (decpt - n)) ++ ".0")%string
  else
    (substring 0 (Z.to_nat decpt) ds ++ "."
       ++ substring (Z.to_nat decpt) (String.length ds - Z.to_nat decpt) ds)%string.

Definition repr (f : float) : string :=
  match Prim2SF f with
  | S754_nan => "nan"
  | S754_infinity s => (sign_text s ++ "inf")%string
  | S754_zero s => (sign_text s ++ "0.0")%string
  | S754_finite s m e =>
      let t := exponent10 (Zpos m) e in
      let '(d, k) := shortest 17 (Zpos m) e t 1 in
      let '(d, k) := drop_zeros 17 d k in
      let ds := Text.of_Z d in
      (sign_text s ++ layout ds (k + Z.of_nat (String.length ds)))%string
  end.

(** ** [float(s)] on text *)

Definition is_digit (c : ascii) : bool := Text.in_range 48 57 c.

Definition digit_val (c : ascii) : Z := Z.of_N (Text.code c) - 48.

(** The white space [float] accepts around a number: the C locale's
    one-byte white space, and the white space outside ASCII. *)
Definition is_float_space1 (c : ascii) : bool :=
  (Text.in_range 9 13 c || N.eqb (Text.code c) 32)%bool.

(** Underscores may only separate two digits; they are dropped. *)
Fixpoint drop_underscores (prev : ascii) (s : string) : option string :=
  match s with
  | EmptyString =>
      if Ascii.eqb prev "_" then None else Some EmptyString
  | String c s' =>
      if Ascii.eqb c "_" then
        if is_digit prev then drop_underscores c s' else None
      else if Ascii.eqb prev "_" && negb (is_digit c) then None
      else option_map (String c) (drop_underscores c s')
  end.

(** A run of digits: its value on top of [acc], its length, the rest. *)
Fixpoint digits (s : string) (acc count : Z) : Z * Z * string :=
  match s with
  | EmptyString => (acc, count, s)
  | String c s' =>
      if is_digit c then digits s' (10 * acc + digit_val c) (count + 1)
      else (acc, count, s)
  end.

Definition sign (s : string) : bool * string :=
  match s with
  | String "-" s' => (true, s')
  | String "+" s' => (false, s')
  | _ => (false, s)
  end.

(** [digits [. digits] [(e|E) [sign] digits]] with a digit in the
    mantissa: the mantissa as an integer and the power of ten. *)
Definition decimal (s : string) : option (Z * Z) :=
  let '(ip, ni, r1) := digits s 0 0 in
  let '(m, nf, r2) := match r1 with
                      | String "." r => digits r ip 0
                      | _ => (ip, 0, r1)
                      end in
  if ni + nf =? 0 then None
  else match r2 with
       | EmptyString => Some (m, - nf)
       | String c r3 =>
           if Ascii.eqb c "e" || Ascii.eqb c "E" then
             let '(neg, r4) := sign r3 in
             let '(x, nx, r5) := digits r4 0 0 in
             if (nx =? 0) || negb (Text.is_empty r5) then None
             else Some (m, (if neg then - x else x) - nf)
           else None
       end.

(** The text as [float] reads it: every decimal digit, of whatever
    script, as the ASCII digit of its value. *)
Definition ascii_digits (s : string) : string :=
  String.concat EmptyString
    (map (fun c => match Text.point c with
                   | Some n =>
                       match Text.decimal_value n with
                       | Some d =>
                           String (Text.chr (Z.to_N (48 + d))) EmptyString
                       | None => c
                       end
                   | None => c
                   end)
         (Text.chars s)).

(** [float(s)]: [ValueError] unless the stripped text is a decimal
    number, an infinity or a NaN, the last two in any ASCII case.  (The
    message leaves out the quoted copy of [s]; the program never stores
    it.) *)
Definition parse (s : string) : result float :=
  match drop_underscores "000"
                         (Text.strip_by is_float_space1 (ascii_digits s)) with
  | None => Raise "could not convert string to float"
  | Some u =>
      let '(neg, body) := sign u in
      let low := Text.map_chars Text.lower_char body in
      if String.eqb low "inf" || String.eqb low "infinity" then
        Ok (if neg then neg_infinity else infinity)
      else if String.eqb low "nan" then Ok nan
      else match decimal body with
           | Some (m, x) =>
               Ok (nearest neg (m * 10 ^ Z.max x 0) (10 ^ Z.max (- x) 0))
           | None => Raise "could not convert string to float"
           end
  end.

End Flt.

(* ================================================================== *)
(** * Py: values, dictionaries and the local-dictionary monad *)
(* ================================================================== *)

Module Py.

(** The values a metadata record holds. *)
Inductive pyval : Type :=
| VNone
| VStr (s : string)
| VInt (n : Z)
| VFloat (x : float).

(** [str(v)]. *)
Definition str (v : pyval) : string :=
  match v with
  | VNone => "None"
  | VStr s => s
  | VInt n => Text.of_Z n
  | VFloat x => Flt.repr x
  end.

(** [float(v)]. *)
Definition float_of (v : pyval) : result float :=
  match v with
  | VNone => Raise "float() argument must be a string or a real number, not 'NoneType'"
  | VStr s => Flt.parse s
  | VInt n => Flt.of_int n
  | VFloat x => Ok x
  end.

(** Truth value of [v] in a condition. *)
Definition truthy (v : pyval) : bool :=
  match v with
  | VNone => false
  | VStr s => negb (Text.is_empty s)
  | VInt n => negb (Z.eqb n 0)
  | VFloat x => negb (PrimFloat.eqb x zero)
  end.

(** Truth value of a variable that is [None] or a [str]. *)
Definition truthy_text (o : option string) : bool :=
  match o with
  | Some s => negb (Text.is_empty s)
  | None => false
  end.

(** A [dict] with [str] keys, in insertion order. *)
Definition dict (V : Type) : Type := list (string * V).

Section Dict.
Context {V : Type}.

(** [d.get(k)]. *)
Fixpoint get (d : dict V) (k : string) : option V :=
  match d with
  | [] => None
  | (k', v) :: d' => if String.eqb k k' then Some v else get d' k
  end.

(** [k in d]. *)
Definition has_key (d : dict V) (k : string) : bool :=
  match get d k with Some _ => true | None => false end.

(** [d.get(k, default)]. *)
Definition get_default (d : dict V) (k : string) (default : V) : V :=
  match get d k with Some v => v | None => default end.

(** [d[k] = v]: a key already present keeps its place. *)
Fixpoint set (d : dict V) (k : string) (v : V) : dict V :=
  match d with
  | [] => [(k, v)]
  | (k', v') :: d' =>
      if String.eqb k k' then (k', v) :: d' else (k', v') :: set d' k v
  end.

(** [d.update(e)]. *)
Definition update (d e : dict V) : dict V :=
  fold_left (fun acc kv => set acc (fst kv) (snd kv)) e d.

Definition keys (d : dict V) : list string := map fst d.

End Dict.

(** A computation inside a function body that fills the function's
    local dictionary and may raise; the dictionary written so far
    survives the exception. *)
Definition M (A : Type) : Type := dict pyval -> dict pyval * result A.

Definition ret {A : Type} (a : A) : M A := fun d => (d, Ok a).

Definition bind {A B : Type} (m : M A) (k : A -> M B) : M B :=
  fun d => match m d with
           | (d', Ok a) => k a d'
           | (d', Raise e) => (d', Raise e)
           end.

(** A call whose outcome is [r]. *)
Definition call {A : Type} (r : result A) : M A := fun d => (d, r).

(** [local[k] = v]. *)
Definition store (k : string) (v : pyval) : M unit :=
  fun d => (set d k v, Ok tt).

(** [local.update(e)]. *)
Definition merge (e : dict pyval) : M unit :=
  fun d => (update d e, Ok tt).

(** [try: body / except Exception as e: handler e]. *)
Definition try_except {A : Type} (body : M A) (handler : exn -> M A) : M A :=
  fun d => match body d with
           | (d', Ok a) => (d', Ok a)
           | (d', Raise e) => handler e d'
           end.

Definition when (b : bool) (m : M unit) : M unit :=
  if b then m else ret tt.

(** [for x in l: body x]. *)
Fixpoint for_each {X : Type} (l : list X) (body : X -> M unit) : M unit :=
  match l with
  | [] => ret tt
  | x :: l' => bind (body x) (fun _ => for_each l' body)
  end.

(** The function starts with [local = init], runs [m] and returns
    [local]. *)
Definition returned_from (init : dict pyval) (m : M unit)
  : result (dict pyval) :=
  match m init with
  | (d, Ok _) => Ok d
  | (_, Raise e) => Raise e
  end.

Definition returned (m : M unit) : result (dict pyval) :=
  returned_from [] m.

(** [m] writes only under keys that [P] accepts, removes no key and
    keeps the keys distinct. *)
Definition writes (P : string -> bool) {A : Type} (m : M A) : Prop :=
  forall d,
    (forall k, P k = false -> get (fst (m d)) k = get d k)
    /\ (forall k, has_key d k = true -> has_key (fst (m d)) k = true)
    /\ (NoDup (keys d) -> NoDup (keys (fst (m d)))).

(** [m] raises nothing. *)
Definition total {A : Type} (m : M A) : Prop :=
  forall d, exists a, snd (m d) = Ok a.

(** A function that returns a dictionary with distinct keys, all
    accepted by [P], and raises nothing. *)
Definition analysis_of (P : string -> bool) (r : result (dict pyval)) : Prop :=
  exists d, r = Ok d /\ NoDup (keys d)
            /\ forall k, has_key d k = true -> P k = true.

End Py.

Export Py.

Declare Scope py_scope.
Delimit Scope py_scope with py.
Notation "x <- m ;; k" := (Py.bind m (fun x => k))
  (at level 61, m at next level, right associativity) : py_scope.
Notation "m ;; k" := (Py.bind m (fun _ => k))
  (at level 61, right associativity) : py_scope.

(* ================================================================== *)
(** * The world outside the program *)
(* ================================================================== *)

(** The argument called [image_path]: a [str], or an object of another
    type that no path function accepts (given by its type name). *)
Inductive pypath : Type :=
| PathStr (s : string)
| NotAPath (type_name : string).

(** [os.stat_result]: the fields read. *)
Record Stat : Type := {
  st_size : Z;
  st_ctime : float;
  st_mtime : float
}.

(** geopy's [Location]: [location.address], and
    [location.raw.get('address')] when the key is there. *)
Record Location : Type := {
  loc_address : string;
  loc_raw_address : option (dict pyval)
}.

(** A number inside an exifread tag: an [int] or a [Ratio]. *)
Inductive tagnum : Type :=
| NInt (n : Z)
| NRatio (num den : Z).

(** [tag.values]: text, or a list of numbers. *)
Inductive tagvalues : Type :=
| ValText (s : string)
| ValNums (l : list tagnum).

(** exifread's [IfdTag]: [str(tag)] is [printable]. *)
Record IfdTag : Type := {
  printable : string;
  values : tagvalues
}.

(** A value of the dictionary [exifread.process_file] returns: a tag, or
    the raw bytes of a thumbnail. *)
Inductive exif_value : Type :=
| ETag (t : IfdTag)
| EBytes (b : list byte).

(** A value handed to [_process_exif_value]: [None] or a scalar, [bytes],
    an object with a [values] attribute (given by the outcome of
    [str(value.values)] and by [str(value)]), or a list or tuple (given by
    the [str] of its items). *)
Inductive rawvalue : Type :=
| RawVal (v : pyval)
| RawBytes (b : list byte)
| RawObject (values_text : result string) (text : string)
| RawSeq (is_list : bool) (items : list string).

(** The four texts read from an ICC profile. *)
Record IccProfile : Type := {
  icc_description : result string;
  icc_manufacturer : result string;
  icc_model : result string;
  icc_copyright : result string
}.

(** A value of [img.info]: [str(value)], [len(value)], and the profile
    [ImageCms.ImageCmsProfile(io.BytesIO(value))]. *)
Record InfoValue : Type := {
  info_text : string;
  info_len : result Z;
  info_profile : result IccProfile
}.

(** An opened PIL image.  [img_getexif] is [img._getexif()] with each tag
    id already named by [ExifTags.TAGS.get(tag_id, tag_id)]. *)
Record PilImage : Type := {
  img_format : pyval;
  img_mode : string;
  img_width : Z;
  img_height : Z;
  img_bands_text : string;
  img_bands_count : Z;
  img_getexif : result (option (list (string * rawvalue)));
  img_info : dict InfoValue
}.

Record World : Type := {
  (** [os.stat(path)], [os.path.abspath(path)] *)
  os_stat : pypath -> result Stat;
  os_path_abspath : pypath -> result string;
  (** [open(path, 'rb')] followed by reading the file *)
  read_file : pypath -> result (list byte);
  (** [datetime.fromtimestamp(t).isoformat()] *)
  datetime_isoformat : float -> result string;
  (** [tempfile.gettempdir()] *)
  tempfile_gettempdir : result string;
  (** [hashlib.md5(b).hexdigest()] and its siblings *)
  md5_hexdigest : list byte -> string;
  sha1_hexdigest : list byte -> string;
  sha256_hexdigest : list byte -> string;
  (** [OSINTEnhancer()], whose constructor builds the geocoding client *)
  new_enhancer : result unit;
  (** [self.geolocator.reverse(query, language=...)] *)
  geolocator_reverse : string -> option string -> result (option Location);
  (** [rg.search((lat, lon))] *)
  rg_search : float -> float -> result (list (dict pyval));
  (** [folium.Map(...)] with its marker, and [m.save(path)] *)
  folium_map : float -> float -> result unit;
  folium_save : float -> float -> string -> result unit;
  (** [exifread.process_file(f, strict=...)] on the file's content *)
  exifread_process_file : list byte -> bool -> result (dict exif_value);
  (** [Image.open(path)] *)
  pil_open : pypath -> result PilImage;
  (** [piexif.load(path)]: per IFD name, the tag ids and values *)
  piexif_load : pypath -> result (dict (list (Z * rawvalue)));
  (** [piexif.TAGS[ifd_name][tag]["name"]] *)
  piexif_tag_name : string -> Z -> result string
}.

(** ** [os.path] on POSIX paths *)

Module OsPath.

Definition not_a_path (type_name : string) : exn :=
  "expected str, bytes or os.PathLike object, not " ++ type_name.

(** The text after the last [sep] of [s], or all of [s]. *)
Fixpoint after_last (sep : ascii) (s : string) : string :=
  match s with
  | EmptyString => EmptyString
  | String c s' =>
      if Text.contains (String sep EmptyString) s then after_last sep s'
      else s
  end.

(** [os.path.basename(p)]. *)
Definition basename (p : pypath) : result string :=
  match p with
  | PathStr s => Ok (after_last "/" s)
  | NotAPath t => Raise (not_a_path t)
  end.

(** The extension of a file name [name] without directory: from its
    last dot, unless only dots come before it. *)
Fixpoint ext_from (seen_other : bool) (name : string) : string :=
  match name with
  | EmptyString => EmptyString
  | String c s' =>
      if (Ascii.eqb c "." && seen_other
          && negb (Text.contains "." s'))%bool
      then name
      else ext_from (seen_other || negb (Ascii.eqb c "."))%bool s'
  end.

(** [os.path.splitext(p)[1]]. *)
Definition splitext_ext (p : pypath) : result string :=
  match p with
  | PathStr s => Ok (ext_from false (after_last "/" s))
  | NotAPath t => Raise (not_a_path t)
  end.

(** [os.path.join(a, b)]. *)
Definition join (a b : string) : string :=
  if prefix "/" b then b
  else if Text.is_empty a || Text.is_empty (after_last "/" a) then a ++ b
  else a ++ "/" ++ b.

(** [s.rstrip('/')]. *)
Fixpoint rstrip_sep (s : string) : string :=
  match s with
  | EmptyString => EmptyString
  | String c s' =>
      if Text.all_chars (Ascii.eqb "/") s then EmptyString
      else String c (rstrip_sep s')
  end.

(** [os.path.dirname(p)] for a text: the part up to the last
    separator, without trailing separators unless it is made of
    separators only. *)
Definition dirname (p : string) : string :=
  let head :=
    Text.take (String.length p - String.length (after_last "/" p)) p in
  if negb (Text.is_empty head) && negb (Text.all_chars (Ascii.eqb "/") head)
  then rstrip_sep head
  else head.

(** [os.path.splitext(name)[0]] for a file name without directory. *)
Definition splitext_root (name : string) : string :=
  Text.take (String.length name - String.length (ext_from false name)) name.

End OsPath.

(* ================================================================== *)
(** * class OSINTEnhancer *)
(* ================================================================== *)

Module OSINTEnhancer.

Local Open Scope py_scope.

(** ** [_extract_coordinates] *)

(** One turn of the first loop: a key holding 'gps' and 'decimal' sets
    the latitude when it holds 'latitude', else the longitude when it
    holds 'longitude'; a value that [float] refuses changes nothing. *)
Definition scan_decimal (acc : option float * option float)
           (item : string * pyval) : option float * option float :=
  let '(lat, lon) := acc in
  let '(key, value) := item in
  let key_lower := Text.lower key in
  if Text.contains "gps" key_lower && Text.contains "decimal" key_lower then
    if Text.contains "latitude" key_lower then
      match float_of value with
      | Ok x => (Some x, lon)
      | Raise _ => (lat, lon)
      end
    else if Text.contains "longitude" key_lower then
      match float_of value with
      | Ok x => (lat, Some x)
      | Raise _ => (lat, lon)
      end
    else (lat, lon)
  else (lat, lon).

(** One turn of the second loop: the value of a key holding
    'coordinates', split at commas into two parts; the latitude is
    assigned before the longitude is parsed. *)
Definition scan_coordinates (acc : option float * option float)
           (item : string * pyval) : option float * option float :=
  let '(lat, lon) := acc in
  let '(key, value) := item in
  if Text.contains "coordinates" (Text.lower key) then
    match Text.split "," (str value) with
    | [c0; c1] =>
        match Flt.parse (Text.strip c0) with
        | Ok x =>
            match Flt.parse (Text.strip c1) with
            | Ok y => (Some x, Some y)
            | Raise _ => (Some x, lon)
            end
        | Raise _ => (lat, lon)
        end
    | _ => (lat, lon)
    end
  else (lat, lon).

Definition is_none {A : Type} (o : option A) : bool :=
  match o with None => true | Some _ => false end.

Definition _extract_coordinates (metadata : dict pyval)
  : result (option (float * float)) :=
  rcatch
    (let '(lat, lon) := fold_left scan_decimal metadata (None, None) in
     let '(lat, lon) :=
       if is_none lat || is_none lon
       then fold_left scan_coordinates metadata (lat, lon)
       else (lat, lon) in
     match lat, lon with
     | Some x, Some y => Ok (Some (x, y))
     | _, _ => Ok None
     end)
    (fun _ => Ok None).

(** ** [_coord_to_3words] *)

Definition _coord_to_3words (w : World) (lat lon : float) : string :=
  "demo.words."
    ++ Text.take 8 (md5_hexdigest w (Text.encode (Flt.repr lat ++ Flt.repr lon))).

(** ** [_analyze_location_type] *)

(** [address.get(k)] in a condition. *)
Definition present (address : dict pyval) (k : string) : bool :=
  match get address k with
  | Some v => truthy v
  | None => false
  end.

Definition address_of (location : Location) : dict pyval :=
  match loc_raw_address location with
  | Some a => a
  | None => []
  end.

(** A location that is [None] falls through the [if] and the function
    returns [None]. *)
Definition _analyze_location_type (w : World) (lat lon : float)
  : result pyval :=
  rcatch
    (rbind (geolocator_reverse w (Flt.repr lat ++ ", " ++ Flt.repr lon) None)
       (fun location =>
          match location with
          | Some loc =>
              let address := address_of loc in
              if present address "aeroway" then Ok (VStr "Airport/Transport")
              else if present address "tourism" then Ok (VStr "Tourist location")
              else if present address "historic" then Ok (VStr "Historic site")
              else if present address "leisure" then Ok (VStr "Leisure area")
              else if present address "waterway" then Ok (VStr "Water area")
              else Ok (VStr "Urban/Residential")
          | None => Ok VNone
          end))
    (fun _ => Ok (VStr "Unknown")).

(** ** [_gps_osint_analysis] *)

Definition unknown : pyval := VStr "Unknown".

(** ['GPS GPSAltitude' in str(metadata)]: the text of a dictionary
    holds the needle exactly when a key or the text of a value holds it
    (the quotes and separators [repr] adds share no character with it). *)
Definition altitude_in_text (metadata : dict pyval) : bool :=
  existsb (fun kv => Text.contains "GPS GPSAltitude" (fst kv)
                     || Text.contains "GPS GPSAltitude" (str (snd kv)))
          metadata.

Definition _gps_osint_analysis (w : World) (metadata : dict pyval)
  : result (dict pyval) :=
  returned
    (try_except
       (coords <- call (_extract_coordinates metadata) ;;
        match coords with
        | Some (lat, lon) =>
            store "OSINT_Coordinates"
                  (VStr (Flt.fixed 6 lat ++ ", " ++ Flt.fixed 6 lon)) ;;
            location <- call (geolocator_reverse w
                                (Flt.repr lat ++ ", " ++ Flt.repr lon)
                                (Some "en")) ;;
            match location with
            | Some loc =>
                let address := address_of loc in
                store "OSINT_Country" (get_default address "country" unknown) ;;
                store "OSINT_Country_Code"
                      (get_default address "country_code" unknown) ;;
                store "OSINT_State" (get_default address "state" unknown) ;;
                store "OSINT_City"
                      (get_default address "city"
                                   (get_default address "town" unknown)) ;;
                store "OSINT_Postcode" (get_default address "postcode" unknown) ;;
                store "OSINT_Road" (get_default address "road" unknown) ;;
                store "OSINT_Full_Address" (VStr (loc_address loc))
            | None => ret tt
            end ;;
            try_except
              (results <- call (rg_search w lat lon) ;;
               match results with
               | r :: _ =>
                   store "OSINT_RG_Country" (get_default r "cc" unknown) ;;
                   store "OSINT_RG_City" (get_default r "name" unknown) ;;
                   store "OSINT_RG_Admin1" (get_default r "admin1" unknown) ;;
                   store "OSINT_RG_Admin2" (get_default r "admin2" unknown)
               | [] => ret tt
               end)
              (fun _ => ret tt) ;;
            let la := Flt.repr lat in
            let lo := Flt.repr lon in
            store "OSINT_Google_Maps"
                  (VStr ("https://maps.google.com/?q=" ++ la ++ "," ++ lo ++ "&z=17")) ;;
            store "OSINT_OpenStreetMap"
                  (VStr ("https://www.openstreetmap.org/?mlat=" ++ la
                           ++ "&mlon=" ++ lo ++ "&zoom=17")) ;;
            store "OSINT_Bing_Maps"
                  (VStr ("https://bing.com/maps/default.aspx?cp=" ++ la
                           ++ "~" ++ lo ++ "&lvl=17")) ;;
            store "OSINT_Yandex_Maps"
                  (VStr ("https://yandex.ru/maps/?pt=" ++ lo ++ "," ++ la ++ "&z=17")) ;;
            store "OSINT_What3Words"
                  (VStr ("https://what3words.com///" ++ _coord_to_3words w lat lon)) ;;
            when (altitude_in_text metadata)
                 (store "OSINT_Altitude_Analysis" (VStr "Altitude data available")) ;;
            kind <- call (_analyze_location_type w lat lon) ;;
            store "OSINT_Location_Type" kind
        | None => ret tt
        end)
       (fun e => store "OSINT_GPS_Error" (VStr e))).

(** ** [_extract_lens_info]: [None] when nothing was collected *)

Definition lens_entry (item : string * pyval) : list string :=
  let '(key, value) := item in
  let key_lower := Text.lower key in
  if Text.contains "lens" key_lower then [key ++ ": " ++ str value]
  else if Text.contains "focal" key_lower && Text.contains "length" key_lower
  then ["Focal: " ++ str value]
  else if Text.contains "aperture" key_lower then ["Aperture: " ++ str value]
  else [].

Definition _extract_lens_info (metadata : dict pyval) : option string :=
  match flat_map lens_entry metadata with
  | [] => None
  | lens_data => Some (Text.join " | " lens_data)
  end.

(** ** [_camera_osint_analysis] *)

(** The three variables [make], [model], [serial]: [None] or a text. *)
Record camera : Type := {
  make : option string;
  model : option string;
  serial : option string
}.

(** One turn of the loop: the first branch whose marker is in the key
    and whose variable is still [None] or empty takes the value. *)
Definition scan_camera (c : camera) (item : string * pyval) : camera :=
  let '(key, value) := item in
  let key_lower := Text.lower key in
  if Text.contains "make" key_lower && negb (truthy_text (make c)) then
    {| make := Some (str value); model := model c; serial := serial c |}
  else if Text.contains "model" key_lower && negb (truthy_text (model c)) then
    {| make := make c; model := Some (str value); serial := serial c |}
  else if Text.contains "serial" key_lower && negb (truthy_text (serial c)) then
    {| make := make c; model := model c; serial := Some (str value) |}
  else c.

Definition no_camera : camera :=
  {| make := None; model := None; serial := None |}.

Definition scan_cameras (metadata : dict pyval) : camera :=
  fold_left scan_camera metadata no_camera.

(** [if x:] on a variable that is [None] or a text. *)
Definition if_text (o : option string) (k : string -> M unit) : M unit :=
  match o with
  | Some s => when (negb (Text.is_empty s)) (k s)
  | None => ret tt
  end.

Definition _camera_osint_analysis (w : World) (metadata : dict pyval)
  : result (dict pyval) :=
  returned
    (try_except
       (let c := scan_cameras metadata in
        if_text (make c) (fun mk => store "OSINT_Camera_Make" (VStr mk)) ;;
        if_text (model c) (fun md => store "OSINT_Camera_Model" (VStr md)) ;;
        if_text (serial c)
                (fun sr =>
                   store "OSINT_Camera_Serial" (VStr sr) ;;
                   store "OSINT_Serial_Hash_MD5"
                         (VStr (md5_hexdigest w (Text.encode sr))) ;;
                   store "OSINT_Serial_Hash_SHA1"
                         (VStr (sha1_hexdigest w (Text.encode sr)))) ;;
        if_text (make c)
                (fun mk =>
                   if_text (model c)
                           (fun md =>
                              store "OSINT_Device_Fingerprint"
                                    (VStr (mk ++ " " ++ md)) ;;
                              store "OSINT_Device_Search"
                                    (VStr ("https://www.google.com/search?q="
                                             ++ mk ++ "+" ++ md ++ "+camera")))) ;;
        if_text (_extract_lens_info metadata)
                (fun lens_info => store "OSINT_Lens_Info" (VStr lens_info)))
       (fun e => store "OSINT_Camera_Error" (VStr e))).

(** ** [_time_analysis] *)

Definition timestamp_entry (item : string * pyval) : list (string * string) :=
  let '(key, value) := item in
  if Text.contains_any ["date"; "time"] (Text.lower key)
     && (Text.contains "202" (str value) || Text.contains "201" (str value))
  then [(key, str value)]
  else [].

(** [enumerate(l)], counted from [i]. *)
Fixpoint enumerate {X : Type} (i : Z) (l : list X) : list (Z * X) :=
  match l with
  | [] => []
  | x :: l' => (i, x) :: enumerate (i + 1) l'
  end.

Definition is_nil {X : Type} (l : list X) : bool :=
  match l with [] => true | _ => false end.

Definition _time_analysis (metadata : dict pyval) : result (dict pyval) :=
  returned
    (try_except
       (let timestamps := flat_map timestamp_entry metadata in
        when (negb (is_nil timestamps))
             (store "OSINT_Timestamps_Found"
                    (VInt (Z.of_nat (List.length timestamps))) ;;
              for_each (enumerate 0 (firstn 5 timestamps))
                       (fun '(i, (key, value)) =>
                          store ("OSINT_Time_" ++ Text.of_Z (i + 1))
                                (VStr (key ++ ": " ++ value))) ;;
              when (Nat.ltb 1 (List.length timestamps))
                   (store "OSINT_Time_Analysis"
                          (VStr "Multiple timestamps - timeline available"))) ;;
        match find (fun kv => Text.contains "timezone" (Text.lower (fst kv)))
                   metadata with
        | Some (_, value) => store "OSINT_Timezone" value
        | None => ret tt
        end)
       (fun e => store "OSINT_Time_Error" (VStr e))).

(** ** [_forensic_analysis] *)

Definition _forensic_analysis (w : World) (image_path : pypath)
  : result (dict pyval) :=
  returned
    (try_except
       (file_data <- call (read_file w image_path) ;;
        store "OSINT_MD5_Hash" (VStr (md5_hexdigest w file_data)) ;;
        store "OSINT_SHA1_Hash" (VStr (sha1_hexdigest w file_data)) ;;
        store "OSINT_SHA256_Hash" (VStr (sha256_hexdigest w file_data)) ;;
        file_stats <- call (os_stat w image_path) ;;
        store "OSINT_File_Size_Bytes" (VInt (st_size file_stats)) ;;
        created <- call (datetime_isoformat w (st_ctime file_stats)) ;;
        store "OSINT_File_Created" (VStr created) ;;
        modified <- call (datetime_isoformat w (st_mtime file_stats)) ;;
        store "OSINT_File_Modified" (VStr modified) ;;
        filename <- call (OsPath.basename image_path) ;;
        store "OSINT_Filename_Analysis" (VStr filename) ;;
        when (Text.contains_any ["img"; "dsc"; "photo"; "pic"]
                                (Text.lower filename))
             (store "OSINT_Filename_Pattern"
                    (VStr "Common camera naming pattern")))
       (fun e => store "OSINT_Forensic_Error" (VStr e))).

(** ** [_network_analysis] *)

Definition _network_analysis (metadata : dict pyval) : result (dict pyval) :=
  returned
    (try_except
       (for_each metadata
                 (fun '(key, value) =>
                    let str_value := str value in
                    when (Text.contains "http" (Text.lower str_value))
                         (store ("OSINT_URL_In_" ++ key) (VStr str_value)) ;;
                    when (Text.contains "@" str_value
                          && Text.contains "." str_value)
                         (store ("OSINT_Email_Like_In_" ++ key)
                                (VStr str_value))))
       (fun e => store "OSINT_Network_Error" (VStr e))).

(** ** [_create_osm_map]: the path of the saved map, or [None] *)

Definition _create_osm_map (w : World) (metadata : dict pyval)
  : result (option string) :=
  rcatch
    (rbind (_extract_coordinates metadata)
       (fun coords =>
          match coords with
          | None => Ok None
          | Some (lat, lon) =>
              rbind (folium_map w lat lon) (fun _ =>
              rbind (tempfile_gettempdir w) (fun temp_dir =>
                let name :=
                  "metadate_map_"
                    ++ md5_hexdigest w (Text.encode (Flt.repr lat ++ Flt.repr lon))
                    ++ ".html" in
                let map_path := OsPath.join temp_dir name in
                rbind (folium_save w lat lon map_path) (fun _ =>
                Ok (Some map_path))))
          end))
    (fun _ => Ok None).

(** ** [enhance_metadata] *)

Definition enhance_metadata (w : World) (metadata : dict pyval)
           (image_path : pypath) : result (dict pyval) :=
  returned_from metadata
    (try_except
       (gps <- call (_gps_osint_analysis w metadata) ;;
        merge gps ;;
        cam <- call (_camera_osint_analysis w metadata) ;;
        merge cam ;;
        tim <- call (_time_analysis metadata) ;;
        merge tim ;;
        forensic <- call (_forensic_analysis w image_path) ;;
        merge forensic ;;
        net <- call (_network_analysis metadata) ;;
        merge net ;;
        map_path <- call (_create_osm_map w metadata) ;;
        if_text map_path (fun p => store "OSINT_Map_File" (VStr p)))
       (fun e => store "OSINT_Error" (VStr e))).

End OSINTEnhancer.

(* ================================================================== *)
(** * class UltraMetadataExtractor *)
(* ================================================================== *)

Module UltraMetadataExtractor.

Local Open Scope py_scope.

(** ** [_process_exif_value] *)

Definition is_nul_or_space (c : ascii) : bool :=
  (N.eqb (Text.code c) 0 || N.eqb (Text.code c) 32)%bool.

Definition binary_placeholder (value : list byte) : string :=
  "binary_data_" ++ Text.of_nat (List.length value) ++ "_bytes".

Definition _process_exif_value (value : rawvalue) : result (option string) :=
  rcatch
    (match value with
     | RawVal VNone => Ok None
     | RawBytes b =>
         rcatch
           (let decoded := Text.strip (Text.decode_ignore b) in
            if negb (Text.is_empty decoded)
               && negb (Text.all_chars is_nul_or_space decoded)
            then Ok (Some decoded)
            else Ok (Some (binary_placeholder b)))
           (fun _ => Ok (Some (binary_placeholder b)))
     | RawObject values_text text =>
         rcatch (rbind values_text (fun t => Ok (Some t)))
                (fun _ => Ok (Some text))
     | RawSeq _ items =>
         if Nat.ltb 0 (List.length items)
         then Ok (Some (Text.join "|" items))
         else Ok None
     | RawVal v =>
         let str_value := Text.strip (str v) in
         Ok (if Text.is_empty str_value then None else Some str_value)
     end)
    (fun e => Ok (Some ("value_error_" ++ e))).

(** ** [_convert_gps_coord] *)

(** An item [values[i]]: a number of the tag, or one character of its
    text. *)
Inductive item : Type :=
| INum (n : tagnum)
| IChar (c : string).

Definition items (vs : tagvalues) : list item :=
  match vs with
  | ValText s => map IChar (Text.chars s)
  | ValNums l => map INum l
  end.

(** A [Ratio] in lowest terms with a positive denominator, as
    [Fraction] keeps it (a zero denominator is kept as it is). *)
Definition gcd_reduced (n d : Z) : Z * Z :=
  let g := Z.gcd n d in
  if (d <? 0)%Z then (- (n / g), - (d / g))%Z else (n / g, d / g)%Z.

(** [float(values[i])]: a [Ratio] is the quotient of its numerator and
    denominator in lowest terms. *)
Definition float_of_item (x : item) : result float :=
  match x with
  | INum (NInt n) => Flt.of_int n
  | INum (NRatio n d) => let '(a, b) := gcd_reduced n d in Flt.div_int a b
  | IChar c => Flt.parse c
  end.

Definition _convert_gps_coord (vs : tagvalues) : result float :=
  rcatch
    (match items vs with
     | v0 :: v1 :: v2 :: _ =>
         rbind (float_of_item v0) (fun d =>
         rbind (float_of_item v1) (fun m =>
         rbind (float_of_item v2) (fun s =>
         Ok (d + m / 60 + s / 3600)%float)))
     | [v0; v1] =>
         rbind (float_of_item v0) (fun d =>
         rbind (float_of_item v1) (fun m =>
         Ok (d + m / 60)%float))
     | [v0] => float_of_item v0
     | [] => Ok 0%float
     end)
    (fun _ => Ok 0%float).

(** ** [_decimal_to_dms] *)

Definition degree_sign : string :=
  String (Text.chr 194) (String (Text.chr 176) EmptyString).

Definition _decimal_to_dms (decimal : float) (is_lat : bool)
  : result string :=
  rcatch
    (let negative := (decimal <? 0)%float in
     let direction :=
       if negative then (if is_lat then "S" else "W")
       else (if is_lat then "N" else "E") in
     let decimal := if negative then abs decimal else decimal in
     rbind (Flt.to_int decimal) (fun degrees =>
     rbind (Flt.of_int degrees) (fun degrees_f =>
     let minutes_decimal := ((decimal - degrees_f) * 60)%float in
     rbind (Flt.to_int minutes_decimal) (fun minutes =>
     rbind (Flt.of_int minutes) (fun minutes_f =>
     let seconds := ((minutes_decimal - minutes_f) * 60)%float in
     Ok (Text.of_Z degrees ++ degree_sign ++ " " ++ Text.of_Z minutes
           ++ "' " ++ Flt.fixed 2 seconds
           ++ String Text.quote2 EmptyString ++ " " ++ direction))))))
    (fun _ => Ok "Conversion error").

(** ** Pass 1: [_get_file_info] *)

Definition _get_file_info (w : World) (image_path : pypath)
  : result (dict pyval) :=
  returned
    (try_except
       (stat <- call (os_stat w image_path) ;;
        path <- call (os_path_abspath w image_path) ;;
        store "File_Path" (VStr path) ;;
        name <- call (OsPath.basename image_path) ;;
        store "File_Name" (VStr name) ;;
        store "File_Size_Bytes" (VInt (st_size stat)) ;;
        mb <- call (Flt.div_int (st_size stat) (1024 * 1024)) ;;
        store "File_Size_MB" (VStr (Flt.fixed 2 mb)) ;;
        created <- call (datetime_isoformat w (st_ctime stat)) ;;
        store "File_Created" (VStr created) ;;
        modified <- call (datetime_isoformat w (st_mtime stat)) ;;
        store "File_Modified" (VStr modified) ;;
        ext <- call (OsPath.splitext_ext image_path) ;;
        store "File_Extension" (VStr (Text.lower ext)))
       (fun _ => ret tt)).

(** ** exifread values as the program sees them *)

(** [repr] of a number of a tag: a [Ratio] prints as a reduced
    fraction, as an integer when its denominator is one. *)
Definition num_text (x : tagnum) : string :=
  match x with
  | NInt n => Text.of_Z n
  | NRatio n d =>
      if (d =? 0)%Z then Text.of_Z n ++ "/0"
      else let '(a, b) := gcd_reduced n d in
           if (b =? 1)%Z then Text.of_Z a
           else Text.of_Z a ++ "/" ++ Text.of_Z b
  end.

(** [str(tag.values)]. *)
Definition values_text (vs : tagvalues) : string :=
  match vs with
  | ValText s => s
  | ValNums l => "[" ++ Text.join ", " (map num_text l) ++ "]"
  end.

(** [str(value)]. *)
Definition exif_str (value : exif_value) : string :=
  match value with
  | ETag t => printable t
  | EBytes b => Text.bytes_repr b
  end.

(** [value.values]. *)
Definition exif_values (value : exif_value) : result tagvalues :=
  match value with
  | ETag t => Ok (values t)
  | EBytes _ => Raise "'bytes' object has no attribute 'values'"
  end.

Definition raw_of_exif (value : exif_value) : rawvalue :=
  match value with
  | ETag t => RawObject (Ok (values_text (values t))) (printable t)
  | EBytes b => RawBytes b
  end.

(** ** Pass 2: [_deep_exifread] *)

Definition _deep_exifread (w : World) (image_path : pypath)
  : result (dict pyval) :=
  returned
    (try_except
       (content <- call (read_file w image_path) ;;
        tags <- call (exifread_process_file w content true) ;;
        for_each tags
          (fun '(tag, value) =>
             if Text.mem tag ["JPEGThumbnail"; "TIFFThumbnail"] then ret tt
             else
               processed <- call (_process_exif_value (raw_of_exif value)) ;;
               match processed with
               | Some text =>
                   when (negb (Text.is_empty text)
                         && negb (Text.is_empty (Text.strip text)))
                        (store ("EXIFDEEP_" ++ tag) (VStr text))
               | None => ret tt
               end))
       (fun _ => ret tt)).

(** ** Pass 3: [_extended_pil_exif] *)

(** [value in [None, "", b'', 0]]. *)
Definition is_blank (value : rawvalue) : bool :=
  match value with
  | RawVal VNone => true
  | RawVal (VStr s) => Text.is_empty s
  | RawVal (VInt n) => (n =? 0)%Z
  | RawVal (VFloat x) => (x =? 0)%float
  | RawBytes b => match b with [] => true | _ => false end
  | _ => false
  end.

(** [value in [None, "", b'', 0, []]]. *)
Definition is_blank_or_empty_list (value : rawvalue) : bool :=
  match value with
  | RawSeq true [] => true
  | _ => is_blank value
  end.

(** [processed = self._process_exif_value(value)] followed by
    [if processed: local[key] = processed]. *)
Definition store_processed (key : string) (value : rawvalue) : M unit :=
  processed <- call (_process_exif_value value) ;;
  OSINTEnhancer.if_text processed (fun text => store key (VStr text)).

Definition size_text (img : PilImage) : string :=
  Text.of_Z (img_width img) ++ "x" ++ Text.of_Z (img_height img).

Definition _extended_pil_exif (w : World) (image_path : pypath)
  : result (dict pyval) :=
  returned
    (try_except
       (img <- call (pil_open w image_path) ;;
        store "PIL_Format" (VStr (str (img_format img))) ;;
        store "PIL_Mode" (VStr (img_mode img)) ;;
        store "PIL_Size" (VStr (size_text img)) ;;
        store "PIL_Width" (VInt (img_width img)) ;;
        store "PIL_Height" (VInt (img_height img)) ;;
        store "PIL_Bands" (VStr (img_bands_text img)) ;;
        exif_data <- call (img_getexif img) ;;
        match exif_data with
        | Some tags =>
            for_each tags
              (fun '(tag_name, value) =>
                 if is_blank value then ret tt
                 else store_processed ("PILEXIF_" ++ tag_name) value)
        | None => ret tt
        end ;;
        for_each (img_info img)
          (fun '(key, value) =>
             when (negb (Text.mem key ["exif"; "icc_profile"]))
                  (store ("PILINFO_" ++ key) (VStr (info_text value)))))
       (fun _ => ret tt)).

(** ** Pass 4: [_low_level_piexif] *)

Definition _low_level_piexif (w : World) (image_path : pypath)
  : result (dict pyval) :=
  returned
    (try_except
       (exif_dict <- call (piexif_load w image_path) ;;
        for_each ["0th"; "Exif"; "GPS"; "1st"; "Interop"]
          (fun ifd_name =>
             match get exif_dict ifd_name with
             | Some tags =>
                 for_each tags
                   (fun '(tag, value) =>
                      try_except
                        (tag_name <- call (piexif_tag_name w ifd_name tag) ;;
                         if is_blank_or_empty_list value then ret tt
                         else store_processed
                                ("PIEXIF_" ++ ifd_name ++ "_" ++ tag_name)
                                value)
                        (fun e =>
                           store ("PIEXIF_ERROR_" ++ ifd_name ++ "_"
                                    ++ Text.of_Z tag)
                                 (VStr ("Tag error: " ++ e))))
             | None => ret tt
             end))
       (fun _ => ret tt)).

(** ** Pass 5: [_detailed_gps] *)

(** [selected = {}] filled by [selected[tag] = value] for the tags that
    [keep] accepts. *)
Definition select (keep : string -> bool) (tags : dict exif_value)
  : dict exif_value :=
  fold_left (fun acc tv => if keep (fst tv) then set acc (fst tv) (snd tv)
                           else acc)
            tags [].

(** [d[k]]. *)
Definition item_of {V : Type} (d : dict V) (k : string) : result V :=
  match get d k with
  | Some v => Ok v
  | None => Raise (String Text.quote1 k ++ String Text.quote1 EmptyString)
  end.

Definition gps_mapping : list (string * string) :=
  [("GPS GPSAltitude", "Altitude");
   ("GPS GPSTimeStamp", "TimeStamp");
   ("GPS GPSDate", "Date");
   ("GPS GPSProcessingMethod", "ProcessingMethod");
   ("GPS GPSSpeed", "Speed");
   ("GPS GPSTrack", "Track");
   ("GPS GPSImgDirection", "ImageDirection")].

(** The hemisphere step: the reference is stored in upper case, and the
    coordinate changes sign when it is [flip]. *)
Definition apply_ref (gps_data : dict exif_value) (ref_tag out_key flip : string)
           (x : float) : M float :=
  match get gps_data ref_tag with
  | Some r =>
      let ref := Text.upper (exif_str r) in
      store out_key (VStr ref) ;;
      ret (if String.eqb ref flip then (- x)%float else x)
  | None => ret x
  end.

(** The block under the inner [try]: the coordinates in their formats. *)
Definition gps_coordinates (gps_data : dict exif_value) : M unit :=
  when (has_key gps_data "GPS GPSLatitude"
        && has_key gps_data "GPS GPSLongitude")
    (lat_tag <- call (item_of gps_data "GPS GPSLatitude") ;;
     lat_values <- call (exif_values lat_tag) ;;
     lat <- call (_convert_gps_coord lat_values) ;;
     lon_tag <- call (item_of gps_data "GPS GPSLongitude") ;;
     lon_values <- call (exif_values lon_tag) ;;
     lon <- call (_convert_gps_coord lon_values) ;;
     lat <- apply_ref gps_data "GPS GPSLatitudeRef" "GPS_Lat_Ref" "S" lat ;;
     lon <- apply_ref gps_data "GPS GPSLongitudeRef" "GPS_Lon_Ref" "W" lon ;;
     store "GPS_Latitude_Decimal" (VStr (Flt.fixed 8 lat)) ;;
     store "GPS_Longitude_Decimal" (VStr (Flt.fixed 8 lon)) ;;
     store "GPS_Coordinates"
           (VStr (Flt.fixed 6 lat ++ ", " ++ Flt.fixed 6 lon)) ;;
     store "GPS_Google_Maps"
           (VStr ("https://maps.google.com/?q="
                    ++ Flt.repr lat ++ "," ++ Flt.repr lon)) ;;
     store "GPS_OpenStreetMap"
           (VStr ("https://www.openstreetmap.org/?mlat="
                    ++ Flt.repr lat ++ "&mlon=" ++ Flt.repr lon)) ;;
     lat_dms <- call (_decimal_to_dms lat true) ;;
     store "GPS_Latitude_DMS" (VStr lat_dms) ;;
     lon_dms <- call (_decimal_to_dms lon false) ;;
     store "GPS_Longitude_DMS" (VStr lon_dms)).

(** The loop over [gps_mapping]: the friendly-named fields. *)
Definition gps_auxiliary (gps_data : dict exif_value) : M unit :=
  for_each gps_mapping
    (fun '(gps_tag, friendly_name) =>
       match get gps_data gps_tag with
       | Some value => store ("GPS_" ++ friendly_name) (VStr (exif_str value))
       | None => ret tt
       end).

(** The first loop: every tag whose name holds "GPS", verbatim. *)
Definition gps_raw (tags : dict exif_value) : M unit :=
  for_each tags
    (fun '(tag, value) =>
       when (Text.contains "GPS" tag)
            (store ("GPS_RAW_" ++ tag) (VStr (exif_str value)))).

Definition _detailed_gps (w : World) (image_path : pypath)
  : result (dict pyval) :=
  returned
    (try_except
       (content <- call (read_file w image_path) ;;
        tags <- call (exifread_process_file w content false) ;;
        let gps_data := select (Text.contains "GPS") tags in
        gps_raw tags ;;
        when (negb (OSINTEnhancer.is_nil gps_data))
          (store "GPS_Presence" (VStr "YES") ;;
           try_except
             (gps_coordinates gps_data)
             (fun e => store "GPS_Error" (VStr ("Coordinate processing: " ++ e))) ;;
           gps_auxiliary gps_data))
       (fun _ => ret tt)).

(** ** Pass 6: [_extract_makernotes] *)

Definition is_makernote (tag : string) : bool :=
  Text.contains "MakerNote" tag || Text.contains "makernote" (Text.lower tag).

Definition _extract_makernotes (w : World) (image_path : pypath)
  : result (dict pyval) :=
  returned
    (try_except
       (content <- call (read_file w image_path) ;;
        tags <- call (exifread_process_file w content false) ;;
        let maker_tags := select is_makernote tags in
        if negb (OSINTEnhancer.is_nil maker_tags) then
          store "MakerNotes_Present" (VStr "YES") ;;
          for_each maker_tags
            (fun '(tag, value) =>
               store_processed ("MAKER_" ++ tag) (raw_of_exif value)) ;;
          store "MakerNotes_Count" (VInt (Z.of_nat (List.length maker_tags)))
        else store "MakerNotes_Present" (VStr "NO"))
       (fun _ => ret tt)).

(** ** Pass 7: [_image_technical_specs] *)

Definition _image_technical_specs (w : World) (image_path : pypath)
  : result (dict pyval) :=
  returned
    (try_except
       (img <- call (pil_open w image_path) ;;
        store "Technical_Format" (img_format img) ;;
        store "Technical_Mode" (VStr (img_mode img)) ;;
        store "Technical_Size" (VStr (size_text img)) ;;
        store "Technical_Width" (VInt (img_width img)) ;;
        store "Technical_Height" (VInt (img_height img)) ;;
        ratio <- call (Flt.div_int (img_width img) (img_height img)) ;;
        store "Technical_Aspect_Ratio" (VStr (Flt.fixed 4 ratio)) ;;
        store "Technical_Color_Bands" (VStr (img_bands_text img)) ;;
        store "Technical_Channels" (VInt (img_bands_count img)) ;;
        try_except
          (let mode := img_mode img in
           if Text.mem mode ["L"; "P"] then store "Technical_Bit_Depth" (VStr "8")
           else if Text.mem mode ["I"; "F"] then store "Technical_Bit_Depth" (VStr "32")
           else if String.eqb mode "RGB" then store "Technical_Bit_Depth" (VStr "24")
           else if String.eqb mode "RGBA" then store "Technical_Bit_Depth" (VStr "32")
           else ret tt)
          (fun _ => ret tt))
       (fun _ => ret tt)).

(** ** Pass 8: [_color_analysis] *)

Definition _color_analysis (w : World) (image_path : pypath)
  : result (dict pyval) :=
  returned
    (try_except
       (img <- call (pil_open w image_path) ;;
        match get (img_info img) "icc_profile" with
        | Some icc_data =>
            store "Color_ICC_Present" (VStr "YES") ;;
            size <- call (info_len icc_data) ;;
            store "Color_ICC_Size_Bytes" (VInt size) ;;
            try_except
              (icc_profile <- call (info_profile icc_data) ;;
               description <- call (icc_description icc_profile) ;;
               store "Color_ICC_Description" (VStr description) ;;
               manufacturer <- call (icc_manufacturer icc_profile) ;;
               store "Color_ICC_Manufacturer" (VStr manufacturer) ;;
               model <- call (icc_model icc_profile) ;;
               store "Color_ICC_Model" (VStr model) ;;
               copyright <- call (icc_copyright icc_profile) ;;
               store "Color_ICC_Copyright" (VStr copyright))
              (fun e => store "Color_ICC_Error" (VStr ("Profile parsing: " ++ e)))
        | None => store "Color_ICC_Present" (VStr "NO")
        end)
       (fun _ => ret tt)).

(** ** Pass 9: [_xmp_iptc_data] *)

(** [a if a != -1 else b] on the result of [find]. *)
Definition or_find (a b : option nat) : option nat :=
  match a with Some _ => a | None => b end.

Definition decode_text (slice : string) : string :=
  Text.decode_ignore (Text.encode slice).

Definition _xmp_iptc_data (w : World) (image_path : pypath)
  : result (dict pyval) :=
  returned
    (try_except
       (content <- call (read_file w image_path) ;;
        let raw := Text.of_bytes content in
        match or_find (Text.find_from "<x:xmpmeta" raw 0)
                      (Text.find_from "<xpacket" raw 0) with
        | Some xmp_start =>
            let end_tag := or_find (Text.find_from "</x:xmpmeta>" raw xmp_start)
                                   (Text.find_from "</xpacket>" raw xmp_start) in
            let end_index := match end_tag with
                             | Some e => (e + 12)%nat
                             | None => (xmp_start + Z.to_nat 20000)%nat
                             end in
            let xmp_raw := Text.slice xmp_start end_index raw in
            try_except
              (store "XMP_Raw" (VStr (decode_text xmp_raw)) ;;
               store "XMP_Present" (VStr "YES"))
              (fun _ =>
                 store "XMP_Raw"
                       (VStr ("raw_bytes_" ++ Text.of_nat (String.length xmp_raw))) ;;
                 store "XMP_Present" (VStr "YES"))
        | None => store "XMP_Present" (VStr "NO")
        end ;;
        if Text.contains "Photoshop 3.0" raw || Text.contains "IPTC" raw
           || Text.contains "8BIM" raw
        then
          store "IPTC_Present" (VStr "YES") ;;
          let sample := Text.slice 0 (Z.to_nat 4000) raw in
          try_except
            (store "IPTC_Sample" (VStr (decode_text sample)))
            (fun _ =>
               store "IPTC_Sample"
                     (VStr ("raw_bytes_" ++ Text.of_nat (String.length sample))))
        else store "IPTC_Present" (VStr "NO"))
       (fun _ => ret tt)).

(** ** Pass 10: [_raw_specific_data] (no [try] of its own) *)

Definition raw_formats : dict string :=
  [(".cr2", "Canon RAW");
   (".nef", "Nikon RAW");
   (".arw", "Sony RAW");
   (".dng", "Digital Negative");
   (".orf", "Olympus RAW");
   (".rw2", "Panasonic RAW")].

Definition _raw_specific_data (image_path : pypath) : result (dict pyval) :=
  returned
    (ext <- call (OsPath.splitext_ext image_path) ;;
     let file_ext := Text.lower ext in
     match get raw_formats file_ext with
     | Some label =>
         store "RAW_Format" (VStr label) ;;
         store "RAW_File" (VStr "YES")
     | None => store "RAW_File" (VStr "NO")
     end).

(** ** [extract_metadata] *)

(** [metadata.update(f(image_path))]. *)
Definition update_from (pass : result (dict pyval)) : M unit :=
  d <- call pass ;; merge d.

(** The body of the [try]. *)
Definition passes (w : World) (image_path : pypath) : result (dict pyval) :=
  returned
    (update_from (_get_file_info w image_path) ;;
     update_from (_deep_exifread w image_path) ;;
     update_from (_extended_pil_exif w image_path) ;;
     update_from (_low_level_piexif w image_path) ;;
     update_from (_detailed_gps w image_path) ;;
     update_from (_extract_makernotes w image_path) ;;
     update_from (_image_technical_specs w image_path) ;;
     update_from (_color_analysis w image_path) ;;
     update_from (_xmp_iptc_data w image_path) ;;
     update_from (_raw_specific_data image_path)).

Definition extract_metadata (w : World) (image_path : pypath)
  : result (dict pyval) :=
  rcatch (passes w image_path)
         (fun e => Ok [("Error", VStr ("Extraction failed: " ++ e))]).

(** The results of the ten passes, in pass order. *)
Definition pass_results (w : World) (image_path : pypath)
  : list (result (dict pyval)) :=
  [_get_file_info w image_path; _deep_exifread w image_path;
   _extended_pil_exif w image_path; _low_level_piexif w image_path;
   _detailed_gps w image_path; _extract_makernotes w image_path;
   _image_technical_specs w image_path; _color_analysis w image_path;
   _xmp_iptc_data w image_path; _raw_specific_data image_path].

(** ** [extract_osint_metadata] *)

Definition extract_osint_metadata (w : World) (image_path : pypath)
  : result (dict pyval) :=
  rcatch
    (rbind (extract_metadata w image_path) (fun basic_metadata =>
     rbind (new_enhancer w) (fun _ =>
     OSINTEnhancer.enhance_metadata w basic_metadata image_path)))
    (fun _ => extract_metadata w image_path).

End UltraMetadataExtractor.

(* ================================================================== *)
(** * gui.py: the grouping of [MetadataTree.show_metadata] *)
(* ================================================================== *)

Module MetadataTree.

(** The names of the groups, in the order of the [categories] literal. *)
Definition category_names : list string :=
  ["File Information"; "Camera & Lens"; "Capture Settings";
   "GPS & Location"; "Date & Time"; "Image Properties";
   "Color & Profiles"; "EXIF Data"; "RAW Information";
   "OSINT Intelligence"; "Other Metadata"].

Definition empty_categories : dict (dict pyval) :=
  map (fun name => (name, [])) category_names.

(** The [if]/[elif] chain: the group a key goes to. *)
Definition category_of (key : string) : string :=
  let key_lower := Text.lower key in
  if Text.contains_any ["file_"; "name"; "size"; "path"; "extension"] key_lower
  then "File Information"
  else if Text.contains_any
            ["make"; "model"; "lens"; "serial"; "camera"; "manufacturer"]
            key_lower
  then "Camera & Lens"
  else if Text.contains_any
            ["exposure"; "aperture"; "iso"; "focal"; "shutter"; "white";
             "flash"; "metering"]
            key_lower
  then "Capture Settings"
  else if Text.contains "gps" key_lower then "GPS & Location"
  else if Text.contains_any ["date"; "time"] key_lower then "Date & Time"
  else if Text.contains_any
            ["width"; "height"; "mode"; "format"; "size"; "technical"; "image_"]
            key_lower
  then "Image Properties"
  else if Text.contains_any ["color"; "icc"; "profile"] key_lower
  then "Color & Profiles"
  else if Text.contains "raw" key_lower then "RAW Information"
  else if Text.contains "osint" key_lower then "OSINT Intelligence"
  else if Text.contains "exif" key_lower then "EXIF Data"
  else "Other Metadata".

(** [categories[name][key] = value]. *)
Definition put (categories : dict (dict pyval)) (name key : string)
           (value : pyval) : dict (dict pyval) :=
  set categories name (set (get_default categories name []) key value).

(** [categories[name]]. *)
Definition bucket (categories : dict (dict pyval)) (name : string)
  : dict pyval := get_default categories name [].

(** The grouping loop. *)
Definition group (metadata : dict pyval) : dict (dict pyval) :=
  fold_left (fun categories kv =>
               put categories (category_of (fst kv)) (fst kv) (snd kv))
            metadata empty_categories.

(** A top-level row of the tree: its two columns, and the two columns
    of each row below it. *)
Definition row : Type := string * string * list (string * string).

(** The rows [show_metadata] creates: one per group that is not empty,
    with the number of its fields, over one row per field. *)
Definition show_metadata (metadata : dict pyval) : list row :=
  match metadata with
  | [] => [("No metadata", "Image contains no metadata", [])]
  | _ =>
      flat_map
        (fun '(category_name, fields) =>
           match fields with
           | [] => []
           | _ => [(category_name, Text.of_nat (List.length fields),
                    map (fun '(key, value) => (key, str value)) fields)]
           end)
        (group metadata)
  end.

End MetadataTree.

(* ================================================================== *)
(** * gui.py: [ExtractionWorker] *)
(* ================================================================== *)

Module ExtractionWorker.

(** The signal the worker emits. *)
Inductive signal : Type :=
| finished (result : dict pyval)
| error (msg : string).

Definition run (w : World) (path : pypath) : signal :=
  match UltraMetadataExtractor.extract_osint_metadata w path with
  | Ok result => finished result
  | Raise e => error e
  end.

End ExtractionWorker.

(* ================================================================== *)
(** * gui.py: the map button of [MainWindow] *)
(* ================================================================== *)

Module MainWindow.

(** What [_open_map] does: it returns at once, opens the browser on a
    value of the record, opens it on a [file://] address, or shows the
    box that says no map is available. *)
Inductive map_action : Type :=
| Nothing
| Browse (map_url : pyval)
| BrowseFile (address : string)
| NoMapMessage.

(** The loop over the items, with its two [break]s: [map_file] and
    [map_url] when it ends. *)
Fixpoint scan_map (items : dict pyval) (map_file : pyval) : pyval * pyval :=
  match items with
  | [] => (map_file, VNone)
  | (key, value) :: rest =>
      if Text.contains "OSINT_Map_File" key then scan_map rest value
      else if Text.contains "OSINT_Google_Maps" key then (map_file, value)
      else if Text.contains "GPS_Google_Maps" key then (map_file, value)
      else scan_map rest map_file
  end.

(** [_open_map], on [self.current_metadata] ([None] before the first
    image) and with [os.path.exists]. *)
Definition _open_map (os_path_exists : pyval -> result bool)
           (current_metadata : option (dict pyval)) : result map_action :=
  match current_metadata with
  | None => Ok Nothing
  | Some [] => Ok Nothing
  | Some metadata =>
      let '(map_file, map_url) := scan_map metadata VNone in
      if truthy map_url then Ok (Browse map_url)
      else if truthy map_file then
        rbind (os_path_exists map_file) (fun found =>
          if found then Ok (BrowseFile ("file://" ++ str map_file))
          else Ok NoMapMessage)
      else Ok NoMapMessage
  end.

(** [sum(1 for key in metadata.keys() if 'OSINT_' in key)]. *)
Definition osint_count (metadata : dict pyval) : nat :=
  List.length (filter (fun kv => Text.contains "OSINT_" (fst kv)) metadata).

(** [any('GPS' in key and 'Coordinates' in key for key in ...)]. *)
Definition gps_present (metadata : dict pyval) : bool :=
  existsb (fun kv => Text.contains "GPS" (fst kv)
                     && Text.contains "Coordinates" (fst kv)) metadata.

(** [os.path.basename(path) if path else 'Unknown'], on the value under
    File_Path or [None]. *)
Definition file_name_of (path : pyval) : result string :=
  if truthy path then
    match path with
    | VStr s => OsPath.basename (PathStr s)
    | VInt _ => OsPath.basename (NotAPath "int")
    | VFloat _ => OsPath.basename (NotAPath "float")
    | VNone => OsPath.basename (NotAPath "NoneType")
    end
  else Ok "Unknown".

(** [_on_extraction_finished]: the rows of the tree and the message of
    the status bar. *)
Definition _on_extraction_finished (metadata : dict pyval)
  : list MetadataTree.row * string :=
  let path := if has_key metadata "File_Path"
              then get_default metadata "File_Path" VNone else VNone in
  (MetadataTree.show_metadata metadata,
   match file_name_of path with
   | Ok file_name =>
       let status_msg :=
         "Loaded: " ++ file_name ++ " | Total: "
           ++ Text.of_nat (List.length metadata) ++ " | OSINT: "
           ++ Text.of_nat (osint_count metadata) in
       if gps_present metadata then status_msg ++ " | GPS Located"
       else status_msg
   | Raise _ => "Error updating UI"
   end).

(** The slots connected to the two signals of the worker: the message
    of the status bar when the worker is done. *)
Definition status_after (s : ExtractionWorker.signal) : string :=
  match s with
  | ExtractionWorker.finished metadata => snd (_on_extraction_finished metadata)
  | ExtractionWorker.error _ => "Error processing image"
  end.

End MainWindow.

(* ================================================================== *)
(** * cli.py *)
(* ================================================================== *)

Module Cli.

(** The document [write_json] serialises. *)
Record Payload : Type := {
  source_file : string;
  extracted_at : string;
  metadata : dict pyval
}.

(** The file system and the clock as the command line sees them. *)
Record Os : Type := {
  (** [os.path.isfile(p)], [os.path.exists(p)] *)
  os_path_isfile : string -> bool;
  os_path_exists : string -> bool;
  (** [os.listdir(p)] *)
  os_listdir : string -> result (list string);
  (** [os.walk(p)]: the directory, its sub-directories, its files *)
  os_walk : string -> list (string * list string * list string);
  (** [os.makedirs(p, exist_ok=True)] *)
  os_makedirs : string -> result unit;
  (** [os.path.abspath(p)] *)
  abspath : string -> string;
  (** [datetime.now().isoformat()] *)
  now_isoformat : string;
  (** [open(p, 'w', encoding='utf-8')] followed by [json.dump] *)
  json_dump : string -> Payload -> result unit
}.

Definition exts : list string :=
  [".jpg"; ".jpeg"; ".png"; ".tiff"; ".tif"; ".webp"; ".bmp"; ".cr2";
   ".nef"; ".arw"; ".orf"; ".rw2"; ".dng"].

(** [os.path.splitext(f)[1].lower() in exts]. *)
Definition listed (f : string) : bool :=
  Text.mem (Text.lower (OsPath.ext_from false (OsPath.after_last "/" f))) exts.

(** [find_images]: the paths the generator yields, in order; a failing
    [os.listdir] raises before the first of them. *)
Definition find_images (os : Os) (root : string) (recursive : bool)
  : result (list string) :=
  if os_path_isfile os root then Ok [root]
  else if negb (os_path_exists os root) then Ok []
  else if recursive then
    Ok (flat_map (fun '(dirpath, _, files) =>
                    map (OsPath.join dirpath) (filter listed files))
                 (os_walk os root))
  else
    rbind (os_listdir os root) (fun names =>
      Ok (filter (os_path_isfile os)
                 (map (OsPath.join root) (filter listed names)))).

(** [write_json], with the default suffix; [out_dir] is [None] or a
    text. *)
Definition write_json (os : Os) (data : dict pyval) (src_path : string)
           (out_dir : option string) : result string :=
  let base := OsPath.after_last "/" src_path in
  let name := OsPath.splitext_root base in
  let out_name := name ++ "_metadata" ++ ".json" in
  let beside := Ok (OsPath.join (OsPath.dirname src_path) out_name) in
  rbind (match out_dir with
         | Some dir =>
             if negb (Text.is_empty dir)
             then rbind (os_makedirs os dir) (fun _ =>
                  Ok (OsPath.join dir out_name))
             else beside
         | None => beside
         end)
        (fun out_path =>
           let payload := {| source_file := abspath os src_path;
                             extracted_at := now_isoformat os;
                             metadata := data |} in
           rbind (json_dump os out_path payload) (fun _ =>
           Ok out_path)).

(** The parsed arguments. *)
Record Args : Type := {
  path : string;
  recursive : bool;
  no_osint : bool;
  out : option string;
  limit : Z
}.

(** The body of the [try] for one image: the path of the file written. *)
Definition process (w : World) (os : Os) (args : Args) (img : string)
  : result string :=
  rbind (if no_osint args
         then UltraMetadataExtractor.extract_metadata w (PathStr img)
         else UltraMetadataExtractor.extract_osint_metadata w (PathStr img))
        (fun data => write_json os data img (out args)).

(** The loop of [main]: the count and the lines printed. *)
Fixpoint loop (w : World) (os : Os) (args : Args) (imgs : list string)
         (count : Z) (printed : list string) : Z * list string :=
  match imgs with
  | [] => (count, printed)
  | img :: rest =>
      if negb (limit args =? 0)%Z && (limit args <=? count)%Z
      then (count, printed)
      else
        let printed := List.app printed ["Processing: " ++ img] in
        match process w os args img with
        | Ok out_path =>
            loop w os args rest (count + 1)%Z
                 (List.app printed
                           ["Saved metadata -> " ++ out_path
                              ++ String (Text.chr 10) EmptyString])
        | Raise e =>
            loop w os args rest count
                 (List.app printed ["Failed " ++ img ++ ": " ++ e])
        end
  end.

(** [main]: the lines printed, ending with the count. *)
Definition main (w : World) (os : Os) (args : Args) : result (list string) :=
  rbind (find_images os (path args) (recursive args)) (fun imgs =>
    let '(count, printed) := loop w os args imgs 0%Z [] in
    Ok (List.app printed ["Done. Processed: " ++ Text.of_Z count])).

End Cli.

(* ================================================================== *)
(** * Worlds used to run the program on concrete inputs *)
(* ================================================================== *)

Module Scenario.

(** A machine with no network, no files and no readable images: every
    collaborator raises. *)
Definition offline : World :=
  {| os_stat := fun _ => Raise "[Errno 2] No such file or directory";
     os_path_abspath := fun _ => Raise "[Errno 2] No such file or directory";
     read_file := fun _ => Raise "[Errno 2] No such file or directory";
     datetime_isoformat := fun _ => Raise "timestamp out of range";
     tempfile_gettempdir := Raise "No usable temporary directory found";
     md5_hexdigest := fun _ => "d41d8cd98f00b204e9800998ecf8427e";
     sha1_hexdigest := fun _ => "da39a3ee5e6b4b0d3255bfef95601890afd80709";
     sha256_hexdigest := fun _ =>
       "e3b0c44298fc1c149afbf4c8996fb92427ae41e4649b934ca495991b7852b855";
     new_enhancer := Ok tt;
     geolocator_reverse := fun _ _ => Raise "Service timed out";
     rg_search := fun _ _ => Raise "Service timed out";
     folium_map := fun _ _ => Raise "folium unavailable";
     folium_save := fun _ _ _ => Raise "folium unavailable";
     exifread_process_file := fun _ _ => Raise "File format not recognized.";
     pil_open := fun _ => Raise "cannot identify image file";
     piexif_load := fun _ => Raise "Given file is neither JPEG nor TIFF.";
     piexif_tag_name := fun _ _ => Raise "0" |}.

(** The same machine with a geocoder that answers and finds nothing at
    the coordinate (open sea). *)
Definition nothing_found : World :=
  {| os_stat := os_stat offline;
     os_path_abspath := os_path_abspath offline;
     read_file := read_file offline;
     datetime_isoformat := datetime_isoformat offline;
     tempfile_gettempdir := tempfile_gettempdir offline;
     md5_hexdigest := md5_hexdigest offline;
     sha1_hexdigest := sha1_hexdigest offline;
     sha256_hexdigest := sha256_hexdigest offline;
     new_enhancer := new_enhancer offline;
     geolocator_reverse := fun _ _ => Ok None;
     rg_search := fun _ _ => Ok [];
     folium_map := folium_map offline;
     folium_save := folium_save offline;
     exifread_process_file := exifread_process_file offline;
     pil_open := pil_open offline;
     piexif_load := piexif_load offline;
     piexif_tag_name := piexif_tag_name offline |}.

Definition latitude_values : tagvalues :=
  ValNums [NRatio 40 1; NRatio 26 1; NRatio 234 5].

Definition longitude_values : tagvalues :=
  ValNums [NRatio 79 1; NRatio 58 1; NRatio 563 10].

(** The two coordinates as the conversion computes them in binary64. *)
Definition latitude : float := (40 + 26 / 60 + (468 / 10) / 3600)%float.

Definition longitude_west : float := (79 + 58 / 60 + (563 / 10) / 3600)%float.

(** The URL of the scenario. *)
Definition scenario_url : string :=
  "https://maps.google.com/?q=40.44633333333333,-79.98230555555556".

(** The GPS tags of the spec's scenario: 40 deg 26 min 46.8 s north,
    79 deg 58 min 56.3 s west. *)
Definition pittsburgh_tags : dict exif_value :=
  [("GPS GPSLatitudeRef", ETag {| printable := "N"; values := ValText "N" |});
   ("GPS GPSLatitude",
    ETag {| printable := "[40, 26, 234/5]"; values := latitude_values |});
   ("GPS GPSLongitudeRef", ETag {| printable := "W"; values := ValText "W" |});
   ("GPS GPSLongitude",
    ETag {| printable := "[79, 58, 563/10]"; values := longitude_values |})].

(** A machine on which the file reads and the tag reader returns those
    tags. *)
Definition pittsburgh : World :=
  {| os_stat := os_stat offline;
     os_path_abspath := os_path_abspath offline;
     read_file := fun _ => Ok [];
     datetime_isoformat := datetime_isoformat offline;
     tempfile_gettempdir := tempfile_gettempdir offline;
     md5_hexdigest := md5_hexdigest offline;
     sha1_hexdigest := sha1_hexdigest offline;
     sha256_hexdigest := sha256_hexdigest offline;
     new_enhancer := new_enhancer offline;
     geolocator_reverse := geolocator_reverse offline;
     rg_search := rg_search offline;
     folium_map := folium_map offline;
     folium_save := folium_save offline;
     exifread_process_file := fun _ _ => Ok pittsburgh_tags;
     pil_open := pil_open offline;
     piexif_load := piexif_load offline;
     piexif_tag_name := piexif_tag_name offline |}.

(** A record with two decimal latitudes. *)
Definition two_latitudes : dict pyval :=
  [("GPS_Latitude_Decimal", VStr "10.0");
   ("GPS_Latitude_Decimal_Backup", VStr "20.0");
   ("GPS_Longitude_Decimal", VStr "30.0")].

(** A record whose first "make" key is empty and whose first "model"
    key is also a "make" key. *)
Definition maker_note_first : dict pyval :=
  [("Make", VStr "");
   ("MakerNote Model", VStr "A");
   ("Image Model", VStr "B")].

(** A machine on which the geocoder times out and only the map
    renderer and the temporary directory work. *)
Definition geocoder_down : World :=
  {| os_stat := os_stat offline;
     os_path_abspath := os_path_abspath offline;
     read_file := read_file offline;
     datetime_isoformat := datetime_isoformat offline;
     tempfile_gettempdir := Ok "/tmp";
     md5_hexdigest := md5_hexdigest offline;
     sha1_hexdigest := sha1_hexdigest offline;
     sha256_hexdigest := sha256_hexdigest offline;
     new_enhancer := new_enhancer offline;
     geolocator_reverse := fun _ _ => Raise "Service timed out";
     rg_search := rg_search offline;
     folium_map := fun _ _ => Ok tt;
     folium_save := fun _ _ _ => Ok tt;
     exifread_process_file := exifread_process_file offline;
     pil_open := pil_open offline;
     piexif_load := piexif_load offline;
     piexif_tag_name := piexif_tag_name offline |}.

(** A base record with a coordinate, a camera and a capture date. *)
Definition geotagged : dict pyval :=
  [("EXIFDEEP_Image Make", VStr "Canon");
   ("EXIFDEEP_Image Model", VStr "EOS 5D");
   ("EXIFDEEP_EXIF DateTimeOriginal", VStr "2021:06:01 10:00:00");
   ("GPS_Latitude_Decimal", VStr "40.44633333");
   ("GPS_Longitude_Decimal", VStr "-79.98230556")].

(** A record with a capture date, and the record its enrichment gives
    on the machine with no network and no files. *)
Definition dated : dict pyval :=
  [("EXIFDEEP_EXIF DateTimeOriginal", VStr "2021:06:01 10:00:00")].

Definition dated_enriched : dict pyval :=
  [("EXIFDEEP_EXIF DateTimeOriginal", VStr "2021:06:01 10:00:00");
   ("OSINT_Timestamps_Found", VInt 1);
   ("OSINT_Time_1",
    VStr "EXIFDEEP_EXIF DateTimeOriginal: 2021:06:01 10:00:00");
   ("OSINT_Forensic_Error", VStr "[Errno 2] No such file or directory")].

(** A machine on which files can be stat'ed and read (here an empty
    file), with no image decoder and no network. *)
Definition card_reader : World :=
  {| os_stat := fun _ => Ok {| st_size := 0; st_ctime := 0; st_mtime := 0 |};
     os_path_abspath := fun _ => Ok "/media/card/IMG_1234.CR2";
     read_file := fun _ => Ok [];
     datetime_isoformat := fun _ => Ok "1970-01-01T00:00:00";
     tempfile_gettempdir := tempfile_gettempdir offline;
     md5_hexdigest := md5_hexdigest offline;
     sha1_hexdigest := sha1_hexdigest offline;
     sha256_hexdigest := sha256_hexdigest offline;
     new_enhancer := new_enhancer offline;
     geolocator_reverse := geolocator_reverse offline;
     rg_search := rg_search offline;
     folium_map := folium_map offline;
     folium_save := folium_save offline;
     exifread_process_file := exifread_process_file offline;
     pil_open := pil_open offline;
     piexif_load := piexif_load offline;
     piexif_tag_name := piexif_tag_name offline |}.

(** A PNG image without EXIF block and without colour profile, and a
    machine on which it opens and the tag reader finds no tag. *)
Definition png_image : PilImage :=
  {| img_format := VStr "PNG";
     img_mode := "RGB";
     img_width := 640;
     img_height := 480;
     img_bands_text := "('R', 'G', 'B')";
     img_bands_count := 3;
     img_getexif := Ok None;
     img_info := [] |}.

Definition photo_viewer : World :=
  {| os_stat := os_stat card_reader;
     os_path_abspath := fun _ => Ok "/home/user/picture.png";
     read_file := read_file card_reader;
     datetime_isoformat := datetime_isoformat card_reader;
     tempfile_gettempdir := tempfile_gettempdir offline;
     md5_hexdigest := md5_hexdigest offline;
     sha1_hexdigest := sha1_hexdigest offline;
     sha256_hexdigest := sha256_hexdigest offline;
     new_enhancer := new_enhancer offline;
     geolocator_reverse := geolocator_reverse offline;
     rg_search := rg_search offline;
     folium_map := folium_map offline;
     folium_save := folium_save offline;
     exifread_process_file := fun _ _ => Ok [];
     pil_open := fun _ => Ok png_image;
     piexif_load := piexif_load offline;
     piexif_tag_name := piexif_tag_name offline |}.

(** The same image with an embedded colour profile of 3144 bytes that
    parses, and with one that does not; a machine on which a given image
    opens. *)
Definition srgb : IccProfile :=
  {| icc_description := Ok "sRGB IEC61966-2.1";
     icc_manufacturer := Ok "IEC http://www.iec.ch";
     icc_model := Ok "IEC 61966-2.1 Default RGB colour space - sRGB";
     icc_copyright := Ok "Copyright (c) 1998 Hewlett-Packard Company" |}.

Definition with_profile (profile : result IccProfile) : PilImage :=
  {| img_format := img_format png_image;
     img_mode := img_mode png_image;
     img_width := img_width png_image;
     img_height := img_height png_image;
     img_bands_text := img_bands_text png_image;
     img_bands_count := img_bands_count png_image;
     img_getexif := img_getexif png_image;
     img_info := [("icc_profile",
                   {| info_text := "b'...'";
                      info_len := Ok 3144%Z;
                      info_profile := profile |})] |}.

Definition showing (img : PilImage) : World :=
  {| os_stat := os_stat photo_viewer;
     os_path_abspath := os_path_abspath photo_viewer;
     read_file := read_file photo_viewer;
     datetime_isoformat := datetime_isoformat photo_viewer;
     tempfile_gettempdir := tempfile_gettempdir photo_viewer;
     md5_hexdigest := md5_hexdigest photo_viewer;
     sha1_hexdigest := sha1_hexdigest photo_viewer;
     sha256_hexdigest := sha256_hexdigest photo_viewer;
     new_enhancer := new_enhancer photo_viewer;
     geolocator_reverse := geolocator_reverse photo_viewer;
     rg_search := rg_search photo_viewer;
     folium_map := folium_map photo_viewer;
     folium_save := folium_save photo_viewer;
     exifread_process_file := exifread_process_file photo_viewer;
     pil_open := fun _ => Ok img;
     piexif_load := piexif_load photo_viewer;
     piexif_tag_name := piexif_tag_name photo_viewer |}.

(** A record with one key per camera marker. *)
Definition canon_body : dict pyval :=
  [("EXIFDEEP_Image Make", VStr "Canon");
   ("EXIFDEEP_Image Model", VStr "EOS 5D");
   ("EXIFDEEP_EXIF BodySerialNumber", VStr "0123456789")].

(** A record whose coordinate resolves to a point in the open sea. *)
Definition open_sea : dict pyval :=
  [("GPS_Latitude_Decimal", VStr "0.00000000");
   ("GPS_Longitude_Decimal", VStr "0.00000000")].


(** A location the geocoder knows by its town, not by a city. *)
Definition village : Location :=
  {| loc_address := "Main Street, Smallville, Freedonia";
     loc_raw_address :=
       Some [("road", VStr "Main Street"); ("town", VStr "Smallville");
             ("country", VStr "Freedonia")] |}.

(** A machine whose geocoder answers with that location and whose
    offline lookup has no data file. *)
Definition online : World :=
  {| os_stat := os_stat offline;
     os_path_abspath := os_path_abspath offline;
     read_file := read_file offline;
     datetime_isoformat := datetime_isoformat offline;
     tempfile_gettempdir := tempfile_gettempdir offline;
     md5_hexdigest := md5_hexdigest offline;
     sha1_hexdigest := sha1_hexdigest offline;
     sha256_hexdigest := sha256_hexdigest offline;
     new_enhancer := new_enhancer offline;
     geolocator_reverse := fun _ _ => Ok (Some village);
     rg_search := fun _ _ => Raise "rg_cities1000.csv not found";
     folium_map := folium_map offline;
     folium_save := folium_save offline;
     exifread_process_file := exifread_process_file offline;
     pil_open := pil_open offline;
     piexif_load := piexif_load offline;
     piexif_tag_name := piexif_tag_name offline |}.

(** A machine on which every file reads as a short XMP packet followed
    by a Photoshop resource marker. *)
Definition packet : string := "<x:xmpmeta>a</x:xmpmeta>8BIM".

Definition sidecar : World :=
  {| os_stat := os_stat offline;
     os_path_abspath := os_path_abspath offline;
     read_file := fun _ => Ok (Text.encode packet);
     datetime_isoformat := datetime_isoformat offline;
     tempfile_gettempdir := tempfile_gettempdir offline;
     md5_hexdigest := md5_hexdigest offline;
     sha1_hexdigest := sha1_hexdigest offline;
     sha256_hexdigest := sha256_hexdigest offline;
     new_enhancer := new_enhancer offline;
     geolocator_reverse := geolocator_reverse offline;
     rg_search := rg_search offline;
     folium_map := folium_map offline;
     folium_save := folium_save offline;
     exifread_process_file := exifread_process_file offline;
     pil_open := pil_open offline;
     piexif_load := piexif_load offline;
     piexif_tag_name := piexif_tag_name offline |}.

(** A folder with two photographs and a text file, in which every file
    can be written. *)
Definition folder : Cli.Os :=
  {| Cli.os_path_isfile := fun p =>
       Text.mem p ["photos/a.JPG"; "photos/notes.txt"; "photos/b.png"];
     Cli.os_path_exists := fun p =>
       Text.mem p ["photos"; "photos/a.JPG"; "photos/notes.txt";
                   "photos/b.png"];
     Cli.os_listdir := fun p =>
       if String.eqb p "photos" then Ok ["a.JPG"; "notes.txt"; "b.png"]
       else Raise "[Errno 20] Not a directory";
     Cli.os_walk := fun p =>
       if String.eqb p "photos"
       then [("photos", [], ["a.JPG"; "notes.txt"; "b.png"])]
       else [];
     Cli.os_makedirs := fun _ => Ok tt;
     Cli.abspath := fun p => "/home/user/" ++ p;
     Cli.now_isoformat := "2024-01-01T00:00:00";
     Cli.json_dump := fun _ _ => Ok tt |}.

(** The command line [photos], with its defaults. *)
Definition photos : Cli.Args :=
  {| Cli.path := "photos";
     Cli.recursive := false;
     Cli.no_osint := false;
     Cli.out := None;
     Cli.limit := 0 |}.

(** The tags of a photograph with a maker note, a blank comment and a
    thumbnail, and a machine on which the tag reader returns them. *)
Definition nikon_tags : dict exif_value :=
  [("Image Make",
    ETag {| printable := "NIKON"; values := ValText "NIKON" |});
   ("MakerNote Quality",
    ETag {| printable := "FINE"; values := ValText "FINE" |});
   ("EXIF UserComment",
    ETag {| printable := "   "; values := ValText "   " |});
   ("JPEGThumbnail", EBytes [])].

Definition nikon : World :=
  {| os_stat := os_stat offline;
     os_path_abspath := os_path_abspath offline;
     read_file := fun _ => Ok [];
     datetime_isoformat := datetime_isoformat offline;
     tempfile_gettempdir := tempfile_gettempdir offline;
     md5_hexdigest := md5_hexdigest offline;
     sha1_hexdigest := sha1_hexdigest offline;
     sha256_hexdigest := sha256_hexdigest offline;
     new_enhancer := new_enhancer offline;
     geolocator_reverse := geolocator_reverse offline;
     rg_search := rg_search offline;
     folium_map := folium_map offline;
     folium_save := folium_save offline;
     exifread_process_file := fun _ _ => Ok nikon_tags;
     pil_open := pil_open offline;
     piexif_load := piexif_load offline;
     piexif_tag_name := piexif_tag_name offline |}.

(** Characters outside ASCII that the case mappings and [float] treat
    like ASCII ones: the Kelvin sign U+212A, whose lower case is "k";
    the long s U+017F, whose upper case is "S"; the fullwidth digits
    U+FF11 U+FF12, read as 12; the Arabic-Indic digit U+0663, read
    as 3. *)
Definition kelvin_sign : string := Text.of_point 8490.

Definition long_s : string := Text.of_point 383.

Definition fullwidth_twelve : string := Text.of_points [65297; 65298]%Z.

Definition arabic_three : string := Text.of_point 1635.

(** A record whose only key is MA, the Kelvin sign, E. *)
Definition kelvin_make : dict pyval :=
  [("MA" ++ kelvin_sign ++ "E", VStr "Canon")].

(** Two decimal latitudes that differ, the second in fullwidth digits. *)
Definition fullwidth_latitudes : dict pyval :=
  [("GPS_Latitude_Decimal", VStr "1");
   ("GPS_Latitude_Decimal_Backup", VStr fullwidth_twelve);
   ("GPS_Longitude_Decimal", VStr "3")].

(** GPS tags whose latitude reference is the long s, whose longitude
    reference is a small "e" and whose longitude is the one ratio
    0/-5. *)
Definition southern_tags : dict exif_value :=
  [("GPS GPSLatitudeRef",
    ETag {| printable := long_s; values := ValText long_s |});
   ("GPS GPSLatitude",
    ETag {| printable := "[10, 30, 0]";
            values := ValNums [NInt 10; NInt 30; NInt 0] |});
   ("GPS GPSLongitudeRef",
    ETag {| printable := "e"; values := ValText "e" |});
   ("GPS GPSLongitude",
    ETag {| printable := "[0/-5]"; values := ValNums [NRatio 0 (-5)] |})].

Definition southern : World :=
  {| os_stat := os_stat offline;
     os_path_abspath := os_path_abspath offline;
     read_file := fun _ => Ok [];
     datetime_isoformat := datetime_isoformat offline;
     tempfile_gettempdir := tempfile_gettempdir offline;
     md5_hexdigest := md5_hexdigest offline;
     sha1_hexdigest := sha1_hexdigest offline;
     sha256_hexdigest := sha256_hexdigest offline;
     new_enhancer := new_enhancer offline;
     geolocator_reverse := geolocator_reverse offline;
     rg_search := rg_search offline;
     folium_map := folium_map offline;
     folium_save := folium_save offline;
     exifread_process_file := fun _ _ => Ok southern_tags;
     pil_open := pil_open offline;
     piexif_load := piexif_load offline;
     piexif_tag_name := piexif_tag_name offline |}.

End Scenario.

(* ================================================================== *)
(** * The specification's wording, as definitions to compare with *)
(* ================================================================== *)

Module Spec.

(** Section 4.5: the ordered rule table of the category classifier,
    markers first, category second, highest priority first. *)
Definition category_rules : list (list string * string) :=
  [(["file_"; "name"; "size"; "path"; "extension"], "File Information");
   (["make"; "model"; "lens"; "serial"; "camera"; "manufacturer"],
    "Camera & Lens");
   (["exposure"; "aperture"; "iso"; "focal"; "shutter"; "white"; "flash";
     "metering"], "Capture Settings");
   (["gps"], "GPS & Location");
   (["date"; "time"], "Date & Time");
   (["width"; "height"; "mode"; "format"; "size"; "technical"; "image_"],
    "Image Properties");
   (["color"; "icc"; "profile"], "Color & Profiles");
   (["raw"], "RAW Information");
   (["osint"], "OSINT Intelligence");
   (["exif"], "EXIF Data")].

(** The category of the first rule one of whose markers is in the key,
    else the last category. *)
Fixpoint first_match (rules : list (list string * string))
         (key_lower : string) : string :=
  match rules with
  | [] => "Other Metadata"
  | (markers, category) :: rest =>
      if Text.contains_any markers key_lower then category
      else first_match rest key_lower
  end.

(** The first item of [l] on which [f] answers, and the last one. *)
Fixpoint first_some {X A : Type} (f : X -> option A) (l : list X)
  : option A :=
  match l with
  | [] => None
  | x :: l' => match f x with
               | Some a => Some a
               | None => first_some f l'
               end
  end.

Definition last_some {X A : Type} (f : X -> option A) (l : list X)
  : option A := first_some f (rev l).

Definition or_else {A : Type} (o fallback : option A) : option A :=
  match o with Some _ => o | None => fallback end.

(** An assignment to a variable holding [acc], made when [o] is there. *)
Definition assign {A : Type} (o acc : option A) : option A := or_else o acc.

Definition parsed (r : result float) : option float :=
  match r with Ok x => Some x | Raise _ => None end.

(** Section 4.2, tier one: a key holding a GPS marker, "decimal" and
    the name of the component, with a value that parses as a float. *)
Definition decimal_of (component : string) (item : string * pyval)
  : option float :=
  let key_lower := Text.lower (fst item) in
  if Text.contains "gps" key_lower && Text.contains "decimal" key_lower
     && Text.contains component key_lower
  then parsed (float_of (snd item))
  else None.

(** The same for the longitude as the program tests it: after the
    latitude, in an [elif]. *)
Definition decimal_longitude_of (item : string * pyval) : option float :=
  if Text.contains "latitude" (Text.lower (fst item)) then None
  else decimal_of "longitude" item.

(** Tier two: the two comma-separated parts of the value of a key
    holding "coordinates". *)
Definition pair_parts (item : string * pyval) : option (string * string) :=
  if Text.contains "coordinates" (Text.lower (fst item)) then
    match Text.split "," (str (snd item)) with
    | [c0; c1] => Some (Text.strip c0, Text.strip c1)
    | _ => None
    end
  else None.

(** The latitude such a key gives: its first part, when it parses. *)
Definition pair_latitude_of (item : string * pyval) : option float :=
  match pair_parts item with
  | Some (c0, _) => parsed (Flt.parse c0)
  | None => None
  end.

(** The longitude such a key gives: its second part, when both parse. *)
Definition pair_longitude_of (item : string * pyval) : option float :=
  match pair_parts item with
  | Some (c0, c1) =>
      match Flt.parse c0 with
      | Ok _ => parsed (Flt.parse c1)
      | Raise _ => None
      end
  | None => None
  end.

(** The resolution in which the last successful parse of each
    component wins, in tier one and then in tier two. *)
Definition resolve_last_wins (record : dict pyval) : option (float * float) :=
  let lat := last_some (decimal_of "latitude") record in
  let lon := last_some decimal_longitude_of record in
  match lat, lon with
  | Some x, Some y => Some (x, y)
  | _, _ =>
      match or_else (last_some pair_latitude_of record) lat,
            or_else (last_some pair_longitude_of record) lon with
      | Some x, Some y => Some (x, y)
      | _, _ => None
      end
  end.

(** Section 8, a well-formed record: all the items on which [f]
    answers give the same answer (as when at most one key plays the
    role). *)
Definition agree {X A : Type} (f : X -> option A) (l : list X) : Prop :=
  forall x y a b, In x l -> In y l -> f x = Some a -> f y = Some b -> a = b.

(** Section 4.4, camera analysis: the text of the value under the first
    key, in record order, whose lower-cased name holds [marker]. *)
Definition first_key_with (marker : string) (record : dict pyval)
  : option string :=
  first_some (fun item => if Text.contains marker (Text.lower (fst item))
                          then Some (str (snd item)) else None)
             record.

(** The text of an item whose key holds [marker], when that text is not
    empty. *)
Definition named (marker : string) (item : string * pyval) : option string :=
  if Text.contains marker (Text.lower (fst item))
     && negb (Text.is_empty (str (snd item)))
  then Some (str (snd item)) else None.

(** The first such text, in record order. *)
Definition first_nonempty_with (marker : string) (record : dict pyval)
  : option string := first_some (named marker) record.

(** A variable that is [None] or an empty text counts as not set. *)
Definition taken (o : option string) : option string :=
  match o with
  | Some s => if Text.is_empty s then None else Some s
  | None => None
  end.

(** The camera loop branch by branch.  [before] holds the items the
    scan has passed.  The make branch takes every key whose name holds
    "make" as long as no make was found before it. *)
Definition holds (marker : string) (item : string * pyval) : bool :=
  Text.contains marker (Text.lower (fst item)).

Definition found {A : Type} (o : option A) : bool :=
  match o with Some _ => true | None => false end.

Definition make_takes (before : dict pyval) (item : string * pyval) : bool :=
  holds "make" item && negb (found (first_nonempty_with "make" before)).

(** The first item of [l] on which [f] answers, [f] being told the
    items before it. *)
Fixpoint first_some_after {X A : Type} (f : list X -> X -> option A)
         (before l : list X) : option A :=
  match l with
  | [] => None
  | x :: l' => match f before x with
               | Some a => Some a
               | None => first_some_after f (before ++ [x])%list l'
               end
  end.

(** The model: from the first key holding "model", with a text that is
    not empty, that the make branch does not take. *)
Definition model_for (before : dict pyval) (item : string * pyval)
  : option string :=
  if make_takes before item then None else named "model" item.

Definition first_model (record : dict pyval) : option string :=
  first_some_after model_for [] record.

(** The model branch takes every key holding "model" that the make
    branch leaves, as long as no model was found before it. *)
Definition model_takes (before : dict pyval) (item : string * pyval) : bool :=
  negb (make_takes before item) && holds "model" item
  && negb (found (first_model before)).

(** The serial: from the first key holding "serial", with a text that
    is not empty, that neither of the two branches takes. *)
Definition serial_for (before : dict pyval) (item : string * pyval)
  : option string :=
  if make_takes before item || model_takes before item then None
  else named "serial" item.

Definition first_serial (record : dict pyval) : option string :=
  first_some_after serial_for [] record.

(** The fields the analysis emits from the three variables. *)
Definition camera_fields (w : World) (mk mo sr : option string)
           (camera_data : dict pyval) : Prop :=
  get camera_data "OSINT_Camera_Make" = option_map VStr mk
  /\ get camera_data "OSINT_Camera_Model" = option_map VStr mo
  /\ get camera_data "OSINT_Camera_Serial" = option_map VStr sr
  /\ get camera_data "OSINT_Serial_Hash_MD5"
     = option_map (fun s => VStr (md5_hexdigest w (Text.encode s))) sr
  /\ get camera_data "OSINT_Serial_Hash_SHA1"
     = option_map (fun s => VStr (sha1_hexdigest w (Text.encode s))) sr
  /\ get camera_data "OSINT_Device_Fingerprint"
     = match mk, mo with
       | Some a, Some b => Some (VStr (a ++ " " ++ b))
       | _, _ => None
       end
  /\ get camera_data "OSINT_Device_Search"
     = match mk, mo with
       | Some a, Some b =>
           Some (VStr ("https://www.google.com/search?q="
                         ++ a ++ "+" ++ b ++ "+camera"))
       | _, _ => None
       end.

(** Section 4.4: the six labels of the location type. *)
Definition location_labels : list pyval :=
  [VStr "Airport/Transport"; VStr "Tourist location"; VStr "Historic site";
   VStr "Leisure area"; VStr "Water area"; VStr "Urban/Residential"].

(** A key name holds at most one of the three camera markers. *)
Definition one_marker (key : string) : bool :=
  let k := Text.lower key in
  let a := Text.contains "make" k in
  let b := Text.contains "model" k in
  let c := Text.contains "serial" k in
  negb ((a && b) || (a && c) || (b && c)).

(** Section 3: every enrichment field carries the reserved prefix. *)
Definition reserved (key : string) : bool := Text.starts_with "OSINT_" key.

(** Section 3: a base record, none of whose keys carries the prefix that
    distinguishes the enrichment fields from the base fields. *)
Definition base_record (d : dict pyval) : bool :=
  forallb (fun k => negb (reserved k)) (keys d).

(** The fields each analysis of section 4.4 may write. *)
Definition gps_keys : list string :=
  ["OSINT_Coordinates"; "OSINT_Country"; "OSINT_Country_Code"; "OSINT_State";
   "OSINT_City"; "OSINT_Postcode"; "OSINT_Road"; "OSINT_Full_Address";
   "OSINT_RG_Country"; "OSINT_RG_City"; "OSINT_RG_Admin1"; "OSINT_RG_Admin2";
   "OSINT_Google_Maps"; "OSINT_OpenStreetMap"; "OSINT_Bing_Maps";
   "OSINT_Yandex_Maps"; "OSINT_What3Words"; "OSINT_Altitude_Analysis";
   "OSINT_Location_Type"; "OSINT_GPS_Error"].

Definition camera_keys : list string :=
  ["OSINT_Camera_Make"; "OSINT_Camera_Model"; "OSINT_Camera_Serial";
   "OSINT_Serial_Hash_MD5"; "OSINT_Serial_Hash_SHA1";
   "OSINT_Device_Fingerprint"; "OSINT_Device_Search"; "OSINT_Lens_Info";
   "OSINT_Camera_Error"].

Definition forensic_keys : list string :=
  ["OSINT_MD5_Hash"; "OSINT_SHA1_Hash"; "OSINT_SHA256_Hash";
   "OSINT_File_Size_Bytes"; "OSINT_File_Created"; "OSINT_File_Modified";
   "OSINT_Filename_Analysis"; "OSINT_Filename_Pattern";
   "OSINT_Forensic_Error"].

Definition is_gps_key (k : string) : bool := Text.mem k gps_keys.
Definition is_camera_key (k : string) : bool := Text.mem k camera_keys.
Definition is_forensic_key (k : string) : bool := Text.mem k forensic_keys.

Definition is_time_key (k : string) : bool := Text.starts_with "OSINT_Time" k.

Definition is_network_key (k : string) : bool :=
  Text.starts_with "OSINT_URL_In_" k
  || Text.starts_with "OSINT_Email_Like_In_" k
  || String.eqb k "OSINT_Network_Error".

(** [if map_path: enhanced["OSINT_Map_File"] = map_path]. *)
Definition with_map (map_path : option string) (enhanced : dict pyval)
  : dict pyval :=
  match map_path with
  | Some path => if Text.is_empty path then enhanced
                 else set enhanced "OSINT_Map_File" (VStr path)
  | None => enhanced
  end.

(** Section 4.3: the fields of the file-attribute pass, and the fields
    of the nine passes after it, told apart by their prefixes. *)
Definition is_file_key (k : string) : bool := Text.starts_with "File_" k.

Definition is_later_key (k : string) : bool :=
  negb (Text.starts_with "File_" k) && negb (Text.starts_with "OSINT_" k).

(** Section 4.3, namespacing: the prefixes under which each of the ten
    passes writes, in pass order. *)
Definition has_prefix (prefixes : list string) (k : string) : bool :=
  existsb (fun p => Text.starts_with p k) prefixes.

Definition file_prefixes : list string := ["File_"].
Definition exifread_prefixes : list string := ["EXIFDEEP_"].
Definition pil_prefixes : list string := ["PIL_"; "PILEXIF_"; "PILINFO_"].
Definition piexif_prefixes : list string := ["PIEXIF_"].
Definition gps_prefixes : list string := ["GPS_"].
Definition maker_prefixes : list string := ["MakerNotes_"; "MAKER_"].
Definition technical_prefixes : list string := ["Technical_"].
Definition color_prefixes : list string := ["Color_"].
Definition xmp_prefixes : list string := ["XMP_"; "IPTC_"].
Definition raw_prefixes : list string := ["RAW_"].

(** No prefix of [ps] is a prefix of, or extends, a prefix of [qs]. *)
Definition apart (ps qs : list string) : bool :=
  forallb (fun p =>
             forallb (fun q => negb (Text.starts_with p q
                                     || Text.starts_with q p)) qs) ps.

(** The friendly-named fields of the detailed GPS pass. *)
Definition is_auxiliary_key (k : string) : bool :=
  Text.mem k (map (fun p => "GPS_" ++ snd p) UltraMetadataExtractor.gps_mapping).

(** The map links, the altitude flag and the location type of the GPS
    analysis. *)
Definition gps_network_keys : list string :=
  ["OSINT_Google_Maps"; "OSINT_OpenStreetMap"; "OSINT_Bing_Maps";
   "OSINT_Yandex_Maps"; "OSINT_What3Words"; "OSINT_Altitude_Analysis";
   "OSINT_Location_Type"].

(** A coordinate with the sign its reference gives it: negated when the
    reference reads [flip] in any case. *)
Definition signed (flip : string) (ref : option exif_value) (x : float)
  : float :=
  match ref with
  | Some r =>
      if String.eqb (Text.upper (UltraMetadataExtractor.exif_str r)) flip
      then (- x)%float else x
  | None => x
  end.

(** The seven fields the detailed GPS pass derives from a coordinate. *)
Definition coordinate_keys : list string :=
  ["GPS_Latitude_Decimal"; "GPS_Longitude_Decimal"; "GPS_Coordinates";
   "GPS_Google_Maps"; "GPS_OpenStreetMap"; "GPS_Latitude_DMS";
   "GPS_Longitude_DMS"].

(** The keys of the raw GPS tags, and of the coordinate block. *)
Definition is_gps_raw_key (k : string) : bool :=
  Text.starts_with "GPS_RAW_" k.

Definition is_coordinate_key (k : string) : bool :=
  Text.mem k (coordinate_keys ++ ["GPS_Lat_Ref"; "GPS_Lon_Ref"])%list.

(** The keys of the time analysis. *)
Definition time_keys : list string :=
  ["OSINT_Timestamps_Found"; "OSINT_Time_1"; "OSINT_Time_2"; "OSINT_Time_3";
   "OSINT_Time_4"; "OSINT_Time_5"; "OSINT_Time_Analysis"; "OSINT_Timezone"].

(** The two indicator fields a source field may give rise to. *)
Definition url_indicator (v : pyval) : option pyval :=
  if Text.contains "http" (Text.lower (str v)) then Some (VStr (str v))
  else None.

Definition email_indicator (v : pyval) : option pyval :=
  if Text.contains "@" (str v) && Text.contains "." (str v)
  then Some (VStr (str v)) else None.

(** [k'] is an indicator key of one of the fields of [l]. *)
Definition indicator_of (l : dict pyval) (k' : string) : bool :=
  existsb (fun kv => String.eqb k' ("OSINT_URL_In_" ++ fst kv)
                     || String.eqb k' ("OSINT_Email_Like_In_" ++ fst kv)) l.

(** The body of the loop of the network analysis. *)
Definition network_body (item : string * pyval) : M unit :=
  let '(key, value) := item in
  let str_value := str value in
  bind (when (Text.contains "http" (Text.lower str_value))
             (store ("OSINT_URL_In_" ++ key) (VStr str_value)))
       (fun _ =>
          when (Text.contains "@" str_value && Text.contains "." str_value)
               (store ("OSINT_Email_Like_In_" ++ key) (VStr str_value))).

(** The fields of a record that belong to the group [name], in record
    order. *)
Definition fields_of (name : string) (metadata : dict pyval) : dict pyval :=
  filter (fun kv => String.eqb (MetadataTree.category_of (fst kv)) name)
         metadata.

(** The tree as the section on the interface describes it: the groups in
    their fixed order, each group that has fields with the number of its
    fields, over its fields in record order. *)
Definition rows_of (metadata : dict pyval) : list MetadataTree.row :=
  flat_map (fun name =>
              match fields_of name metadata with
              | [] => []
              | fields =>
                  [(name, Text.of_nat (List.length fields),
                    map (fun kv => (fst kv, str (snd kv))) fields)]
              end)
           MetadataTree.category_names.

(** The number of field rows below the group rows. *)
Definition field_rows (rows : list MetadataTree.row) : nat :=
  list_sum (map (fun r => List.length (snd r)) rows).

(** [m] keeps the property [Q] of the fields of the dictionary it
    fills. *)
Definition keeps (Q : string -> pyval -> bool) {A : Type} (m : M A) : Prop :=
  forall d,
    (forall k v, get d k = Some v -> Q k v = true) ->
    forall k v, get (fst (m d)) k = Some v -> Q k v = true.

(** The prefixes of the fields that hold a normalised value. *)
Definition normalised_prefixes : list string :=
  ["EXIFDEEP_"; "PILEXIF_"; "PIEXIF_"; "MAKER_"].

(** A text that is not empty. *)
Definition filled (v : pyval) : bool :=
  match v with
  | VStr s => negb (Text.is_empty s)
  | _ => false
  end.

(** A text that is more than white space. *)
Definition visible (v : pyval) : bool :=
  match v with
  | VStr s => negb (Text.is_empty (Text.strip s))
  | _ => false
  end.

(** Under a normalised prefix the value is a text that is not empty,
    and under EXIFDEEP_ it is more than white space. *)
Definition never_empty (k : string) (v : pyval) : bool :=
  implb (has_prefix normalised_prefixes k) (filled v)
  && implb (Text.starts_with "EXIFDEEP_" k) (visible v).

(** A key that names the link [_open_map] follows: a map link of the
    enrichment or of the GPS pass, and no map file. *)
Definition is_link_key (k : string) : bool :=
  negb (Text.contains "OSINT_Map_File" k)
  && (Text.contains "OSINT_Google_Maps" k
      || Text.contains "GPS_Google_Maps" k).

(** The value of the first link key, [None] without one. *)
Definition first_link (record : dict pyval) : pyval :=
  match find (fun kv => is_link_key (fst kv)) record with
  | Some (_, value) => value
  | None => VNone
  end.

(** The items before the first link key. *)
Fixpoint before_link (record : dict pyval) : dict pyval :=
  match record with
  | [] => []
  | kv :: rest => if is_link_key (fst kv) then [] else kv :: before_link rest
  end.

(** The value of the last map-file key before the first link key,
    [None] without one. *)
Definition last_map_file (record : dict pyval) : pyval :=
  match last_some (fun kv => if Text.contains "OSINT_Map_File" (fst kv)
                             then Some (snd kv) else None)
                  (before_link record) with
  | Some value => value
  | None => VNone
  end.

(** The choice of the map button in words: the first link if it is
    truthy, else the last map file named before it if that is truthy
    and exists, else the message. *)
Definition map_choice (os_path_exists : pyval -> result bool)
           (record : dict pyval) : result MainWindow.map_action :=
  if truthy (first_link record) then Ok (MainWindow.Browse (first_link record))
  else if truthy (last_map_file record) then
    rbind (os_path_exists (last_map_file record)) (fun found =>
      Ok (if found
          then MainWindow.BrowseFile ("file://" ++ str (last_map_file record))
          else MainWindow.NoMapMessage))
  else Ok MainWindow.NoMapMessage.

(** The images of a list that [main] processes without failure. *)
Definition processed (w : World) (os : Cli.Os) (args : Cli.Args)
           (imgs : list string) : list string :=
  filter (fun img => match Cli.process w os args img with
                     | Ok _ => true
                     | Raise _ => false
                     end) imgs.

(** The count [main] reports: the images processed without failure,
    capped by a limit that is not zero; a negative limit stops the loop
    at once. *)
Definition reported (limit successes : Z) : Z :=
  if (limit =? 0)%Z then successes
  else Z.max 0 (Z.min limit successes).

(** The file name the status bar shows for a path: the last component
    of its absolute path when the file can be stat'ed, else "Unknown". *)
Definition shown_name (w : World) (image_path : pypath) : string :=
  match os_stat w image_path, os_path_abspath w image_path with
  | Ok _, Ok p => if Text.is_empty p then "Unknown"
                  else OsPath.after_last "/" p
  | _, _ => "Unknown"
  end.

(** What the deep EXIF pass reports for a tag: nothing for a thumbnail,
    else the normalised value when it is more than white space. *)
Definition deep_value (item : string * exif_value) : option pyval :=
  if Text.mem (fst item) ["JPEGThumbnail"; "TIFFThumbnail"] then None
  else
    match UltraMetadataExtractor._process_exif_value
            (UltraMetadataExtractor.raw_of_exif (snd item)) with
    | Ok (Some text) =>
        if negb (Text.is_empty text) && negb (Text.is_empty (Text.strip text))
        then Some (VStr text) else None
    | _ => None
    end.

(** What the maker-note pass reports for a maker-note tag: the
    normalised value when it is not empty. *)
Definition maker_value (item : string * exif_value) : option pyval :=
  match UltraMetadataExtractor._process_exif_value
          (UltraMetadataExtractor.raw_of_exif (snd item)) with
  | Ok (Some text) => if negb (Text.is_empty text) then Some (VStr text)
                      else None
  | _ => None
  end.

(** [k'] is [p] followed by the name of one of the items of [l]. *)
Definition named_after {X : Type} (p : string) (l : dict X) (k' : string)
  : bool :=
  existsb (fun kv => String.eqb k' (p ++ fst kv)) l.

(** The bit depth reported for a mode of the decoder. *)
Definition bit_depth (mode : string) : option string :=
  if Text.mem mode ["L"; "P"] then Some "8"
  else if Text.mem mode ["I"; "F"] then Some "32"
  else if String.eqb mode "RGB" then Some "24"
  else if String.eqb mode "RGBA" then Some "32"
  else None.

(** A text of ASCII characters only, and the same text with each of its
    letters A to Z replaced by the small letter and nothing else
    changed: what "case-insensitive" means for such a text. *)
Definition is_ascii (s : string) : bool :=
  Text.all_chars (fun c => N.ltb (Text.code c) 128) s.

Definition ascii_lower (s : string) : string :=
  Text.map_chars Text.lower_char s.

(** The same with each of the letters a to z replaced by the capital
    letter. *)
Definition ascii_upper (s : string) : string :=
  Text.map_chars Text.upper_char s.

End Spec.

(* ================================================================== *)
(** * Properties *)
(* ================================================================== *)

Import OSINTEnhancer UltraMetadataExtractor.

(** ** DMS to decimal degrees *)

Section ConvertGpsCoord.

Local Open Scope float_scope.

(** C6.  The conversion of a tag's values to decimal degrees: three (or
    more) items give [d + m/60 + s/3600] from the first three, two items
    give [d + m/60], one item gives its value, no item gives [0.0]; and
    when [float] raises on an item the conversion uses, the result is
    [0.0] and nothing is raised. *)
Theorem convert_gps_coord_cases (vs : tagvalues) :
  (forall v0 v1 v2 rest d m s,
      items vs = v0 :: v1 :: v2 :: rest ->
      float_of_item v0 = Ok d -> float_of_item v1 = Ok m ->
      float_of_item v2 = Ok s ->
      _convert_gps_coord vs = Ok (d + m / 60 + s / 3600))
  /\ (forall v0 v1 d m,
         items vs = [v0; v1] ->
         float_of_item v0 = Ok d -> float_of_item v1 = Ok m ->
         _convert_gps_coord vs = Ok (d + m / 60))
  /\ (forall v0 d,
         items vs = [v0] -> float_of_item v0 = Ok d ->
         _convert_gps_coord vs = Ok d)
  /\ (items vs = [] -> _convert_gps_coord vs = Ok 0)
  /\ (forall v e,
         In v (firstn 3 (items vs)) -> float_of_item v = Raise e ->
         _convert_gps_coord vs = Ok 0)
  /\ (exists x, _convert_gps_coord vs = Ok x).
Proof.
  unfold _convert_gps_coord.
  repeat split.
  - intros v0 v1 v2 rest d m s Hi H0 H1 H2.
    rewrite Hi. simpl. rewrite H0, H1, H2. reflexivity.
  - intros v0 v1 d m Hi H0 H1. rewrite Hi. simpl. rewrite H0, H1. reflexivity.
  - intros v0 d Hi H0. rewrite Hi. simpl. rewrite H0. reflexivity.
  - intros Hi. rewrite Hi. reflexivity.
  - intros v e Hin Hv.
    destruct (items vs) as [|v0 [|v1 [|v2 rest]]]; simpl in Hin.
    + contradiction.
    + destruct Hin as [<-|[]]. simpl. rewrite Hv. reflexivity.
    + simpl. destruct Hin as [<-|[<-|[]]].
      * rewrite Hv. reflexivity.
      * destruct (float_of_item v0); simpl; [rewrite Hv|]; reflexivity.
    + simpl. destruct Hin as [<-|[<-|[<-|[]]]].
      * rewrite Hv. reflexivity.
      * destruct (float_of_item v0); simpl; [rewrite Hv|]; reflexivity.
      * destruct (float_of_item v0); simpl; [|reflexivity].
        destruct (float_of_item v1); simpl; [rewrite Hv|]; reflexivity.
  - destruct (items vs) as [|v0 [|v1 [|v2 rest]]]; simpl.
    + eauto.
    + destruct (float_of_item v0); simpl; eauto.
    + destruct (float_of_item v0); simpl; eauto.
      destruct (float_of_item v1); simpl; eauto.
    + destruct (float_of_item v0); simpl; eauto.
      destruct (float_of_item v1); simpl; eauto.
      destruct (float_of_item v2); simpl; eauto.
Qed.

(** The latitude of the spec's scenario, through the first case. *)
Lemma convert_gps_coord_witness :
  _convert_gps_coord (ValNums [NRatio 40 1; NRatio 26 1; NRatio 234 5])
  = Ok (40 + 26 / 60 + (468 / 10) / 3600).
Proof.
  apply (proj1 (convert_gps_coord_cases
                  (ValNums [NRatio 40 1; NRatio 26 1; NRatio 234 5]))
               (INum (NRatio 40 1)) (INum (NRatio 26 1)) (INum (NRatio 234 5))
               [] 40 26 (468 / 10));
    vm_compute; reflexivity.
Defined.

(** The value of an item is what [float] gives: a ratio is taken in
    lowest terms with a positive denominator, so that 0/-5 is 0.0 and
    not -0.0; a ratio with denominator 0 raises; a one-character item
    may be a decimal digit of any script, and no other character is a
    number. *)
Example float_of_item_examples :
  float_of_item (INum (NInt 7)) = Ok 7
  /\ float_of_item (INum (NRatio 234 5)) = Ok (468 / 10)
  /\ float_of_item (INum (NRatio 3 (-4))) = Ok (-0.75)
  /\ float_of_item (INum (NRatio 0 (-5))) = Ok 0
  /\ float_of_item (INum (NRatio 1 0)) = Raise "division by zero"
  /\ float_of_item (IChar "7") = Ok 7
  /\ float_of_item (IChar Scenario.arabic_three) = Ok 3
  /\ float_of_item (IChar "N") = Raise "could not convert string to float".
Proof. repeat split; vm_compute; reflexivity. Qed.

(** The same through the conversion: one digit, one ratio, and the two
    failures. *)
Example convert_gps_coord_examples :
  _convert_gps_coord (ValText Scenario.arabic_three) = Ok 3
  /\ _convert_gps_coord (ValNums [NRatio 0 (-5)]) = Ok 0
  /\ Flt.repr 0 = "0.0"
  /\ _convert_gps_coord (ValNums [NInt 40; NRatio 1 0]) = Ok 0
  /\ _convert_gps_coord (ValText "N") = Ok 0.
Proof. repeat split; vm_compute; reflexivity. Qed.

End ConvertGpsCoord.

(** ** Value normalisation of byte strings *)

Section ProcessExifValue.

Variable p : ascii -> bool.
Variable sp1 : ascii -> bool.

(** Stripping keeps only characters of the text. *)
Lemma all_chars_lstrip_bounded (n : nat) :
  forall s, String.length s <= n ->
            Text.all_chars p s = true ->
            Text.all_chars p (Text.lstrip_by sp1 s) = true.
Proof.
  induction n as [|n IH]; intros s Hlen Hall.
  - destruct s; [reflexivity | simpl in Hlen; lia].
  - destruct s as [|c1 s1]; [reflexivity|].
    simpl in Hlen. simpl in Hall.
    apply andb_true_iff in Hall as [H1 Hs1].
    simpl. destruct (sp1 c1).
    { apply IH; [lia | exact Hs1]. }
    destruct s1 as [|c2 s2].
    { simpl. rewrite H1. reflexivity. }
    simpl in Hlen. simpl in Hs1.
    apply andb_true_iff in Hs1 as [H2 Hs2].
    destruct (Text.is_space2 c1 c2).
    { apply IH; [lia | exact Hs2]. }
    destruct s2 as [|c3 s3].
    { simpl. rewrite H1, H2. reflexivity. }
    simpl in Hlen. simpl in Hs2.
    apply andb_true_iff in Hs2 as [H3 Hs3].
    destruct (Text.is_space3 c1 c2 c3).
    { apply IH; [lia | exact Hs3]. }
    simpl. rewrite H1, H2, H3, Hs3. reflexivity.
Qed.

Lemma all_chars_lstrip (s : string) :
  Text.all_chars p s = true ->
  Text.all_chars p (Text.lstrip_by sp1 s) = true.
Proof. apply (all_chars_lstrip_bounded (String.length s)). lia. Qed.

Lemma all_chars_rstrip (s : string) :
  Text.all_chars p s = true ->
  Text.all_chars p (Text.rstrip_by sp1 s) = true.
Proof.
  induction s as [|c s IH]; intros Hall; [reflexivity|].
  cbn [Text.rstrip_by].
  destruct (Text.is_empty (Text.lstrip_by sp1 (String c s))); [reflexivity|].
  simpl in *. apply andb_true_iff in Hall as [Hc Hs].
  rewrite Hc, (IH Hs). reflexivity.
Qed.

Lemma all_chars_strip (s : string) :
  Text.all_chars p s = true ->
  Text.all_chars p (Text.strip_by sp1 s) = true.
Proof.
  intros H. unfold Text.strip_by.
  apply all_chars_rstrip, all_chars_lstrip, H.
Qed.

End ProcessExifValue.

(** Bytes below 0x80 decode to themselves. *)
Lemma decode_ignore_ascii (bs : list byte) :
  Forall (fun b => N.ltb (Text.byte_code b) 128 = true) bs ->
  Text.decode_ignore bs = Text.of_bytes bs.
Proof.
  induction 1 as [|b bs Hb _ IH]; [reflexivity|].
  cbn [Text.decode_ignore]. cbv zeta. rewrite Hb, IH. reflexivity.
Qed.

Lemma all_chars_of_blank_bytes (bs : list byte) :
  Forall (fun b => b = x00 \/ b = x20) bs ->
  Text.all_chars is_nul_or_space (Text.of_bytes bs) = true.
Proof.
  induction 1 as [|b bs Hb _ IH]; [reflexivity|].
  change (Text.of_bytes (b :: bs))
    with (String (ascii_of_byte b) (Text.of_bytes bs)).
  cbn [Text.all_chars]. rewrite IH.
  destruct Hb as [-> | ->]; reflexivity.
Qed.

(** C7.  A byte string made of null bytes and spaces only is normalised
    to the placeholder that names the length of the byte string itself. *)
Theorem process_exif_value_blank_bytes (B : list byte) :
  Forall (fun b => b = x00 \/ b = x20) B ->
  _process_exif_value (RawBytes B)
  = Ok (Some ("binary_data_" ++ Text.of_nat (List.length B) ++ "_bytes")).
Proof.
  intros HB.
  assert (Hdec : Text.decode_ignore B = Text.of_bytes B).
  { apply decode_ignore_ascii.
    eapply Forall_impl; [|exact HB].
    intros b [-> | ->]; reflexivity. }
  unfold _process_exif_value, binary_placeholder, Text.strip. cbn [rcatch].
  rewrite Hdec.
  rewrite (all_chars_strip _ _ _ (all_chars_of_blank_bytes B HB)).
  rewrite andb_false_r. reflexivity.
Qed.

(** Two null bytes around a space. *)
Lemma process_exif_value_blank_bytes_witness :
  _process_exif_value (RawBytes [x00; x20; x00])
  = Ok (Some "binary_data_3_bytes").
Proof.
  apply (process_exif_value_blank_bytes [x00; x20; x00]).
  repeat (apply Forall_cons; [auto|]). apply Forall_nil.
Defined.

(** Section 4.1: normalisation never raises; a sequence that is not
    empty gives its items joined by "|"; and the result is absent exactly
    for [None], for an empty sequence, and for a scalar whose text is
    empty once stripped. *)
Theorem process_exif_value_outcomes (value : rawvalue) :
  (exists r, _process_exif_value value = Ok r)
  /\ (forall is_list items,
         value = RawSeq is_list items -> items <> [] ->
         _process_exif_value value = Ok (Some (Text.join "|" items)))
  /\ (_process_exif_value value = Ok None
      <-> value = RawVal VNone
          \/ (exists is_list, value = RawSeq is_list [])
          \/ (exists v, value = RawVal v
                        /\ Text.is_empty (Text.strip (str v)) = true)).
Proof.
  unfold _process_exif_value.
  split; [|split].
  - destruct value as [v| b | [t|e] text |is_list [|i items]];
      try destruct v; simpl; eauto;
      match goal with
      | |- context [if ?c then _ else _] => destruct c; simpl; eauto
      end.
  - intros is_list items -> Hne.
    destruct items as [|i items]; [contradiction | reflexivity].
  - split.
    + destruct value as [v| b | [t|e] text |is_list [|i items]]; simpl;
        try discriminate; eauto.
      * intros H. destruct v; [auto | right; right ..]; eexists;
          (split; [reflexivity|]); simpl in H;
          destruct (Text.is_empty (Text.strip _));
          (reflexivity || discriminate H).
      * match goal with
        | |- context [if ?c then _ else _] => destruct c; discriminate
        end.
    + intros [-> | [[is_list ->] | [v [-> H]]]]; try reflexivity.
      destruct v; simpl in *; [reflexivity | rewrite H; reflexivity ..].
Qed.

(** ** Dictionaries *)

Section DictFacts.

Context {V : Type}.
Implicit Types (d e : dict V) (k : string) (v : V).

Lemma get_set d k v k' :
  get (set d k v) k' = if String.eqb k' k then Some v else get d k'.
Proof.
  induction d as [|[k0 v0] d IH]; simpl.
  - reflexivity.
  - destruct (String.eqb k k0) eqn:E; simpl.
    + apply String.eqb_eq in E. subst k0.
      destruct (String.eqb k' k); reflexivity.
    + rewrite IH. destruct (String.eqb k' k0) eqn:E0; [|reflexivity].
      apply String.eqb_eq in E0. subst k0.
      rewrite String.eqb_sym, E. reflexivity.
Qed.

Lemma get_set_same d k v : get (set d k v) k = Some v.
Proof. rewrite get_set, String.eqb_refl. reflexivity. Qed.

Lemma get_set_other d k v k' :
  k' <> k -> get (set d k v) k' = get d k'.
Proof.
  intros H. rewrite get_set.
  destruct (String.eqb k' k) eqn:E; [|reflexivity].
  apply String.eqb_eq in E. contradiction.
Qed.

Lemma has_key_set d k v k' :
  has_key (set d k v) k' = (String.eqb k' k || has_key d k')%bool.
Proof.
  unfold has_key. rewrite get_set.
  destruct (String.eqb k' k); reflexivity.
Qed.

Lemma has_key_existsb d k :
  has_key d k = existsb (fun kv => String.eqb k (fst kv)) d.
Proof.
  unfold has_key. induction d as [|[k0 v0] d IH]; simpl; [reflexivity|].
  destruct (String.eqb k k0); [reflexivity | exact IH].
Qed.

Lemma has_key_In d k : has_key d k = true <-> In k (keys d).
Proof.
  rewrite has_key_existsb, existsb_exists. unfold keys. rewrite in_map_iff.
  split.
  - intros [kv [Hin E]]. apply String.eqb_eq in E. exists kv. auto.
  - intros [kv [E Hin]]. exists kv. split; [exact Hin|].
    apply String.eqb_eq. auto.
Qed.

(** What [d.update(e)] leaves under a key [e] does not have. *)
Lemma get_update_other d e k :
  has_key e k = false -> get (update d e) k = get d k.
Proof.
  unfold update. revert d.
  induction e as [|[k0 v0] e IH]; intros d H; simpl; [reflexivity|].
  rewrite has_key_existsb in H. simpl in H.
  apply orb_false_iff in H as [H0 He].
  rewrite IH by (rewrite has_key_existsb; exact He).
  apply get_set_other. intros ->. rewrite String.eqb_refl in H0. discriminate.
Qed.

Lemma has_key_update d e k :
  has_key (update d e) k = (has_key d k || has_key e k)%bool.
Proof.
  unfold update. revert d.
  induction e as [|[k0 v0] e IH]; intros d; simpl.
  - rewrite orb_false_r. reflexivity.
  - rewrite IH, has_key_set.
    rewrite (has_key_existsb ((k0, v0) :: e)). simpl.
    rewrite <- has_key_existsb.
    destruct (String.eqb k k0), (has_key d k), (has_key e k); reflexivity.
Qed.

End DictFacts.

(** ** Case mapping *)

Section CaseMapping.

Import Spec.

(** The characters of a text that goes on with ASCII characters. *)
Lemma chars_ascii c s :
  is_ascii s = true ->
  Text.chars (String c s) = String c EmptyString :: Text.chars s.
Proof.
  destruct s as [|c' s']; intros H; [reflexivity|].
  assert (Hc' : Text.in_range 128 191 c' = false).
  { unfold is_ascii in H. cbn [Text.all_chars] in H.
    apply andb_true_iff in H as [Hc' _].
    apply N.ltb_lt in Hc'. unfold Text.in_range.
    apply andb_false_iff. left. apply N.leb_gt. exact Hc'. }
  change (Text.chars (String c (String c' s')))
    with (if Text.in_range 128 191 c'
          then match Text.chars (String c' s') with
               | w :: ws => String c w :: ws
               | [] => [String c EmptyString]
               end
          else String c EmptyString :: Text.chars (String c' s')).
  rewrite Hc'. reflexivity.
Qed.

Lemma concat_cons (x : string) (l : list string) :
  String.concat EmptyString (x :: l) = x ++ String.concat EmptyString l.
Proof.
  destruct l as [|y l]; [|reflexivity].
  simpl. induction x as [|c x IH]; simpl;
    [reflexivity | rewrite <- IH; reflexivity].
Qed.

Lemma lower_from_ascii (s : string) :
  is_ascii s = true ->
  forall before, Text.lower_from before (Text.chars s) = ascii_lower s.
Proof.
  unfold ascii_lower.
  induction s as [|c s IH]; intros H before; [reflexivity|].
  assert (H' := H). unfold is_ascii in H'.
  cbn [Text.all_chars] in H'. apply andb_true_iff in H' as [Hc Hs].
  assert (Hstep : forall rest,
             Text.lower_from before (String c EmptyString :: rest)
             = String (Text.lower_char c)
                      (Text.lower_from (String c EmptyString :: before) rest)).
  { intros rest. cbn [Text.lower_from]. unfold Text.point. rewrite Hc.
    apply N.ltb_lt in Hc.
    replace (Z.of_N (Text.code c) =? Text.capital_sigma)%Z with false
      by (symmetry; apply Z.eqb_neq; unfold Text.capital_sigma; lia).
    unfold Text.lower_one, Text.point.
    rewrite (proj2 (N.ltb_lt _ _) Hc).
    replace (Z.of_N (Text.code c) <? 128)%Z with true
      by (symmetry; apply Z.ltb_lt; lia).
    reflexivity. }
  rewrite (chars_ascii c s Hs), Hstep. cbn [Text.map_chars]. f_equal.
  apply IH, Hs.
Qed.

(** On a text of ASCII characters [lower] changes the letters A to Z
    and nothing else. *)
Lemma lower_ascii (s : string) :
  is_ascii s = true -> Text.lower s = ascii_lower s.
Proof. intros H. apply lower_from_ascii, H. Qed.

(** And [upper] changes the letters a to z and nothing else. *)
Lemma upper_ascii (s : string) :
  is_ascii s = true -> Text.upper s = ascii_upper s.
Proof.
  unfold Text.upper, ascii_upper.
  induction s as [|c s IH]; intros H; [reflexivity|].
  assert (H' := H). unfold is_ascii in H'. cbn [Text.all_chars] in H'.
  apply andb_true_iff in H' as [Hc Hs].
  rewrite (chars_ascii c s Hs). cbn [map]. rewrite concat_cons, (IH Hs).
  unfold Text.upper_one, Text.point. rewrite Hc.
  apply N.ltb_lt in Hc.
  replace (Z.of_N (Text.code c) <? 128)%Z with true
    by (symmetry; apply Z.ltb_lt; lia).
  reflexivity.
Qed.

(** Outside ASCII: the Kelvin sign and the long s fall on ASCII letters,
    the sharp s becomes two letters in upper case, a capital sigma at
    the end of a word becomes the final sigma, and the dotted capital I
    becomes two code points in lower case. *)
Example lower_upper_examples :
  Text.lower "EXIF Make" = "exif make"
  /\ Text.upper "n" = "N"
  /\ Text.lower Scenario.kelvin_sign = "k"
  /\ Text.upper Scenario.long_s = "S"
  /\ Text.upper ("stra" ++ Text.of_point 223 ++ "e") = "STRASSE"
  /\ Text.lower (Text.of_points [922; 927; 931; 924; 927; 931]%Z)
     = Text.of_points [954; 959; 963; 956; 959; 962]%Z
  /\ Text.lower (Text.of_point 304) = Text.of_points [105; 775]%Z.
Proof. repeat split; vm_compute; reflexivity. Qed.

End CaseMapping.

(** ** The category classifier *)

Section Categories.

Import MetadataTree.

Lemma bucket_put categories name key value name' :
  bucket (put categories name key value) name'
  = if String.eqb name' name then set (bucket categories name) key value
    else bucket categories name'.
Proof.
  unfold bucket, put, get_default. rewrite get_set.
  destruct (String.eqb name' name); reflexivity.
Qed.

Lemma has_key_bucket_fold (metadata : dict pyval) :
  forall categories name key,
    has_key (bucket (fold_left
                       (fun cs kv => put cs (category_of (fst kv)) (fst kv) (snd kv))
                       metadata categories) name) key
    = (has_key (bucket categories name) key
       || existsb (fun kv => String.eqb key (fst kv)
                             && String.eqb name (category_of (fst kv)))
                  metadata)%bool.
Proof.
  induction metadata as [|[k v] metadata IH]; intros categories name key; simpl.
  - rewrite orb_false_r. reflexivity.
  - rewrite IH, bucket_put.
    destruct (String.eqb name (category_of k)) eqn:E.
    + apply String.eqb_eq in E. subst name. rewrite has_key_set.
      rewrite andb_true_r.
      destruct (String.eqb key k), (has_key (bucket categories (category_of k)) key);
        reflexivity.
    + rewrite andb_false_r. reflexivity.
Qed.

Lemma bucket_empty name : bucket empty_categories name = [].
Proof.
  unfold bucket, get_default, empty_categories, category_names. simpl.
  repeat match goal with
         | |- context [String.eqb ?a ?b] => destruct (String.eqb a b); [reflexivity|]
         end.
  reflexivity.
Qed.

(** C9.  The grouping of [show_metadata] puts every key of the record
    into exactly one of the eleven named groups: the group of the first
    rule, in the fixed priority order, one of whose markers is in the
    lower-cased key, else "Other Metadata".  For a key of ASCII
    characters the lower-cased key is the key with its letters A to Z
    made small, so that the case of the key's letters does not matter. *)
Theorem group_by_first_matching_rule (metadata : dict pyval) (key : string) :
  List.length category_names = 11
  /\ NoDup category_names
  /\ category_of key = Spec.first_match Spec.category_rules (Text.lower key)
  /\ (Spec.is_ascii key = true ->
      category_of key
      = Spec.first_match Spec.category_rules (Spec.ascii_lower key))
  /\ In (category_of key) category_names
  /\ forall name,
      has_key (bucket (group metadata) name) key = true
      <-> has_key metadata key = true /\ name = category_of key.
Proof.
  split; [reflexivity|].
  split.
  { unfold category_names.
    repeat (apply NoDup_cons;
            [simpl; intros H;
             repeat (destruct H as [H|H]; [discriminate H|]); exact H|]).
    apply NoDup_nil. }
  split.
  { unfold category_of, Spec.category_rules, Spec.first_match, Text.contains_any.
    cbn [existsb]. rewrite ?orb_false_r. reflexivity. }
  split.
  { intros Hascii. rewrite <- (lower_ascii key Hascii).
    unfold category_of, Spec.category_rules, Spec.first_match, Text.contains_any.
    cbn [existsb]. rewrite ?orb_false_r. reflexivity. }
  split.
  { unfold category_of, category_names.
    repeat match goal with
           | |- In (if ?b then _ else _) _ => destruct b
           end; simpl; auto 12. }
  intros name. unfold group.
  rewrite has_key_bucket_fold, bucket_empty. simpl.
  rewrite has_key_existsb, 2 existsb_exists.
  split.
  - intros [kv [Hin E]]. apply andb_true_iff in E as [E1 E2].
    apply String.eqb_eq in E1, E2. subst. split; [|reflexivity].
    exists kv. split; [exact Hin | apply String.eqb_refl].
  - intros [[kv [Hin E]] ->]. exists kv. split; [exact Hin|].
    apply String.eqb_eq in E. subst. rewrite 2 String.eqb_refl. reflexivity.
Qed.

(** A key in capital letters that holds a camera marker ("make") and,
    later in the priority order, the marker "exif": it goes to the
    camera group, and to no other group. *)
Lemma group_by_first_matching_rule_witness :
  category_of "EXIF LENSMAKE" = "Camera & Lens"
  /\ has_key (bucket (group [("EXIF LENSMAKE", VStr "Canon")])
                     "Camera & Lens") "EXIF LENSMAKE" = true
  /\ has_key (bucket (group [("EXIF LENSMAKE", VStr "Canon")])
                     "EXIF Data") "EXIF LENSMAKE" = false.
Proof.
  destruct (group_by_first_matching_rule [("EXIF LENSMAKE", VStr "Canon")]
                                         "EXIF LENSMAKE")
    as (_ & _ & _ & Hascii & _ & Hgroup).
  assert (Hc : category_of "EXIF LENSMAKE" = "Camera & Lens").
  { rewrite (Hascii eq_refl). reflexivity. }
  split; [exact Hc|]. split.
  - apply Hgroup. split; [reflexivity | symmetry; exact Hc].
  - destruct (has_key (bucket (group [("EXIF LENSMAKE", VStr "Canon")])
                              "EXIF Data") "EXIF LENSMAKE") eqn:E;
      [|reflexivity].
    apply (proj1 (Hgroup "EXIF Data")) in E. destruct E as [_ E].
    rewrite Hc in E. discriminate E.
Defined.

(** One key for each of the eleven groups, in the priority order; keys
    that differ in case only; a key that holds markers of several
    rules; and a key whose "k" is the Kelvin sign. *)
Example category_of_examples :
  map category_of
      ["File_Name"; "EXIF LensModel"; "EXIF ExposureTime"; "GPS_Presence";
       "EXIF DateTimeOriginal"; "PIL_Image_Width"; "PIL_ICC_Profile";
       "RAW_Flip"; "OSINT_Country"; "EXIFDEEP_Thumbnail"; "Comment"]
  = ["File Information"; "Camera & Lens"; "Capture Settings";
     "GPS & Location"; "Date & Time"; "Image Properties";
     "Color & Profiles"; "RAW Information"; "OSINT Intelligence";
     "EXIF Data"; "Other Metadata"]
  /\ category_of "file_name" = "File Information"
  /\ category_of "FILE_NAME" = "File Information"
  /\ category_of "GPS_RAW_GPS GPSDate" = "GPS & Location"
  /\ category_of ("MA" ++ Scenario.kelvin_sign ++ "E") = "Camera & Lens".
Proof. repeat split; vm_compute; reflexivity. Qed.

End Categories.

(** ** Coordinate resolution *)

Section ExtractCoordinates.

Import Spec.

Lemma fold_assign_app {X A : Type} (f : X -> option A) (l : list X) :
  forall acc,
    fold_left (fun acc x => assign (f x) acc) l acc
    = or_else (last_some f l) acc.
Proof.
  unfold last_some.
  induction l as [|x l IH]; intros acc; simpl; [reflexivity|].
  rewrite IH. clear IH.
  induction (rev l) as [|y r IHr]; simpl.
  - destruct (f x); reflexivity.
  - destruct (f y); [reflexivity | exact IHr].
Qed.

(** A loop over pairs whose components do not look at each other. *)
Lemma fold_left_pair {X A B : Type} (f : A -> X -> A) (g : B -> X -> B)
      (l : list X) :
  forall a b,
    fold_left (fun acc x => (f (fst acc) x, g (snd acc) x)) l (a, b)
    = (fold_left f l a, fold_left g l b).
Proof.
  induction l as [|x l IH]; intros a b; simpl; [reflexivity | apply IH].
Qed.

Lemma scan_decimal_components acc item :
  scan_decimal acc item
  = (assign (decimal_of "latitude" item) (fst acc),
     assign (decimal_longitude_of item) (snd acc)).
Proof.
  destruct acc as [lat lon], item as [key value].
  unfold scan_decimal, decimal_longitude_of, decimal_of, parsed. simpl.
  destruct (Text.contains "gps" (Text.lower key) &&
            Text.contains "decimal" (Text.lower key))%bool; simpl.
  - destruct (Text.contains "latitude" (Text.lower key)); simpl.
    + destruct (float_of value); reflexivity.
    + destruct (Text.contains "longitude" (Text.lower key)); simpl;
        [destruct (float_of value)|]; reflexivity.
  - destruct (Text.contains "latitude" (Text.lower key)); reflexivity.
Qed.

Lemma scan_coordinates_components acc item :
  scan_coordinates acc item
  = (assign (pair_latitude_of item) (fst acc),
     assign (pair_longitude_of item) (snd acc)).
Proof.
  destruct acc as [lat lon], item as [key value].
  unfold scan_coordinates, pair_latitude_of, pair_longitude_of, pair_parts,
    parsed. simpl.
  destruct (Text.contains "coordinates" (Text.lower key)); [|reflexivity].
  destruct (Text.split "," (str value)) as [|c0 [|c1 [|c2 cs]]]; try reflexivity.
  destruct (Flt.parse (Text.strip c0)); [|reflexivity].
  destruct (Flt.parse (Text.strip c1)); reflexivity.
Qed.

Lemma fold_scan (step : option float * option float -> string * pyval
                        -> option float * option float)
      (f g : string * pyval -> option float) :
  (forall acc item,
      step acc item = (assign (f item) (fst acc), assign (g item) (snd acc))) ->
  forall record lat lon,
    fold_left step record (lat, lon)
    = (or_else (last_some f record) lat, or_else (last_some g record) lon).
Proof.
  intros Hstep record lat lon.
  rewrite <- 2 fold_assign_app.
  rewrite <- (fold_left_pair (fun acc x => assign (f x) acc)
                             (fun acc x => assign (g x) acc)).
  revert lat lon.
  induction record as [|item record IH]; intros lat lon; simpl; [reflexivity|].
  rewrite Hstep. simpl. apply IH.
Qed.

(** C3 (as amended).  Coordinate resolution never raises and is the
    two-tier search in which the last successful parse wins: in the
    first tier each component comes from the last key holding a GPS
    marker, "decimal" and the component's name (the longitude only from
    keys without "latitude") whose value parses as a float, values that
    do not parse being skipped; the keys holding "coordinates" are
    consulted only if a component is still unresolved, and there the
    last two-part value whose first part parses gives the latitude and
    the last whose two parts parse gives the longitude; a pair is
    returned only if both components were resolved, otherwise nothing. *)
Theorem extract_coordinates_last_wins (record : dict pyval) :
  _extract_coordinates record = Ok (resolve_last_wins record).
Proof.
  unfold _extract_coordinates, resolve_last_wins.
  rewrite (fold_scan scan_decimal _ _ scan_decimal_components). simpl.
  destruct (last_some (decimal_of "latitude") record) as [x|];
    destruct (last_some decimal_longitude_of record) as [y|]; simpl;
    try reflexivity;
    rewrite (fold_scan scan_coordinates _ _ scan_coordinates_components);
    simpl;
    destruct (last_some pair_latitude_of record);
    destruct (last_some pair_longitude_of record); reflexivity.
Qed.

Lemma first_some_In {X A : Type} (f : X -> option A) (l : list X) a :
  first_some f l = Some a -> exists x, In x l /\ f x = Some a.
Proof.
  induction l as [|y l IH]; simpl; [discriminate|].
  destruct (f y) eqn:E.
  - intros H. injection H as <-. exists y. auto.
  - intros H. destruct (IH H) as (x & Hin & Hx). exists x. auto.
Qed.

Lemma first_some_none {X A : Type} (f : X -> option A) (l : list X) :
  first_some f l = None -> forall x, In x l -> f x = None.
Proof.
  induction l as [|y l IH]; simpl; [contradiction|].
  destruct (f y) eqn:E; [discriminate|].
  intros H x [<-|Hin]; auto.
Qed.

Lemma first_some_agree {X A : Type} (f : X -> option A) (l : list X) x a :
  agree f l -> In x l -> f x = Some a -> first_some f l = Some a.
Proof.
  intros Hag Hin Hx.
  destruct (first_some f l) as [b|] eqn:E.
  - destruct (first_some_In f l b E) as (y & Hy & Hfy).
    f_equal. exact (Hag y x b a Hy Hin Hfy Hx).
  - rewrite (first_some_none f l E x Hin) in Hx. discriminate.
Qed.

(** Two lists with the same items, which agree: the same first answer. *)
Lemma first_some_members {X A : Type} (f : X -> option A) (l l' : list X) :
  (forall x, In x l <-> In x l') -> agree f l ->
  first_some f l' = first_some f l.
Proof.
  intros Hm Hag.
  destruct (first_some f l) as [a|] eqn:E.
  - destruct (first_some_In f l a E) as (x & Hin & Hx).
    apply (first_some_agree f l' x a); [|apply Hm, Hin|exact Hx].
    intros u v c d Hu Hv. apply Hag; apply Hm; assumption.
  - destruct (first_some f l') as [b|] eqn:E'; [|reflexivity].
    destruct (first_some_In f l' b E') as (x & Hin & Hx).
    apply Hm in Hin. rewrite (first_some_none f l E x Hin) in Hx.
    discriminate.
Qed.

Lemma last_some_permutation {X A : Type} (f : X -> option A) (l l' : list X) :
  Permutation l l' -> agree f l -> last_some f l' = last_some f l.
Proof.
  intros Hp Hag. unfold last_some. apply first_some_members.
  - intros x. rewrite <- !in_rev. split.
    + apply Permutation_in, Hp.
    + apply Permutation_in, Permutation_sym, Hp.
  - intros x y a b Hx Hy. apply Hag; apply in_rev; assumption.
Qed.

(** Section 8, key order: on a record whose keys agree on each
    component (in each tier), the resolved coordinate does not depend on
    the order of the keys. *)
Theorem extract_coordinates_permutation (record record' : dict pyval) :
  Permutation record record' ->
  agree (decimal_of "latitude") record ->
  agree decimal_longitude_of record ->
  agree pair_latitude_of record ->
  agree pair_longitude_of record ->
  _extract_coordinates record' = _extract_coordinates record.
Proof.
  intros Hp A1 A2 A3 A4.
  unfold _extract_coordinates.
  rewrite !(fold_scan scan_decimal _ _ scan_decimal_components). simpl.
  rewrite (last_some_permutation _ _ _ Hp A1), (last_some_permutation _ _ _ Hp A2).
  destruct (last_some (decimal_of "latitude") record) as [x|];
    destruct (last_some decimal_longitude_of record) as [y|]; simpl;
    try reflexivity;
    rewrite !(fold_scan scan_coordinates _ _ scan_coordinates_components);
    simpl;
    rewrite (last_some_permutation _ _ _ Hp A3),
            (last_some_permutation _ _ _ Hp A4); reflexivity.
Qed.

(** The longitude key before the latitude key. *)
Lemma extract_coordinates_permutation_witness :
  _extract_coordinates (rev Scenario.open_sea)
  = _extract_coordinates Scenario.open_sea.
Proof.
  apply extract_coordinates_permutation;
    [apply Permutation_rev | ..];
    intros x y a b [<-|[<-|[]]] [<-|[<-|[]]] Hx Hy;
    vm_compute in Hx, Hy; congruence.
Defined.

(** C3 (counterexample).  Two keys carry a decimal latitude that parses:
    the first one holds 10.0, and the resolved latitude is the 20.0 of
    the second one. *)
Lemma extract_coordinates_first_does_not_win :
  first_some (decimal_of "latitude") Scenario.two_latitudes = Some 10%float
  /\ _extract_coordinates Scenario.two_latitudes = Ok (Some (20, 30)%float).
Proof. split; vm_compute; reflexivity. Qed.

(** A latitude in fullwidth digits parses, as [float] reads the decimal
    digits of every script: it is the last latitude of the record and
    wins; in the reversed record the latitude 1 is the last one. *)
Example extract_coordinates_fullwidth_digits :
  Flt.parse Scenario.fullwidth_twelve = Ok 12%float
  /\ decimal_of "latitude"
       ("GPS_Latitude_Decimal_Backup", VStr Scenario.fullwidth_twelve)
     = Some 12%float
  /\ _extract_coordinates Scenario.fullwidth_latitudes
     = Ok (Some (12, 3)%float)
  /\ _extract_coordinates (rev Scenario.fullwidth_latitudes)
     = Ok (Some (1, 3)%float).
Proof. repeat split; vm_compute; reflexivity. Qed.

End ExtractCoordinates.

(** ** Location type *)

Section LocationType.

Import Spec.

(** The classification never raises; it is one of the six labels when
    the geocoder returns a location, "Unknown" when it raises, and [None]
    when it returns nothing. *)
Lemma analyze_location_type_outcomes (w : World) (lat lon : float) :
  match geolocator_reverse w (Flt.repr lat ++ ", " ++ Flt.repr lon) None with
  | Ok (Some _) =>
      exists label, In label location_labels
                    /\ _analyze_location_type w lat lon = Ok label
  | Ok None => _analyze_location_type w lat lon = Ok VNone
  | Raise _ => _analyze_location_type w lat lon = Ok (VStr "Unknown")
  end.
Proof.
  unfold _analyze_location_type.
  destruct (geolocator_reverse w _ None) as [[loc|]|e]; simpl; try reflexivity.
  unfold location_labels.
  repeat match goal with
         | |- context [if ?b then _ else _] => destruct b
         end; simpl; eexists; (split; [|reflexivity]); simpl; auto 10.
Qed.

(** C8 (the code at the failing input).  With a geocoder that finds
    nothing at the coordinate, the GPS analysis stores [None] under
    OSINT_Location_Type: neither one of the six labels nor "Unknown". *)
Theorem location_type_none_is_stored :
  exists gps_data,
    _gps_osint_analysis Scenario.nothing_found Scenario.open_sea = Ok gps_data
    /\ get gps_data "OSINT_Location_Type" = Some VNone.
Proof. eexists. split; vm_compute; reflexivity. Qed.

End LocationType.

(** ** Camera analysis *)

Section CameraAnalysis.

Import Spec.

Lemma truthy_text_taken o :
  truthy_text o = match taken o with Some _ => true | None => false end.
Proof. destruct o as [[|c s]|]; reflexivity. Qed.

Lemma taken_some_str (value : pyval) :
  taken (Some (str value))
  = if negb (Text.is_empty (str value)) then Some (str value) else None.
Proof. simpl. destruct (Text.is_empty (str value)); reflexivity. Qed.

(** One turn of the loop on a key with at most one marker. *)
Lemma scan_camera_step (c : camera) (item : string * pyval) :
  one_marker (fst item) = true ->
  taken (make (scan_camera c item)) = or_else (taken (make c)) (named "make" item)
  /\ taken (model (scan_camera c item))
     = or_else (taken (model c)) (named "model" item)
  /\ taken (serial (scan_camera c item))
     = or_else (taken (serial c)) (named "serial" item).
Proof.
  destruct item as [key value]. unfold one_marker, scan_camera, named. simpl.
  rewrite !truthy_text_taken.
  destruct (Text.contains "make" (Text.lower key));
    destruct (Text.contains "model" (Text.lower key));
    destruct (Text.contains "serial" (Text.lower key));
    simpl; try discriminate; intros _;
    destruct (taken (make c)) eqn:Emk;
    destruct (taken (model c)) eqn:Emo;
    destruct (taken (serial c)) eqn:Esr;
    simpl; rewrite ?Emk, ?Emo, ?Esr, ?taken_some_str;
    destruct (Text.is_empty (str value)); simpl; auto.
Qed.

Lemma scan_cameras_from (record : dict pyval) :
  Forall (fun item => one_marker (fst item) = true) record ->
  forall c,
    let c' := fold_left scan_camera record c in
    taken (make c') = or_else (taken (make c)) (first_some (named "make") record)
    /\ taken (model c')
       = or_else (taken (model c)) (first_some (named "model") record)
    /\ taken (serial c')
       = or_else (taken (serial c)) (first_some (named "serial") record).
Proof.
  induction 1 as [|item record Hitem _ IH]; intros c; simpl.
  - destruct (taken (make c)), (taken (model c)), (taken (serial c)); auto.
  - destruct (IH (scan_camera c item)) as (Hmk & Hmo & Hsr).
    destruct (scan_camera_step c item Hitem) as (Smk & Smo & Ssr).
    rewrite Hmk, Hmo, Hsr, Smk, Smo, Ssr.
    destruct (taken (make c)), (taken (model c)), (taken (serial c));
      destruct (named "make" item), (named "model" item), (named "serial" item);
      simpl; auto.
Qed.

Lemma scan_cameras_first (record : dict pyval) :
  Forall (fun item => one_marker (fst item) = true) record ->
  let c := scan_cameras record in
  taken (make c) = first_nonempty_with "make" record
  /\ taken (model c) = first_nonempty_with "model" record
  /\ taken (serial c) = first_nonempty_with "serial" record.
Proof.
  intros H. exact (scan_cameras_from record H no_camera).
Qed.

Lemma if_text_taken (o : option string) (k : string -> M unit) :
  if_text o k = match taken o with Some s => k s | None => ret tt end.
Proof. destruct o as [[|c s]|]; reflexivity. Qed.

Lemma first_some_snoc {X A : Type} (f : X -> option A) (l : list X) x :
  first_some f (l ++ [x])%list = or_else (first_some f l) (f x).
Proof.
  induction l as [|y l IH]; simpl.
  - destruct (f x); reflexivity.
  - destruct (f y); [reflexivity | exact IH].
Qed.

Lemma first_some_after_snoc {X A : Type} (f : list X -> X -> option A)
      (l : list X) x :
  forall before,
    first_some_after f before (l ++ [x])%list
    = or_else (first_some_after f before l) (f (before ++ l)%list x).
Proof.
  induction l as [|y l IH]; intros before; simpl.
  - rewrite app_nil_r. destruct (f before x); reflexivity.
  - destruct (f before y); [reflexivity|].
    rewrite IH, <- app_assoc. reflexivity.
Qed.

(** The three variables after the loop, on any record: by induction on
    the part of the record the loop has passed. *)
Lemma scan_cameras_branches (record : dict pyval) :
  let c := scan_cameras record in
  taken (make c) = first_nonempty_with "make" record
  /\ taken (model c) = first_model record
  /\ taken (serial c) = first_serial record.
Proof.
  induction record as [|item record IH] using rev_ind.
  - repeat split.
  - unfold scan_cameras in *. rewrite fold_left_app. simpl.
    destruct IH as (Hmk & Hmo & Hsr).
    unfold first_nonempty_with, first_model, first_serial in *.
    rewrite first_some_snoc, !first_some_after_snoc. simpl.
    rewrite <- Hmk, <- Hmo, <- Hsr.
    unfold serial_for, model_takes, model_for, make_takes, first_model,
      first_nonempty_with.
    rewrite <- Hmk, <- Hmo.
    set (c := fold_left scan_camera record no_camera).
    destruct item as [key value].
    unfold scan_camera, named, holds. simpl.
    rewrite !truthy_text_taken.
    destruct (Text.contains "make" (Text.lower key));
      destruct (Text.contains "model" (Text.lower key));
      destruct (Text.contains "serial" (Text.lower key));
      destruct (taken (make c)) eqn:Emk;
      destruct (taken (model c)) eqn:Emo;
      destruct (taken (serial c)) eqn:Esr;
      simpl; rewrite ?Emk, ?Emo, ?Esr, ?taken_some_str;
      destruct (Text.is_empty (str value)); simpl; auto.
Qed.

Lemma camera_analysis_fields (w : World) (record : dict pyval)
      (mk mo sr : option string) :
  taken (make (scan_cameras record)) = mk ->
  taken (model (scan_cameras record)) = mo ->
  taken (serial (scan_cameras record)) = sr ->
  exists camera_data,
    _camera_osint_analysis w record = Ok camera_data
    /\ camera_fields w mk mo sr camera_data.
Proof.
  intros Hmk Hmo Hsr.
  unfold _camera_osint_analysis, camera_fields. rewrite !if_text_taken.
  rewrite Hmk, Hmo, Hsr.
  destruct mk as [a|], mo as [b|], sr as [c|],
        (taken (_extract_lens_info record)) as [l|];
    cbv beta; rewrite ?if_text_taken, ?Hmo;
    eexists; (split; [reflexivity|]); repeat split; reflexivity.
Qed.

(** C5 (as amended).  On every record the camera analysis returns, and
    its fields come from one make/model/serial branch chain run over the
    keys in record order.  OSINT_Camera_Make is the text of the value of
    the first key whose lower-cased name holds "make" and whose text is
    not empty.  OSINT_Camera_Model is that of the first key holding
    "model", with a text that is not empty, that the make branch does not
    take; OSINT_Camera_Serial that of the first key holding "serial",
    with a text that is not empty, that neither the make branch nor the
    model branch takes.  With a serial it emits the MD5 and SHA-1 hex
    digests of the serial's bytes, and with both a make and a model the
    fingerprint and the search URL. *)
Theorem camera_analysis_by_branch (w : World) (record : dict pyval) :
  exists camera_data,
    _camera_osint_analysis w record = Ok camera_data
    /\ get camera_data "OSINT_Camera_Make"
       = option_map VStr (first_nonempty_with "make" record)
    /\ get camera_data "OSINT_Camera_Model"
       = option_map VStr (first_model record)
    /\ get camera_data "OSINT_Camera_Serial"
       = option_map VStr (first_serial record)
    /\ get camera_data "OSINT_Serial_Hash_MD5"
       = option_map (fun s => VStr (md5_hexdigest w (Text.encode s)))
                    (first_serial record)
    /\ get camera_data "OSINT_Serial_Hash_SHA1"
       = option_map (fun s => VStr (sha1_hexdigest w (Text.encode s)))
                    (first_serial record)
    /\ get camera_data "OSINT_Device_Fingerprint"
       = match first_nonempty_with "make" record, first_model record with
         | Some a, Some b => Some (VStr (a ++ " " ++ b))
         | _, _ => None
         end
    /\ get camera_data "OSINT_Device_Search"
       = match first_nonempty_with "make" record, first_model record with
         | Some a, Some b =>
             Some (VStr ("https://www.google.com/search?q="
                           ++ a ++ "+" ++ b ++ "+camera"))
         | _, _ => None
         end.
Proof.
  destruct (scan_cameras_branches record) as (Hmk & Hmo & Hsr).
  exact (camera_analysis_fields w record _ _ _ Hmk Hmo Hsr).
Qed.

(** In a record no key name of which holds two of the markers "make",
    "model" and "serial", each of the three fields comes from the first
    key, in record order, whose lower-cased name holds the marker and
    whose value has a text that is not empty. *)
Theorem camera_analysis_first_nonempty (w : World) (record : dict pyval) :
  Forall (fun item => one_marker (fst item) = true) record ->
  let mk := first_nonempty_with "make" record in
  let mo := first_nonempty_with "model" record in
  let sr := first_nonempty_with "serial" record in
  exists camera_data,
    _camera_osint_analysis w record = Ok camera_data
    /\ get camera_data "OSINT_Camera_Make" = option_map VStr mk
    /\ get camera_data "OSINT_Camera_Model" = option_map VStr mo
    /\ get camera_data "OSINT_Camera_Serial" = option_map VStr sr
    /\ get camera_data "OSINT_Serial_Hash_MD5"
       = option_map (fun s => VStr (md5_hexdigest w (Text.encode s))) sr
    /\ get camera_data "OSINT_Serial_Hash_SHA1"
       = option_map (fun s => VStr (sha1_hexdigest w (Text.encode s))) sr
    /\ get camera_data "OSINT_Device_Fingerprint"
       = match mk, mo with
         | Some a, Some b => Some (VStr (a ++ " " ++ b))
         | _, _ => None
         end
    /\ get camera_data "OSINT_Device_Search"
       = match mk, mo with
         | Some a, Some b =>
             Some (VStr ("https://www.google.com/search?q="
                           ++ a ++ "+" ++ b ++ "+camera"))
         | _, _ => None
         end.
Proof.
  intros Hone mk mo sr.
  destruct (scan_cameras_first record Hone) as (Hmk & Hmo & Hsr).
  exact (camera_analysis_fields w record _ _ _ Hmk Hmo Hsr).
Qed.

(** A Canon body: one key per marker. *)
Lemma camera_analysis_witness :
  exists camera_data,
    _camera_osint_analysis Scenario.offline Scenario.canon_body = Ok camera_data
    /\ get camera_data "OSINT_Camera_Make" = Some (VStr "Canon")
    /\ get camera_data "OSINT_Camera_Model" = Some (VStr "EOS 5D")
    /\ get camera_data "OSINT_Camera_Serial" = Some (VStr "0123456789")
    /\ get camera_data "OSINT_Serial_Hash_MD5"
       = Some (VStr (md5_hexdigest Scenario.offline (Text.encode "0123456789")))
    /\ get camera_data "OSINT_Serial_Hash_SHA1"
       = Some (VStr (sha1_hexdigest Scenario.offline (Text.encode "0123456789")))
    /\ get camera_data "OSINT_Device_Fingerprint" = Some (VStr "Canon EOS 5D")
    /\ get camera_data "OSINT_Device_Search"
       = Some (VStr "https://www.google.com/search?q=Canon+EOS 5D+camera").
Proof.
  apply (camera_analysis_first_nonempty Scenario.offline Scenario.canon_body).
  repeat (apply Forall_cons; [reflexivity|]). apply Forall_nil.
Defined.

(** The record of the counterexample below, branch by branch. *)
Example camera_branches_on_maker_note :
  first_nonempty_with "make" Scenario.maker_note_first = Some "A"
  /\ first_model Scenario.maker_note_first = Some "B"
  /\ first_serial Scenario.maker_note_first = None.
Proof. repeat split. Qed.

(** C5 (counterexample).  The first "make" key has an empty value and
    the first "model" key is also a "make" key: the make emitted is the
    value of the second "make" key and the model emitted is the value of
    the second "model" key. *)
Lemma camera_analysis_not_first_key :
  first_key_with "make" Scenario.maker_note_first = Some ""
  /\ first_key_with "model" Scenario.maker_note_first = Some "A"
  /\ exists camera_data,
      _camera_osint_analysis Scenario.offline Scenario.maker_note_first
      = Ok camera_data
      /\ get camera_data "OSINT_Camera_Make" = Some (VStr "A")
      /\ get camera_data "OSINT_Camera_Model" = Some (VStr "B").
Proof.
  split; [reflexivity|]. split; [reflexivity|].
  eexists. split; [vm_compute; reflexivity|]. split; reflexivity.
Qed.

(** The markers are looked for in the lower-cased key: a key in capital
    letters holds "make", and so does a key whose "k" is the Kelvin
    sign. *)
Example camera_analysis_lower_cased_keys :
  first_nonempty_with "make" [("EXIF MAKE", VStr "Canon")] = Some "Canon"
  /\ _camera_osint_analysis Scenario.offline [("EXIF MAKE", VStr "Canon")]
     = Ok [("OSINT_Camera_Make", VStr "Canon")]
  /\ one_marker ("MA" ++ Scenario.kelvin_sign ++ "E") = true
  /\ first_nonempty_with "make" Scenario.kelvin_make = Some "Canon"
  /\ _camera_osint_analysis Scenario.offline Scenario.kelvin_make
     = Ok [("OSINT_Camera_Make", VStr "Canon")].
Proof. repeat split; vm_compute; reflexivity. Qed.

End CameraAnalysis.

(** ** What a function body writes into its local dictionary *)

Section Writes.

Variable P : string -> bool.

Lemma keys_set {V : Type} (d : dict V) k v :
  keys (set d k v) = if has_key d k then keys d else (keys d ++ [k])%list.
Proof.
  unfold keys, has_key.
  induction d as [|[k0 v0] d IH]; simpl; [reflexivity|].
  destruct (String.eqb k k0) eqn:E; simpl; [reflexivity|].
  rewrite IH. destruct (get d k); reflexivity.
Qed.

Lemma NoDup_keys_set {V : Type} (d : dict V) k v :
  NoDup (keys d) -> NoDup (keys (set d k v)).
Proof.
  intros H. rewrite keys_set.
  destruct (has_key d k) eqn:E; [exact H|].
  apply NoDup_app; [exact H | repeat constructor; simpl; tauto |].
  intros x Hx [<-|[]].
  apply has_key_In in Hx. congruence.
Qed.

Lemma NoDup_keys_update {V : Type} (e : dict V) :
  forall d, NoDup (keys d) -> NoDup (keys (update d e)).
Proof.
  unfold update.
  induction e as [|[k v] e IH]; intros d H; simpl; [exact H|].
  apply IH, NoDup_keys_set, H.
Qed.

Lemma writes_ret {A : Type} (a : A) : writes P (ret a).
Proof. intros d. simpl. auto. Qed.

Lemma writes_call {A : Type} (r : result A) : writes P (call r).
Proof. intros d. simpl. auto. Qed.

Lemma writes_store k v : P k = true -> writes P (store k v).
Proof.
  intros Hk d. simpl. repeat split.
  - intros k' Hk'. apply get_set_other. congruence.
  - intros k' Hk'. rewrite has_key_set, Hk'. apply orb_true_r.
  - apply NoDup_keys_set.
Qed.

Lemma writes_merge e :
  (forall k, has_key e k = true -> P k = true) -> writes P (merge e).
Proof.
  intros He d. simpl. repeat split.
  - intros k Hk. apply get_update_other.
    destruct (has_key e k) eqn:E; [|reflexivity].
    apply He in E. congruence.
  - intros k Hk. rewrite has_key_update, Hk. reflexivity.
  - apply NoDup_keys_update.
Qed.

Lemma writes_bind {A B : Type} (m : M A) (f : A -> M B) :
  writes P m -> (forall a, writes P (f a)) -> writes P (bind m f).
Proof.
  intros Hm Hf d. unfold bind.
  destruct (Hm d) as (H1 & H2 & H3).
  destruct (m d) as [d' [a|e]]; simpl in *.
  - destruct (Hf a d') as (F1 & F2 & F3).
    repeat split.
    + intros k Hk. rewrite F1, H1; auto.
    + intros k Hk. auto.
    + auto.
  - auto.
Qed.

Lemma writes_try_except {A : Type} (m : M A) (h : exn -> M A) :
  writes P m -> (forall e, writes P (h e)) -> writes P (try_except m h).
Proof.
  intros Hm Hh d. unfold try_except.
  destruct (Hm d) as (H1 & H2 & H3).
  destruct (m d) as [d' [a|e]]; simpl in *.
  - auto.
  - destruct (Hh e d') as (F1 & F2 & F3).
    repeat split.
    + intros k Hk. rewrite F1, H1; auto.
    + intros k Hk. auto.
    + auto.
Qed.

Lemma writes_when b (m : M unit) : writes P m -> writes P (when b m).
Proof. destruct b; [auto | intros _; apply writes_ret]. Qed.

Lemma writes_for_each {X : Type} (l : list X) (body : X -> M unit) :
  (forall x, writes P (body x)) -> writes P (for_each l body).
Proof.
  intros H. induction l as [|x l IH]; simpl.
  - apply writes_ret.
  - apply writes_bind; auto.
Qed.

Lemma writes_if_text o (k : string -> M unit) :
  (forall s, writes P (k s)) -> writes P (if_text o k).
Proof.
  intros H. destruct o as [s|]; simpl.
  - apply writes_when, H.
  - apply writes_ret.
Qed.

(** The dictionary a total body returns, started empty. *)
Lemma returned_total (m : M unit) :
  total m -> returned m = Ok (fst (m [])).
Proof.
  intros H. unfold returned, returned_from.
  destruct (H []) as [a Ha]. destruct (m []) as [d r]. simpl in *.
  rewrite Ha. reflexivity.
Qed.

Lemma total_try_except {A : Type} (m : M A) (h : exn -> M A) :
  (forall e, total (h e)) -> total (try_except m h).
Proof.
  intros Hh d. unfold try_except.
  destruct (m d) as [d' [a|e]]; simpl; [eauto | apply Hh].
Qed.

Lemma total_store k v : total (store k v).
Proof. intros d. simpl. eauto. Qed.

Lemma total_ret {A : Type} (a : A) : total (ret a).
Proof. intros d. simpl. eauto. Qed.

Lemma total_bind {A B : Type} (m : M A) (f : A -> M B) :
  total m -> (forall a, total (f a)) -> total (bind m f).
Proof.
  intros Hm Hf d. unfold bind.
  destruct (Hm d) as [a Ha]. destruct (m d) as [d' r]. simpl in *.
  subst r. apply Hf.
Qed.

(** A body that writes only under [P], started empty, leaves only keys
    that [P] accepts, all distinct. *)
Lemma writes_from_empty (m : M unit) :
  writes P m ->
  NoDup (keys (fst (m [])))
  /\ forall k, has_key (fst (m [])) k = true -> P k = true.
Proof.
  intros H. destruct (H []) as (H1 & _ & H3). split.
  - apply H3. constructor.
  - intros k Hk. destruct (P k) eqn:E; [reflexivity|].
    unfold has_key in Hk. rewrite (H1 k E) in Hk. discriminate.
Qed.

End Writes.

(** The steps that decompose a body into its writes. *)
Ltac writes_step :=
  first
    [ progress cbv beta zeta
    | progress unfold store_processed, apply_ref, gps_coordinates,
        gps_auxiliary, gps_raw, update_from
    | apply writes_ret
    | apply writes_call
    | apply writes_store; reflexivity
    | apply writes_bind; [|intros ?]
    | apply writes_try_except; [|intros ?]
    | apply writes_when
    | apply writes_for_each; intros ?
    | apply writes_if_text; intros ?
    | match goal with
      | |- writes _ (match ?x with _ => _ end) => destruct x
      end ].

Ltac writes_all := repeat writes_step.

(** ** The six analyses: what they write, and that they return *)

Section Analyses.

Import Spec.

Variable w : World.
Variable metadata : dict pyval.
Variable image_path : pypath.

Lemma analysis_intro (P : string -> bool) (body : M unit) (h : exn -> M unit) :
  writes P body -> (forall e, writes P (h e)) -> (forall e, total (h e)) ->
  analysis_of P (returned (try_except body h)).
Proof.
  intros Hb Hh Ht.
  exists (fst (try_except body h [])). split.
  - apply returned_total, total_try_except, Ht.
  - apply writes_from_empty, writes_try_except; assumption.
Qed.

Lemma gps_analysis_writes :
  analysis_of is_gps_key (_gps_osint_analysis w metadata).
Proof.
  apply analysis_intro.
  - writes_all.
  - intros e. apply writes_store. reflexivity.
  - intros e. apply total_store.
Qed.

Lemma camera_analysis_writes :
  analysis_of is_camera_key (_camera_osint_analysis w metadata).
Proof.
  apply analysis_intro.
  - writes_all.
  - intros e. apply writes_store. reflexivity.
  - intros e. apply total_store.
Qed.

Lemma time_analysis_writes :
  analysis_of is_time_key (_time_analysis metadata).
Proof.
  apply analysis_intro.
  - writes_all.
  - intros e. apply writes_store. reflexivity.
  - intros e. apply total_store.
Qed.

Lemma forensic_analysis_writes :
  analysis_of is_forensic_key (_forensic_analysis w image_path).
Proof.
  apply analysis_intro.
  - writes_all.
  - intros e. apply writes_store. reflexivity.
  - intros e. apply total_store.
Qed.

Lemma network_analysis_writes :
  analysis_of is_network_key (_network_analysis metadata).
Proof.
  apply analysis_intro.
  - writes_all.
  - intros e. apply writes_store. reflexivity.
  - intros e. apply total_store.
Qed.

Lemma create_osm_map_returns :
  exists map_path, _create_osm_map w metadata = Ok map_path.
Proof.
  unfold _create_osm_map.
  destruct (rbind _ _) as [o|e]; simpl; eauto.
Qed.

End Analyses.

(** ** Enrichment *)

Section Enhance.

Import Spec.

Lemma get_update_in {V : Type} (e : dict V) :
  forall (d : dict V) k v,
    NoDup (keys e) -> get e k = Some v -> get (update d e) k = Some v.
Proof.
  unfold update.
  induction e as [|[k0 v0] e IH]; intros d k v Hnd Hget; simpl in *.
  - discriminate.
  - inversion Hnd as [|? ? Hnotin Hnd']. subst.
    destruct (String.eqb k k0) eqn:E.
    + apply String.eqb_eq in E. subst k0. injection Hget as ->.
      change (get (update (set d k v) e) k = Some v).
      rewrite get_update_other; [apply get_set_same|].
      destruct (has_key e k) eqn:Hk; [|reflexivity].
      apply has_key_In in Hk. contradiction.
    + apply IH; assumption.
Qed.

Lemma mem_In k l : Text.mem k l = true <-> In k l.
Proof.
  unfold Text.mem. rewrite existsb_exists. split.
  - intros [x [Hin E]]. apply String.eqb_eq in E. subst. exact Hin.
  - intros H. exists k. split; [exact H | apply String.eqb_refl].
Qed.

Lemma starts_with_app a b k :
  Text.starts_with (a ++ b) k = true -> Text.starts_with a k = true.
Proof.
  revert k. induction a as [|c a IH]; intros k H; simpl in *; [reflexivity|].
  destruct k as [|c' k]; [discriminate|].
  apply andb_true_iff in H as [H1 H2]. rewrite H1. simpl. apply IH, H2.
Qed.

(** Two prefixes of one text: one is a prefix of the other. *)
Lemma starts_with_both a : forall b k,
  Text.starts_with a k = true -> Text.starts_with b k = true ->
  (Text.starts_with a b || Text.starts_with b a)%bool = true.
Proof.
  induction a as [|c a IH]; intros b k Ha Hb; simpl in *.
  - destruct b; reflexivity.
  - destruct b as [|c' b]; [reflexivity|]. simpl.
    destruct k as [|c0 k]; [discriminate|].
    apply andb_true_iff in Ha as [Ha1 Ha2].
    apply andb_true_iff in Hb as [Hb1 Hb2].
    apply Ascii.eqb_eq in Ha1, Hb1. subst c c'.
    rewrite Ascii.eqb_refl. simpl. apply (IH b k); assumption.
Qed.

(** Membership in a list of literals, case by case. *)
Ltac each_key H :=
  apply mem_In in H; simpl in H;
  repeat (destruct H as [<-|H]; [try reflexivity; try discriminate|]);
  try contradiction.

Lemma gps_key_reserved k : is_gps_key k = true -> reserved k = true.
Proof. intros H. each_key H. Qed.

Lemma camera_key_reserved k : is_camera_key k = true -> reserved k = true.
Proof. intros H. each_key H. Qed.

Lemma forensic_key_reserved k : is_forensic_key k = true -> reserved k = true.
Proof. intros H. each_key H. Qed.

Lemma time_key_reserved k : is_time_key k = true -> reserved k = true.
Proof. apply (starts_with_app "OSINT_" "Time"). Qed.

Lemma network_key_reserved k : is_network_key k = true -> reserved k = true.
Proof.
  unfold is_network_key. intros H.
  apply orb_true_iff in H as [H|H]; [apply orb_true_iff in H as [H|H]|].
  - exact (starts_with_app "OSINT_" "URL_In_" k H).
  - exact (starts_with_app "OSINT_" "Email_Like_In_" k H).
  - apply String.eqb_eq in H. subst. reflexivity.
Qed.

Variable w : World.
Variable metadata : dict pyval.
Variable image_path : pypath.

Lemma enhance_metadata_unfold gps cam tim forensic net map_path :
  _gps_osint_analysis w metadata = Ok gps ->
  _camera_osint_analysis w metadata = Ok cam ->
  _time_analysis metadata = Ok tim ->
  _forensic_analysis w image_path = Ok forensic ->
  _network_analysis metadata = Ok net ->
  _create_osm_map w metadata = Ok map_path ->
  enhance_metadata w metadata image_path
  = Ok (with_map map_path
          (update (update (update (update (update metadata gps) cam) tim)
                          forensic) net)).
Proof.
  intros Hg Hc Ht Hf Hn Hm.
  unfold enhance_metadata, returned_from, try_except, bind, call, merge.
  rewrite Hg, Hc, Ht, Hf, Hn, Hm. simpl.
  destruct map_path as [[|c path]|]; reflexivity.
Qed.

Lemma has_key_with_map map_path d k :
  has_key d k = true -> has_key (with_map map_path d) k = true.
Proof.
  intros H. unfold with_map.
  destruct map_path as [path|]; [|exact H].
  destruct (Text.is_empty path); [exact H|].
  rewrite has_key_set, H. apply orb_true_r.
Qed.

Lemma get_with_map map_path d k :
  k <> "OSINT_Map_File" -> get (with_map map_path d) k = get d k.
Proof.
  intros H. unfold with_map.
  destruct map_path as [path|]; [|reflexivity].
  destruct (Text.is_empty path); [reflexivity|].
  apply get_set_other, H.
Qed.

Lemma not_has_key (P : string -> bool) (d : dict pyval) k :
  (forall k, has_key d k = true -> P k = true) ->
  P k = false -> has_key d k = false.
Proof.
  intros H Hk. destruct (has_key d k) eqn:E; [|reflexivity].
  apply H in E. congruence.
Qed.

(** The record [enhance_metadata] returns: the base record updated by
    the five contributions in turn, then the map field; none of the
    contributions has a key without the reserved prefix. *)
Lemma enhance_metadata_layers :
  exists gps cam tim forensic net map_path,
    (_gps_osint_analysis w metadata = Ok gps
     /\ _camera_osint_analysis w metadata = Ok cam
     /\ _time_analysis metadata = Ok tim
     /\ _forensic_analysis w image_path = Ok forensic
     /\ _network_analysis metadata = Ok net
     /\ _create_osm_map w metadata = Ok map_path)
    /\ enhance_metadata w metadata image_path
       = Ok (with_map map_path
               (update (update (update (update (update metadata gps) cam) tim)
                               forensic) net))
    /\ forall k, reserved k = false ->
                 has_key gps k = false /\ has_key cam k = false
                 /\ has_key tim k = false /\ has_key forensic k = false
                 /\ has_key net k = false.
Proof.
  destruct (gps_analysis_writes w metadata) as (gps & Hg & _ & Kg).
  destruct (camera_analysis_writes w metadata) as (cam & Hc & _ & Kc).
  destruct (time_analysis_writes metadata) as (tim & Ht & _ & Kt).
  destruct (forensic_analysis_writes w image_path) as (forensic & Hf & _ & Kf).
  destruct (network_analysis_writes metadata) as (net & Hn & _ & Kn).
  destruct (create_osm_map_returns w metadata) as (map_path & Hm).
  exists gps, cam, tim, forensic, net, map_path.
  split; [auto 10|].
  split; [apply enhance_metadata_unfold; assumption|].
  intros k Hk. repeat split; apply (not_has_key reserved); try exact Hk.
  - intros k' H. apply gps_key_reserved, Kg, H.
  - intros k' H. apply camera_key_reserved, Kc, H.
  - intros k' H. apply time_key_reserved, Kt, H.
  - intros k' H. apply forensic_key_reserved, Kf, H.
  - intros k' H. apply network_key_reserved, Kn, H.
Qed.

(** What the layers leave under a key none of them has. *)
Lemma get_layers (gps cam tim forensic net : dict pyval) map_path k :
  reserved k = false ->
  has_key gps k = false /\ has_key cam k = false
  /\ has_key tim k = false /\ has_key forensic k = false
  /\ has_key net k = false ->
  get (with_map map_path
         (update (update (update (update (update metadata gps) cam) tim)
                         forensic) net)) k
  = get metadata k.
Proof.
  intros Hk (Hg & Hc & Ht & Hf & Hn).
  rewrite get_with_map by (intros ->; discriminate).
  rewrite !get_update_other by assumption. reflexivity.
Qed.

(** Whatever record it is given, enrichment returns a record, never an
    exception; every key of the given record is a key of the result, and
    every key that does not carry the reserved prefix OSINT_ has the
    value it had, whatever the analyses do. *)
Lemma enhance_metadata_keeps_unreserved :
  exists enhanced,
    enhance_metadata w metadata image_path = Ok enhanced
    /\ (forall k, has_key metadata k = true -> has_key enhanced k = true)
    /\ (forall k, reserved k = false -> get enhanced k = get metadata k).
Proof.
  destruct enhance_metadata_layers
    as (gps & cam & tim & forensic & net & map_path & _ & He & Hfree).
  eexists. split; [exact He|]. split.
  - intros k Hk. apply has_key_with_map.
    rewrite !has_key_update, Hk. reflexivity.
  - intros k Hk. apply get_layers; [exact Hk | apply Hfree, Hk].
Qed.

Lemma base_record_key k :
  base_record metadata = true -> has_key metadata k = true ->
  reserved k = false.
Proof.
  unfold base_record. intros Hb Hk.
  apply has_key_In in Hk.
  rewrite forallb_forall in Hb. apply Hb in Hk.
  apply negb_true_iff in Hk. exact Hk.
Qed.

(** C2.  For any base record (a record none of whose keys carries the
    prefix reserved for the enrichment fields), any path and any
    behaviour of the collaborators, also when every analysis fails:
    enrichment returns a record, never an exception; every key of the
    base record has in the result the value it has in the base record;
    and every key the result has beyond those of the base record
    carries the reserved prefix. *)
Theorem enhance_metadata_keeps_base :
  base_record metadata = true ->
  exists enhanced,
    enhance_metadata w metadata image_path = Ok enhanced
    /\ (forall k v, get metadata k = Some v -> get enhanced k = Some v)
    /\ (forall k, has_key enhanced k = true -> has_key metadata k = false ->
                  reserved k = true).
Proof.
  intros Hbase.
  destruct enhance_metadata_layers
    as (gps & cam & tim & forensic & net & map_path & _ & He & Hfree).
  eexists. split; [exact He|]. split.
  - intros k v Hget.
    assert (Hk : reserved k = false).
    { apply base_record_key; [exact Hbase|].
      unfold has_key. rewrite Hget. reflexivity. }
    rewrite (get_layers gps cam tim forensic net map_path k Hk (Hfree k Hk)).
    exact Hget.
  - intros k Hk Hnot.
    destruct (reserved k) eqn:Hr; [reflexivity|].
    rewrite <- Hnot. unfold has_key in *.
    rewrite (get_layers gps cam tim forensic net map_path k Hr (Hfree k Hr))
      in Hk.
    exact Hk.
Qed.

End Enhance.

(** The record of a geotagged photograph, on a machine without network
    and without the file: the geocoder and the forensic pass fail, and
    the base fields are in the result as they were. *)
Lemma enhance_metadata_keeps_base_witness :
  exists enhanced,
    enhance_metadata Scenario.offline Scenario.geotagged (PathStr "photo.jpg")
    = Ok enhanced
    /\ get enhanced "EXIFDEEP_Image Make" = Some (VStr "Canon")
    /\ get enhanced "GPS_Latitude_Decimal" = Some (VStr "40.44633333")
    /\ get enhanced "OSINT_GPS_Error" = Some (VStr "Service timed out")
    /\ Spec.reserved "OSINT_GPS_Error" = true.
Proof.
  destruct (enhance_metadata_keeps_base
              Scenario.offline Scenario.geotagged (PathStr "photo.jpg") eq_refl)
    as (enhanced & Hrun & Hkeep & Hnew).
  exists enhanced. split; [exact Hrun|].
  split; [apply Hkeep; reflexivity|].
  split; [apply Hkeep; reflexivity|].
  assert (Hsame : Ok enhanced
                  = enhance_metadata Scenario.offline Scenario.geotagged
                                     (PathStr "photo.jpg"))
    by (symmetry; exact Hrun).
  vm_compute in Hsame. injection Hsame as ->.
  split; reflexivity.
Defined.

(** The hypothesis is needed.  A record that was enriched once is no
    base record; enriching it again counts its OSINT_Time_1 field as a
    second time stamp and replaces the value 1 of OSINT_Timestamps_Found
    by 2. *)
Example enhance_metadata_changes_reserved :
  enhance_metadata Scenario.offline Scenario.dated (PathStr "photo.jpg")
  = Ok Scenario.dated_enriched
  /\ Spec.base_record Scenario.dated_enriched = false
  /\ get Scenario.dated_enriched "OSINT_Timestamps_Found" = Some (VInt 1)
  /\ exists enhanced,
      enhance_metadata Scenario.offline Scenario.dated_enriched
                       (PathStr "photo.jpg") = Ok enhanced
      /\ get enhanced "OSINT_Timestamps_Found" = Some (VInt 2).
Proof.
  split; [vm_compute; reflexivity|]. split; [reflexivity|].
  split; [reflexivity|].
  eexists. split; [vm_compute; reflexivity | reflexivity].
Qed.

(** ** The contributions of the analyses to the enriched record *)

Section Contributions.

Import Spec.

Variable w : World.
Variable metadata : dict pyval.
Variable image_path : pypath.

Lemma join_not_empty a c b :
  Text.is_empty (OsPath.join a (String c b)) = false.
Proof.
  unfold OsPath.join.
  destruct (prefix "/" (String c b)); [reflexivity|].
  destruct (Text.is_empty a || Text.is_empty (OsPath.after_last "/" a))%bool;
    destruct a; reflexivity.
Qed.

Lemma create_osm_map_path path :
  _create_osm_map w metadata = Ok (Some path) -> Text.is_empty path = false.
Proof.
  unfold _create_osm_map.
  destruct (_extract_coordinates metadata) as [[[lat lon]|]|e]; simpl;
    try discriminate.
  destruct (folium_map w lat lon); simpl; try discriminate.
  destruct (tempfile_gettempdir w) as [temp_dir|]; simpl; try discriminate.
  destruct (folium_save w lat lon _); simpl; try discriminate.
  intros H. injection H as <-. apply join_not_empty.
Qed.

Lemma camera_not_later k :
  is_camera_key k = true ->
  is_time_key k = false /\ is_forensic_key k = false
  /\ is_network_key k = false /\ k <> "OSINT_Map_File".
Proof.
  intros H. apply mem_In in H. simpl in H.
  repeat (destruct H as [<-|H];
          [repeat split; try reflexivity; discriminate|]).
  contradiction.
Qed.

Lemma time_not_later k :
  is_time_key k = true ->
  is_forensic_key k = false /\ is_network_key k = false
  /\ k <> "OSINT_Map_File".
Proof.
  unfold is_time_key. intros H. repeat split.
  - destruct (is_forensic_key k) eqn:E; [|reflexivity].
    apply mem_In in E. simpl in E.
    repeat (destruct E as [<-|E]; [discriminate H|]). contradiction.
  - unfold is_network_key.
    destruct (Text.starts_with "OSINT_URL_In_" k) eqn:E1.
    { pose proof (starts_with_both _ _ _ H E1) as F. discriminate F. }
    destruct (Text.starts_with "OSINT_Email_Like_In_" k) eqn:E2.
    { pose proof (starts_with_both _ _ _ H E2) as F. discriminate F. }
    destruct (String.eqb k "OSINT_Network_Error") eqn:E3; [|reflexivity].
    apply String.eqb_eq in E3. subst. discriminate H.
  - intros ->. discriminate H.
Qed.

Lemma forensic_not_later k :
  is_forensic_key k = true ->
  is_network_key k = false /\ k <> "OSINT_Map_File".
Proof.
  intros H. apply mem_In in H. simpl in H.
  repeat (destruct H as [<-|H];
          [repeat split; try reflexivity; discriminate|]).
  contradiction.
Qed.

Lemma network_not_map k :
  is_network_key k = true -> k <> "OSINT_Map_File".
Proof. intros H ->. discriminate H. Qed.

Lemma has_key_of_get (d : dict pyval) k v :
  get d k = Some v -> has_key d k = true.
Proof. unfold has_key. intros ->. reflexivity. Qed.

Lemma gps_not_later k :
  is_gps_key k = true ->
  is_camera_key k = false /\ is_time_key k = false
  /\ is_forensic_key k = false /\ is_network_key k = false
  /\ k <> "OSINT_Map_File".
Proof.
  intros H. apply mem_In in H. simpl in H.
  repeat (destruct H as [<-|H];
          [repeat split; try reflexivity; discriminate|]).
  contradiction.
Qed.

(** Every field of a contribution is a field of the enriched record:
    the contributions made after it write under other keys. *)
Lemma contributions_kept (gps cam tim forensic net : dict pyval)
      (map_path : option string) :
  analysis_of is_gps_key (Ok gps) ->
  analysis_of is_camera_key (Ok cam) ->
  analysis_of is_time_key (Ok tim) ->
  analysis_of is_forensic_key (Ok forensic) ->
  analysis_of is_network_key (Ok net) ->
  let enhanced :=
    with_map map_path
      (update (update (update (update (update metadata gps) cam) tim)
                      forensic) net) in
  (forall k v, get gps k = Some v -> get enhanced k = Some v)
  /\ (forall k v, get cam k = Some v -> get enhanced k = Some v)
  /\ (forall k v, get tim k = Some v -> get enhanced k = Some v)
  /\ (forall k v, get forensic k = Some v -> get enhanced k = Some v)
  /\ (forall k v, get net k = Some v -> get enhanced k = Some v).
Proof.
  intros (gps' & Eg & Ng & Kg) (cam' & Ec & Nc & Kc) (tim' & Et & Nt & Kt)
         (forensic' & Ef & Nf & Kf) (net' & En & Nn & Kn) enhanced.
  injection Eg as <-. injection Ec as <-. injection Et as <-.
  injection Ef as <-. injection En as <-.
  subst enhanced. repeat split; intros k v Hget.
  - destruct (gps_not_later k (Kg k (has_key_of_get _ _ _ Hget)))
      as (A & B & C & D & E).
    rewrite get_with_map by exact E.
    rewrite 4 get_update_other;
      [apply get_update_in; assumption | eapply not_has_key; eassumption ..].
  - destruct (camera_not_later k (Kc k (has_key_of_get _ _ _ Hget)))
      as (A & B & C & D).
    rewrite get_with_map by exact D.
    rewrite 3 get_update_other;
      [apply get_update_in; assumption | eapply not_has_key; eassumption ..].
  - destruct (time_not_later k (Kt k (has_key_of_get _ _ _ Hget)))
      as (A & B & C).
    rewrite get_with_map by exact C.
    rewrite 2 get_update_other;
      [apply get_update_in; assumption | eapply not_has_key; eassumption ..].
  - destruct (forensic_not_later k (Kf k (has_key_of_get _ _ _ Hget)))
      as (A & B).
    rewrite get_with_map by exact B.
    rewrite 1 get_update_other;
      [apply get_update_in; assumption | eapply not_has_key; eassumption ..].
  - pose proof (network_not_map k (Kn k (has_key_of_get _ _ _ Hget))) as A.
    rewrite get_with_map by exact A.
    apply get_update_in; assumption.
Qed.

(** C10.  When a coordinate resolves and the reverse-geocoding call
    raises, the GPS analysis contributes OSINT_Coordinates and the one
    field OSINT_GPS_Error, and none of the five map links, the altitude
    flag or the location type; the camera, time, forensic and network
    analyses and the map generation still run, and every field they
    produce is a field of the enriched record, next to the two GPS
    fields. *)
Theorem geocoder_error_is_local (lat lon : float) (e : exn) :
  _extract_coordinates metadata = Ok (Some (lat, lon)) ->
  geolocator_reverse w (Flt.repr lat ++ ", " ++ Flt.repr lon) (Some "en")
  = Raise e ->
  let coordinates := VStr (Flt.fixed 6 lat ++ ", " ++ Flt.fixed 6 lon) in
  exists gps cam tim forensic net map_path enhanced,
    _gps_osint_analysis w metadata = Ok gps
    /\ gps = [("OSINT_Coordinates", coordinates); ("OSINT_GPS_Error", VStr e)]
    /\ (forall k, In k gps_network_keys -> has_key gps k = false)
    /\ _camera_osint_analysis w metadata = Ok cam
    /\ _time_analysis metadata = Ok tim
    /\ _forensic_analysis w image_path = Ok forensic
    /\ _network_analysis metadata = Ok net
    /\ _create_osm_map w metadata = Ok map_path
    /\ enhance_metadata w metadata image_path = Ok enhanced
    /\ get enhanced "OSINT_Coordinates" = Some coordinates
    /\ get enhanced "OSINT_GPS_Error" = Some (VStr e)
    /\ (forall k v, get cam k = Some v -> get enhanced k = Some v)
    /\ (forall k v, get tim k = Some v -> get enhanced k = Some v)
    /\ (forall k v, get forensic k = Some v -> get enhanced k = Some v)
    /\ (forall k v, get net k = Some v -> get enhanced k = Some v)
    /\ (forall path, map_path = Some path ->
                     get enhanced "OSINT_Map_File" = Some (VStr path)).
Proof.
  intros Hcoords Hraise coordinates.
  pose proof (gps_analysis_writes w metadata) as Ag.
  pose proof (camera_analysis_writes w metadata) as Ac.
  pose proof (time_analysis_writes metadata) as At.
  pose proof (forensic_analysis_writes w image_path) as Af.
  pose proof (network_analysis_writes metadata) as An.
  assert (Hg : _gps_osint_analysis w metadata
               = Ok [("OSINT_Coordinates", coordinates);
                     ("OSINT_GPS_Error", VStr e)]).
  { unfold _gps_osint_analysis, returned, returned_from, try_except, bind,
      call, store.
    rewrite Hcoords. cbv beta iota. rewrite Hraise. reflexivity. }
  destruct Ac as (cam & Hc & Ac). destruct At as (tim & Ht & At).
  destruct Af as (forensic & Hf & Af). destruct An as (net & Hn & An).
  destruct (create_osm_map_returns w metadata) as (map_path & Hm).
  rewrite Hg in Ag.
  destruct (contributions_kept _ cam tim forensic net map_path Ag
              (ex_intro _ cam (conj eq_refl Ac))
              (ex_intro _ tim (conj eq_refl At))
              (ex_intro _ forensic (conj eq_refl Af))
              (ex_intro _ net (conj eq_refl An)))
    as (Gg & Gc & Gt & Gf & Gn).
  exists [("OSINT_Coordinates", coordinates); ("OSINT_GPS_Error", VStr e)],
    cam, tim, forensic, net, map_path.
  eexists.
  split; [exact Hg|]. split; [reflexivity|].
  split.
  { intros k Hk. simpl in Hk.
    repeat (destruct Hk as [<-|Hk]; [reflexivity|]). contradiction. }
  split; [exact Hc|]. split; [exact Ht|]. split; [exact Hf|].
  split; [exact Hn|]. split; [exact Hm|].
  split; [apply enhance_metadata_unfold; eassumption|].
  split; [apply Gg; reflexivity|].
  split; [apply Gg; reflexivity|].
  split; [exact Gc|]. split; [exact Gt|]. split; [exact Gf|].
  split; [exact Gn|].
  intros path ->. unfold with_map.
  rewrite (create_osm_map_path path Hm). apply get_set_same.
Qed.

(** Section 8, the record with no resolvable coordinate: the GPS
    analysis contributes nothing and no map is made, so under the keys
    of the GPS analysis and under OSINT_Map_File the enriched record
    holds only what the base record held; the camera, time, forensic and
    network analyses still contribute every field they produce. *)
Theorem no_coordinate_no_map_fields :
  _extract_coordinates metadata = Ok None ->
  exists cam tim forensic net enhanced,
    _gps_osint_analysis w metadata = Ok []
    /\ _create_osm_map w metadata = Ok None
    /\ _camera_osint_analysis w metadata = Ok cam
    /\ _time_analysis metadata = Ok tim
    /\ _forensic_analysis w image_path = Ok forensic
    /\ _network_analysis metadata = Ok net
    /\ enhance_metadata w metadata image_path = Ok enhanced
    /\ (forall k, is_gps_key k = true \/ k = "OSINT_Map_File" ->
                  get enhanced k = get metadata k)
    /\ (forall k v, get cam k = Some v -> get enhanced k = Some v)
    /\ (forall k v, get tim k = Some v -> get enhanced k = Some v)
    /\ (forall k v, get forensic k = Some v -> get enhanced k = Some v)
    /\ (forall k v, get net k = Some v -> get enhanced k = Some v).
Proof.
  intros Hcoords.
  assert (Hg : _gps_osint_analysis w metadata = Ok []).
  { unfold _gps_osint_analysis, returned, returned_from, try_except, bind, call.
    rewrite Hcoords. reflexivity. }
  assert (Hm : _create_osm_map w metadata = Ok None).
  { unfold _create_osm_map. rewrite Hcoords. reflexivity. }
  pose proof (gps_analysis_writes w metadata) as Ag. rewrite Hg in Ag.
  destruct (camera_analysis_writes w metadata) as (cam & Hc & Ac).
  destruct (time_analysis_writes metadata) as (tim & Ht & At).
  destruct (forensic_analysis_writes w image_path) as (forensic & Hf & Af).
  destruct (network_analysis_writes metadata) as (net & Hn & An).
  destruct (contributions_kept _ cam tim forensic net None Ag
              (ex_intro _ cam (conj eq_refl Ac))
              (ex_intro _ tim (conj eq_refl At))
              (ex_intro _ forensic (conj eq_refl Af))
              (ex_intro _ net (conj eq_refl An)))
    as (_ & Gc & Gt & Gf & Gn).
  exists cam, tim, forensic, net. eexists.
  split; [exact Hg|]. split; [exact Hm|].
  split; [exact Hc|]. split; [exact Ht|]. split; [exact Hf|].
  split; [exact Hn|].
  split; [apply enhance_metadata_unfold; eassumption|].
  split; [|repeat split; assumption].
  intros k Hk. unfold with_map.
  assert (Hnot : is_camera_key k = false /\ is_time_key k = false
                 /\ is_forensic_key k = false /\ is_network_key k = false).
  { destruct Hk as [Hk | ->]; [|repeat split].
    destruct (gps_not_later k Hk) as (A & B & C & D & _). auto. }
  destruct Hnot as (A & B & C & D).
  destruct Ac as [_ Kc], At as [_ Kt], Af as [_ Kf], An as [_ Kn].
  rewrite 4 get_update_other by (eapply not_has_key; eassumption).
  reflexivity.
Qed.

End Contributions.

(** A record with a capture date and no coordinate, on the machine with
    no network and no files. *)
Lemma no_coordinate_no_map_fields_witness :
  exists cam tim forensic net enhanced,
    _gps_osint_analysis Scenario.offline Scenario.dated = Ok []
    /\ _create_osm_map Scenario.offline Scenario.dated = Ok None
    /\ _camera_osint_analysis Scenario.offline Scenario.dated = Ok cam
    /\ _time_analysis Scenario.dated = Ok tim
    /\ _forensic_analysis Scenario.offline (PathStr "photo.jpg") = Ok forensic
    /\ _network_analysis Scenario.dated = Ok net
    /\ enhance_metadata Scenario.offline Scenario.dated (PathStr "photo.jpg")
       = Ok enhanced
    /\ (forall k, Spec.is_gps_key k = true \/ k = "OSINT_Map_File" ->
                  get enhanced k = get Scenario.dated k)
    /\ (forall k v, get cam k = Some v -> get enhanced k = Some v)
    /\ (forall k v, get tim k = Some v -> get enhanced k = Some v)
    /\ (forall k v, get forensic k = Some v -> get enhanced k = Some v)
    /\ (forall k v, get net k = Some v -> get enhanced k = Some v).
Proof.
  apply (no_coordinate_no_map_fields
           Scenario.offline Scenario.dated (PathStr "photo.jpg")).
  reflexivity.
Defined.

(** A geotagged photograph while the geocoder times out. *)
Lemma geocoder_error_is_local_witness :
  exists gps cam tim forensic net map_path enhanced,
    _gps_osint_analysis Scenario.geocoder_down Scenario.geotagged = Ok gps
    /\ gps = [("OSINT_Coordinates", VStr "40.446333, -79.982306");
              ("OSINT_GPS_Error", VStr "Service timed out")]
    /\ (forall k, In k Spec.gps_network_keys -> has_key gps k = false)
    /\ _camera_osint_analysis Scenario.geocoder_down Scenario.geotagged = Ok cam
    /\ _time_analysis Scenario.geotagged = Ok tim
    /\ _forensic_analysis Scenario.geocoder_down (PathStr "IMG_0001.jpg")
       = Ok forensic
    /\ _network_analysis Scenario.geotagged = Ok net
    /\ _create_osm_map Scenario.geocoder_down Scenario.geotagged = Ok map_path
    /\ enhance_metadata Scenario.geocoder_down Scenario.geotagged
                        (PathStr "IMG_0001.jpg") = Ok enhanced
    /\ get enhanced "OSINT_Coordinates" = Some (VStr "40.446333, -79.982306")
    /\ get enhanced "OSINT_GPS_Error" = Some (VStr "Service timed out")
    /\ (forall k v, get cam k = Some v -> get enhanced k = Some v)
    /\ (forall k v, get tim k = Some v -> get enhanced k = Some v)
    /\ (forall k v, get forensic k = Some v -> get enhanced k = Some v)
    /\ (forall k v, get net k = Some v -> get enhanced k = Some v)
    /\ (forall path, map_path = Some path ->
                     get enhanced "OSINT_Map_File" = Some (VStr path)).
Proof.
  apply (geocoder_error_is_local
           Scenario.geocoder_down Scenario.geotagged (PathStr "IMG_0001.jpg")
           (Flt.nearest false 4044633333 100000000)
           (Flt.nearest true 7998230556 100000000)
           "Service timed out");
    vm_compute; reflexivity.
Defined.

(** ** The aggregator *)

(** Keys under prefixes that are apart are different keys. *)
Lemma apart_keys (ps qs : list string) (d : dict pyval) k :
  Spec.apart ps qs = true ->
  (forall k, has_key d k = true -> Spec.has_prefix qs k = true) ->
  Spec.has_prefix ps k = true -> has_key d k = false.
Proof.
  intros Hap Hd Hk.
  destruct (has_key d k) eqn:E; [|reflexivity].
  apply Hd in E. unfold Spec.has_prefix in *.
  apply existsb_exists in Hk as (p & Hp & Hpk).
  apply existsb_exists in E as (q & Hq & Hqk).
  unfold Spec.apart in Hap. rewrite forallb_forall in Hap.
  specialize (Hap p Hp). rewrite forallb_forall in Hap.
  specialize (Hap q Hq).
  rewrite (starts_with_both p q k Hpk Hqk) in Hap. discriminate.
Qed.

(** One layer of the merge that holds no key under the prefixes of the
    field looked up. *)
Ltac skip_layer :=
  match goal with
  | Kd : (forall k, has_key ?d k = true -> Spec.has_prefix ?ps k = true),
    Hk : has_key ?d ?k = true
    |- get (update _ ?e) ?k = _ =>
      match goal with
      | Ke : (forall k, has_key e k = true -> Spec.has_prefix ?qs k = true) |- _ =>
          rewrite (get_update_other _ e k
                     (apart_keys ps qs e k eq_refl Ke (Kd k Hk)))
      end
  end.

Section Passes.

Import Spec.

Variable w : World.
Variable image_path : pypath.

Lemma pass_intro (P : string -> bool) (body : M unit) :
  writes P body ->
  analysis_of P (returned (try_except body (fun _ => ret tt))).
Proof.
  intros H. apply analysis_intro.
  - exact H.
  - intros e. apply writes_ret.
  - intros e. apply total_ret.
Qed.

Lemma get_file_info_writes :
  analysis_of is_file_key (_get_file_info w image_path).
Proof. apply pass_intro. writes_all. Qed.

Lemma deep_exifread_writes :
  analysis_of is_later_key (_deep_exifread w image_path).
Proof. apply pass_intro. writes_all. Qed.

Lemma extended_pil_exif_writes :
  analysis_of is_later_key (_extended_pil_exif w image_path).
Proof. apply pass_intro. writes_all. Qed.

Lemma low_level_piexif_writes :
  analysis_of is_later_key (_low_level_piexif w image_path).
Proof. apply pass_intro. writes_all. Qed.

Lemma detailed_gps_writes :
  analysis_of is_later_key (_detailed_gps w image_path).
Proof. apply pass_intro. writes_all. Qed.

Lemma extract_makernotes_writes :
  analysis_of is_later_key (_extract_makernotes w image_path).
Proof. apply pass_intro. writes_all. Qed.

Lemma image_technical_specs_writes :
  analysis_of is_later_key (_image_technical_specs w image_path).
Proof. apply pass_intro. writes_all. Qed.

Lemma color_analysis_writes :
  analysis_of is_later_key (_color_analysis w image_path).
Proof. apply pass_intro. writes_all. Qed.

Lemma xmp_iptc_data_writes :
  analysis_of is_later_key (_xmp_iptc_data w image_path).
Proof. apply pass_intro. writes_all. Qed.

(** The last pass has no [try]: it raises exactly when the argument is
    not a path, and otherwise sets RAW_File. *)
Lemma raw_specific_data_cases :
  match image_path with
  | PathStr _ =>
      exists d, _raw_specific_data image_path = Ok d
                /\ has_key d "RAW_File" = true
                /\ forall k, has_key d k = true -> is_later_key k = true
  | NotAPath t => _raw_specific_data image_path = Raise (OsPath.not_a_path t)
  end.
Proof.
  destruct image_path as [s|t]; [|reflexivity].
  unfold _raw_specific_data, returned, returned_from, bind, call,
    OsPath.splitext_ext.
  cbv beta iota zeta.
  destruct (get raw_formats _) as [label|]; unfold store; cbv beta iota;
    eexists; (split; [reflexivity|]); (split; [reflexivity|]);
    intros k Hk; rewrite has_key_existsb in Hk; simpl in Hk;
    repeat (apply orb_true_iff in Hk; destruct Hk as [Hk|Hk];
            [apply String.eqb_eq in Hk; subst; reflexivity|]);
    discriminate.
Qed.

Lemma raw_specific_data_outcome :
  (exists d, _raw_specific_data image_path = Ok d
             /\ has_key d "RAW_File" = true
             /\ forall k, has_key d k = true -> is_later_key k = true)
  \/ (exists t, image_path = NotAPath t
                /\ _raw_specific_data image_path = Raise (OsPath.not_a_path t)).
Proof.
  pose proof raw_specific_data_cases as H.
  destruct image_path as [s|t]; [left; exact H | right; eauto].
Qed.

(** The body of the [try] once the nine guarded passes have returned. *)
Lemma passes_unfold d1 d2 d3 d4 d5 d6 d7 d8 d9 :
  _get_file_info w image_path = Ok d1 ->
  _deep_exifread w image_path = Ok d2 ->
  _extended_pil_exif w image_path = Ok d3 ->
  _low_level_piexif w image_path = Ok d4 ->
  _detailed_gps w image_path = Ok d5 ->
  _extract_makernotes w image_path = Ok d6 ->
  _image_technical_specs w image_path = Ok d7 ->
  _color_analysis w image_path = Ok d8 ->
  _xmp_iptc_data w image_path = Ok d9 ->
  passes w image_path
  = rbind (_raw_specific_data image_path)
          (fun d10 =>
             Ok (update (update (update (update (update (update (update
                   (update (update (update [] d1) d2) d3) d4) d5) d6) d7)
                   d8) d9) d10)).
Proof.
  intros H1 H2 H3 H4 H5 H6 H7 H8 H9.
  unfold passes, update_from, returned, returned_from, bind, call, merge.
  rewrite H1, H2, H3, H4, H5, H6, H7, H8, H9. cbv beta iota.
  destruct (_raw_specific_data image_path); reflexivity.
Qed.

Lemma later_not_file (d : dict pyval) k :
  (forall k, has_key d k = true -> is_later_key k = true) ->
  is_file_key k = true -> has_key d k = false.
Proof.
  intros H Hk. destruct (has_key d k) eqn:E; [|reflexivity].
  apply H in E. unfold is_later_key, is_file_key in *.
  rewrite Hk in E. discriminate.
Qed.

(** C1 (as amended).  [extract_metadata] returns a record for every
    argument and raises nothing.  When the body of its [try] raises
    (which only an argument that is not a path brings about), the record
    is the single entry "Error" with the message; otherwise the record
    holds every field the file-attribute pass produced, with its value
    (none when the file cannot be stat'ed), and the RAW_File flag derived
    from the path. *)
Theorem extract_metadata_returns_a_record :
  exists metadata,
    extract_metadata w image_path = Ok metadata
    /\ match passes w image_path with
       | Raise e => metadata = [("Error", VStr ("Extraction failed: " ++ e))]
       | Ok _ =>
           exists info,
             _get_file_info w image_path = Ok info
             /\ (forall k v, get info k = Some v -> get metadata k = Some v)
             /\ has_key metadata "RAW_File" = true
       end
    /\ match image_path with
       | PathStr _ => exists m, passes w image_path = Ok m
       | NotAPath t => passes w image_path = Raise (OsPath.not_a_path t)
       end.
Proof.
  destruct get_file_info_writes as (d1 & H1 & N1 & K1).
  destruct deep_exifread_writes as (d2 & H2 & _ & K2).
  destruct extended_pil_exif_writes as (d3 & H3 & _ & K3).
  destruct low_level_piexif_writes as (d4 & H4 & _ & K4).
  destruct detailed_gps_writes as (d5 & H5 & _ & K5).
  destruct extract_makernotes_writes as (d6 & H6 & _ & K6).
  destruct image_technical_specs_writes as (d7 & H7 & _ & K7).
  destruct color_analysis_writes as (d8 & H8 & _ & K8).
  destruct xmp_iptc_data_writes as (d9 & H9 & _ & K9).
  pose proof (passes_unfold _ _ _ _ _ _ _ _ _ H1 H2 H3 H4 H5 H6 H7 H8 H9) as Hp.
  unfold extract_metadata. rewrite Hp.
  destruct raw_specific_data_outcome as [(d10 & H10 & Hraw & K10) | (t & Hpath & H10)];
    rewrite H10; simpl.
  - eexists. split; [reflexivity|]. split.
    + exists d1. split; [exact H1|]. split.
      * intros k v Hget.
        assert (Hk : is_file_key k = true).
        { apply K1. unfold has_key. rewrite Hget. reflexivity. }
        rewrite 9 get_update_other by (eapply later_not_file; eassumption).
        apply get_update_in; assumption.
      * rewrite has_key_update, Hraw. apply orb_true_r.
    + destruct image_path as [s|t]; [eauto | discriminate H10].
  - eexists. split; [reflexivity|]. split; [reflexivity|].
    rewrite Hpath in *. exact H10.
Qed.

Lemma get_file_info_prefix :
  analysis_of (has_prefix file_prefixes) (_get_file_info w image_path).
Proof. apply pass_intro. writes_all. Qed.

Lemma deep_exifread_prefix :
  analysis_of (has_prefix exifread_prefixes) (_deep_exifread w image_path).
Proof. apply pass_intro. writes_all. Qed.

Lemma extended_pil_exif_prefix :
  analysis_of (has_prefix pil_prefixes) (_extended_pil_exif w image_path).
Proof. apply pass_intro. writes_all. Qed.

Lemma low_level_piexif_prefix :
  analysis_of (has_prefix piexif_prefixes) (_low_level_piexif w image_path).
Proof. apply pass_intro. writes_all. Qed.

Lemma detailed_gps_prefix :
  analysis_of (has_prefix gps_prefixes) (_detailed_gps w image_path).
Proof. apply pass_intro. writes_all. Qed.

Lemma extract_makernotes_prefix :
  analysis_of (has_prefix maker_prefixes) (_extract_makernotes w image_path).
Proof. apply pass_intro. writes_all. Qed.

Lemma image_technical_specs_prefix :
  analysis_of (has_prefix technical_prefixes)
              (_image_technical_specs w image_path).
Proof. apply pass_intro. writes_all. Qed.

Lemma color_analysis_prefix :
  analysis_of (has_prefix color_prefixes) (_color_analysis w image_path).
Proof. apply pass_intro. writes_all. Qed.

Lemma xmp_iptc_data_prefix :
  analysis_of (has_prefix xmp_prefixes) (_xmp_iptc_data w image_path).
Proof. apply pass_intro. writes_all. Qed.

Lemma raw_specific_data_prefix (d : dict pyval) :
  _raw_specific_data image_path = Ok d ->
  NoDup (keys d) /\ forall k, has_key d k = true -> has_prefix raw_prefixes k = true.
Proof.
  destruct image_path as [s|t]; [|discriminate].
  unfold _raw_specific_data, returned, returned_from, bind, call,
    OsPath.splitext_ext.
  cbv beta iota zeta.
  destruct (get raw_formats _) as [label|]; unfold store; cbv beta iota;
    intros H; injection H as <-; (split;
    [repeat constructor; simpl; intuition discriminate|]);
    intros k Hk; rewrite has_key_existsb in Hk; simpl in Hk;
    repeat (apply orb_true_iff in Hk; destruct Hk as [Hk|Hk];
            [apply String.eqb_eq in Hk; subst; reflexivity|]);
    discriminate.
Qed.

(** The aggregated record, layer by layer: the results of the ten
    passes merged in pass order, each pass with distinct keys under its
    own prefixes. *)
Lemma passes_layers (d10 : dict pyval) :
  _raw_specific_data image_path = Ok d10 ->
  exists d1 d2 d3 d4 d5 d6 d7 d8 d9,
    pass_results w image_path
    = [Ok d1; Ok d2; Ok d3; Ok d4; Ok d5; Ok d6; Ok d7; Ok d8; Ok d9; Ok d10]
    /\ passes w image_path
       = Ok (update (update (update (update (update (update (update
               (update (update (update [] d1) d2) d3) d4) d5) d6) d7)
               d8) d9) d10)
    /\ (NoDup (keys d1)
        /\ forall k, has_key d1 k = true -> has_prefix file_prefixes k = true)
    /\ (NoDup (keys d2)
        /\ forall k, has_key d2 k = true -> has_prefix exifread_prefixes k = true)
    /\ (NoDup (keys d3)
        /\ forall k, has_key d3 k = true -> has_prefix pil_prefixes k = true)
    /\ (NoDup (keys d4)
        /\ forall k, has_key d4 k = true -> has_prefix piexif_prefixes k = true)
    /\ (NoDup (keys d5)
        /\ forall k, has_key d5 k = true -> has_prefix gps_prefixes k = true)
    /\ (NoDup (keys d6)
        /\ forall k, has_key d6 k = true -> has_prefix maker_prefixes k = true)
    /\ (NoDup (keys d7)
        /\ forall k, has_key d7 k = true -> has_prefix technical_prefixes k = true)
    /\ (NoDup (keys d8)
        /\ forall k, has_key d8 k = true -> has_prefix color_prefixes k = true)
    /\ (NoDup (keys d9)
        /\ forall k, has_key d9 k = true -> has_prefix xmp_prefixes k = true)
    /\ (NoDup (keys d10)
        /\ forall k, has_key d10 k = true -> has_prefix raw_prefixes k = true).
Proof.
  intros H10.
  destruct get_file_info_prefix as (d1 & H1 & A1).
  destruct deep_exifread_prefix as (d2 & H2 & A2).
  destruct extended_pil_exif_prefix as (d3 & H3 & A3).
  destruct low_level_piexif_prefix as (d4 & H4 & A4).
  destruct detailed_gps_prefix as (d5 & H5 & A5).
  destruct extract_makernotes_prefix as (d6 & H6 & A6).
  destruct image_technical_specs_prefix as (d7 & H7 & A7).
  destruct color_analysis_prefix as (d8 & H8 & A8).
  destruct xmp_iptc_data_prefix as (d9 & H9 & A9).
  exists d1, d2, d3, d4, d5, d6, d7, d8, d9.
  split.
  { unfold pass_results.
    rewrite H1, H2, H3, H4, H5, H6, H7, H8, H9, H10. reflexivity. }
  split.
  { rewrite (passes_unfold _ _ _ _ _ _ _ _ _ H1 H2 H3 H4 H5 H6 H7 H8 H9), H10.
    reflexivity. }
  pose proof (raw_specific_data_prefix d10 H10) as A10.
  auto 20.
Qed.

(** Section 4.3, the merge: when the last pass returns (the argument is
    a path), the aggregated record holds exactly the fields the ten
    passes produced: every field of a pass is in it with its value (no
    pass overwrites the field of another), and each of its keys is a key
    of some pass. *)
Theorem passes_never_overwrite (metadata : dict pyval) :
  passes w image_path = Ok metadata ->
  (forall r d, In r (pass_results w image_path) -> r = Ok d ->
               forall k v, get d k = Some v -> get metadata k = Some v)
  /\ (forall k, has_key metadata k = true ->
                exists d, In (Ok d) (pass_results w image_path)
                          /\ has_key d k = true).
Proof.
  intros Hm.
  destruct (_raw_specific_data image_path) as [d10|e] eqn:H10.
  2:{ exfalso. revert Hm. unfold passes, returned, returned_from, bind.
      unfold update_from at 10. unfold bind, call. rewrite H10.
      repeat match goal with
             | |- context [update_from ?r ?d] =>
                 destruct (update_from r d) as [? [[]|?]]
             end; discriminate. }
  destruct (passes_layers d10 H10)
    as (d1 & d2 & d3 & d4 & d5 & d6 & d7 & d8 & d9 & Hres & Hp
        & (N1 & K1) & (N2 & K2) & (N3 & K3) & (N4 & K4) & (N5 & K5)
        & (N6 & K6) & (N7 & K7) & (N8 & K8) & (N9 & K9) & (N10 & K10)).
  rewrite Hp in Hm. injection Hm as <-. rewrite Hres. split.
  - intros r d Hin Hr k v Hget.
    assert (Hk : has_key d k = true) by (apply (has_key_of_get _ _ _ Hget)).
    simpl in Hin.
    repeat (destruct Hin as [<-|Hin];
            [injection Hr as <-; repeat skip_layer;
             apply get_update_in; assumption|]).
    contradiction.
  - intros k Hk. rewrite !has_key_update in Hk.
    repeat (apply orb_true_iff in Hk; destruct Hk as [Hk|Hk]);
      try discriminate Hk; eexists; (split; [|exact Hk]); simpl; auto 12.
Qed.

(** The fields of the last pass are fields of the aggregated record. *)
Lemma extract_metadata_keeps_raw (d10 : dict pyval) :
  _raw_specific_data image_path = Ok d10 -> NoDup (keys d10) ->
  exists basic,
    extract_metadata w image_path = Ok basic
    /\ forall k v, get d10 k = Some v -> get basic k = Some v.
Proof.
  intros H10 N10.
  destruct get_file_info_writes as (d1 & H1 & _).
  destruct deep_exifread_writes as (d2 & H2 & _).
  destruct extended_pil_exif_writes as (d3 & H3 & _).
  destruct low_level_piexif_writes as (d4 & H4 & _).
  destruct detailed_gps_writes as (d5 & H5 & _).
  destruct extract_makernotes_writes as (d6 & H6 & _).
  destruct image_technical_specs_writes as (d7 & H7 & _).
  destruct color_analysis_writes as (d8 & H8 & _).
  destruct xmp_iptc_data_writes as (d9 & H9 & _).
  pose proof (passes_unfold _ _ _ _ _ _ _ _ _ H1 H2 H3 H4 H5 H6 H7 H8 H9) as Hp.
  unfold extract_metadata. rewrite Hp, H10. simpl.
  eexists. split; [reflexivity|].
  intros k v Hget. apply get_update_in; assumption.
Qed.

(** No field of the aggregated record carries the reserved prefix of
    the enrichment. *)
Lemma file_key_unreserved k : is_file_key k = true -> reserved k = false.
Proof.
  unfold is_file_key, reserved. intros H.
  destruct (Text.starts_with "OSINT_" k) eqn:E; [|reflexivity].
  pose proof (starts_with_both _ _ _ H E) as F. discriminate F.
Qed.

Lemma later_key_unreserved k : is_later_key k = true -> reserved k = false.
Proof.
  unfold is_later_key, reserved. intros H.
  apply andb_true_iff in H as [_ H]. apply negb_true_iff in H. exact H.
Qed.

Lemma extract_metadata_unreserved :
  exists metadata,
    extract_metadata w image_path = Ok metadata
    /\ forall k, has_key metadata k = true -> reserved k = false.
Proof.
  destruct get_file_info_writes as (d1 & H1 & _ & K1).
  destruct deep_exifread_writes as (d2 & H2 & _ & K2).
  destruct extended_pil_exif_writes as (d3 & H3 & _ & K3).
  destruct low_level_piexif_writes as (d4 & H4 & _ & K4).
  destruct detailed_gps_writes as (d5 & H5 & _ & K5).
  destruct extract_makernotes_writes as (d6 & H6 & _ & K6).
  destruct image_technical_specs_writes as (d7 & H7 & _ & K7).
  destruct color_analysis_writes as (d8 & H8 & _ & K8).
  destruct xmp_iptc_data_writes as (d9 & H9 & _ & K9).
  pose proof (passes_unfold _ _ _ _ _ _ _ _ _ H1 H2 H3 H4 H5 H6 H7 H8 H9) as Hp.
  unfold extract_metadata. rewrite Hp.
  destruct raw_specific_data_outcome as [(d10 & H10 & _ & K10) | (t & _ & H10)];
    rewrite H10; simpl; eexists; (split; [reflexivity|]); intros k Hk.
  - rewrite !has_key_update in Hk.
    repeat (apply orb_true_iff in Hk; destruct Hk as [Hk|Hk]);
      try discriminate Hk;
      try (apply file_key_unreserved, K1, Hk);
      apply later_key_unreserved; auto.
  - rewrite has_key_existsb in Hk. simpl in Hk. rewrite orb_false_r in Hk.
    apply String.eqb_eq in Hk. subst k. reflexivity.
Qed.

End Passes.

(** C1 (counterexample).  A path to a file that does not exist: the
    file-attribute pass produces nothing, the body of the [try] raises
    nothing, and the record returned holds the RAW_File flag alone: it is
    neither the "Error" record nor a record with file attributes. *)
Lemma extract_metadata_missing_file :
  _get_file_info Scenario.offline (PathStr "/missing/IMG_0001.jpg") = Ok []
  /\ extract_metadata Scenario.offline (PathStr "/missing/IMG_0001.jpg")
     = Ok [("RAW_File", VStr "NO")].
Proof. split; vm_compute; reflexivity. Qed.

(** An argument that is not a path: the one-entry record of the handler. *)
Example extract_metadata_not_a_path :
  extract_metadata Scenario.offline (NotAPath "NoneType")
  = Ok [("Error",
         VStr "Extraction failed: expected str, bytes or os.PathLike object, not NoneType")].
Proof. vm_compute. reflexivity. Qed.

(** ** The pipeline: aggregation followed by enrichment *)

Section Pipeline.

Import Spec.

Variable w : World.
Variable image_path : pypath.

(** On the record the aggregator produces, enrichment is a superset in
    full: [extract_osint_metadata] returns a record, and every field of
    the base record is in it with its value, because no base field
    carries the reserved prefix.  When the enhancer cannot be built the
    base record itself is returned. *)
Theorem extract_osint_metadata_keeps_base :
  exists basic enhanced,
    extract_metadata w image_path = Ok basic
    /\ extract_osint_metadata w image_path = Ok enhanced
    /\ (forall k, has_key basic k = true -> reserved k = false)
    /\ (forall k v, get basic k = Some v -> get enhanced k = Some v).
Proof.
  destruct (extract_metadata_unreserved w image_path) as (basic & Hb & Hfree).
  destruct (enhance_metadata_layers w basic image_path)
    as (gps & cam & tim & forensic & net & map_path & _ & He & Hnone).
  exists basic. unfold extract_osint_metadata. rewrite Hb. simpl.
  destruct (new_enhancer w) as [[]|e]; simpl.
  - rewrite He. simpl. eexists. split; [reflexivity|]. split; [reflexivity|].
    split; [exact Hfree|].
    intros k v Hget.
    assert (Hk : reserved k = false).
    { apply Hfree. unfold has_key. rewrite Hget. reflexivity. }
    rewrite (get_layers basic) by (auto using Hnone). exact Hget.
  - exists basic. repeat split; auto.
Qed.

End Pipeline.

(** Section 8, the file named IMG_1234.CR2: when the file can be read
    and stat'ed and the enhancer can be built, the enriched record holds
    RAW_Format "Canon RAW", RAW_File "YES" and the OSINT_Filename_Pattern
    flag. *)
Theorem canon_raw_scenario (w : World) (content : list byte) (st : Stat)
        (created modified : string) :
  new_enhancer w = Ok tt ->
  read_file w (PathStr "IMG_1234.CR2") = Ok content ->
  os_stat w (PathStr "IMG_1234.CR2") = Ok st ->
  datetime_isoformat w (st_ctime st) = Ok created ->
  datetime_isoformat w (st_mtime st) = Ok modified ->
  exists enhanced,
    extract_osint_metadata w (PathStr "IMG_1234.CR2") = Ok enhanced
    /\ get enhanced "RAW_Format" = Some (VStr "Canon RAW")
    /\ get enhanced "RAW_File" = Some (VStr "YES")
    /\ get enhanced "OSINT_Filename_Pattern"
       = Some (VStr "Common camera naming pattern").
Proof.
  intros Hnew Hread Hstat Hcreated Hmodified.
  set (path := PathStr "IMG_1234.CR2") in *.
  destruct (extract_metadata_keeps_raw w path
              [("RAW_Format", VStr "Canon RAW"); ("RAW_File", VStr "YES")]
              eq_refl)
    as (basic & Hb & Hraw).
  { repeat constructor; simpl; intuition discriminate. }
  destruct (enhance_metadata_layers w basic path)
    as (gps & cam & tim & forensic & net & map_path
        & (Hg & Hc & Ht & Hf & Hn & Hm) & He & Hfree).
  assert (Hpattern : get forensic "OSINT_Filename_Pattern"
                     = Some (VStr "Common camera naming pattern")).
  { revert Hf.
    unfold _forensic_analysis, returned, returned_from, try_except, bind,
      call, store.
    fold path. rewrite Hread, Hstat, Hcreated, Hmodified. simpl.
    intros Hf. injection Hf as <-. reflexivity. }
  pose proof (gps_analysis_writes w basic) as Ag. rewrite Hg in Ag.
  pose proof (camera_analysis_writes w basic) as Ac. rewrite Hc in Ac.
  pose proof (time_analysis_writes basic) as At. rewrite Ht in At.
  pose proof (forensic_analysis_writes w path) as Af. rewrite Hf in Af.
  pose proof (network_analysis_writes basic) as An. rewrite Hn in An.
  destruct (contributions_kept basic gps cam tim forensic net map_path
              Ag Ac At Af An)
    as (_ & _ & _ & Gf & _).
  unfold extract_osint_metadata. rewrite Hb. simpl.
  rewrite Hnew. simpl. rewrite He. simpl.
  eexists. split; [reflexivity|].
  split; [|split].
  - rewrite (get_layers basic) by (reflexivity || (apply Hfree; reflexivity)).
    apply Hraw. reflexivity.
  - rewrite (get_layers basic) by (reflexivity || (apply Hfree; reflexivity)).
    apply Hraw. reflexivity.
  - apply Gf, Hpattern.
Qed.

(** The file on a card reader. *)
Lemma canon_raw_scenario_witness :
  exists enhanced,
    extract_osint_metadata Scenario.card_reader (PathStr "IMG_1234.CR2")
    = Ok enhanced
    /\ get enhanced "RAW_Format" = Some (VStr "Canon RAW")
    /\ get enhanced "RAW_File" = Some (VStr "YES")
    /\ get enhanced "OSINT_Filename_Pattern"
       = Some (VStr "Common camera naming pattern").
Proof.
  apply (canon_raw_scenario Scenario.card_reader []
           {| st_size := 0; st_ctime := 0; st_mtime := 0 |}
           "1970-01-01T00:00:00" "1970-01-01T00:00:00");
    reflexivity.
Defined.

(** Section 8, the PNG with no EXIF block: the tag reader finds no tag
    and the decoder opens the image.  The record has MakerNotes_Present
    "NO" and RAW_File "NO", no GPS_Presence, and Color_ICC_Present "YES"
    or "NO" as the image has an embedded profile or not. *)
Theorem png_without_exif (w : World) (content : list byte) (img : PilImage) :
  read_file w (PathStr "picture.png") = Ok content ->
  exifread_process_file w content false = Ok [] ->
  pil_open w (PathStr "picture.png") = Ok img ->
  exists metadata,
    extract_metadata w (PathStr "picture.png") = Ok metadata
    /\ get metadata "MakerNotes_Present" = Some (VStr "NO")
    /\ get metadata "RAW_File" = Some (VStr "NO")
    /\ get metadata "GPS_Presence" = None
    /\ get metadata "Color_ICC_Present"
       = Some (VStr (if has_key (img_info img) "icc_profile"
                     then "YES" else "NO")).
Proof.
  intros Hread Hexif Hopen.
  set (path := PathStr "picture.png") in *.
  assert (H10 : _raw_specific_data path = Ok [("RAW_File", VStr "NO")])
    by reflexivity.
  destruct (passes_layers w path _ H10)
    as (d1 & d2 & d3 & d4 & d5 & d6 & d7 & d8 & d9 & Hres & Hp
        & (N1 & K1) & (N2 & K2) & (N3 & K3) & (N4 & K4) & (N5 & K5)
        & (N6 & K6) & (N7 & K7) & (N8 & K8) & (N9 & K9) & (N10 & K10)).
  unfold pass_results in Hres.
  injection Hres as _ _ _ _ E5 E6 _ E8 _.
  assert (G5 : d5 = []).
  { revert E5.
    unfold _detailed_gps, returned, returned_from, try_except, bind, call.
    rewrite Hread, Hexif. simpl. intros H. injection H as <-. reflexivity. }
  assert (G6 : get d6 "MakerNotes_Present" = Some (VStr "NO")).
  { revert E6.
    unfold _extract_makernotes, returned, returned_from, try_except, bind, call.
    rewrite Hread, Hexif. simpl. intros H. injection H as <-. reflexivity. }
  assert (G8 : get d8 "Color_ICC_Present"
               = Some (VStr (if has_key (img_info img) "icc_profile"
                             then "YES" else "NO"))).
  { revert E8.
    unfold _color_analysis, returned, returned_from, try_except, bind, call,
      store, has_key.
    rewrite Hopen. cbv beta iota.
    destruct (get (img_info img) "icc_profile") as [icc|].
    - destruct (info_len icc) as [n|];
        [destruct (info_profile icc) as [[[a|] [b|] [c|] [d|]]|]|];
        simpl; intros H; injection H as <-; reflexivity.
    - simpl. intros H. injection H as <-. reflexivity. }
  unfold extract_metadata. rewrite Hp. unfold rcatch.
  eexists. split; [reflexivity|].
  split; [|split; [|split]].
  - pose proof (has_key_of_get _ _ _ G6) as Hk.
    repeat skip_layer. apply get_update_in; assumption.
  - apply get_update_in; [exact N10 | reflexivity].
  - assert (Hnone : forall (d : dict pyval) k, has_key d k = false -> get d k = None).
    { intros d k. unfold has_key. destruct (get d k); [discriminate | reflexivity]. }
    apply Hnone. rewrite !has_key_update. subst d5.
    rewrite (not_has_key _ d1 _ K1), (not_has_key _ d2 _ K2),
      (not_has_key _ d3 _ K3), (not_has_key _ d4 _ K4),
      (not_has_key _ d6 _ K6), (not_has_key _ d7 _ K7),
      (not_has_key _ d8 _ K8), (not_has_key _ d9 _ K9); reflexivity.
  - pose proof (has_key_of_get _ _ _ G8) as Hk.
    repeat skip_layer. apply get_update_in; assumption.
Qed.

(** The ten passes on the PNG below. *)
Lemma passes_never_overwrite_witness :
  exists metadata,
    passes Scenario.photo_viewer (PathStr "picture.png") = Ok metadata
    /\ (forall r d,
           In r (pass_results Scenario.photo_viewer (PathStr "picture.png")) ->
           r = Ok d ->
           forall k v, get d k = Some v -> get metadata k = Some v)
    /\ (forall k, has_key metadata k = true ->
                  exists d,
                    In (Ok d) (pass_results Scenario.photo_viewer
                                            (PathStr "picture.png"))
                    /\ has_key d k = true).
Proof.
  eexists. split; [vm_compute; reflexivity|].
  apply (passes_never_overwrite Scenario.photo_viewer (PathStr "picture.png")).
  vm_compute. reflexivity.
Defined.

(** The PNG on the machine that opens it. *)
Lemma png_without_exif_witness :
  exists metadata,
    extract_metadata Scenario.photo_viewer (PathStr "picture.png") = Ok metadata
    /\ get metadata "MakerNotes_Present" = Some (VStr "NO")
    /\ get metadata "RAW_File" = Some (VStr "NO")
    /\ get metadata "GPS_Presence" = None
    /\ get metadata "Color_ICC_Present" = Some (VStr "NO").
Proof.
  apply (png_without_exif Scenario.photo_viewer [] Scenario.png_image);
    reflexivity.
Defined.

(** ** The detailed GPS pass on the spec's scenario *)

Section DetailedGps.

Lemma get_select_from (keep : string -> bool) (tags : dict exif_value) :
  NoDup (keys tags) ->
  forall (acc : dict exif_value) k,
    (forall k', In k' (keys tags) -> has_key acc k' = false) ->
    get (fold_left (fun acc tv => if keep (fst tv)
                                  then set acc (fst tv) (snd tv) else acc)
                   tags acc) k
    = match (if keep k then get tags k else None) with
      | Some v => Some v
      | None => get acc k
      end.
Proof.
  intros Hnd.
  induction tags as [|[k0 v0] tags' IH]; intros acc k Hacc; simpl.
  - destruct (keep k); reflexivity.
  - inversion Hnd as [|? ? Hnotin Hnd']. subst.
    rewrite IH; [|exact Hnd'|].
    + destruct (String.eqb k k0) eqn:E.
      * apply String.eqb_eq in E. subst k0.
        assert (Hnone : get tags' k = None).
        { destruct (get tags' k) eqn:G; [|reflexivity].
          exfalso. apply Hnotin, has_key_In.
          unfold has_key. rewrite G. reflexivity. }
        rewrite Hnone. destruct (keep k); [|reflexivity].
        rewrite get_set_same. reflexivity.
      * destruct (keep k0); [|reflexivity].
        destruct (if keep k then get tags' k else None); [reflexivity|].
        apply get_set_other. intros ->.
        rewrite String.eqb_refl in E. discriminate.
    + intros k' Hin. destruct (keep k0).
      * rewrite has_key_set. rewrite Hacc by (simpl; auto).
        destruct (String.eqb k' k0) eqn:E; [|reflexivity].
        apply String.eqb_eq in E. subst. contradiction.
      * apply Hacc. simpl. auto.
Qed.

Lemma convert_latitude :
  _convert_gps_coord Scenario.latitude_values = Ok Scenario.latitude.
Proof. vm_compute. reflexivity. Qed.

Lemma convert_longitude :
  _convert_gps_coord Scenario.longitude_values = Ok Scenario.longitude_west.
Proof. vm_compute. reflexivity. Qed.

Lemma decimal_to_dms_returns x b : exists s, _decimal_to_dms x b = Ok s.
Proof. unfold _decimal_to_dms. destruct (rbind _ _); simpl; eauto. Qed.

Lemma bind_ok {A B : Type} (m : M A) (f : A -> M B) d d' a :
  m d = (d', Ok a) -> bind m f d = f a d'.
Proof. intros H. unfold bind. rewrite H. reflexivity. Qed.

Lemma total_for_each {X : Type} (l : list X) (body : X -> M unit) :
  (forall x, total (body x)) -> total (for_each l body).
Proof.
  intros H. induction l as [|x l IH]; simpl.
  - apply total_ret.
  - apply total_bind; auto.
Qed.

Lemma total_run (m : M unit) d : total m -> m d = (fst (m d), Ok tt).
Proof.
  intros H. destruct (H d) as [[] Ha]. destruct (m d) as [d' r].
  simpl in *. subst. reflexivity.
Qed.

Lemma total_when b (m : M unit) : total m -> total (when b m).
Proof. destruct b; [auto | intros _; apply total_ret]. Qed.

Lemma gps_raw_total tags : total (gps_raw tags).
Proof.
  apply total_for_each. intros [tag value]. apply total_when, total_store.
Qed.

Lemma gps_auxiliary_total gps_data : total (gps_auxiliary gps_data).
Proof.
  apply total_for_each. intros [gps_tag friendly_name].
  destruct (get gps_data gps_tag); [apply total_store | apply total_ret].
Qed.

Lemma gps_auxiliary_writes gps_data :
  writes Spec.is_auxiliary_key (gps_auxiliary gps_data).
Proof. unfold gps_auxiliary, gps_mapping. simpl. writes_all. Qed.

(** The block of the coordinates on the four tags of the scenario. *)
Lemma gps_coordinates_run (gps_data : dict exif_value)
      (lat lon lat_ref lon_ref : IfdTag) (d : dict pyval) :
  get gps_data "GPS GPSLatitude" = Some (ETag lat) ->
  get gps_data "GPS GPSLongitude" = Some (ETag lon) ->
  get gps_data "GPS GPSLatitudeRef" = Some (ETag lat_ref) ->
  get gps_data "GPS GPSLongitudeRef" = Some (ETag lon_ref) ->
  values lat = Scenario.latitude_values ->
  values lon = Scenario.longitude_values ->
  printable lat_ref = "N" -> printable lon_ref = "W" ->
  exists d',
    gps_coordinates gps_data d = (d', Ok tt)
    /\ get d' "GPS_Latitude_Decimal" = Some (VStr "40.44633333")
    /\ get d' "GPS_Longitude_Decimal" = Some (VStr "-79.98230556")
    /\ get d' "GPS_Google_Maps" = Some (VStr Scenario.scenario_url).
Proof.
  intros Hlat Hlon Hlatr Hlonr Vlat Vlon Rlat Rlon.
  unfold gps_coordinates, has_key, item_of, apply_ref.
  rewrite Hlat, Hlon, Hlatr, Hlonr.
  unfold when, bind, call, store, ret, exif_values, exif_str.
  cbv beta iota. rewrite Vlat, Vlon, Rlat, Rlon.
  rewrite convert_latitude, convert_longitude.
  cbv beta iota.
  change (Text.upper "N" =? "S") with false.
  change (Text.upper "W" =? "W") with true.
  cbv beta iota.
  destruct (decimal_to_dms_returns Scenario.latitude true) as [s1 ->].
  destruct (decimal_to_dms_returns (- Scenario.longitude_west)%float false)
    as [s2 ->].
  eexists. split; [reflexivity|].
  repeat split;
    repeat (rewrite get_set_other by discriminate);
    rewrite get_set_same; vm_compute; reflexivity.
Qed.

(** C4 (as amended).  When the tag reader returns GPS tags for latitude
    40 deg 26 min 46.8 s with reference N and longitude 79 deg 58 min
    56.3 s with reference W, the detailed GPS pass emits
    GPS_Latitude_Decimal "40.44633333", GPS_Longitude_Decimal
    "-79.98230556" (the sign flipped by the W reference), and a
    GPS_Google_Maps URL that carries the same two coordinates in their
    shortest round-trip rendering, 40.44633333333333 and
    -79.98230555555556. *)
Theorem detailed_gps_scenario (w : World) (image_path : pypath)
        (content : list byte) (tags : dict exif_value)
        (lat lon lat_ref lon_ref : IfdTag) :
  read_file w image_path = Ok content ->
  exifread_process_file w content false = Ok tags ->
  NoDup (keys tags) ->
  get tags "GPS GPSLatitude" = Some (ETag lat) ->
  get tags "GPS GPSLongitude" = Some (ETag lon) ->
  get tags "GPS GPSLatitudeRef" = Some (ETag lat_ref) ->
  get tags "GPS GPSLongitudeRef" = Some (ETag lon_ref) ->
  values lat = Scenario.latitude_values ->
  values lon = Scenario.longitude_values ->
  printable lat_ref = "N" -> printable lon_ref = "W" ->
  exists metadata,
    _detailed_gps w image_path = Ok metadata
    /\ get metadata "GPS_Latitude_Decimal" = Some (VStr "40.44633333")
    /\ get metadata "GPS_Longitude_Decimal" = Some (VStr "-79.98230556")
    /\ get metadata "GPS_Google_Maps"
       = Some (VStr ("https://maps.google.com/?q="
                       ++ Flt.repr Scenario.latitude ++ ","
                       ++ Flt.repr (- Scenario.longitude_west)%float))
    /\ Flt.repr Scenario.latitude = "40.44633333333333"
    /\ Flt.repr (- Scenario.longitude_west)%float = "-79.98230555555556".
Proof.
  intros Hread Hexif Hnd Hlat Hlon Hlatr Hlonr Vlat Vlon Rlat Rlon.
  set (gps_data := select (Text.contains "GPS") tags).
  assert (Hsel : forall k v,
             Text.contains "GPS" k = true -> get tags k = Some v ->
             get gps_data k = Some v).
  { intros k v Hk Hget. unfold gps_data, select.
    rewrite get_select_from;
      [rewrite Hk, Hget; reflexivity | exact Hnd | reflexivity]. }
  assert (Hnil : is_nil gps_data = false).
  { pose proof (Hsel "GPS GPSLatitude" _ eq_refl Hlat) as H.
    destruct gps_data; [discriminate H | reflexivity]. }
  unfold _detailed_gps, returned, returned_from, try_except.
  rewrite (bind_ok _ _ [] [] content)
    by (unfold call; rewrite Hread; reflexivity).
  rewrite (bind_ok _ _ [] [] tags)
    by (unfold call; rewrite Hexif; reflexivity).
  cbv zeta. fold gps_data.
  rewrite (bind_ok _ _ _ _ tt (total_run _ [] (gps_raw_total tags))).
  rewrite Hnil. cbn [negb when].
  set (d0 := fst (gps_raw tags [])).
  rewrite (bind_ok _ _ d0 (set d0 "GPS_Presence" (VStr "YES")) tt)
    by reflexivity.
  destruct (gps_coordinates_run gps_data lat lon lat_ref lon_ref
              (set d0 "GPS_Presence" (VStr "YES"))
              (Hsel "GPS GPSLatitude" _ eq_refl Hlat)
              (Hsel "GPS GPSLongitude" _ eq_refl Hlon)
              (Hsel "GPS GPSLatitudeRef" _ eq_refl Hlatr)
              (Hsel "GPS GPSLongitudeRef" _ eq_refl Hlonr)
              Vlat Vlon Rlat Rlon)
    as (d1 & Hrun & G1 & G2 & G3).
  rewrite (bind_ok _ _ _ d1 tt)
    by (unfold try_except; rewrite Hrun; reflexivity).
  rewrite (total_run _ d1 (gps_auxiliary_total gps_data)).
  eexists. split; [reflexivity|].
  destruct (gps_auxiliary_writes gps_data d1) as (F & _ & _).
  rewrite !F by reflexivity.
  repeat split; try assumption; vm_compute; reflexivity.
Qed.

(** The four tags alone, read from a file that opens. *)
Lemma detailed_gps_scenario_witness :
  exists metadata,
    _detailed_gps Scenario.pittsburgh (PathStr "pittsburgh.jpg") = Ok metadata
    /\ get metadata "GPS_Latitude_Decimal" = Some (VStr "40.44633333")
    /\ get metadata "GPS_Longitude_Decimal" = Some (VStr "-79.98230556")
    /\ get metadata "GPS_Google_Maps"
       = Some (VStr ("https://maps.google.com/?q="
                       ++ Flt.repr Scenario.latitude ++ ","
                       ++ Flt.repr (- Scenario.longitude_west)%float))
    /\ Flt.repr Scenario.latitude = "40.44633333333333"
    /\ Flt.repr (- Scenario.longitude_west)%float = "-79.98230555555556".
Proof.
  apply (detailed_gps_scenario
           Scenario.pittsburgh (PathStr "pittsburgh.jpg") []
           Scenario.pittsburgh_tags
           {| printable := "[40, 26, 234/5]";
              values := Scenario.latitude_values |}
           {| printable := "[79, 58, 563/10]";
              values := Scenario.longitude_values |}
           {| printable := "N"; values := ValText "N" |}
           {| printable := "W"; values := ValText "W" |});
    try reflexivity.
  repeat (apply NoDup_cons;
          [simpl; intros H;
           repeat (destruct H as [H|H]; [discriminate H|]); exact H|]).
  apply NoDup_nil.
Defined.

(** C4 (counterexample).  On the four tags of the scenario the URL holds
    the longitude as -79.98230555555556: the text "-79.98230556" of
    GPS_Longitude_Decimal is not in it. *)
Lemma detailed_gps_url_lacks_rounded_longitude :
  exists metadata url,
    _detailed_gps Scenario.pittsburgh (PathStr "pittsburgh.jpg") = Ok metadata
    /\ get metadata "GPS_Longitude_Decimal" = Some (VStr "-79.98230556")
    /\ get metadata "GPS_Google_Maps" = Some (VStr url)
    /\ Text.contains "-79.98230556" url = false.
Proof.
  eexists. eexists. split; [vm_compute; reflexivity|].
  repeat split; reflexivity.
Qed.

End DetailedGps.

(** ** The two top-level failure records *)

Section Sentinels.

Import Spec.

Variable w : World.

(** Enrichment adds no top-level error field: every call inside its
    [try] is guarded by the callee. *)
Lemma enhance_metadata_adds_no_error (metadata : dict pyval)
      (image_path : pypath) :
  exists enhanced,
    enhance_metadata w metadata image_path = Ok enhanced
    /\ get enhanced "OSINT_Error" = get metadata "OSINT_Error".
Proof.
  destruct (gps_analysis_writes w metadata) as (gps & Hg & _ & Kg).
  destruct (camera_analysis_writes w metadata) as (cam & Hc & _ & Kc).
  destruct (time_analysis_writes metadata) as (tim & Ht & _ & Kt).
  destruct (forensic_analysis_writes w image_path) as (forensic & Hf & _ & Kf).
  destruct (network_analysis_writes metadata) as (net & Hn & _ & Kn).
  destruct (create_osm_map_returns w metadata) as (map_path & Hm).
  eexists. split; [apply enhance_metadata_unfold; eassumption|].
  rewrite get_with_map by discriminate.
  rewrite (get_update_other _ net) by (apply (not_has_key _ _ _ Kn); reflexivity).
  rewrite (get_update_other _ forensic)
    by (apply (not_has_key _ _ _ Kf); reflexivity).
  rewrite (get_update_other _ tim) by (apply (not_has_key _ _ _ Kt); reflexivity).
  rewrite (get_update_other _ cam) by (apply (not_has_key _ _ _ Kc); reflexivity).
  rewrite (get_update_other _ gps) by (apply (not_has_key _ _ _ Kg); reflexivity).
  reflexivity.
Qed.

(** On a path given as text neither failure record is reachable: the
    aggregated record has no "Error" field, and the enriched record has
    neither "Error" nor "OSINT_Error". *)
Theorem no_failure_sentinel (s : string) :
  exists basic enhanced,
    extract_metadata w (PathStr s) = Ok basic
    /\ extract_osint_metadata w (PathStr s) = Ok enhanced
    /\ has_key basic "Error" = false
    /\ has_key enhanced "Error" = false
    /\ has_key enhanced "OSINT_Error" = false.
Proof.
  pose proof (raw_specific_data_cases (PathStr s)) as (d10 & H10 & _).
  destruct (passes_layers w (PathStr s) d10 H10)
    as (d1 & d2 & d3 & d4 & d5 & d6 & d7 & d8 & d9 & _ & Hp
        & (_ & K1) & (_ & K2) & (_ & K3) & (_ & K4) & (_ & K5)
        & (_ & K6) & (_ & K7) & (_ & K8) & (_ & K9) & (_ & K10)).
  set (basic := update (update (update (update (update (update (update
                  (update (update (update [] d1) d2) d3) d4) d5) d6) d7)
                  d8) d9) d10) in *.
  assert (Hb : extract_metadata w (PathStr s) = Ok basic).
  { unfold extract_metadata. rewrite Hp. reflexivity. }
  assert (Hnone : forall k,
             has_prefix file_prefixes k = false ->
             has_prefix exifread_prefixes k = false ->
             has_prefix pil_prefixes k = false ->
             has_prefix piexif_prefixes k = false ->
             has_prefix gps_prefixes k = false ->
             has_prefix maker_prefixes k = false ->
             has_prefix technical_prefixes k = false ->
             has_prefix color_prefixes k = false ->
             has_prefix xmp_prefixes k = false ->
             has_prefix raw_prefixes k = false ->
             has_key basic k = false).
  { intros k P1 P2 P3 P4 P5 P6 P7 P8 P9 P10. unfold basic.
    rewrite !has_key_update.
    rewrite (not_has_key _ d1 _ K1 P1), (not_has_key _ d2 _ K2 P2),
      (not_has_key _ d3 _ K3 P3), (not_has_key _ d4 _ K4 P4),
      (not_has_key _ d5 _ K5 P5), (not_has_key _ d6 _ K6 P6),
      (not_has_key _ d7 _ K7 P7), (not_has_key _ d8 _ K8 P8),
      (not_has_key _ d9 _ K9 P9), (not_has_key _ d10 _ K10 P10).
    reflexivity. }
  assert (E1 : has_key basic "Error" = false) by (apply Hnone; reflexivity).
  assert (E2 : has_key basic "OSINT_Error" = false)
    by (apply Hnone; reflexivity).
  exists basic. unfold extract_osint_metadata. rewrite Hb. simpl.
  destruct (new_enhancer w) as [[]|e]; simpl.
  - destruct (enhance_metadata_layers w basic (PathStr s))
      as (gps & cam & tim & forensic & net & map_path & _ & He & Hfree).
    destruct (enhance_metadata_adds_no_error basic (PathStr s))
      as (enhanced & He' & Herr).
    rewrite He'. simpl. exists enhanced.
    split; [reflexivity|]. split; [reflexivity|]. split; [exact E1|].
    split.
    + rewrite He in He'. injection He' as <-.
      unfold has_key in *.
      rewrite (get_layers basic) by (reflexivity || (apply Hfree; reflexivity)).
      exact E1.
    + unfold has_key in *. rewrite Herr. exact E2.
  - exists basic. auto.
Qed.

End Sentinels.

(** ** The detailed GPS pass on any tags *)

Section DetailedGpsGeneral.

Import Spec.

Lemma get_select (keep : string -> bool) (tags : dict exif_value) k :
  NoDup (keys tags) -> keep k = true ->
  get (select keep tags) k = get tags k.
Proof.
  intros Hnd Hk. unfold select.
  rewrite get_select_from; [|exact Hnd|reflexivity].
  rewrite Hk. destruct (get tags k); reflexivity.
Qed.

Lemma apply_ref_run gps_data ref_tag out_key flip x d :
  apply_ref gps_data ref_tag out_key flip x d
  = (match get gps_data ref_tag with
     | Some r => set d out_key (VStr (Text.upper (exif_str r)))
     | None => d
     end,
     Ok (signed flip (get gps_data ref_tag) x)).
Proof.
  unfold apply_ref, signed. destruct (get gps_data ref_tag); reflexivity.
Qed.

(** The block of the coordinates either leaves the dictionary as it
    was (a tag is missing, or a tag has no [values]) or stores the seven
    coordinate fields. *)
Lemma gps_coordinates_cases (gps_data : dict exif_value) (d : dict pyval) :
  (exists r, gps_coordinates gps_data d = (d, r))
  \/ (exists d', gps_coordinates gps_data d = (d', Ok tt)
                 /\ forall k, In k coordinate_keys -> has_key d' k = true).
Proof.
  unfold gps_coordinates.
  destruct (has_key gps_data "GPS GPSLatitude"
            && has_key gps_data "GPS GPSLongitude")%bool;
    [|left; eexists; reflexivity].
  unfold when, bind, call, item_of.
  destruct (get gps_data "GPS GPSLatitude") as [lat_tag|];
    [|left; eexists; reflexivity].
  destruct (exif_values lat_tag) as [lat_values|];
    [|left; eexists; reflexivity].
  destruct (_convert_gps_coord lat_values) as [lat|];
    [|left; eexists; reflexivity].
  destruct (get gps_data "GPS GPSLongitude") as [lon_tag|];
    [|left; eexists; reflexivity].
  destruct (exif_values lon_tag) as [lon_values|];
    [|left; eexists; reflexivity].
  destruct (_convert_gps_coord lon_values) as [lon|];
    [|left; eexists; reflexivity].
  right. rewrite !apply_ref_run. cbv beta iota.
  unfold store. cbv beta iota.
  set (x := signed "S" _ lat). set (y := signed "W" _ lon).
  destruct (decimal_to_dms_returns x true) as [s1 ->].
  destruct (decimal_to_dms_returns y false) as [s2 ->].
  eexists. split; [reflexivity|].
  intros k Hk. simpl in Hk.
  repeat (destruct Hk as [<-|Hk];
          [rewrite ?has_key_set; rewrite ?String.eqb_refl;
           rewrite ?orb_true_r; reflexivity|]).
  contradiction.
Qed.


Lemma gps_raw_writes tags : writes is_gps_raw_key (gps_raw tags).
Proof. unfold gps_raw. writes_all. Qed.

(** The block of the coordinates on two tags that carry values. *)
Lemma gps_coordinates_general (gps_data : dict exif_value) (lat lon : IfdTag)
      (x0 y0 : float) (d : dict pyval) :
  get gps_data "GPS GPSLatitude" = Some (ETag lat) ->
  get gps_data "GPS GPSLongitude" = Some (ETag lon) ->
  _convert_gps_coord (values lat) = Ok x0 ->
  _convert_gps_coord (values lon) = Ok y0 ->
  let lat_ref := get gps_data "GPS GPSLatitudeRef" in
  let lon_ref := get gps_data "GPS GPSLongitudeRef" in
  let x := signed "S" lat_ref x0 in
  let y := signed "W" lon_ref y0 in
  exists d' lat_dms lon_dms,
    gps_coordinates gps_data d = (d', Ok tt)
    /\ _decimal_to_dms x true = Ok lat_dms
    /\ _decimal_to_dms y false = Ok lon_dms
    /\ get d' "GPS_Latitude_Decimal" = Some (VStr (Flt.fixed 8 x))
    /\ get d' "GPS_Longitude_Decimal" = Some (VStr (Flt.fixed 8 y))
    /\ get d' "GPS_Coordinates"
       = Some (VStr (Flt.fixed 6 x ++ ", " ++ Flt.fixed 6 y))
    /\ get d' "GPS_Google_Maps"
       = Some (VStr ("https://maps.google.com/?q="
                       ++ Flt.repr x ++ "," ++ Flt.repr y))
    /\ get d' "GPS_OpenStreetMap"
       = Some (VStr ("https://www.openstreetmap.org/?mlat="
                       ++ Flt.repr x ++ "&mlon=" ++ Flt.repr y))
    /\ get d' "GPS_Latitude_DMS" = Some (VStr lat_dms)
    /\ get d' "GPS_Longitude_DMS" = Some (VStr lon_dms)
    /\ get d' "GPS_Lat_Ref"
       = match lat_ref with
         | Some r => Some (VStr (Text.upper (exif_str r)))
         | None => get d "GPS_Lat_Ref"
         end
    /\ get d' "GPS_Lon_Ref"
       = match lon_ref with
         | Some r => Some (VStr (Text.upper (exif_str r)))
         | None => get d "GPS_Lon_Ref"
         end
    /\ get d' "GPS_Presence" = get d "GPS_Presence"
    /\ get d' "GPS_Error" = get d "GPS_Error".
Proof.
  intros Hlat Hlon Hx Hy lat_ref lon_ref x y.
  unfold gps_coordinates, has_key, item_of. rewrite Hlat, Hlon.
  unfold when, bind, call, exif_values. cbv beta iota delta [andb].
  rewrite Hx, Hy. cbv beta iota.
  rewrite !apply_ref_run. cbv beta iota.
  fold lat_ref lon_ref. fold x. fold y.
  unfold store. cbv beta iota.
  destruct (decimal_to_dms_returns x true) as [s1 Hs1].
  destruct (decimal_to_dms_returns y false) as [s2 Hs2].
  rewrite Hs1, Hs2. cbv beta iota.
  eexists. exists s1, s2.
  split; [reflexivity|]. split; [reflexivity|]. split; [reflexivity|].
  repeat split;
    repeat (rewrite get_set_other by discriminate);
    try (rewrite get_set_same; reflexivity);
    destruct lat_ref, lon_ref;
    repeat (rewrite get_set_other by discriminate);
    try (rewrite get_set_same; reflexivity); reflexivity.
Qed.

Lemma detailed_gps_unfold (w : World) (image_path : pypath)
      (content : list byte) (tags : dict exif_value) :
  read_file w image_path = Ok content ->
  exifread_process_file w content false = Ok tags ->
  let gps_data := select (Text.contains "GPS") tags in
  let d0 := fst (gps_raw tags []) in
  _detailed_gps w image_path
  = Ok (if is_nil gps_data then d0
        else
          let d1 := set d0 "GPS_Presence" (VStr "YES") in
          let d2 := match gps_coordinates gps_data d1 with
                    | (d', Ok _) => d'
                    | (d', Raise e) =>
                        set d' "GPS_Error"
                            (VStr ("Coordinate processing: " ++ e))
                    end in
          fst (gps_auxiliary gps_data d2)).
Proof.
  intros Hread Hexif gps_data d0.
  unfold _detailed_gps, returned, returned_from, try_except.
  rewrite (bind_ok _ _ [] [] content)
    by (unfold call; rewrite Hread; reflexivity).
  rewrite (bind_ok _ _ [] [] tags)
    by (unfold call; rewrite Hexif; reflexivity).
  cbv zeta. fold gps_data.
  rewrite (bind_ok _ _ _ _ tt (total_run _ [] (gps_raw_total tags))).
  fold d0.
  destruct (is_nil gps_data); [reflexivity|]. cbn [negb when].
  rewrite (bind_ok _ _ d0 (set d0 "GPS_Presence" (VStr "YES")) tt)
    by reflexivity.
  unfold bind at 1.
  destruct (gps_coordinates gps_data _) as [d' [[]|e]]; simpl;
    rewrite (total_run _ _ (gps_auxiliary_total gps_data)); reflexivity.
Qed.


Lemma convert_gps_coord_returns (vs : tagvalues) :
  exists x, _convert_gps_coord vs = Ok x.
Proof.
  unfold _convert_gps_coord.
  match goal with |- context [rcatch ?b _] => destruct b end; simpl; eauto.
Qed.

Lemma gps_coordinates_writes gps_data :
  writes is_coordinate_key (gps_coordinates gps_data).
Proof. unfold gps_coordinates. writes_all. Qed.

Lemma has_key_get_eq (d d' : dict pyval) k k' :
  get d k = get d' k' -> has_key d k = has_key d' k'.
Proof. unfold has_key. intros ->. reflexivity. Qed.

(** The detailed GPS pass on any tags whose latitude and longitude carry
    values: the decimal degrees of the converter, negated by a reference
    that reads S (latitude) or W (longitude) in any case, in every one of
    the coordinate formats; the references in upper case; and no error
    field. *)
Theorem detailed_gps_coordinates (w : World) (image_path : pypath)
        (content : list byte) (tags : dict exif_value) (lat lon : IfdTag) :
  read_file w image_path = Ok content ->
  exifread_process_file w content false = Ok tags ->
  NoDup (keys tags) ->
  get tags "GPS GPSLatitude" = Some (ETag lat) ->
  get tags "GPS GPSLongitude" = Some (ETag lon) ->
  exists metadata x0 y0 lat_dms lon_dms,
    _detailed_gps w image_path = Ok metadata
    /\ _convert_gps_coord (values lat) = Ok x0
    /\ _convert_gps_coord (values lon) = Ok y0
    /\ let lat_ref := get tags "GPS GPSLatitudeRef" in
       let lon_ref := get tags "GPS GPSLongitudeRef" in
       let x := signed "S" lat_ref x0 in
       let y := signed "W" lon_ref y0 in
       _decimal_to_dms x true = Ok lat_dms
       /\ _decimal_to_dms y false = Ok lon_dms
       /\ get metadata "GPS_Presence" = Some (VStr "YES")
       /\ get metadata "GPS_Latitude_Decimal" = Some (VStr (Flt.fixed 8 x))
       /\ get metadata "GPS_Longitude_Decimal" = Some (VStr (Flt.fixed 8 y))
       /\ get metadata "GPS_Coordinates"
          = Some (VStr (Flt.fixed 6 x ++ ", " ++ Flt.fixed 6 y))
       /\ get metadata "GPS_Google_Maps"
          = Some (VStr ("https://maps.google.com/?q="
                          ++ Flt.repr x ++ "," ++ Flt.repr y))
       /\ get metadata "GPS_OpenStreetMap"
          = Some (VStr ("https://www.openstreetmap.org/?mlat="
                          ++ Flt.repr x ++ "&mlon=" ++ Flt.repr y))
       /\ get metadata "GPS_Latitude_DMS" = Some (VStr lat_dms)
       /\ get metadata "GPS_Longitude_DMS" = Some (VStr lon_dms)
       /\ get metadata "GPS_Lat_Ref"
          = option_map (fun r => VStr (Text.upper (exif_str r))) lat_ref
       /\ get metadata "GPS_Lon_Ref"
          = option_map (fun r => VStr (Text.upper (exif_str r))) lon_ref
       /\ get metadata "GPS_Error" = None.
Proof.
  intros Hread Hexif Hnd Hlat Hlon.
  rewrite (detailed_gps_unfold w image_path content tags Hread Hexif).
  cbv zeta.
  set (gps_data := select (Text.contains "GPS") tags).
  set (d0 := fst (gps_raw tags [])).
  assert (Hsel : forall k, Text.contains "GPS" k = true ->
                           get gps_data k = get tags k).
  { intros k Hk. apply get_select; assumption. }
  assert (Hnil : is_nil gps_data = false).
  { pose proof (Hsel "GPS GPSLatitude" eq_refl) as H. rewrite Hlat in H.
    destruct gps_data; [discriminate H | reflexivity]. }
  rewrite Hnil.
  assert (H0 : forall k, is_gps_raw_key k = false -> get d0 k = None).
  { intros k Hk. destruct (gps_raw_writes tags []) as (F & _). apply F, Hk. }
  destruct (convert_gps_coord_returns (values lat)) as [x0 Hx].
  destruct (convert_gps_coord_returns (values lon)) as [y0 Hy].
  destruct (gps_coordinates_general gps_data lat lon x0 y0
              (set d0 "GPS_Presence" (VStr "YES")))
    as (d' & s1 & s2 & Hrun & Hs1 & Hs2 & G1 & G2 & G3 & G4 & G5 & G6 & G7
        & G8 & G9 & G10 & G11).
  { rewrite Hsel by reflexivity. exact Hlat. }
  { rewrite Hsel by reflexivity. exact Hlon. }
  { exact Hx. }
  { exact Hy. }
  rewrite !Hsel in * by reflexivity.
  rewrite Hrun.
  destruct (gps_auxiliary_writes gps_data d') as (F & _ & _).
  exists (fst (gps_auxiliary gps_data d')), x0, y0, s1, s2.
  split; [reflexivity|]. split; [exact Hx|]. split; [exact Hy|].
  cbv zeta. split; [exact Hs1|]. split; [exact Hs2|].
  rewrite !F by reflexivity.
  rewrite G10, G11, G8, G9.
  rewrite get_set_same.
  rewrite (get_set_other d0 "GPS_Presence" _ "GPS_Error") by discriminate.
  rewrite (get_set_other d0 "GPS_Presence" _ "GPS_Lat_Ref") by discriminate.
  rewrite (get_set_other d0 "GPS_Presence" _ "GPS_Lon_Ref") by discriminate.
  rewrite !H0 by reflexivity.
  repeat split; assumption.
Qed.


(** The seven coordinate fields of the detailed GPS pass come together
    or not at all, and never together with the error field. *)
Theorem detailed_gps_all_or_nothing (w : World) (image_path : pypath) :
  exists metadata,
    _detailed_gps w image_path = Ok metadata
    /\ (forall k, In k coordinate_keys ->
                  has_key metadata k = has_key metadata "GPS_Latitude_Decimal")
    /\ (has_key metadata "GPS_Error" = true ->
        has_key metadata "GPS_Latitude_Decimal" = false).
Proof.
  destruct (read_file w image_path) as [content|e] eqn:Hread.
  2:{ exists []. split; [|split; [reflexivity | discriminate]].
      unfold _detailed_gps, returned, returned_from, try_except, bind, call.
      rewrite Hread. reflexivity. }
  destruct (exifread_process_file w content false) as [tags|e] eqn:Hexif.
  2:{ exists []. split; [|split; [reflexivity | discriminate]].
      unfold _detailed_gps, returned, returned_from, try_except, bind, call.
      rewrite Hread, Hexif. reflexivity. }
  rewrite (detailed_gps_unfold w image_path content tags Hread Hexif).
  cbv zeta.
  set (gps_data := select (Text.contains "GPS") tags).
  set (d0 := fst (gps_raw tags [])).
  assert (H0 : forall k, is_gps_raw_key k = false -> get d0 k = None).
  { intros k Hk. destruct (gps_raw_writes tags []) as (F & _). apply F, Hk. }
  assert (Hkeys : forall k, In k coordinate_keys ->
                            is_gps_raw_key k = false
                            /\ is_auxiliary_key k = false
                            /\ is_coordinate_key k = true
                            /\ k <> "GPS_Presence" /\ k <> "GPS_Error").
  { intros k Hk. simpl in Hk.
    repeat (destruct Hk as [<-|Hk];
            [repeat split; try reflexivity; discriminate|]).
    contradiction. }
  eexists. split; [reflexivity|].
  destruct (is_nil gps_data).
  { split.
    - intros k Hk. destruct (Hkeys k Hk) as (A & _).
      unfold has_key. rewrite !H0 by (assumption || reflexivity). reflexivity.
    - unfold has_key. rewrite !H0 by reflexivity. discriminate. }
  set (d1 := set d0 "GPS_Presence" (VStr "YES")).
  assert (H1 : forall k, is_gps_raw_key k = false -> k <> "GPS_Presence" ->
                         get d1 k = None).
  { intros k A B. unfold d1. rewrite get_set_other by exact B. apply H0, A. }
  destruct (gps_coordinates_writes gps_data d1) as (Fc & _ & _).
  destruct (gps_coordinates_cases gps_data d1) as [[r Hr] | (d' & Hr & Hall)];
    rewrite Hr in *; simpl in Fc.
  - set (d2 := match r with
               | Ok _ => d1
               | Raise e => set d1 "GPS_Error" _
               end).
    destruct (gps_auxiliary_writes gps_data d2) as (F & _ & _).
    assert (H2 : forall k, In k coordinate_keys -> get d2 k = None).
    { intros k Hk. destruct (Hkeys k Hk) as (A & _ & _ & B & C).
      unfold d2. destruct r; [|rewrite get_set_other by exact C];
        apply H1; assumption. }
    split.
    + intros k Hk. destruct (Hkeys k Hk) as (_ & A & _).
      unfold has_key. rewrite !F by (assumption || reflexivity).
      rewrite !H2 by (simpl; auto). reflexivity.
    + intros _. unfold has_key. rewrite F by reflexivity.
      rewrite H2 by (simpl; auto). reflexivity.
  - destruct (gps_auxiliary_writes gps_data d') as (F & Fk & _).
    split.
    + intros k Hk. rewrite (Fk k (Hall k Hk)).
      rewrite (Fk _ (Hall "GPS_Latitude_Decimal" ltac:(simpl; auto))).
      reflexivity.
    + unfold has_key at 1. rewrite F by reflexivity.
      rewrite Fc by reflexivity.
      rewrite H1 by (reflexivity || discriminate). discriminate.
Qed.

Lemma detailed_gps_coordinates_witness :
  exists metadata,
    _detailed_gps Scenario.pittsburgh (PathStr "pittsburgh.jpg") = Ok metadata
    /\ get metadata "GPS_Coordinates"
       = Some (VStr "40.446333, -79.982306")
    /\ get metadata "GPS_Lon_Ref" = Some (VStr "W")
    /\ get metadata "GPS_Error" = None.
Proof.
  destruct (detailed_gps_coordinates
              Scenario.pittsburgh (PathStr "pittsburgh.jpg") []
              Scenario.pittsburgh_tags
              {| printable := "[40, 26, 234/5]";
                 values := Scenario.latitude_values |}
              {| printable := "[79, 58, 563/10]";
                 values := Scenario.longitude_values |})
    as (metadata & x0 & y0 & lat_dms & lon_dms & Hrun & Hx & Hy & H);
    try reflexivity.
  - repeat (apply NoDup_cons;
            [simpl; intros H;
             repeat (destruct H as [H|H]; [discriminate H|]); exact H|]).
    apply NoDup_nil.
  - cbv zeta in H.
    destruct H as (_ & _ & _ & _ & _ & Hc & _ & _ & _ & _ & _ & Hr & He).
    vm_compute in Hx. injection Hx as <-.
    vm_compute in Hy. injection Hy as <-.
    exists metadata. split; [exact Hrun|].
    split; [rewrite Hc; vm_compute; reflexivity|].
    split; [exact Hr | exact He].
Defined.

(** A reference of ASCII characters flips the sign exactly when it is
    the letter of the southern or western half, capital or small. *)
Lemma signed_ascii (flip : string) (r : exif_value) (x : float) :
  is_ascii (exif_str r) = true ->
  signed flip (Some r) x
  = if String.eqb (ascii_upper (exif_str r)) flip then (- x)%float else x.
Proof. intros H. unfold signed. rewrite (upper_ascii _ H). reflexivity. Qed.

(** The references are compared and stored in upper case: a latitude
    reference that is the long s becomes "S" and makes the latitude
    negative, a small "e" becomes "E"; and the longitude 0/-5 is 0.0,
    printed without a sign. *)
Example detailed_gps_upper_cased_references :
  signed "S" (Some (ETag {| printable := Scenario.long_s;
                            values := ValText Scenario.long_s |}))
         10.5%float
  = (-10.5)%float
  /\ signed "S" (Some (ETag {| printable := "s"; values := ValText "s" |}))
            10.5%float
     = (-10.5)%float
  /\ signed "S" (Some (ETag {| printable := "N"; values := ValText "N" |}))
            10.5%float
     = 10.5%float
  /\ exists metadata,
      _detailed_gps Scenario.southern (PathStr "south.jpg") = Ok metadata
      /\ get metadata "GPS_Lat_Ref" = Some (VStr "S")
      /\ get metadata "GPS_Lon_Ref" = Some (VStr "E")
      /\ get metadata "GPS_Latitude_Decimal" = Some (VStr "-10.50000000")
      /\ get metadata "GPS_Longitude_Decimal" = Some (VStr "0.00000000")
      /\ get metadata "GPS_Coordinates"
         = Some (VStr "-10.500000, 0.000000")
      /\ get metadata "GPS_Google_Maps"
         = Some (VStr "https://maps.google.com/?q=-10.5,0.0").
Proof.
  split; [vm_compute; reflexivity|].
  split; [vm_compute; reflexivity|].
  split; [vm_compute; reflexivity|].
  eexists. split; [vm_compute; reflexivity|].
  repeat split; reflexivity.
Qed.

End DetailedGpsGeneral.

(** ** The time analysis *)

Section TimeAnalysis.

Import Spec.

(** The time analysis on any record.  With [ts] the fields whose name
    holds "date" or "time" and whose text holds "201" or "202", in record
    order: the count of all of them, the first five echoed under
    OSINT_Time_1 to OSINT_Time_5, the timeline flag when there are two or
    more, the value of the first key holding "timezone"; and no other
    field. *)
Theorem time_analysis_fields (metadata : dict pyval) :
  let ts := flat_map timestamp_entry metadata in
  exists time_data,
    _time_analysis metadata = Ok time_data
    /\ get time_data "OSINT_Timestamps_Found"
       = (if is_nil ts then None
          else Some (VInt (Z.of_nat (List.length ts))))
    /\ (forall i, (i < 5)%nat ->
                  get time_data ("OSINT_Time_" ++ Text.of_nat (S i))
                  = option_map (fun kv => VStr (fst kv ++ ": " ++ snd kv))
                               (nth_error ts i))
    /\ get time_data "OSINT_Time_Analysis"
       = (if Nat.ltb 1 (List.length ts)
          then Some (VStr "Multiple timestamps - timeline available")
          else None)
    /\ get time_data "OSINT_Timezone"
       = option_map snd
           (find (fun kv => Text.contains "timezone" (Text.lower (fst kv)))
                 metadata)
    /\ (forall k, has_key time_data k = true -> In k time_keys).
Proof.
  intros ts. subst ts.
  unfold _time_analysis, returned, returned_from, try_except.
  destruct (find (fun kv => Text.contains "timezone" (Text.lower (fst kv)))
                 metadata) as [[zk zv]|];
    destruct (flat_map timestamp_entry metadata)
      as [|[k1 v1] [|[k2 v2] [|[k3 v3] [|[k4 v4] [|[k5 v5] [|[k6 v6] rest]]]]]];
    (eexists; split; [reflexivity|]);
    (split; [reflexivity|]);
    (split; [intros i Hi;
             do 5 (destruct i as [|i]; [reflexivity|]); lia|]);
    (split; [reflexivity|]);
    (split; [reflexivity|]);
    intros k Hk; apply has_key_In in Hk; simpl in Hk; simpl; tauto.
Qed.

End TimeAnalysis.

(** ** The network analysis *)

Section NetworkAnalysis.

Import Spec.

Lemma string_app_inj (p a b : string) : p ++ a = p ++ b -> a = b.
Proof.
  induction p as [|c p IH]; simpl; intros H; [exact H|].
  injection H as H. apply IH, H.
Qed.

Lemma network_body_run key value d :
  fst (network_body (key, value) d)
  = let d1 := match url_indicator value with
              | Some v => set d ("OSINT_URL_In_" ++ key) v
              | None => d
              end in
    match email_indicator value with
    | Some v => set d1 ("OSINT_Email_Like_In_" ++ key) v
    | None => d1
    end.
Proof.
  unfold network_body, url_indicator, email_indicator, bind, when, store, ret.
  destruct (Text.contains "http" (Text.lower (str value)));
    destruct (Text.contains "@" (str value) && Text.contains "." (str value))%bool;
    reflexivity.
Qed.

Lemma network_body_total item : total (network_body item).
Proof.
  destruct item as [key value]. unfold network_body.
  apply total_bind; [|intros _]; apply total_when, total_store.
Qed.

Lemma network_loop_run (l : dict pyval) d :
  fst (for_each l network_body d)
  = fold_left (fun acc item => fst (network_body item acc)) l d.
Proof.
  revert d. induction l as [|item l IH]; intros d; [reflexivity|].
  simpl. unfold bind at 1.
  rewrite (total_run _ d (network_body_total item)). apply IH.
Qed.

(** The loop leaves every key that is no indicator key of its items. *)
Lemma network_loop_frame (l : dict pyval) : forall d k',
  indicator_of l k' = false ->
  get (fold_left (fun acc item => fst (network_body item acc)) l d) k'
  = get d k'.
Proof.
  induction l as [|[key value] l IH]; intros d k' Hk'; [reflexivity|].
  simpl in Hk'. apply orb_false_iff in Hk' as [H0 Hl].
  apply orb_false_iff in H0 as [Hu He].
  cbn [fold_left]. rewrite IH by exact Hl.
  rewrite network_body_run. cbv zeta.
  destruct (email_indicator value);
    [rewrite get_set_other
       by (intros ->; rewrite String.eqb_refl in He; discriminate)|];
    (destruct (url_indicator value);
     [rewrite get_set_other
        by (intros ->; rewrite String.eqb_refl in Hu; discriminate)|]);
    reflexivity.
Qed.

Lemma eqb_app (p a b : string) : (p ++ a =? p ++ b) = (a =? b).
Proof.
  induction p as [|c p IH]; simpl; [reflexivity|].
  rewrite Ascii.eqb_refl. exact IH.
Qed.

Lemma not_indicator_of (l : dict pyval) (p k : string) :
  (p = "OSINT_URL_In_" \/ p = "OSINT_Email_Like_In_") ->
  has_key l k = false ->
  indicator_of l (p ++ k) = false.
Proof.
  intros Hp Hk. unfold indicator_of.
  rewrite has_key_existsb in Hk.
  induction l as [|[k0 v0] l IH]; [reflexivity|].
  cbn [existsb fst] in *. apply orb_false_iff in Hk as [H0 Hl].
  rewrite (IH Hl), orb_false_r.
  destruct Hp as [-> | ->]; rewrite eqb_app, H0; reflexivity.
Qed.

(** The network analysis on a record: each field gives a URL indicator,
    keyed by its own name, exactly when its text holds "http" in any
    case, and an e-mail indicator exactly when its text holds "@" and
    "."; each indicator is the text of the field; and there is no other
    field. *)
Theorem network_analysis_fields (metadata : dict pyval) :
  NoDup (keys metadata) ->
  exists net,
    _network_analysis metadata = Ok net
    /\ (forall k v,
           get metadata k = Some v ->
           get net ("OSINT_URL_In_" ++ k) = url_indicator v
           /\ get net ("OSINT_Email_Like_In_" ++ k) = email_indicator v)
    /\ (forall k', has_key net k' = true -> indicator_of metadata k' = true).
Proof.
  intros Hnd.
  assert (Hrun : _network_analysis metadata
                 = Ok (fold_left (fun acc item => fst (network_body item acc))
                                 metadata [])).
  { unfold _network_analysis.
    change (for_each metadata _) with (for_each metadata network_body).
    rewrite returned_total.
    - unfold try_except.
      rewrite (total_run _ [] (total_for_each _ _ network_body_total)).
      rewrite network_loop_run. reflexivity.
    - apply total_try_except. intros e. apply total_store. }
  eexists. split; [exact Hrun|]. split.
  - assert (Hgen : forall l d k v,
               NoDup (keys l) -> get l k = Some v ->
               let net := fold_left
                            (fun acc item => fst (network_body item acc)) l d in
               get net ("OSINT_URL_In_" ++ k)
               = match url_indicator v with
                 | Some x => Some x
                 | None => get d ("OSINT_URL_In_" ++ k)
                 end
               /\ get net ("OSINT_Email_Like_In_" ++ k)
                  = match email_indicator v with
                    | Some x => Some x
                    | None => get d ("OSINT_Email_Like_In_" ++ k)
                    end).
    { induction l as [|[k0 v0] l IH]; intros d k v Hnd' Hget;
        [discriminate|].
      inversion Hnd' as [|? ? Hnotin Hnd'']. subst.
      assert (Hk0 : has_key l k0 = false).
      { destruct (has_key l k0) eqn:E; [|reflexivity].
        apply has_key_In in E. contradiction. }
      simpl in Hget. cbn [fold_left].
      destruct (String.eqb k k0) eqn:E.
      - apply String.eqb_eq in E. subst k0. injection Hget as ->.
        cbv zeta.
        rewrite !network_loop_frame
          by (apply not_indicator_of; auto).
        rewrite network_body_run. cbv zeta.
        destruct (email_indicator v), (url_indicator v);
          rewrite ?get_set_same;
          rewrite ?get_set_other by discriminate;
          rewrite ?get_set_same; auto.
      - assert (Hne : k <> k0).
        { intros ->. rewrite String.eqb_refl in E. discriminate. }
        destruct (IH (fst (network_body (k0, v0) d)) k v Hnd'' Hget)
          as [Hu He].
        cbv zeta in *. rewrite Hu, He.
        rewrite network_body_run. cbv zeta.
        destruct (email_indicator v0), (url_indicator v0);
          rewrite ?get_set_other
            by (simpl; intros H; injection H as H; try discriminate H;
                apply Hne; exact H);
          auto. }
    intros k v Hget. destruct (Hgen metadata [] k v Hnd Hget) as [Hu He].
    cbv zeta in *. rewrite Hu, He.
    destruct (url_indicator v), (email_indicator v); auto.
  - intros k' Hk'. destruct (indicator_of metadata k') eqn:E; [reflexivity|].
    unfold has_key in Hk'. rewrite network_loop_frame in Hk' by exact E.
    discriminate.
Qed.

Lemma network_analysis_fields_witness :
  exists net,
    _network_analysis [("Comment", VStr "see HTTP://example.org");
                       ("Artist", VStr "ann@example.org");
                       ("Width", VInt 640)] = Ok net
    /\ get net "OSINT_URL_In_Comment" = Some (VStr "see HTTP://example.org")
    /\ get net "OSINT_Email_Like_In_Artist" = Some (VStr "ann@example.org")
    /\ get net "OSINT_URL_In_Width" = None.
Proof.
  destruct (network_analysis_fields
              [("Comment", VStr "see HTTP://example.org");
               ("Artist", VStr "ann@example.org");
               ("Width", VInt 640)])
    as (net & Hrun & Hfields & _).
  - repeat (apply NoDup_cons;
            [simpl; intros H;
             repeat (destruct H as [H|H]; [discriminate H|]); exact H|]).
    apply NoDup_nil.
  - exists net. split; [exact Hrun|].
    split; [apply (Hfields "Comment" _ eq_refl)|].
    split; [apply (Hfields "Artist" _ eq_refl)|].
    apply (Hfields "Width" _ eq_refl).
Defined.

End NetworkAnalysis.

(** ** The forensic analysis *)

Section ForensicAnalysis.

Import Spec.

Variable w : World.
Variable image_path : pypath.

(** The forensic analysis never raises.  A file that cannot be read
    leaves the error alone.  A file that can be read leaves the three
    digests of its content, whatever fails afterwards: a failing [stat]
    leaves the digests and the error and nothing else, and when every
    step succeeds the record is the digests, the size, the two dates and
    the file name, followed by the pattern flag exactly when the
    lower-cased name holds "img", "dsc", "photo" or "pic". *)
Theorem forensic_analysis_outcomes :
  exists forensic,
    _forensic_analysis w image_path = Ok forensic
    /\ (forall e, read_file w image_path = Raise e ->
                  forensic = [("OSINT_Forensic_Error", VStr e)])
    /\ (forall data,
           read_file w image_path = Ok data ->
           let digests :=
             [("OSINT_MD5_Hash", VStr (md5_hexdigest w data));
              ("OSINT_SHA1_Hash", VStr (sha1_hexdigest w data));
              ("OSINT_SHA256_Hash", VStr (sha256_hexdigest w data))] in
           (forall k v, In (k, v) digests -> get forensic k = Some v)
           /\ (forall e, os_stat w image_path = Raise e ->
                         forensic
                         = (digests ++ [("OSINT_Forensic_Error", VStr e)])%list)
           /\ (forall st created modified name,
                  os_stat w image_path = Ok st ->
                  datetime_isoformat w (st_ctime st) = Ok created ->
                  datetime_isoformat w (st_mtime st) = Ok modified ->
                  OsPath.basename image_path = Ok name ->
                  forensic
                  = (digests
                       ++ [("OSINT_File_Size_Bytes", VInt (st_size st));
                           ("OSINT_File_Created", VStr created);
                           ("OSINT_File_Modified", VStr modified);
                           ("OSINT_Filename_Analysis", VStr name)]
                       ++ (if Text.contains_any ["img"; "dsc"; "photo"; "pic"]
                                                (Text.lower name)
                           then [("OSINT_Filename_Pattern",
                                  VStr "Common camera naming pattern")]
                           else []))%list)).
Proof.
  unfold _forensic_analysis, returned, returned_from, try_except, bind, call,
    store, when, ret.
  destruct (read_file w image_path) as [data|e0].
  2:{ eexists. split; [reflexivity|]. split.
      - intros e [= <-]. reflexivity.
      - intros data [=]. }
  destruct (os_stat w image_path) as [st|e1].
  2:{ eexists. split; [reflexivity|]. split; [intros e [=]|].
      intros data' [= <-]. cbv zeta. split; [|split].
      - intros k v Hin. simpl in Hin.
        repeat (destruct Hin as [[= <- <-]|Hin]; [reflexivity|]).
        contradiction.
      - intros e [= <-]. reflexivity.
      - intros st created modified name [=]. }
  destruct (datetime_isoformat w (st_ctime st)) as [c|e2] eqn:Hc.
  2:{ eexists. split; [reflexivity|]. split; [intros e [=]|].
      intros data' [= <-]. cbv zeta. split; [|split].
      - intros k v Hin. simpl in Hin.
        repeat (destruct Hin as [[= <- <-]|Hin]; [reflexivity|]).
        contradiction.
      - intros e [=].
      - intros st' created modified name [= <-] H. rewrite Hc in H.
        discriminate H. }
  destruct (datetime_isoformat w (st_mtime st)) as [m|e3] eqn:Hm.
  2:{ eexists. split; [reflexivity|]. split; [intros e [=]|].
      intros data' [= <-]. cbv zeta. split; [|split].
      - intros k v Hin. simpl in Hin.
        repeat (destruct Hin as [[= <- <-]|Hin]; [reflexivity|]).
        contradiction.
      - intros e [=].
      - intros st' created modified name [= <-] _ H. rewrite Hm in H.
        discriminate H. }
  destruct (OsPath.basename image_path) as [n|e4].
  2:{ eexists. split; [reflexivity|]. split; [intros e [=]|].
      intros data' [= <-]. cbv zeta. split; [|split].
      - intros k v Hin. simpl in Hin.
        repeat (destruct Hin as [[= <- <-]|Hin]; [reflexivity|]).
        contradiction.
      - intros e [=].
      - intros st' created modified name _ _ _ [=]. }
  destruct (Text.contains_any ["img"; "dsc"; "photo"; "pic"] (Text.lower n))
    eqn:Hp.
  - eexists. split; [reflexivity|]. split; [intros e [=]|].
    intros data' [= <-]. cbv zeta. split; [|split].
    + intros k v Hin. simpl in Hin.
      repeat (destruct Hin as [[= <- <-]|Hin]; [reflexivity|]).
      contradiction.
    + intros e [=].
    + intros st' created modified name [= <-] H1 H2 [= <-].
      rewrite Hc in H1. rewrite Hm in H2.
      injection H1 as <-. injection H2 as <-. rewrite Hp. reflexivity.
  - eexists. split; [reflexivity|]. split; [intros e [=]|].
    intros data' [= <-]. cbv zeta. split; [|split].
    + intros k v Hin. simpl in Hin.
      repeat (destruct Hin as [[= <- <-]|Hin]; [reflexivity|]).
      contradiction.
    + intros e [=].
    + intros st' created modified name [= <-] H1 H2 [= <-].
      rewrite Hc in H1. rewrite Hm in H2.
      injection H1 as <-. injection H2 as <-. rewrite Hp. reflexivity.
Qed.

End ForensicAnalysis.

(** ** The rows of the tree *)

Section Rows.

Import MetadataTree.
Import Spec.

Lemma set_fresh {V : Type} (d : dict V) k v :
  has_key d k = false -> set d k v = (d ++ [(k, v)])%list.
Proof.
  unfold has_key.
  induction d as [|[k0 v0] d IH]; simpl; [reflexivity|].
  destruct (String.eqb k k0); [discriminate|].
  intros H. rewrite (IH H). reflexivity.
Qed.

Lemma bucket_fold (metadata : dict pyval) :
  forall categories name,
    NoDup (keys metadata) ->
    (forall k, In k (keys metadata) ->
               has_key (bucket categories name) k = false) ->
    bucket (fold_left
              (fun cs kv => put cs (category_of (fst kv)) (fst kv) (snd kv))
              metadata categories) name
    = (bucket categories name ++ fields_of name metadata)%list.
Proof.
  induction metadata as [|[k v] metadata IH]; intros categories name Hnd Hfresh.
  - simpl. rewrite app_nil_r. reflexivity.
  - inversion Hnd as [|? ? Hnotin Hnd']. subst.
    cbn [fold_left fst snd]. rewrite IH; [|exact Hnd'|].
    + rewrite bucket_put. unfold fields_of. cbn [filter fst].
      rewrite (String.eqb_sym name).
      destruct (String.eqb (category_of k) name) eqn:E.
      * apply String.eqb_eq in E. subst name.
        rewrite set_fresh by (apply Hfresh; left; reflexivity).
        rewrite <- app_assoc. reflexivity.
      * reflexivity.
    + intros k' Hk'. rewrite bucket_put.
      destruct (String.eqb name (category_of k)) eqn:En.
      * apply String.eqb_eq in En. subst name. rewrite has_key_set.
        destruct (String.eqb k' k) eqn:E.
        -- apply String.eqb_eq in E. subst k'. contradiction.
        -- apply Hfresh. right. exact Hk'.
      * apply Hfresh. right. exact Hk'.
Qed.

Lemma category_of_named key : In (category_of key) category_names.
Proof.
  unfold category_of, category_names.
  repeat match goal with
         | |- In (if ?b then _ else _) _ => destruct b
         end; simpl; auto 12.
Qed.

Lemma keys_group (metadata : dict pyval) :
  forall categories,
    keys categories = category_names ->
    keys (fold_left
            (fun cs kv => put cs (category_of (fst kv)) (fst kv) (snd kv))
            metadata categories)
    = category_names.
Proof.
  induction metadata as [|[k v] metadata IH]; intros categories Hk;
    [exact Hk|].
  cbn [fold_left fst snd]. apply IH. unfold put. rewrite keys_set.
  assert (H : has_key categories (category_of k) = true).
  { apply has_key_In. rewrite Hk. apply category_of_named. }
  rewrite H. exact Hk.
Qed.

Lemma dict_entries {V : Type} (d : dict V) (default : V) :
  NoDup (keys d) ->
  d = map (fun name => (name, get_default d name default)) (keys d).
Proof.
  unfold keys, get_default.
  induction d as [|[k v] d IH]; intros Hnd; [reflexivity|].
  inversion Hnd as [|? ? Hnotin Hnd']. subst.
  cbn [map fst get]. rewrite String.eqb_refl. f_equal.
  etransitivity; [exact (IH Hnd')|].
  apply map_ext_in. intros k' Hin.
  destruct (String.eqb k' k) eqn:E; [|reflexivity].
  apply String.eqb_eq in E. subst k'. contradiction.
Qed.

Lemma NoDup_category_names : NoDup category_names.
Proof.
  unfold category_names.
  repeat (apply NoDup_cons;
          [simpl; intros H;
           repeat (destruct H as [H|H]; [discriminate H|]); exact H|]).
  apply NoDup_nil.
Qed.

Lemma one_group key :
  list_sum (map (fun name => if String.eqb (category_of key) name
                             then 1%nat else 0%nat) category_names)
  = 1%nat.
Proof.
  unfold category_of, category_names.
  repeat match goal with
         | |- context [if ?b then _ else _] =>
             lazymatch b with
             | String.eqb _ _ => fail
             | _ => destruct b
             end
         end; reflexivity.
Qed.

Lemma list_sum_add {X : Type} (a b : X -> nat) (l : list X) :
  list_sum (map (fun x => (a x + b x)%nat) l)
  = (list_sum (map a l) + list_sum (map b l))%nat.
Proof. induction l as [|x l IH]; simpl; [reflexivity|]. rewrite IH. lia. Qed.

Lemma fields_partition (metadata : dict pyval) :
  list_sum (map (fun name => List.length (fields_of name metadata))
                category_names)
  = List.length metadata.
Proof.
  induction metadata as [|[k v] metadata IH].
  - reflexivity.
  - rewrite (map_ext _ (fun name =>
                          ((if String.eqb (category_of k) name
                            then 1 else 0)
                           + List.length (fields_of name metadata))%nat)).
    + rewrite list_sum_add, one_group, IH. reflexivity.
    + intros name. unfold fields_of. cbn [filter fst].
      destruct (String.eqb (category_of k) name); reflexivity.
Qed.

Lemma field_rows_of (metadata : dict pyval) (names : list string) :
  field_rows
    (flat_map (fun name =>
                 match fields_of name metadata with
                 | [] => []
                 | fields =>
                     [(name, Text.of_nat (List.length fields),
                       map (fun kv => (fst kv, str (snd kv))) fields)]
                 end) names)
  = list_sum (map (fun name => List.length (fields_of name metadata)) names).
Proof.
  unfold field_rows.
  induction names as [|name names IH]; [reflexivity|].
  cbn [flat_map]. rewrite map_app, list_sum_app, IH.
  cbn [map list_sum].
  destruct (fields_of name metadata) as [|kv fields]; [reflexivity|].
  cbn [map list_sum snd List.length]. rewrite ?length_map.
  unfold list_sum. cbn [fold_right]. lia.
Qed.

(** The tree of a record with at least one field: the groups in their
    fixed order, each group that has fields with their number, over
    its fields in record order with the text of their values; every
    field of the record is in exactly one row. *)
Theorem show_metadata_rows (metadata : dict pyval) :
  NoDup (keys metadata) ->
  metadata <> [] ->
  show_metadata metadata = rows_of metadata
  /\ field_rows (show_metadata metadata) = List.length metadata.
Proof.
  intros Hnd Hne.
  assert (Hrows : show_metadata metadata = rows_of metadata).
  { unfold show_metadata. destruct metadata as [|kv0 rest]; [congruence|].
    set (metadata := kv0 :: rest) in *.
    assert (Hk : keys (group metadata) = category_names).
    { apply keys_group. reflexivity. }
    rewrite (dict_entries (group metadata) []) at 1
      by (rewrite Hk; apply NoDup_category_names).
    rewrite Hk. unfold rows_of. rewrite flat_map_concat_map, map_map.
    rewrite <- flat_map_concat_map. apply flat_map_ext. intros name.
    change (get_default (group metadata) name [])
      with (bucket (group metadata) name).
    unfold group. rewrite bucket_fold; [|exact Hnd|].
    - rewrite bucket_empty. cbn [app].
      destruct (fields_of name metadata) as [|[k v] fields]; [reflexivity|].
      f_equal. f_equal. apply map_ext. intros [k' v']. reflexivity.
    - intros k _. rewrite bucket_empty. reflexivity. }
  split; [exact Hrows|].
  rewrite Hrows. unfold rows_of. rewrite field_rows_of.
  apply fields_partition.
Qed.

Lemma show_metadata_rows_witness :
  show_metadata [("File_Name", VStr "a.jpg"); ("GPS_Presence", VStr "NO");
                 ("File_Size_Bytes", VInt 12)]
  = [("File Information", "2",
      [("File_Name", "a.jpg"); ("File_Size_Bytes", "12")]);
     ("GPS & Location", "1", [("GPS_Presence", "NO")])].
Proof.
  destruct (show_metadata_rows
              [("File_Name", VStr "a.jpg"); ("GPS_Presence", VStr "NO");
               ("File_Size_Bytes", VInt 12)]) as [Hrows _].
  - repeat (apply NoDup_cons;
            [simpl; intros H;
             repeat (destruct H as [H|H]; [discriminate H|]); exact H|]).
    apply NoDup_nil.
  - discriminate.
  - rewrite Hrows. vm_compute. reflexivity.
Defined.

End Rows.

(** ** The XMP and IPTC pass *)

Section XmpIptc.

Import Spec.

Lemma substring_length (s : string) :
  forall a n, (String.length (substring a n s) <= n)%nat
              /\ (String.length (substring a n s) <= String.length s)%nat.
Proof.
  induction s as [|c s IH]; intros [|a] [|n]; simpl; try lia.
  - destruct (IH 0%nat n). lia.
  - destruct (IH a 0%nat). lia.
  - destruct (IH a (S n)). lia.
Qed.

Lemma slice_length (a b : nat) (s : string) :
  (String.length (Text.slice a b s) <= b - a)%nat
  /\ (String.length (Text.slice a b s) <= String.length s)%nat.
Proof. unfold Text.slice. apply substring_length. Qed.

Lemma length_encode (s : string) :
  List.length (Text.encode s) = String.length s.
Proof.
  unfold Text.encode, list_byte_of_string.
  rewrite length_map.
  induction s as [|c s IH]; simpl; [reflexivity|]. rewrite IH. reflexivity.
Qed.

Lemma length_of_bytes (bs : list byte) :
  String.length (Text.of_bytes bs) = List.length bs.
Proof.
  unfold Text.of_bytes, string_of_list_byte.
  induction bs as [|b bs IH]; simpl; [reflexivity|]. rewrite IH. reflexivity.
Qed.

Lemma decode_ignore_step (b0 : byte) (r0 : list byte) :
  Text.decode_ignore (b0 :: r0)
  = let n := Text.byte_code b0 in
    if N.ltb n 128 then Text.put b0 (Text.decode_ignore r0)
    else if N.ltb n 194 then Text.decode_ignore r0
    else if N.ltb n 224 then
      match r0 with
      | [] => EmptyString
      | b1 :: r1 =>
          if Text.is_cont b1
          then Text.put b0 (Text.put b1 (Text.decode_ignore r1))
          else Text.decode_ignore r0
      end
    else if N.ltb n 240 then
      match r0 with
      | [] => EmptyString
      | b1 :: r1 =>
          if Text.second_of_3 b0 b1 then
            match r1 with
            | [] => EmptyString
            | b2 :: r2 =>
                if Text.is_cont b2
                then Text.put b0 (Text.put b1
                                    (Text.put b2 (Text.decode_ignore r2)))
                else Text.decode_ignore r1
            end
          else Text.decode_ignore r0
      end
    else if N.ltb n 245 then
      match r0 with
      | [] => EmptyString
      | b1 :: r1 =>
          if Text.second_of_4 b0 b1 then
            match r1 with
            | [] => EmptyString
            | b2 :: r2 =>
                if Text.is_cont b2 then
                  match r2 with
                  | [] => EmptyString
                  | b3 :: r3 =>
                      if Text.is_cont b3
                      then Text.put b0
                             (Text.put b1
                                (Text.put b2
                                   (Text.put b3 (Text.decode_ignore r3))))
                      else Text.decode_ignore r2
                  end
                else Text.decode_ignore r1
            end
          else Text.decode_ignore r0
      end
    else Text.decode_ignore r0.
Proof. destruct r0 as [|b1 [|b2 [|b3 r3]]]; reflexivity. Qed.

(** Decoding with [errors='ignore'] only drops bytes. *)
Lemma decode_ignore_length (n : nat) :
  forall bs, (List.length bs <= n)%nat ->
             (String.length (Text.decode_ignore bs) <= List.length bs)%nat.
Proof.
  induction n as [|n IH]; intros [|b0 r0] Hn;
    try (simpl; lia); [simpl in Hn; lia|].
  rewrite decode_ignore_step. cbv zeta.
  assert (H0 := IH r0).
  destruct r0 as [|b1 r1].
  { repeat match goal with
           | |- context [if ?c then _ else _] => destruct c
           end; simpl; lia. }
  assert (H1 := IH r1).
  destruct r1 as [|b2 r2].
  { repeat match goal with
           | |- context [if ?c then _ else _] => destruct c
           end; unfold Text.put; cbn [String.length List.length] in *;
      try lia; try (specialize (H0 ltac:(lia)); lia). }
  assert (H2 := IH r2).
  destruct r2 as [|b3 r3].
  { repeat match goal with
           | |- context [if ?c then _ else _] => destruct c
           end; unfold Text.put; cbn [String.length List.length] in *;
      try lia;
      try (specialize (H0 ltac:(lia)); lia);
      try (specialize (H1 ltac:(lia)); lia). }
  assert (H3 := IH r3).
  repeat match goal with
         | |- context [if ?c then _ else _] => destruct c
         end; unfold Text.put; cbn [String.length List.length] in *;
    try lia;
    try (specialize (H0 ltac:(lia)); lia);
    try (specialize (H1 ltac:(lia)); lia);
    try (specialize (H2 ltac:(lia)); lia);
    try (specialize (H3 ltac:(lia)); lia).
Qed.

Lemma decode_text_length (s : string) :
  (String.length (decode_text s) <= String.length s)%nat.
Proof.
  unfold decode_text. rewrite <- (length_encode s).
  apply (decode_ignore_length (List.length (Text.encode s))). lia.
Qed.

(** The XMP and IPTC pass on a file that can be read: both presence
    flags are there; a raw XMP text or an IPTC sample is there exactly
    under the flag YES; the sample is never longer than 4000 bytes, and
    the raw XMP text is never longer than 20000 bytes when the file has
    no closing tag after the opening one. *)
Theorem xmp_iptc_data_bounds (w : World) (image_path : pypath)
        (content : list byte) :
  read_file w image_path = Ok content ->
  exists metadata,
    _xmp_iptc_data w image_path = Ok metadata
    /\ (exists xmp iptc : bool,
           get metadata "XMP_Present" = Some (VStr (if xmp then "YES" else "NO"))
           /\ get metadata "IPTC_Present"
              = Some (VStr (if iptc then "YES" else "NO"))
           /\ has_key metadata "XMP_Raw" = xmp
           /\ has_key metadata "IPTC_Sample" = iptc)
    /\ (forall v, get metadata "IPTC_Sample" = Some v ->
                  exists s, v = VStr s
                            /\ (String.length s <= Z.to_nat 4000)%nat
                            /\ (String.length s <= List.length content)%nat)
    /\ (forall v, get metadata "XMP_Raw" = Some v ->
                  exists s start,
                    v = VStr s
                    /\ or_find (Text.find_from "<x:xmpmeta"
                                               (Text.of_bytes content) 0)
                               (Text.find_from "<xpacket"
                                               (Text.of_bytes content) 0)
                       = Some start
                    /\ (String.length s <= List.length content)%nat
                    /\ (or_find (Text.find_from "</x:xmpmeta>"
                                                (Text.of_bytes content) start)
                                (Text.find_from "</xpacket>"
                                                (Text.of_bytes content) start)
                        = None ->
                        (String.length s <= Z.to_nat 20000)%nat)).
Proof.
  intros Hread.
  unfold _xmp_iptc_data, returned, returned_from, try_except, bind, call,
    store, ret.
  rewrite Hread. cbv zeta.
  set (raw := Text.of_bytes content).
  assert (Hraw : String.length raw = List.length content)
    by apply length_of_bytes.
  assert (Hsample : forall a b,
             (String.length (decode_text (Text.slice a b raw)) <= b - a)%nat
             /\ (String.length (decode_text (Text.slice a b raw))
                 <= List.length content)%nat).
  { intros a b. pose proof (decode_text_length (Text.slice a b raw)).
    pose proof (slice_length a b raw). lia. }
  destruct (or_find (Text.find_from "<x:xmpmeta" raw 0)
                    (Text.find_from "<xpacket" raw 0)) as [start|];
    destruct (Text.contains "Photoshop 3.0" raw || Text.contains "IPTC" raw
              || Text.contains "8BIM" raw)%bool.
  - set (end_index := match or_find _ _ with
                      | Some e => (e + 12)%nat
                      | None => (start + Z.to_nat 20000)%nat
                      end).
    assert (Hend : or_find (Text.find_from "</x:xmpmeta>" raw start)
                           (Text.find_from "</xpacket>" raw start) = None ->
                   (end_index - start <= Z.to_nat 20000)%nat).
    { intros E. unfold end_index. rewrite E. lia. }
    clearbody end_index.
    destruct (Hsample start end_index) as [Ha Hb].
    destruct (Hsample 0%nat (Z.to_nat 4000)) as [Hc Hd].
    generalize dependent (decode_text (Text.slice start end_index raw)).
    generalize dependent (decode_text (Text.slice 0 (Z.to_nat 4000) raw)).
    intros s1 Hc Hd s2 Ha Hb.
    eexists. split; [reflexivity|]. split; [|split].
    + exists true, true. repeat split; reflexivity.
    + intros v [= <-]. exists s1. repeat split; lia.
    + intros v [= <-]. exists s2, start. repeat split; try lia.
      intros E. specialize (Hend E). lia.
  - set (end_index := match or_find _ _ with
                      | Some e => (e + 12)%nat
                      | None => (start + Z.to_nat 20000)%nat
                      end).
    assert (Hend : or_find (Text.find_from "</x:xmpmeta>" raw start)
                           (Text.find_from "</xpacket>" raw start) = None ->
                   (end_index - start <= Z.to_nat 20000)%nat).
    { intros E. unfold end_index. rewrite E. lia. }
    clearbody end_index.
    destruct (Hsample start end_index) as [Ha Hb].
    generalize dependent (decode_text (Text.slice start end_index raw)).
    intros s2 Ha Hb.
    eexists. split; [reflexivity|]. split; [|split].
    + exists true, false. repeat split; reflexivity.
    + intros v [=].
    + intros v [= <-]. exists s2, start. repeat split; try lia.
      intros E. specialize (Hend E). lia.
  - destruct (Hsample 0%nat (Z.to_nat 4000)) as [Hc Hd].
    generalize dependent (decode_text (Text.slice 0 (Z.to_nat 4000) raw)).
    intros s1 Hc Hd.
    eexists. split; [reflexivity|]. split; [|split].
    + exists false, true. repeat split; reflexivity.
    + intros v [= <-]. exists s1. repeat split; lia.
    + intros v [=].
  - eexists. split; [reflexivity|]. split; [|split].
    + exists false, false. repeat split; reflexivity.
    + intros v [=].
    + intros v [=].
Qed.

End XmpIptc.

Lemma xmp_iptc_data_bounds_witness :
  exists metadata,
    _xmp_iptc_data Scenario.sidecar (PathStr "a.jpg") = Ok metadata
    /\ get metadata "XMP_Raw" = Some (VStr "<x:xmpmeta>a</x:xmpmeta>")
    /\ forall v, get metadata "IPTC_Sample" = Some v ->
                 exists s, v = VStr s
                           /\ (String.length s <= Z.to_nat 4000)%nat
                           /\ (String.length s
                               <= List.length (Text.encode Scenario.packet))%nat.
Proof.
  destruct (xmp_iptc_data_bounds Scenario.sidecar (PathStr "a.jpg")
              (Text.encode Scenario.packet) eq_refl)
    as (metadata & Hrun & _ & Hsample & _).
  exists metadata. split; [exact Hrun|]. split; [|exact Hsample].
  vm_compute in Hrun. injection Hrun as <-. reflexivity.
Defined.

(** ** What the passes keep *)

Section Keeps.

Import Spec.

Variable Q : string -> pyval -> bool.

Lemma keeps_ret {A : Type} (a : A) : keeps Q (ret a).
Proof. intros d H. exact H. Qed.

Lemma keeps_call {A : Type} (r : result A) : keeps Q (call r).
Proof. intros d H. exact H. Qed.

Lemma keeps_store k v : Q k v = true -> keeps Q (store k v).
Proof.
  intros Hq d H k' v'. unfold store. cbn [fst]. rewrite get_set.
  destruct (String.eqb k' k) eqn:E.
  - apply String.eqb_eq in E. subst k'. intros [= <-]. exact Hq.
  - apply H.
Qed.

Lemma keeps_bind {A B : Type} (m : M A) (f : A -> M B) :
  keeps Q m -> (forall a, keeps Q (f a)) -> keeps Q (bind m f).
Proof.
  intros Hm Hf d H. unfold bind. specialize (Hm d H).
  destruct (m d) as [d' [a|e]]; cbn [fst] in *.
  - apply Hf, Hm.
  - exact Hm.
Qed.

Lemma keeps_try_except {A : Type} (m : M A) (h : exn -> M A) :
  keeps Q m -> (forall e, keeps Q (h e)) -> keeps Q (try_except m h).
Proof.
  intros Hm Hh d H. unfold try_except. specialize (Hm d H).
  destruct (m d) as [d' [a|e]]; cbn [fst] in *.
  - exact Hm.
  - apply Hh, Hm.
Qed.

Lemma keeps_when b (m : M unit) : (b = true -> keeps Q m) -> keeps Q (when b m).
Proof. destruct b; intros H; [apply H; reflexivity | apply keeps_ret]. Qed.

Lemma keeps_for_each {X : Type} (l : list X) (body : X -> M unit) :
  (forall x, keeps Q (body x)) -> keeps Q (for_each l body).
Proof.
  intros H. induction l as [|x l IH]; simpl.
  - apply keeps_ret.
  - apply keeps_bind; auto.
Qed.

Lemma keeps_if_text o (k : string -> M unit) :
  (forall s, negb (Text.is_empty s) = true -> keeps Q (k s)) ->
  keeps Q (if_text o k).
Proof.
  intros H. destruct o as [s|]; simpl.
  - apply keeps_when, H.
  - apply keeps_ret.
Qed.

(** A guarded pass, started empty, returns fields with the property. *)
Lemma keeps_returned (body : M unit) (d : dict pyval) :
  keeps Q body ->
  returned (try_except body (fun _ => ret tt)) = Ok d ->
  forall k v, get d k = Some v -> Q k v = true.
Proof.
  intros Hb Hr.
  assert (Hk : keeps Q (try_except body (fun _ => ret tt))).
  { apply keeps_try_except; [exact Hb | intros e; apply keeps_ret]. }
  specialize (Hk [] ltac:(intros k v [=])).
  unfold returned, returned_from in Hr.
  destruct (try_except body (fun _ => ret tt) []) as [d' [[]|e]];
    [|discriminate].
  injection Hr as <-. exact Hk.
Qed.

(** A field of a merge is a field of one of the two dictionaries. *)
Lemma get_update_from (e : dict pyval) :
  forall d k v,
    get (update d e) k = Some v -> get d k = Some v \/ In (k, v) e.
Proof.
  unfold update.
  induction e as [|[k0 v0] e IH]; intros d k v H; [left; exact H|].
  cbn [fold_left fst snd] in H. apply IH in H as [H|H].
  - rewrite get_set in H. destruct (String.eqb k k0) eqn:E.
    + apply String.eqb_eq in E. subst k0. injection H as <-.
      right. left. reflexivity.
    + left. exact H.
  - right. right. exact H.
Qed.

Lemma In_get (e : dict pyval) k v :
  NoDup (keys e) -> In (k, v) e -> get e k = Some v.
Proof.
  induction e as [|[k0 v0] e IH]; intros Hnd Hin; [contradiction|].
  inversion Hnd as [|? ? Hnotin Hnd']. subst. simpl.
  destruct Hin as [[= -> ->]|Hin].
  - rewrite String.eqb_refl. reflexivity.
  - destruct (String.eqb k k0) eqn:E; [|apply IH; assumption].
    apply String.eqb_eq in E. subst k0. exfalso. apply Hnotin.
    apply in_map_iff. exists (k, v). auto.
Qed.

End Keeps.

(** The steps that decompose a body into its stores, for the property
    [never_empty]. *)
Ltac never_empty_store :=
  unfold Spec.never_empty, Spec.has_prefix, Spec.normalised_prefixes,
    Spec.filled, Spec.visible;
  cbn [existsb Text.starts_with append Ascii.eqb Bool.eqb andb orb implb
       negb Text.is_empty];
  repeat match goal with
         | H : negb _ = true |- _ => rewrite H
         | H : (_ && _)%bool = true |- _ =>
             apply andb_true_iff in H; destruct H
         end;
  reflexivity.

Ltac keeps_step :=
  first
    [ progress cbv beta zeta
    | progress unfold store_processed
    | apply keeps_ret
    | apply keeps_call
    | apply keeps_store; never_empty_store
    | apply keeps_bind; [|intros ?]
    | apply keeps_try_except; [|intros ?]
    | apply keeps_when; intros ?
    | apply keeps_for_each; intros ?
    | apply keeps_if_text; intros ? ?
    | match goal with
      | |- Spec.keeps _ (match ?x with _ => _ end) => destruct x
      end ].

Ltac keeps_all := repeat keeps_step.

Section NeverEmpty.

Import Spec.

Variable w : World.
Variable image_path : pypath.

Lemma deep_exifread_keeps (d : dict pyval) :
  _deep_exifread w image_path = Ok d ->
  forall k v, get d k = Some v -> never_empty k v = true.
Proof. apply keeps_returned. keeps_all. Qed.

Lemma extended_pil_exif_keeps (d : dict pyval) :
  _extended_pil_exif w image_path = Ok d ->
  forall k v, get d k = Some v -> never_empty k v = true.
Proof. apply keeps_returned. keeps_all. Qed.

Lemma low_level_piexif_keeps (d : dict pyval) :
  _low_level_piexif w image_path = Ok d ->
  forall k v, get d k = Some v -> never_empty k v = true.
Proof. apply keeps_returned. keeps_all. Qed.

Lemma extract_makernotes_keeps (d : dict pyval) :
  _extract_makernotes w image_path = Ok d ->
  forall k v, get d k = Some v -> never_empty k v = true.
Proof. apply keeps_returned. keeps_all. Qed.

Lemma never_empty_text k v :
  never_empty k v = true ->
  (has_prefix normalised_prefixes k = true ->
   exists s, v = VStr s /\ s <> "")
  /\ (Text.starts_with "EXIFDEEP_" k = true ->
      exists s, v = VStr s /\ Text.strip s <> "").
Proof.
  unfold never_empty. intros H. apply andb_true_iff in H as [H1 H2].
  split; intros Hk; [rewrite Hk in H1 | rewrite Hk in H2];
    destruct v as [|s| |]; try discriminate;
    exists s; (split; [reflexivity|]); intros E;
    cbn [implb filled visible] in *;
    rewrite E in *; discriminate.
Qed.

Lemma key_of_pass (ps : list string) (d : dict pyval) k v :
  apart normalised_prefixes ps = true ->
  NoDup (keys d) ->
  (forall k, has_key d k = true -> has_prefix ps k = true) ->
  In (k, v) d -> has_prefix normalised_prefixes k = false.
Proof.
  intros Hap Hnd Hd Hin.
  destruct (has_prefix normalised_prefixes k) eqn:E; [|reflexivity].
  pose proof (apart_keys _ _ d k Hap Hd E) as Hk.
  unfold has_key in Hk. rewrite (In_get d k v Hnd Hin) in Hk. discriminate.
Qed.

(** No normalised value of the aggregated record is empty: under the
    prefixes EXIFDEEP_, PILEXIF_, PIEXIF_ and MAKER_ every value is a
    text that is not empty, and under EXIFDEEP_ it is more than white
    space. *)
Theorem normalised_values_never_empty :
  exists metadata,
    extract_metadata w image_path = Ok metadata
    /\ forall k v,
        get metadata k = Some v ->
        (has_prefix normalised_prefixes k = true ->
         exists s, v = VStr s /\ s <> "")
        /\ (Text.starts_with "EXIFDEEP_" k = true ->
            exists s, v = VStr s /\ Text.strip s <> "").
Proof.
  destruct (raw_specific_data_outcome image_path)
    as [(d10 & H10 & _) | (t & _ & H10)].
  - destruct (passes_layers w image_path d10 H10)
      as (d1 & d2 & d3 & d4 & d5 & d6 & d7 & d8 & d9 & Hres & Hp
          & (N1 & K1) & (N2 & K2) & (N3 & K3) & (N4 & K4) & (N5 & K5)
          & (N6 & K6) & (N7 & K7) & (N8 & K8) & (N9 & K9) & (N10 & K10)).
    unfold pass_results in Hres.
    injection Hres as R1 R2 R3 R4 R5 R6 R7 R8 R9 _.
    unfold extract_metadata. rewrite Hp. unfold rcatch.
    eexists. split; [reflexivity|].
    intros k v Hget.
    assert (Hn : has_prefix normalised_prefixes k = true ->
                 never_empty k v = true).
    { intros Hk.
      repeat (apply get_update_from in Hget; destruct Hget as [Hget|Hget]);
        [discriminate Hget| | | | | | | | | |].
      - rewrite (key_of_pass file_prefixes d1 k v) in Hk
          by (reflexivity || assumption). discriminate.
      - apply (deep_exifread_keeps d2 R2), In_get; assumption.
      - apply (extended_pil_exif_keeps d3 R3), In_get; assumption.
      - apply (low_level_piexif_keeps d4 R4), In_get; assumption.
      - rewrite (key_of_pass gps_prefixes d5 k v) in Hk
          by (reflexivity || assumption). discriminate.
      - apply (extract_makernotes_keeps d6 R6), In_get; assumption.
      - rewrite (key_of_pass technical_prefixes d7 k v) in Hk
          by (reflexivity || assumption). discriminate.
      - rewrite (key_of_pass color_prefixes d8 k v) in Hk
          by (reflexivity || assumption). discriminate.
      - rewrite (key_of_pass xmp_prefixes d9 k v) in Hk
          by (reflexivity || assumption). discriminate.
      - rewrite (key_of_pass raw_prefixes d10 k v) in Hk
          by (reflexivity || assumption). discriminate. }
    split.
    + intros Hk. apply (never_empty_text k v (Hn Hk)), Hk.
    + intros Hk.
      assert (Hk' : has_prefix normalised_prefixes k = true).
      { unfold has_prefix, normalised_prefixes. cbn [existsb].
        rewrite Hk. reflexivity. }
      apply (never_empty_text k v (Hn Hk')), Hk.
  - unfold extract_metadata.
    assert (Hp : passes w image_path = Raise (OsPath.not_a_path t)).
    { destruct (get_file_info_prefix w image_path) as (d1 & H1 & _).
      destruct (deep_exifread_prefix w image_path) as (d2 & H2 & _).
      destruct (extended_pil_exif_prefix w image_path) as (d3 & H3 & _).
      destruct (low_level_piexif_prefix w image_path) as (d4 & H4 & _).
      destruct (detailed_gps_prefix w image_path) as (d5 & H5 & _).
      destruct (extract_makernotes_prefix w image_path) as (d6 & H6 & _).
      destruct (image_technical_specs_prefix w image_path) as (d7 & H7 & _).
      destruct (color_analysis_prefix w image_path) as (d8 & H8 & _).
      destruct (xmp_iptc_data_prefix w image_path) as (d9 & H9 & _).
      rewrite (passes_unfold w image_path _ _ _ _ _ _ _ _ _
                             H1 H2 H3 H4 H5 H6 H7 H8 H9), H10.
      reflexivity. }
    rewrite Hp. unfold rcatch. eexists. split; [reflexivity|].
    intros k v Hget. cbn [get] in Hget.
    destruct (String.eqb k "Error") eqn:E; [|discriminate].
    apply String.eqb_eq in E. subst k. split; intros Hk; discriminate Hk.
Qed.

End NeverEmpty.

(** ** The map button *)

Section OpenMap.

Import MainWindow.
Import Spec.

Lemma last_some_cons {X A : Type} (f : X -> option A) (x : X) (l : list X) :
  last_some f (x :: l) = or_else (last_some f l) (f x).
Proof. unfold last_some. cbn [rev]. apply first_some_snoc. Qed.

Lemma scan_map_choice (record : dict pyval) :
  forall map_file,
    scan_map record map_file
    = (match last_some (fun kv => if Text.contains "OSINT_Map_File" (fst kv)
                                  then Some (snd kv) else None)
                       (before_link record) with
       | Some value => value
       | None => map_file
       end,
       first_link record).
Proof.
  unfold first_link.
  induction record as [|[key value] rest IH]; intros map_file;
    [reflexivity|].
  cbn [scan_map before_link find fst]. unfold is_link_key.
  destruct (Text.contains "OSINT_Map_File" key) eqn:Ef; cbn [negb andb].
  - rewrite IH, last_some_cons. cbn [fst snd]. rewrite Ef.
    destruct (last_some _ (before_link rest)); reflexivity.
  - destruct (Text.contains "OSINT_Google_Maps" key); cbn [orb];
      [reflexivity|].
    destruct (Text.contains "GPS_Google_Maps" key); [reflexivity|].
    rewrite IH, last_some_cons. cbn [fst snd]. rewrite Ef.
    destruct (last_some _ (before_link rest)); reflexivity.
Qed.

(** The map button on a record with at least one field: the value of
    the first key that names a map link is opened when it is truthy,
    whatever map file the record names; otherwise the map file named
    last before that key is opened when it is truthy and exists; a map
    file named after the first link key is never looked at. *)
Theorem open_map_choice (os_path_exists : pyval -> result bool)
        (record : dict pyval) :
  record <> [] ->
  _open_map os_path_exists (Some record) = map_choice os_path_exists record.
Proof.
  intros Hne. unfold _open_map, map_choice, last_map_file.
  destruct record as [|kv rest]; [congruence|].
  rewrite scan_map_choice.
  destruct (truthy (first_link (kv :: rest))); [reflexivity|].
  destruct (last_some _ (before_link (kv :: rest))) as [value|];
    [|reflexivity].
  destruct (truthy value); [|reflexivity].
  destruct (os_path_exists value) as [[|]|e]; reflexivity.
Qed.

Lemma open_map_choice_witness :
  _open_map (fun _ => Ok true)
            (Some [("GPS_Google_Maps", VStr "https://maps.google.com/?q=1,2");
                   ("OSINT_Map_File", VStr "/tmp/metadate_map_0.html")])
  = Ok (Browse (VStr "https://maps.google.com/?q=1,2")).
Proof.
  rewrite open_map_choice by discriminate. reflexivity.
Defined.

End OpenMap.

(** ** The command line *)

Section CommandLine.

Import Cli.
Import Spec.

Variable w : World.
Variable os : Os.

(** The images found.  A root that is a file is yielded as it is,
    whatever its extension; a root that does not exist yields nothing;
    under a directory every path yielded joins a directory with a file
    name that carries one of the thirteen extensions in any case, and
    without recursion it is a file. *)
Theorem find_images_cases (root : string) (recursive : bool) :
  (os_path_isfile os root = true ->
   find_images os root recursive = Ok [root])
  /\ (os_path_isfile os root = false -> os_path_exists os root = false ->
      find_images os root recursive = Ok [])
  /\ (forall imgs p,
         os_path_isfile os root = false ->
         find_images os root recursive = Ok imgs -> In p imgs ->
         (exists dir f, p = OsPath.join dir f /\ listed f = true)
         /\ (recursive = false ->
             os_path_isfile os p = true
             /\ exists names f, os_listdir os root = Ok names /\ In f names
                                /\ p = OsPath.join root f)).
Proof.
  unfold find_images. split; [|split].
  - intros ->. reflexivity.
  - intros -> ->. reflexivity.
  - intros imgs p -> H Hin.
    destruct (os_path_exists os root); [|injection H as <-; contradiction].
    cbn [negb] in H. destruct recursive.
    + injection H as <-. split; [|discriminate].
      apply in_flat_map in Hin as ([[dirpath dirs] files] & _ & Hin).
      apply in_map_iff in Hin as (f & <- & Hf).
      apply filter_In in Hf as [_ Hf]. eauto.
    + destruct (os_listdir os root) as [names|e]; [|discriminate].
      injection H as <-.
      apply filter_In in Hin as [Hin Hfile].
      apply in_map_iff in Hin as (f & <- & Hf).
      apply filter_In in Hf as [Hf Hl].
      split; [eauto|]. intros _. split; [exact Hfile|]. eauto.
Qed.

Lemma extract_osint_metadata_returns (image_path : pypath) :
  exists data,
    UltraMetadataExtractor.extract_osint_metadata w image_path = Ok data.
Proof.
  destruct (extract_metadata_unreserved w image_path) as (basic & Hb & _).
  destruct (enhance_metadata_layers w basic image_path)
    as (gps & cam & tim & forensic & net & map_path & _ & He & _).
  unfold extract_osint_metadata. rewrite Hb. simpl.
  destruct (new_enhancer w) as [[]|e]; simpl.
  - rewrite He. simpl. eauto.
  - eauto.
Qed.

(** Extraction never makes an image fail: what [main] does with an
    image is what [write_json] does with its record. *)
Lemma process_writes (args : Args) (img : string) :
  exists data, process w os args img = write_json os data img (out args).
Proof.
  unfold process. destruct (no_osint args).
  - destruct (extract_metadata_unreserved w (PathStr img)) as (d & -> & _).
    exists d. reflexivity.
  - destruct (extract_osint_metadata_returns (PathStr img)) as (d & ->).
    exists d. reflexivity.
Qed.

Lemma loop_count (args : Args) (imgs : list string) :
  forall count printed,
    fst (loop w os args imgs count printed)
    = (if (limit args =? 0)%Z
       then count + Z.of_nat (List.length (processed w os args imgs))
       else if (limit args <=? count)%Z then count
            else Z.min (limit args)
                       (count
                        + Z.of_nat (List.length (processed w os args imgs))))%Z.
Proof.
  unfold processed.
  induction imgs as [|img rest IH]; intros count printed.
  - cbn [loop filter List.length fst].
    destruct (limit args =? 0)%Z; [lia|].
    destruct (limit args <=? count)%Z eqn:E; [reflexivity|].
    apply Z.leb_gt in E. lia.
  - cbn [loop filter].
    destruct (limit args =? 0)%Z eqn:E0; cbn [negb andb].
    + destruct (process w os args img); rewrite IH;
        cbn [List.length]; lia.
    + destruct (limit args <=? count)%Z eqn:E; [reflexivity|].
      apply Z.leb_gt in E.
      destruct (process w os args img); rewrite IH; cbn [List.length].
      * destruct (limit args <=? count + 1)%Z eqn:E1.
        -- apply Z.leb_le in E1. lia.
        -- apply Z.leb_gt in E1. lia.
      * rewrite (proj2 (Z.leb_gt _ _) E). reflexivity.
Qed.

(** The count [main] reports, once the images are found: the number of
    images written without failure, capped by a limit that is not zero
    (a failure does not count against the limit, and a negative limit
    processes nothing).  Only writing can fail: when the output
    directory can be made and every file can be written, every image
    found counts. *)
Theorem main_reports (args : Args) (imgs : list string) :
  find_images os (path args) (recursive args) = Ok imgs ->
  (exists printed,
      main w os args
      = Ok (List.app printed
                     ["Done. Processed: "
                        ++ Text.of_Z
                             (reported (limit args)
                                (Z.of_nat (List.length
                                             (processed w os args imgs))))]))
  /\ ((forall dir, os_makedirs os dir = Ok tt) ->
      (forall p payload, json_dump os p payload = Ok tt) ->
      processed w os args imgs = imgs).
Proof.
  intros Hfind. split.
  - unfold main. rewrite Hfind. cbn [rbind].
    pose proof (loop_count args imgs 0 []) as Hc.
    destruct (loop w os args imgs 0 []) as [count printed].
    cbn [fst] in Hc. exists printed.
    assert (Hr : count
                 = reported (limit args)
                     (Z.of_nat (List.length (processed w os args imgs)))).
    { rewrite Hc. unfold reported.
      destruct (limit args =? 0)%Z eqn:E0; [lia|].
      apply Z.eqb_neq in E0.
      destruct (limit args <=? 0)%Z eqn:E.
      - apply Z.leb_le in E. lia.
      - apply Z.leb_gt in E. lia. }
    rewrite Hr. reflexivity.
  - intros Hmk Hdump. unfold processed.
    induction imgs as [|img rest IH] in |- *; [reflexivity|].
    cbn [filter].
    destruct (process_writes args img) as (data & ->).
    unfold write_json. cbv zeta.
    assert (Hok : forall src,
               exists p,
                 write_json os data src (out args) = Ok p).
    { intros src. unfold write_json. cbv zeta.
      destruct (out args) as [dir|];
        [destruct (negb (Text.is_empty dir)); [rewrite Hmk|]|];
        cbn [rbind]; rewrite Hdump; cbn [rbind]; eauto. }
    destruct (Hok img) as (p & Hp). unfold write_json in Hp. cbv zeta in Hp.
    rewrite Hp. f_equal. exact IH.
Qed.

End CommandLine.

Lemma main_reports_witness :
  Cli.find_images Scenario.folder "photos" false
  = Ok ["photos/a.JPG"; "photos/b.png"]
  /\ exists printed,
      Cli.main Scenario.offline Scenario.folder Scenario.photos
      = Ok (List.app printed ["Done. Processed: 2"]).
Proof.
  split; [reflexivity|].
  destruct (main_reports Scenario.offline Scenario.folder Scenario.photos
              ["photos/a.JPG"; "photos/b.png"] eq_refl)
    as [(printed & Hmain) _].
  exists printed. rewrite Hmain. vm_compute. reflexivity.
Defined.

(** ** The file [write_json] writes *)

Section WriteJson.

Import Cli.
Import Spec.

Lemma prefix_sep (c : ascii) (s : string) :
  prefix "/" (String c s) = Ascii.eqb "/" c.
Proof.
  cbn [prefix]. destruct (ascii_dec "/" c) as [<-|Hne].
  - destruct s; reflexivity.
  - symmetry. apply Ascii.eqb_neq. exact Hne.
Qed.

Lemma contains_sep_cons (c : ascii) (s : string) :
  Text.contains "/" (String c s)
  = (Ascii.eqb "/" c || Text.contains "/" s)%bool.
Proof.
  cbn [Text.contains]. rewrite prefix_sep.
  destruct (Ascii.eqb "/" c); reflexivity.
Qed.

Lemma contains_sep_app (x y : string) :
  Text.contains "/" (x ++ y)
  = (Text.contains "/" x || Text.contains "/" y)%bool.
Proof.
  induction x as [|c x IH].
  - reflexivity.
  - cbn [append]. rewrite !contains_sep_cons, IH. apply orb_assoc.
Qed.

Lemma after_last_no_sep (s : string) :
  Text.contains "/" (OsPath.after_last "/" s) = false.
Proof.
  induction s as [|c s IH]; [reflexivity|].
  cbn [OsPath.after_last].
  destruct (Text.contains "/" (String c s)) eqn:E; [exact IH | exact E].
Qed.

Lemma after_last_id (n : string) :
  Text.contains "/" n = false -> OsPath.after_last "/" n = n.
Proof.
  destruct n as [|c n]; [reflexivity|].
  intros H. cbn [OsPath.after_last]. rewrite H. reflexivity.
Qed.

Lemma after_last_app_sep (x n : string) :
  Text.contains "/" n = false ->
  OsPath.after_last "/" (x ++ "/" ++ n) = n.
Proof.
  intros Hn. induction x as [|c x IH].
  - cbn [append OsPath.after_last]. rewrite contains_sep_cons.
    cbn [Ascii.eqb Bool.eqb orb]. apply after_last_id, Hn.
  - cbn [append OsPath.after_last].
    change (String c (x ++ String "/" n)) with (String c x ++ "/" ++ n).
    rewrite contains_sep_app, (contains_sep_app "/" n), orb_true_r.
    exact IH.
Qed.

Lemma ends_with_sep (a : string) :
  Text.is_empty a = false ->
  Text.is_empty (OsPath.after_last "/" a) = true ->
  exists x, a = x ++ "/".
Proof.
  induction a as [|c a IH]; [discriminate|].
  intros _. cbn [OsPath.after_last].
  destruct (Text.contains "/" (String c a)) eqn:E; [|discriminate].
  intros H. destruct a as [|c' a'].
  - rewrite contains_sep_cons in E. cbn [Text.contains prefix] in E.
    rewrite orb_false_r in E. apply Ascii.eqb_eq in E. subst c.
    exists "". reflexivity.
  - destruct (IH eq_refl H) as (x & Hx). exists (String c x).
    cbn [append]. rewrite <- Hx. reflexivity.
Qed.

Lemma string_app_assoc (a b c : string) : (a ++ b) ++ c = a ++ b ++ c.
Proof.
  induction a as [|x a IH]; [reflexivity|].
  cbn [append]. rewrite IH. reflexivity.
Qed.

(** The file name of a path joined with a name that has no separator
    is that name. *)
Lemma basename_join (a n : string) :
  Text.contains "/" n = false ->
  OsPath.after_last "/" (OsPath.join a n) = n.
Proof.
  intros Hn. unfold OsPath.join.
  destruct (prefix "/" n) eqn:Ep.
  { destruct n as [|c n]; [discriminate|].
    rewrite contains_sep_cons in Hn. rewrite prefix_sep in Ep.
    rewrite Ep in Hn. discriminate. }
  destruct (Text.is_empty a) eqn:Ea.
  { destruct a; [|discriminate]. cbn [orb append]. apply after_last_id, Hn. }
  cbn [orb].
  destruct (Text.is_empty (OsPath.after_last "/" a)) eqn:El.
  - destruct (ends_with_sep a Ea El) as (x & ->).
    rewrite string_app_assoc. apply after_last_app_sep, Hn.
  - apply after_last_app_sep, Hn.
Qed.

Lemma ext_from_suffix (name : string) :
  forall seen, exists root, name = root ++ OsPath.ext_from seen name.
Proof.
  induction name as [|c name IH]; intros seen.
  - exists "". reflexivity.
  - cbn [OsPath.ext_from].
    destruct (Ascii.eqb c "." && seen && negb (Text.contains "." name))%bool.
    + exists "". reflexivity.
    + destruct (IH (seen || negb (Ascii.eqb c "."))%bool) as (root & Hr).
      exists (String c root). cbn [append]. rewrite <- Hr. reflexivity.
Qed.

Lemma ext_from_dot (name : string) :
  forall seen,
    OsPath.ext_from seen name = ""
    \/ exists rest, OsPath.ext_from seen name = String "." rest.
Proof.
  induction name as [|c name IH]; intros seen.
  - left. reflexivity.
  - cbn [OsPath.ext_from].
    destruct (Ascii.eqb c ".") eqn:Ec.
    + apply Ascii.eqb_eq in Ec. subst c.
      destruct (true && seen && negb (Text.contains "." name))%bool;
        [right; eauto | apply IH].
    + cbn [andb]. apply IH.
Qed.

Lemma string_length_app (a b : string) :
  String.length (a ++ b) = (String.length a + String.length b)%nat.
Proof.
  induction a as [|c a IH]; [reflexivity|].
  cbn [append String.length]. rewrite IH. reflexivity.
Qed.

Lemma string_take_app (a b : string) : Text.take (String.length a) (a ++ b) = a.
Proof.
  unfold Text.take.
  induction a as [|c a IH].
  - destruct b; reflexivity.
  - cbn [append String.length substring]. rewrite IH. reflexivity.
Qed.

(** A file name is its root followed by its extension. *)
Lemma splitext_root_ext (name : string) :
  name = OsPath.splitext_root name ++ OsPath.ext_from false name.
Proof.
  unfold OsPath.splitext_root.
  destruct (ext_from_suffix name false) as (root & Hr).
  remember (OsPath.ext_from false name) as e eqn:He. clear He. subst name.
  rewrite string_length_app.
  replace (String.length root + String.length e - String.length e)%nat
    with (String.length root) by lia.
  rewrite string_take_app. reflexivity.
Qed.

Lemma contains_sep_take (s : string) :
  forall n, Text.contains "/" s = false ->
            Text.contains "/" (Text.take n s) = false.
Proof.
  unfold Text.take.
  induction s as [|c s IH]; intros [|n] H; try reflexivity.
  cbn [substring]. rewrite contains_sep_cons in *.
  apply orb_false_iff in H as [Hc Hs]. rewrite Hc. cbn [orb].
  apply IH, Hs.
Qed.

(** The file [write_json] writes is named after the root of the image's
    file name, followed by "_metadata.json"; it is never the image; and
    it is in the output directory when one is given and not empty, else
    in the directory of the image. *)
Theorem write_json_spares_source (os : Os) (data : dict pyval)
        (src_path : string) (out_dir : option string) (out_path : string) :
  write_json os data src_path out_dir = Ok out_path ->
  OsPath.after_last "/" out_path
  = OsPath.splitext_root (OsPath.after_last "/" src_path) ++ "_metadata.json"
  /\ out_path <> src_path
  /\ out_path
     = OsPath.join
         (match out_dir with
          | Some dir =>
              if Text.is_empty dir then OsPath.dirname src_path else dir
          | None => OsPath.dirname src_path
          end)
         (OsPath.splitext_root (OsPath.after_last "/" src_path)
            ++ "_metadata.json").
Proof.
  intros H.
  set (base := OsPath.after_last "/" src_path).
  set (out_name := OsPath.splitext_root base ++ "_metadata.json").
  assert (Hn : Text.contains "/" out_name = false).
  { unfold out_name. rewrite contains_sep_app.
    unfold OsPath.splitext_root.
    rewrite contains_sep_take by apply after_last_no_sep. reflexivity. }
  set (dir := match out_dir with
              | Some dir =>
                  if Text.is_empty dir then OsPath.dirname src_path else dir
              | None => OsPath.dirname src_path
              end).
  assert (Hout : out_path = OsPath.join dir out_name).
  { unfold write_json in H. cbv zeta in H.
    fold base in H. change (OsPath.splitext_root base ++ "_metadata" ++ ".json")
      with out_name in H.
    unfold dir.
    destruct out_dir as [d|];
      [destruct (Text.is_empty d); cbn [negb] in H;
       [|destruct (os_makedirs os d); [|discriminate]]|];
      cbn [rbind] in H;
      destruct (json_dump os _ _); try discriminate;
      injection H as <-; reflexivity. }
  rewrite Hout.
  assert (Hb : OsPath.after_last "/" (OsPath.join dir out_name) = out_name)
    by apply basename_join, Hn.
  split; [exact Hb|]. split; [|reflexivity].
  intros E. rewrite E in Hb. fold base in Hb. unfold out_name in Hb.
  rewrite (splitext_root_ext base) in Hb at 1.
  apply string_app_inj in Hb.
  destruct (ext_from_dot base false) as [E0 | (rest & E0)];
    rewrite E0 in Hb; discriminate.
Qed.

End WriteJson.

Lemma write_json_spares_source_witness :
  Cli.write_json Scenario.folder [] "photos/a.JPG" None
  = Ok "photos/a_metadata.json"
  /\ "photos/a_metadata.json" <> "photos/a.JPG"
  /\ Cli.write_json Scenario.folder [] "photos/a.JPG" (Some "out")
     = Ok "out/a_metadata.json"
  /\ "out/a_metadata.json" = OsPath.join "out" "a_metadata.json".
Proof.
  split; [reflexivity|].
  split; [apply (write_json_spares_source Scenario.folder []
                   "photos/a.JPG" None); reflexivity|].
  split; [reflexivity|].
  apply (write_json_spares_source Scenario.folder [] "photos/a.JPG"
           (Some "out") "out/a_metadata.json" eq_refl).
Defined.

(** ** Enrichment as a merge *)

Section EnrichmentMerge.

Import Spec.

Variable w : World.
Variable metadata : dict pyval.
Variable image_path : pypath.

(** Enrichment on any record: the five analyses and the map generation
    all return, every field an analysis produces is a field of the
    enriched record with its value (no analysis overwrites the field of
    another), the path of a generated map is under OSINT_Map_File, and
    the enriched record has no key besides those of the base record, of
    the five analyses and OSINT_Map_File. *)
Theorem enrichment_is_a_merge :
  exists gps cam tim forensic net map_path enhanced,
    (_gps_osint_analysis w metadata = Ok gps
     /\ _camera_osint_analysis w metadata = Ok cam
     /\ _time_analysis metadata = Ok tim
     /\ _forensic_analysis w image_path = Ok forensic
     /\ _network_analysis metadata = Ok net
     /\ _create_osm_map w metadata = Ok map_path)
    /\ enhance_metadata w metadata image_path = Ok enhanced
    /\ (forall d, In d [gps; cam; tim; forensic; net] ->
                  forall k v, get d k = Some v -> get enhanced k = Some v)
    /\ (forall p, map_path = Some p ->
                  get enhanced "OSINT_Map_File" = Some (VStr p))
    /\ (forall k, has_key enhanced k = true ->
                  k = "OSINT_Map_File"
                  \/ exists d, In d [metadata; gps; cam; tim; forensic; net]
                               /\ has_key d k = true).
Proof.
  pose proof (gps_analysis_writes w metadata) as Ag.
  pose proof (camera_analysis_writes w metadata) as Ac.
  pose proof (time_analysis_writes metadata) as At.
  pose proof (forensic_analysis_writes w image_path) as Af.
  pose proof (network_analysis_writes metadata) as An.
  destruct Ag as (gps & Hg & Ag). destruct Ac as (cam & Hc & Ac).
  destruct At as (tim & Ht & At). destruct Af as (forensic & Hf & Af).
  destruct An as (net & Hn & An).
  destruct (create_osm_map_returns w metadata) as (map_path & Hm).
  destruct (contributions_kept metadata gps cam tim forensic net map_path
              (ex_intro _ gps (conj eq_refl Ag))
              (ex_intro _ cam (conj eq_refl Ac))
              (ex_intro _ tim (conj eq_refl At))
              (ex_intro _ forensic (conj eq_refl Af))
              (ex_intro _ net (conj eq_refl An)))
    as (Gg & Gc & Gt & Gf & Gn).
  exists gps, cam, tim, forensic, net, map_path. eexists.
  split; [auto 10|].
  split; [apply enhance_metadata_unfold; eassumption|].
  split; [|split].
  - intros d Hd. simpl in Hd.
    destruct Hd as [<-|[<-|[<-|[<-|[<-|[]]]]]]; assumption.
  - intros p ->. unfold with_map.
    rewrite (create_osm_map_path w metadata p Hm). apply get_set_same.
  - intros k Hk.
    destruct (String.eqb k "OSINT_Map_File") eqn:E.
    { left. apply String.eqb_eq, E. }
    right. unfold has_key in Hk. rewrite get_with_map in Hk
      by (intros ->; rewrite String.eqb_refl in E; discriminate).
    fold (has_key (update (update (update (update (update metadata gps) cam)
                                          tim) forensic) net) k) in Hk.
    rewrite !has_key_update in Hk.
    repeat (apply orb_true_iff in Hk; destruct Hk as [Hk|Hk]);
      eexists; (split; [|exact Hk]); simpl; auto 10.
Qed.

End EnrichmentMerge.

(** ** The GPS analysis when the geocoder answers *)

Section GpsAnalysisLocated.

Import Spec.

Variable w : World.
Variable metadata : dict pyval.

Lemma analyze_location_type_returns (lat lon : float) :
  exists kind, _analyze_location_type w lat lon = Ok kind.
Proof.
  unfold _analyze_location_type, rcatch, rbind.
  destruct (geolocator_reverse w _ None) as [[loc|]|e]; eauto.
  repeat match goal with
         | |- context [if ?c then _ else _] => destruct c
         end; eauto.
Qed.

(** The GPS analysis on a record whose coordinate resolves, when the
    reverse-geocoding call returns (a location or nothing): no error
    field; the address fields come from the structured address of the
    location, each "Unknown" when the address lacks it and the city
    falling back on the town, and are absent without a location; the
    offline fields come from the first offline result and are absent
    when the offline lookup raises or finds nothing; the map links
    carry the coordinate in full precision; and the location type is
    what [_analyze_location_type] returns. *)
Theorem gps_analysis_located (lat lon : float) (location : option Location) :
  _extract_coordinates metadata = Ok (Some (lat, lon)) ->
  geolocator_reverse w (Flt.repr lat ++ ", " ++ Flt.repr lon) (Some "en")
  = Ok location ->
  let field (k : string) : option pyval :=
    option_map (fun loc => get_default (address_of loc) k unknown) location in
  let offline (k : string) : option pyval :=
    match rg_search w lat lon with
    | Ok (r :: _) => Some (get_default r k unknown)
    | _ => None
    end in
  exists gps kind,
    _gps_osint_analysis w metadata = Ok gps
    /\ _analyze_location_type w lat lon = Ok kind
    /\ get gps "OSINT_GPS_Error" = None
    /\ get gps "OSINT_Coordinates"
       = Some (VStr (Flt.fixed 6 lat ++ ", " ++ Flt.fixed 6 lon))
    /\ get gps "OSINT_Country" = field "country"
    /\ get gps "OSINT_Country_Code" = field "country_code"
    /\ get gps "OSINT_State" = field "state"
    /\ get gps "OSINT_City"
       = option_map (fun loc =>
                       match get (address_of loc) "city" with
                       | Some city => city
                       | None => get_default (address_of loc) "town" unknown
                       end) location
    /\ get gps "OSINT_Postcode" = field "postcode"
    /\ get gps "OSINT_Road" = field "road"
    /\ get gps "OSINT_Full_Address"
       = option_map (fun loc => VStr (loc_address loc)) location
    /\ get gps "OSINT_RG_Country" = offline "cc"
    /\ get gps "OSINT_RG_City" = offline "name"
    /\ get gps "OSINT_RG_Admin1" = offline "admin1"
    /\ get gps "OSINT_RG_Admin2" = offline "admin2"
    /\ get gps "OSINT_Google_Maps"
       = Some (VStr ("https://maps.google.com/?q=" ++ Flt.repr lat ++ ","
                       ++ Flt.repr lon ++ "&z=17"))
    /\ get gps "OSINT_OpenStreetMap"
       = Some (VStr ("https://www.openstreetmap.org/?mlat=" ++ Flt.repr lat
                       ++ "&mlon=" ++ Flt.repr lon ++ "&zoom=17"))
    /\ get gps "OSINT_Bing_Maps"
       = Some (VStr ("https://bing.com/maps/default.aspx?cp=" ++ Flt.repr lat
                       ++ "~" ++ Flt.repr lon ++ "&lvl=17"))
    /\ get gps "OSINT_Yandex_Maps"
       = Some (VStr ("https://yandex.ru/maps/?pt=" ++ Flt.repr lon ++ ","
                       ++ Flt.repr lat ++ "&z=17"))
    /\ get gps "OSINT_What3Words"
       = Some (VStr ("https://what3words.com///" ++ _coord_to_3words w lat lon))
    /\ get gps "OSINT_Altitude_Analysis"
       = (if altitude_in_text metadata
          then Some (VStr "Altitude data available") else None)
    /\ get gps "OSINT_Location_Type" = Some kind.
Proof.
  intros Hcoords Hloc field offline. subst field offline.
  destruct (analyze_location_type_returns lat lon) as (kind & Hkind).
  unfold _gps_osint_analysis, returned, returned_from, try_except, bind,
    call, store, when, ret.
  rewrite Hcoords. cbv beta iota zeta. rewrite Hloc, Hkind.
  unfold get_default.
  destruct location as [loc|];
    destruct (rg_search w lat lon) as [[|r rest]|e];
    destruct (altitude_in_text metadata);
    cbv beta iota;
    (eexists; exists kind; split; [reflexivity|]; split; [reflexivity|]);
    repeat split; reflexivity.
Qed.

End GpsAnalysisLocated.

Lemma gps_analysis_located_witness :
  exists gps,
    _gps_osint_analysis Scenario.online Scenario.open_sea = Ok gps
    /\ get gps "OSINT_City" = Some (VStr "Smallville")
    /\ get gps "OSINT_State" = Some (VStr "Unknown")
    /\ get gps "OSINT_RG_City" = None
    /\ get gps "OSINT_GPS_Error" = None.
Proof.
  destruct (gps_analysis_located Scenario.online Scenario.open_sea
              0%float 0%float (Some Scenario.village))
    as (gps & kind & Hrun & _ & Herr & _ & _ & _ & Hstate & Hcity & _ & _
        & _ & _ & Hrg & _); try reflexivity.
  exists gps. split; [exact Hrun|].
  split; [exact Hcity|]. split; [exact Hstate|].
  split; [exact Hrg | exact Herr].
Defined.

(** ** From the worker to the status bar *)

Section StatusBar.

Import MainWindow.
Import Spec.

Variable w : World.

Lemma get_file_info_path (image_path : pypath) :
  exists info,
    _get_file_info w image_path = Ok info
    /\ NoDup (keys info)
    /\ get info "File_Path"
       = match os_stat w image_path, os_path_abspath w image_path with
         | Ok _, Ok p => Some (VStr p)
         | _, _ => None
         end.
Proof.
  destruct (get_file_info_prefix w image_path) as (info & Hinfo & Hnd & _).
  exists info. split; [exact Hinfo|]. split; [exact Hnd|].
  revert Hinfo.
  unfold _get_file_info, returned, returned_from, try_except, bind, call,
    store, ret.
  destruct (os_stat w image_path) as [st|e1];
    [|intros [= <-]; reflexivity].
  destruct (os_path_abspath w image_path) as [p|e2];
    [|intros [= <-]; reflexivity].
  destruct (OsPath.basename image_path) as [name|e3];
    [|intros [= <-]; reflexivity].
  destruct (Flt.div_int (st_size st) (1024 * 1024)) as [mb|e4];
    [|intros [= <-]; reflexivity].
  destruct (datetime_isoformat w (st_ctime st)) as [c|e5];
    [|intros [= <-]; reflexivity].
  destruct (datetime_isoformat w (st_mtime st)) as [m|e6];
    [|intros [= <-]; reflexivity].
  destruct (OsPath.splitext_ext image_path) as [ext|e7];
    intros [= <-]; reflexivity.
Qed.

(** The path field of the enriched record is the one the file pass
    wrote. *)
Lemma enriched_file_path (s : string) :
  exists enhanced,
    extract_osint_metadata w (PathStr s) = Ok enhanced
    /\ get enhanced "File_Path"
       = match os_stat w (PathStr s), os_path_abspath w (PathStr s) with
         | Ok _, Ok p => Some (VStr p)
         | _, _ => None
         end.
Proof.
  pose proof (raw_specific_data_cases (PathStr s)) as (d10 & H10 & _).
  destruct (passes_layers w (PathStr s) d10 H10)
    as (d1 & d2 & d3 & d4 & d5 & d6 & d7 & d8 & d9 & Hres & Hp
        & (N1 & K1) & (_ & K2) & (_ & K3) & (_ & K4) & (_ & K5)
        & (_ & K6) & (_ & K7) & (_ & K8) & (_ & K9) & (_ & K10)).
  destruct (get_file_info_path (PathStr s)) as (info & Hinfo & _ & Hpath).
  unfold pass_results in Hres. injection Hres as R1 _.
  rewrite R1 in Hinfo. injection Hinfo as <-.
  set (basic := update (update (update (update (update (update (update
                  (update (update (update [] d1) d2) d3) d4) d5) d6) d7)
                  d8) d9) d10) in *.
  assert (Hb : extract_metadata w (PathStr s) = Ok basic).
  { unfold extract_metadata. rewrite Hp. reflexivity. }
  assert (Hbp : get basic "File_Path" = get d1 "File_Path").
  { unfold basic.
    rewrite (get_update_other _ d10)
      by (apply (not_has_key _ _ _ K10); reflexivity).
    rewrite (get_update_other _ d9)
      by (apply (not_has_key _ _ _ K9); reflexivity).
    rewrite (get_update_other _ d8)
      by (apply (not_has_key _ _ _ K8); reflexivity).
    rewrite (get_update_other _ d7)
      by (apply (not_has_key _ _ _ K7); reflexivity).
    rewrite (get_update_other _ d6)
      by (apply (not_has_key _ _ _ K6); reflexivity).
    rewrite (get_update_other _ d5)
      by (apply (not_has_key _ _ _ K5); reflexivity).
    rewrite (get_update_other _ d4)
      by (apply (not_has_key _ _ _ K4); reflexivity).
    rewrite (get_update_other _ d3)
      by (apply (not_has_key _ _ _ K3); reflexivity).
    rewrite (get_update_other _ d2)
      by (apply (not_has_key _ _ _ K2); reflexivity).
    destruct (get d1 "File_Path") as [v|] eqn:E.
    - apply get_update_in; assumption.
    - rewrite get_update_other by (unfold has_key; rewrite E; reflexivity).
      reflexivity. }
  unfold extract_osint_metadata. rewrite Hb. simpl.
  destruct (new_enhancer w) as [[]|e]; simpl.
  - destruct (enhance_metadata_layers w basic (PathStr s))
      as (gps & cam & tim & forensic & net & map_path & _ & He & Hfree).
    rewrite He. simpl. eexists. split; [reflexivity|].
    rewrite (get_layers basic) by (reflexivity || (apply Hfree; reflexivity)).
    rewrite Hbp. exact Hpath.
  - exists basic. split; [reflexivity|]. rewrite Hbp. exact Hpath.
Qed.

(** From the worker to the status bar, for a path given as text: the
    worker emits [finished], never [error], and the status bar then
    shows the last component of the file's absolute path ("Unknown"
    when the file cannot be stat'ed), the number of fields of the
    record and the number of its keys that hold OSINT_, followed by
    "GPS Located" when a key holds both GPS and Coordinates; the
    message "Error updating UI" is never shown. *)
Theorem status_after_extraction (s : string) :
  exists enhanced,
    ExtractionWorker.run w (PathStr s) = ExtractionWorker.finished enhanced
    /\ status_after (ExtractionWorker.run w (PathStr s))
       = let status_msg :=
           "Loaded: " ++ shown_name w (PathStr s) ++ " | Total: "
             ++ Text.of_nat (List.length enhanced) ++ " | OSINT: "
             ++ Text.of_nat (osint_count enhanced) in
         if gps_present enhanced then status_msg ++ " | GPS Located"
         else status_msg.
Proof.
  destruct (enriched_file_path s) as (enhanced & Hrun & Hpath).
  exists enhanced. unfold ExtractionWorker.run. rewrite Hrun.
  split; [reflexivity|].
  unfold status_after, _on_extraction_finished, shown_name, has_key,
    get_default.
  cbn [snd]. rewrite Hpath.
  destruct (os_stat w (PathStr s)) as [st|e1]; [|reflexivity].
  destruct (os_path_abspath w (PathStr s)) as [p|e2]; [|reflexivity].
  unfold file_name_of, truthy.
  destruct (Text.is_empty p); reflexivity.
Qed.

End StatusBar.

(** ** The tag loops of the deep EXIF pass and of the maker-note pass *)

Section TagLoops.

Import Spec.

Context {X : Type}.
Variable p : string.
Variable g : string * X -> option pyval.
Variable body : string * X -> M unit.

Hypothesis body_run :
  forall item d,
    body item d = (match g item with
                   | Some v => set d (p ++ fst item) v
                   | None => d
                   end, Ok tt).

Lemma loop_store_total (l : dict X) : total (for_each l body).
Proof.
  apply total_for_each. intros item d. rewrite body_run. simpl. eauto.
Qed.

Lemma loop_store_frame (l : dict X) :
  forall d k',
    named_after p l k' = false ->
    get (fst (for_each l body d)) k' = get d k'.
Proof.
  induction l as [|[k x] l IH]; intros d k' Hk'; [reflexivity|].
  unfold named_after in Hk'. cbn [existsb fst] in Hk'.
  apply orb_false_iff in Hk' as [H0 Hl].
  cbn [for_each]. unfold bind. rewrite body_run.
  rewrite IH by exact Hl. cbn [fst].
  destruct (g (k, x)); [|reflexivity].
  apply get_set_other. intros ->. rewrite String.eqb_refl in H0.
  discriminate.
Qed.

Lemma not_named_after (l : dict X) k :
  has_key l k = false -> named_after p l (p ++ k) = false.
Proof.
  unfold named_after. rewrite has_key_existsb.
  induction l as [|[k0 x0] l IH]; [reflexivity|].
  cbn [existsb fst]. intros H. apply orb_false_iff in H as [H0 Hl].
  rewrite eqb_app, H0. exact (IH Hl).
Qed.

Lemma loop_store_get (l : dict X) :
  NoDup (keys l) ->
  forall d k x,
    get l k = Some x ->
    get (fst (for_each l body d)) (p ++ k)
    = match g (k, x) with
      | Some v => Some v
      | None => get d (p ++ k)
      end.
Proof.
  induction l as [|[k0 x0] l IH]; intros Hnd d k x Hget; [discriminate|].
  inversion Hnd as [|? ? Hnotin Hnd']. subst.
  assert (Hk0 : has_key l k0 = false).
  { destruct (has_key l k0) eqn:E; [|reflexivity].
    apply has_key_In in E. contradiction. }
  cbn [get] in Hget. cbn [for_each]. unfold bind. rewrite body_run.
  destruct (String.eqb k k0) eqn:E.
  - apply String.eqb_eq in E. subst k0. injection Hget as ->.
    rewrite loop_store_frame by (apply not_named_after, Hk0).
    cbn [fst]. destruct (g (k, x)); [apply get_set_same | reflexivity].
  - rewrite (IH Hnd' _ k x Hget). cbn [fst].
    destruct (g (k, x)); [reflexivity|].
    destruct (g (k0, x0)); [|reflexivity].
    apply get_set_other. intros H. apply string_app_inj in H. subst k0.
    rewrite String.eqb_refl in E. discriminate.
Qed.

End TagLoops.

Section TagPasses.

Import Spec.

Lemma process_exif_value_returns (value : rawvalue) :
  exists o, _process_exif_value value = Ok o.
Proof.
  unfold _process_exif_value, rcatch, rbind.
  destruct value as [[| | |]| |[t|e] text|is_list items]; cbv beta iota zeta;
    repeat match goal with
           | |- context [if ?c then _ else _] => destruct c
           end; eauto.
Qed.

Lemma named_after_In {X : Type} (p : string) (l : dict X) k' :
  named_after p l k' = true ->
  exists k, has_key l k = true /\ k' = p ++ k.
Proof.
  unfold named_after. intros H.
  apply existsb_exists in H as ([k x] & Hin & E).
  apply String.eqb_eq in E. exists k. split; [|exact E].
  apply has_key_In. apply in_map_iff. exists (k, x). auto.
Qed.

(** The deep EXIF pass on the tags of a file: each tag gives the field
    EXIFDEEP_ followed by its name, with its normalised value, exactly
    when it is no thumbnail and the value is more than white space; and
    there is no other field. *)
Theorem deep_exifread_fields (w : World) (image_path : pypath)
        (content : list byte) (tags : dict exif_value) :
  read_file w image_path = Ok content ->
  exifread_process_file w content true = Ok tags ->
  NoDup (keys tags) ->
  exists metadata,
    _deep_exifread w image_path = Ok metadata
    /\ (forall tag value,
           get tags tag = Some value ->
           get metadata ("EXIFDEEP_" ++ tag) = deep_value (tag, value))
    /\ (forall k, has_key metadata k = true ->
                  exists tag, has_key tags tag = true
                              /\ k = "EXIFDEEP_" ++ tag).
Proof.
  intros Hread Hexif Hnd.
  set (body := fun '(tag, value) =>
                 if Text.mem tag ["JPEGThumbnail"; "TIFFThumbnail"]
                 then ret tt
                 else
                   bind (call (_process_exif_value (raw_of_exif value)))
                        (fun processed =>
                           match processed with
                           | Some text =>
                               when (negb (Text.is_empty text)
                                     && negb (Text.is_empty (Text.strip text)))
                                    (store ("EXIFDEEP_" ++ tag) (VStr text))
                           | None => ret tt
                           end)).
  assert (Hbody : forall item d,
             body item d = (match deep_value item with
                            | Some v => set d ("EXIFDEEP_" ++ fst item) v
                            | None => d
                            end, Ok tt)).
  { intros [tag value] d. unfold body, deep_value. cbn [fst snd].
    destruct (Text.mem tag _); [reflexivity|].
    unfold bind, call.
    destruct (process_exif_value_returns (raw_of_exif value)) as (o & ->).
    destruct o as [text|]; [|reflexivity].
    destruct (negb (Text.is_empty text)
              && negb (Text.is_empty (Text.strip text)))%bool; reflexivity. }
  assert (Hrun : _deep_exifread w image_path
                 = Ok (fst (for_each tags body []))).
  { transitivity
      (returned
         (try_except
            (bind (call (read_file w image_path)) (fun content =>
             bind (call (exifread_process_file w content true)) (fun tags =>
             for_each tags body)))
            (fun _ => ret tt))); [reflexivity|].
    unfold returned, returned_from, try_except.
    unfold bind at 1, call at 1. rewrite Hread.
    unfold bind at 1, call at 1. rewrite Hexif.
    rewrite (total_run _ [] (loop_store_total _ _ body Hbody tags)).
    reflexivity. }
  eexists. split; [exact Hrun|]. split.
  - intros tag value Hget.
    rewrite (loop_store_get _ _ body Hbody tags Hnd [] tag value Hget).
    destruct (deep_value (tag, value)); reflexivity.
  - intros k Hk.
    destruct (named_after "EXIFDEEP_" tags k) eqn:E;
      [apply named_after_In, E|].
    unfold has_key in Hk.
    rewrite (loop_store_frame _ _ body Hbody tags [] k E) in Hk.
    discriminate.
Qed.

Lemma select_filter (keep : string -> bool) (tags : dict exif_value) :
  NoDup (keys tags) ->
  select keep tags = filter (fun tv => keep (fst tv)) tags.
Proof.
  unfold select. intros Hnd.
  assert (H : forall acc,
             (forall k, In k (keys tags) -> has_key acc k = false) ->
             fold_left (fun acc tv => if keep (fst tv)
                                      then set acc (fst tv) (snd tv) else acc)
                       tags acc
             = (acc ++ filter (fun tv => keep (fst tv)) tags)%list).
  { induction tags as [|[k v] tags IH]; intros acc Hacc.
    - simpl. rewrite app_nil_r. reflexivity.
    - inversion Hnd as [|? ? Hnotin Hnd']. subst.
      cbn [fold_left filter fst snd]. destruct (keep k).
      + rewrite IH; [|exact Hnd'|].
        * rewrite set_fresh by (apply Hacc; left; reflexivity).
          rewrite <- app_assoc. reflexivity.
        * intros k' Hk'. rewrite has_key_set.
          destruct (String.eqb k' k) eqn:E.
          -- apply String.eqb_eq in E. subst k'. contradiction.
          -- apply Hacc. right. exact Hk'.
      + apply IH; [exact Hnd'|]. intros k' Hk'. apply Hacc. right. exact Hk'. }
  apply (H []). reflexivity.
Qed.

Lemma get_filter {X : Type} (keep : string -> bool) (l : dict X) k :
  get (filter (fun kv => keep (fst kv)) l) k
  = if keep k then get l k else None.
Proof.
  induction l as [|[k0 x0] l IH]; [destruct (keep k); reflexivity|].
  cbn [filter fst get].
  destruct (keep k0) eqn:E0; cbn [get]; rewrite IH;
    destruct (String.eqb k k0) eqn:E; try reflexivity.
  - apply String.eqb_eq in E. subst k0. rewrite E0. reflexivity.
  - apply String.eqb_eq in E. subst k0. rewrite E0. reflexivity.
Qed.

Lemma NoDup_keys_filter {X : Type} (keep : string -> bool) (l : dict X) :
  NoDup (keys l) -> NoDup (keys (filter (fun kv => keep (fst kv)) l)).
Proof.
  unfold keys.
  induction l as [|[k0 x0] l IH]; intros Hnd; [constructor|].
  inversion Hnd as [|? ? Hnotin Hnd']. subst.
  cbn [filter fst]. destruct (keep k0); [|apply IH, Hnd'].
  cbn [map fst]. constructor; [|apply IH, Hnd'].
  intros Hin. apply Hnotin. apply in_map_iff in Hin as (kv & E & Hin).
  apply filter_In in Hin as [Hin _]. apply in_map_iff. eauto.
Qed.

(** The maker-note pass on the tags of a file: the presence flag says
    whether a tag name holds "MakerNote" in any case, the count is the
    number of such tags, each of them gives the field MAKER_ followed
    by its name exactly when its normalised value is not empty; and
    there is no other field. *)
Theorem extract_makernotes_fields (w : World) (image_path : pypath)
        (content : list byte) (tags : dict exif_value) :
  read_file w image_path = Ok content ->
  exifread_process_file w content false = Ok tags ->
  NoDup (keys tags) ->
  let maker_tags := filter (fun tv => is_makernote (fst tv)) tags in
  exists metadata,
    _extract_makernotes w image_path = Ok metadata
    /\ get metadata "MakerNotes_Present"
       = Some (VStr (if is_nil maker_tags then "NO" else "YES"))
    /\ get metadata "MakerNotes_Count"
       = (if is_nil maker_tags then None
          else Some (VInt (Z.of_nat (List.length maker_tags))))
    /\ (forall tag value,
           get tags tag = Some value ->
           get metadata ("MAKER_" ++ tag)
           = if is_makernote tag then maker_value (tag, value) else None)
    /\ (forall k, has_key metadata k = true ->
                  k = "MakerNotes_Present" \/ k = "MakerNotes_Count"
                  \/ exists tag, has_key maker_tags tag = true
                                 /\ k = "MAKER_" ++ tag).
Proof.
  intros Hread Hexif Hnd maker_tags.
  set (body := fun '(tag, value) =>
                 store_processed ("MAKER_" ++ tag) (raw_of_exif value)).
  assert (Hbody : forall (item : string * exif_value) d,
             body item d = (match maker_value item with
                            | Some v => set d ("MAKER_" ++ fst item) v
                            | None => d
                            end, Ok tt)).
  { intros [tag value] d.
    unfold body, maker_value, store_processed, if_text. cbn [fst snd].
    unfold bind, call.
    destruct (process_exif_value_returns (raw_of_exif value)) as (o & ->).
    destruct o as [text|]; [|reflexivity].
    destruct (negb (Text.is_empty text)); reflexivity. }
  assert (Hrun : _extract_makernotes w image_path
                 = Ok (if is_nil maker_tags
                       then [("MakerNotes_Present", VStr "NO")]
                       else set (fst (for_each maker_tags body
                                        [("MakerNotes_Present", VStr "YES")]))
                                "MakerNotes_Count"
                                (VInt (Z.of_nat (List.length maker_tags))))).
  { transitivity
      (returned
         (try_except
            (bind (call (read_file w image_path)) (fun content =>
             bind (call (exifread_process_file w content false)) (fun tags =>
             let maker_tags := select is_makernote tags in
             if negb (is_nil maker_tags) then
               bind (store "MakerNotes_Present" (VStr "YES")) (fun _ =>
               bind (for_each maker_tags body) (fun _ =>
               store "MakerNotes_Count"
                     (VInt (Z.of_nat (List.length maker_tags)))))
             else store "MakerNotes_Present" (VStr "NO"))))
            (fun _ => ret tt))); [reflexivity|].
    unfold returned, returned_from, try_except.
    unfold bind at 1, call at 1. rewrite Hread.
    unfold bind at 1, call at 1. rewrite Hexif. cbv zeta.
    rewrite (select_filter is_makernote tags Hnd). fold maker_tags.
    destruct (is_nil maker_tags); [reflexivity|]. cbn [negb].
    unfold bind at 1, store at 1. unfold bind at 1.
    rewrite (total_run _ _ (loop_store_total _ _ body Hbody maker_tags)).
    reflexivity. }
  eexists. split; [exact Hrun|].
  assert (Hndm : NoDup (keys maker_tags))
    by (apply NoDup_keys_filter, Hnd).
  destruct (is_nil maker_tags) eqn:Enil.
  { assert (Hempty : maker_tags = []).
    { destruct maker_tags; [reflexivity | discriminate]. }
    split; [reflexivity|]. split; [reflexivity|]. split.
    - intros tag value Hget.
      pose proof (get_filter is_makernote tags tag) as Hf.
      fold maker_tags in Hf. rewrite Hempty in Hf. cbn [get] in Hf.
      rewrite Hget in Hf.
      destruct (is_makernote tag); [discriminate|]. reflexivity.
    - intros k Hk. rewrite has_key_existsb in Hk. cbn [existsb fst] in Hk.
      rewrite orb_false_r in Hk. apply String.eqb_eq in Hk. auto. }
  set (d0 := [("MakerNotes_Present", VStr "YES")]).
  split; [|split; [|split]].
  - rewrite get_set_other by discriminate.
    rewrite (loop_store_frame _ _ body Hbody maker_tags d0) by
        (unfold named_after; apply not_true_iff_false; intros H;
         apply existsb_exists in H as (kv & _ & E);
         apply String.eqb_eq in E; discriminate E).
    reflexivity.
  - apply get_set_same.
  - intros tag value Hget.
    rewrite get_set_other by (intros H; discriminate H).
    pose proof (get_filter is_makernote tags tag) as Hf.
    fold maker_tags in Hf. rewrite Hget in Hf.
    destruct (is_makernote tag).
    + rewrite (loop_store_get _ _ body Hbody maker_tags Hndm d0 tag value Hf).
      destruct (maker_value (tag, value)); reflexivity.
    + rewrite (loop_store_frame _ _ body Hbody maker_tags d0)
        by (apply not_named_after; unfold has_key; rewrite Hf; reflexivity).
      reflexivity.
  - intros k Hk. rewrite has_key_set in Hk.
    destruct (String.eqb k "MakerNotes_Count") eqn:Ec.
    { right. left. apply String.eqb_eq, Ec. }
    cbn [orb] in Hk.
    destruct (named_after "MAKER_" maker_tags k) eqn:E.
    { right. right. apply named_after_In, E. }
    unfold has_key in Hk.
    rewrite (loop_store_frame _ _ body Hbody maker_tags d0 k E) in Hk.
    left. unfold d0 in Hk. cbn [get] in Hk.
    destruct (String.eqb k "MakerNotes_Present") eqn:Ep; [|discriminate].
    apply String.eqb_eq, Ep.
Qed.

End TagPasses.

Lemma nikon_tags_distinct : NoDup (keys Scenario.nikon_tags).
Proof.
  repeat (apply NoDup_cons;
          [simpl; intros H;
           repeat (destruct H as [H|H]; [discriminate H|]); exact H|]).
  apply NoDup_nil.
Qed.

Lemma deep_exifread_fields_witness :
  exists metadata,
    _deep_exifread Scenario.nikon (PathStr "DSC_0001.JPG") = Ok metadata
    /\ get metadata "EXIFDEEP_MakerNote Quality" = Some (VStr "FINE")
    /\ get metadata "EXIFDEEP_EXIF UserComment" = None
    /\ get metadata "EXIFDEEP_JPEGThumbnail" = None.
Proof.
  destruct (deep_exifread_fields Scenario.nikon (PathStr "DSC_0001.JPG") []
              Scenario.nikon_tags eq_refl eq_refl nikon_tags_distinct)
    as (metadata & Hrun & Hfields & _).
  exists metadata. split; [exact Hrun|].
  split; [apply (Hfields "MakerNote Quality" _ eq_refl)|].
  split; [apply (Hfields "EXIF UserComment" _ eq_refl)|].
  apply (Hfields "JPEGThumbnail" _ eq_refl).
Defined.

Lemma extract_makernotes_fields_witness :
  exists metadata,
    _extract_makernotes Scenario.nikon (PathStr "DSC_0001.JPG") = Ok metadata
    /\ get metadata "MakerNotes_Present" = Some (VStr "YES")
    /\ get metadata "MakerNotes_Count" = Some (VInt 1)
    /\ get metadata "MAKER_MakerNote Quality" = Some (VStr "FINE")
    /\ get metadata "MAKER_Image Make" = None.
Proof.
  destruct (extract_makernotes_fields Scenario.nikon (PathStr "DSC_0001.JPG")
              [] Scenario.nikon_tags eq_refl eq_refl nikon_tags_distinct)
    as (metadata & Hrun & Hpresent & Hcount & Hfields & _).
  exists metadata. split; [exact Hrun|].
  split; [exact Hpresent|]. split; [exact Hcount|].
  split; [apply (Hfields "MakerNote Quality" _ eq_refl)|].
  apply (Hfields "Image Make" _ eq_refl).
Defined.

(** A tag name holds "MakerNote" in any case: in capital letters, and
    also with the Kelvin sign for its "k". *)
Example is_makernote_examples :
  is_makernote "MakerNote Quality" = true
  /\ is_makernote "EXIF MAKERNOTE" = true
  /\ is_makernote ("MA" ++ Scenario.kelvin_sign ++ "ERNOTE") = true
  /\ is_makernote "Image Make" = false.
Proof. repeat split; vm_compute; reflexivity. Qed.

(** ** The two passes that open the image *)

Section ImagePasses.

Import Spec.

Variable w : World.
Variable image_path : pypath.

(** The technical pass on an image that opens.  The format, the mode,
    the size and the two dimensions are always there.  When the ratio
    of width to height cannot be computed, as for a height of zero, the
    record stops there; otherwise the ratio follows with four decimals,
    then the bands and their number, then the bit depth for the modes
    L, P, I, F, RGB and RGBA and for no other. *)
Theorem image_technical_specs_cases (img : PilImage) :
  pil_open w image_path = Ok img ->
  let head := [("Technical_Format", img_format img);
               ("Technical_Mode", VStr (img_mode img));
               ("Technical_Size", VStr (size_text img));
               ("Technical_Width", VInt (img_width img));
               ("Technical_Height", VInt (img_height img))] in
  exists metadata,
    _image_technical_specs w image_path = Ok metadata
    /\ (img_height img = 0%Z -> metadata = head)
    /\ (forall e, Flt.div_int (img_width img) (img_height img) = Raise e ->
                  metadata = head)
    /\ (forall ratio,
           Flt.div_int (img_width img) (img_height img) = Ok ratio ->
           metadata
           = (head
                ++ [("Technical_Aspect_Ratio", VStr (Flt.fixed 4 ratio));
                    ("Technical_Color_Bands", VStr (img_bands_text img));
                    ("Technical_Channels", VInt (img_bands_count img))]
                ++ match bit_depth (img_mode img) with
                   | Some depth => [("Technical_Bit_Depth", VStr depth)]
                   | None => []
                   end)%list).
Proof.
  intros Hopen head. subst head.
  unfold _image_technical_specs, returned, returned_from, try_except, bind,
    call, store, ret.
  rewrite Hopen. cbv beta iota.
  destruct (Flt.div_int (img_width img) (img_height img)) as [ratio|e] eqn:Hr.
  - unfold bit_depth.
    destruct (Text.mem (img_mode img) ["L"; "P"]);
      [|destruct (Text.mem (img_mode img) ["I"; "F"]);
        [|destruct (String.eqb (img_mode img) "RGB");
          [|destruct (String.eqb (img_mode img) "RGBA")]]];
      (eexists; split; [reflexivity|]);
      (split; [intros Hz; unfold Flt.div_int in Hr; rewrite Hz in Hr;
               discriminate Hr|]);
      (split; [intros e [=]|]);
      intros ratio' [= <-]; reflexivity.
  - eexists. split; [reflexivity|].
    split; [reflexivity|]. split; [reflexivity|]. intros ratio [=].
Qed.

(** The colour pass on an image that opens.  Without an embedded
    profile the record is the flag NO alone.  With one, the flag YES
    and the size of the profile are there whatever happens afterwards:
    a profile that cannot be parsed adds the error field and nothing
    else, and a profile whose four texts can be read adds them and no
    error field. *)
Theorem color_analysis_cases (img : PilImage) :
  pil_open w image_path = Ok img ->
  exists metadata,
    _color_analysis w image_path = Ok metadata
    /\ (get (img_info img) "icc_profile" = None ->
        metadata = [("Color_ICC_Present", VStr "NO")])
    /\ (forall icc_data size,
           get (img_info img) "icc_profile" = Some icc_data ->
           info_len icc_data = Ok size ->
           let head := [("Color_ICC_Present", VStr "YES");
                        ("Color_ICC_Size_Bytes", VInt size)] in
           (forall k v, In (k, v) head -> get metadata k = Some v)
           /\ (forall e, info_profile icc_data = Raise e ->
                         metadata
                         = (head ++ [("Color_ICC_Error",
                                      VStr ("Profile parsing: " ++ e))])%list)
           /\ (forall profile description manufacturer model copyright,
                  info_profile icc_data = Ok profile ->
                  icc_description profile = Ok description ->
                  icc_manufacturer profile = Ok manufacturer ->
                  icc_model profile = Ok model ->
                  icc_copyright profile = Ok copyright ->
                  metadata
                  = (head
                       ++ [("Color_ICC_Description", VStr description);
                           ("Color_ICC_Manufacturer", VStr manufacturer);
                           ("Color_ICC_Model", VStr model);
                           ("Color_ICC_Copyright", VStr copyright)])%list)).
Proof.
  intros Hopen.
  unfold _color_analysis, returned, returned_from, try_except, bind, call,
    store, ret.
  rewrite Hopen. cbv beta iota.
  destruct (get (img_info img) "icc_profile") as [icc|];
    [|eexists; split; [reflexivity|]; split; [reflexivity|];
      intros icc_data size [=]].
  destruct (info_len icc) as [size|e0] eqn:Hlen.
  2:{ eexists. split; [reflexivity|]. split; [intros [=]|].
      intros icc_data size [= <-] H. rewrite Hlen in H. discriminate H. }
  destruct (info_profile icc) as [profile|e1] eqn:Hp.
  2:{ eexists. split; [reflexivity|]. split; [intros [=]|].
      intros icc_data size' [= <-] Hl. rewrite Hlen in Hl.
      injection Hl as <-. cbv zeta. split; [|split].
      - intros k v Hin. simpl in Hin.
        repeat (destruct Hin as [[= <- <-]|Hin]; [reflexivity|]).
        contradiction.
      - intros e. rewrite Hp. intros [= <-]. reflexivity.
      - intros profile d m mo c H. rewrite Hp in H. discriminate H. }
  destruct (icc_description profile) as [description|e2] eqn:Hd;
    [destruct (icc_manufacturer profile) as [manufacturer|e3] eqn:Hm;
     [destruct (icc_model profile) as [model|e4] eqn:Hmo;
      [destruct (icc_copyright profile) as [copyright|e5] eqn:Hc|]|]|];
    (eexists; split; [reflexivity|]; split; [intros [=]|]);
    intros icc_data size' [= <-] Hl; rewrite Hlen in Hl;
    injection Hl as <-; cbv zeta;
    (split; [intros k v Hin; simpl in Hin;
             repeat (destruct Hin as [[= <- <-]|Hin]; [reflexivity|]);
             contradiction|]);
    (split; [intros e H; rewrite Hp in H; discriminate H|]);
    intros profile' d m mo c H; rewrite Hp in H; injection H as <-;
    intros H1 H2 H3 H4; cbn [app]; try congruence.
  rewrite Hd in H1. rewrite Hm in H2. rewrite Hmo in H3. rewrite Hc in H4.
  injection H1 as <-. injection H2 as <-. injection H3 as <-.
  injection H4 as <-. reflexivity.
Qed.

End ImagePasses.

Lemma image_technical_specs_cases_witness :
  exists metadata,
    _image_technical_specs Scenario.photo_viewer (PathStr "picture.png")
    = Ok metadata
    /\ get metadata "Technical_Aspect_Ratio" = Some (VStr "1.3333")
    /\ get metadata "Technical_Bit_Depth" = Some (VStr "24").
Proof.
  destruct (image_technical_specs_cases Scenario.photo_viewer
              (PathStr "picture.png") Scenario.png_image eq_refl)
    as (metadata & Hrun & _ & _ & Hratio).
  exists metadata. split; [exact Hrun|].
  rewrite (Hratio (640 / 480)%float) by (vm_compute; reflexivity).
  split; vm_compute; reflexivity.
Defined.

(** An image without a profile, one with a profile that parses and one
    with a profile that does not. *)
Lemma color_analysis_cases_witness :
  _color_analysis Scenario.photo_viewer (PathStr "picture.png")
  = Ok [("Color_ICC_Present", VStr "NO")]
  /\ _color_analysis (Scenario.showing (Scenario.with_profile (Ok Scenario.srgb)))
                     (PathStr "picture.png")
     = Ok [("Color_ICC_Present", VStr "YES");
           ("Color_ICC_Size_Bytes", VInt 3144);
           ("Color_ICC_Description", VStr "sRGB IEC61966-2.1");
           ("Color_ICC_Manufacturer", VStr "IEC http://www.iec.ch");
           ("Color_ICC_Model",
            VStr "IEC 61966-2.1 Default RGB colour space - sRGB");
           ("Color_ICC_Copyright",
            VStr "Copyright (c) 1998 Hewlett-Packard Company")]
  /\ _color_analysis
       (Scenario.showing
          (Scenario.with_profile (Raise "cannot open profile from string")))
       (PathStr "picture.png")
     = Ok [("Color_ICC_Present", VStr "YES");
           ("Color_ICC_Size_Bytes", VInt 3144);
           ("Color_ICC_Error",
            VStr "Profile parsing: cannot open profile from string")].
Proof.
  split; [|split].
  - destruct (color_analysis_cases Scenario.photo_viewer
                (PathStr "picture.png") Scenario.png_image eq_refl)
      as (metadata & Hrun & Hnone & _).
    rewrite Hrun, (Hnone eq_refl). reflexivity.
  - destruct (color_analysis_cases
                (Scenario.showing (Scenario.with_profile (Ok Scenario.srgb)))
                (PathStr "picture.png")
                (Scenario.with_profile (Ok Scenario.srgb)) eq_refl)
      as (metadata & Hrun & _ & Hsome).
    destruct (Hsome _ 3144%Z eq_refl eq_refl) as (_ & _ & Hparsed).
    rewrite Hrun, (Hparsed Scenario.srgb _ _ _ _ eq_refl eq_refl eq_refl
                           eq_refl eq_refl).
    reflexivity.
  - destruct (color_analysis_cases
                (Scenario.showing
                   (Scenario.with_profile
                      (Raise "cannot open profile from string")))
                (PathStr "picture.png")
                (Scenario.with_profile
                   (Raise "cannot open profile from string")) eq_refl)
      as (metadata & Hrun & _ & Hsome).
    destruct (Hsome _ 3144%Z eq_refl eq_refl) as (_ & Hbroken & _).
    rewrite Hrun, (Hbroken _ eq_refl). reflexivity.
Defined.
